(** * nick QMS routes: drafts, register, training and knowledge base

    A shallow embedding of the route handlers of the repository
    (routes/docs/drafts, routes/docs/docs, routes/qms/qms,
    routes/qms/training, routes/qms/evidence).  Every handler is a
    function from a request and the database seen by its transaction to
    the response it returns and the database as the transaction has
    written it when the handler returns.  SQL statements are given their
    list semantics on typed rows: SELECT is [filter], UPDATE is [map],
    DELETE is [filter], INSERT appends.  Triggers and constraints of the
    schema other than the conflict targets named by the statements
    themselves are not part of the sources and are not modelled. *)

From Stdlib Require Import String Ascii List ZArith Bool Lia DecimalString DecimalPos.
Import ListNotations.
Local Open Scope Z_scope.
Local Open Scope string_scope.

(** ** JavaScript values *)

(** A parsed JSON value; [undefined] is the absence of a value
    ([option Json]). *)
#[warnings="-register-all"]
Inductive Json : Type :=
| JNull
| JBool (b : bool)
| JNum (n : Z)
| JStr (s : string)
| JArr (items : list Json)
| JObj (members : list (string * Json)).

Definition string_of_Z (n : Z) : string :=
  NilZero.string_of_int (Z.to_int n).

Fixpoint join (sep : string) (l : list string) : string :=
  match l with
  | [] => ""
  | [x] => x
  | x :: rest => x ++ sep ++ join sep rest
  end.

(** Truthiness of a value, as tested by [if (v)], [!v] and [v || d]. *)
Definition truthy (v : Json) : bool :=
  match v with
  | JNull => false
  | JBool b => b
  | JNum n => negb (n =? 0)%Z
  | JStr s => negb (s =? "")
  | JArr _ | JObj _ => true
  end.

Definition truthy_opt (v : option Json) : bool :=
  match v with Some v => truthy v | None => false end.

(** [s] as a condition, for a string that may be undefined or null. *)
Definition truthy_str (s : option string) : bool :=
  match s with Some s => negb (s =? "") | None => false end.

(** [s || d] on strings. *)
Definition or_str (s : option string) (d : string) : string :=
  match s with
  | Some s => if s =? "" then d else s
  | None => d
  end.

(** [a || b] where both may be null. *)
Definition or_opt_str (a b : option string) : option string :=
  if truthy_str a then a else b.

(** [v || d] on values. *)
Definition or_json (v : option Json) (d : Json) : Json :=
  match v with
  | Some v => if truthy v then v else d
  | None => d
  end.

(** Property lookup in an object literal: the last member of a name wins,
    as in [JSON.parse]. *)
Fixpoint lookup (k : string) (l : list (string * Json)) : option Json :=
  match l with
  | [] => None
  | (k', v) :: rest =>
      match lookup k rest with
      | Some v' => Some v'
      | None => if k =? k' then Some v else None
      end
  end.

(** [o.k] for a value [o] known to be truthy: primitives have no own
    members. *)
Definition member (o : Json) (k : string) : option Json :=
  match o with
  | JObj l => lookup k l
  | _ => None
  end.

(** [o?.k]. *)
Definition member_opt (o : option Json) (k : string) : option Json :=
  match o with
  | Some JNull | None => None
  | Some o => member o k
  end.

(** The string a template literal interpolates for a value. *)
Fixpoint to_string (v : Json) : string :=
  match v with
  | JNull => "null"
  | JBool true => "true"
  | JBool false => "false"
  | JNum n => string_of_Z n
  | JStr s => s
  | JArr l =>
      join "," (map (fun x => match x with JNull => "" | _ => to_string x end) l)
  | JObj _ => "[object Object]"
  end.

(** A nullable text column read into JavaScript. *)
Definition json_of_text (s : option string) : Json :=
  match s with Some s => JStr s | None => JNull end.

(** A nullable jsonb column read into JavaScript: SQL NULL and the jsonb
    null both arrive as [null]. *)
Definition json_of_jsonb (v : option Json) : Json :=
  match v with Some v => v | None => JNull end.

Definition is_unreserved (c : ascii) : bool :=
  let n := nat_of_ascii c in
  ((65 <=? n) && (n <=? 90) || (97 <=? n) && (n <=? 122)
   || (48 <=? n) && (n <=? 57))%nat
  || existsb (Ascii.eqb c) (list_ascii_of_string "-_.!~*'()").

Definition hex_digit (n : nat) : ascii :=
  nth n (list_ascii_of_string "0123456789ABCDEF") "0"%char.

(** [encodeURIComponent] on a string held as its UTF-8 bytes. *)
Fixpoint encodeURIComponent (s : string) : string :=
  match s with
  | EmptyString => EmptyString
  | String c rest =>
      if is_unreserved c then String c (encodeURIComponent rest)
      else
        let n := nat_of_ascii c in
        String "%" (String (hex_digit (n / 16)) (String (hex_digit (n mod 16))
          (encodeURIComponent rest)))
  end.

(** [toUpperCase] on the ASCII letters of a string. *)
Definition upper_ascii (c : ascii) : ascii :=
  let n := nat_of_ascii c in
  if ((97 <=? n) && (n <=? 122))%nat then ascii_of_nat (n - 32) else c.

Fixpoint toUpperCase (s : string) : string :=
  match s with
  | EmptyString => EmptyString
  | String c rest => String (upper_ascii c) (toUpperCase rest)
  end.

(** A string between double quotes. *)
Definition quoted (s : string) : string :=
  String (ascii_of_nat 34) s ++ String (ascii_of_nat 34) EmptyString.

(** ** Responses *)

(** What a handler returns: [{ status, json }], where a missing [status]
    lets the framework answer 200. *)
Record Response : Type := { status : option Z; json : Json }.

Definition error_json (msg : string) : Json := JObj [("error", JStr msg)].

Definition error (code : Z) (msg : string) : Response :=
  {| status := Some code; json := error_json msg |}.

Definition ok (body : list (string * Json)) : Response :=
  {| status := None; json := JObj body |}.

Definition created (body : list (string * Json)) : Response :=
  {| status := Some 201; json := JObj body |}.

(** The status line the client sees. *)
Definition status_code (r : Response) : Z :=
  match status r with Some c => c | None => 200 end.

Definition is_error (r : Response) : bool := (400 <=? status_code r)%Z.

(** ** Tables *)

(** Rows carry the columns the handlers read or write.  Serial keys and
    timestamps are integers; nullable columns are options. *)

Module Docs.
(** i18n.docs *)
Record t : Type := {
  id : Z;
  slug : string;
  file_path : option string;
  title : option string;
  body_md : option string;
  version : option string;
  frontmatter : option Json;
  author : option string;
  is_edited : bool;
  edited_by : option string;
  updated_at : Z
}.
End Docs.

Module DocDrafts.
(** i18n.doc_drafts *)
Record t : Type := {
  id : Z;
  doc_id : Z;
  version : string;
  title : option string;
  body_md : option string;
  frontmatter : option Json;
  status : string;
  created_by : string;
  updated_by : string;
  created_at : Z;
  updated_at : Z;
  reviewer_notes : option string
}.
End DocDrafts.

Module DocVersions.
(** i18n.doc_versions.  [content_hash] holds the text whose SHA-256
    digest the column stores, so that the digest itself need not be
    computed. *)
Record t : Type := {
  id : Z;
  doc_id : Z;
  version : string;
  title : option string;
  body_md : option string;
  frontmatter : option Json;
  author : option string;
  published_by : string;
  published_at : Z;
  content_hash : option string;
  superseded_at : option Z;
  superseded_by : option string;
  changes : option string
}.
End DocVersions.

Module ControlledDocuments.
(** qms.controlled_documents *)
Record t : Type := {
  id : Z;
  document_id : string;
  title : option string;
  document_type : option string;
  domain_code : option string;
  version : option string;
  status : option string;
  classification : option string;
  effective_date : option string;
  next_review_date : option string;
  owner : option string;
  author : option string;
  reviewer : option string;
  approver : option string;
  implements : option string;
  retention_years : option Z;
  retention_basis : option string;
  location : option string;
  docs_id : option Z;
  body_md : option string;
  notes : option string;
  updated_at : Z
}.
End ControlledDocuments.

Module DocumentTransitions.
(** qms.document_transitions *)
Record t : Type := {
  id : Z;
  document_id : string;
  action : string;
  from_status : option string;
  to_status : option string;
  from_version : option string;
  to_version : option string;
  performed_by : string;
  comment : option string;
  evidence_ref : option string;
  performed_at : Z
}.
End DocumentTransitions.

Module DocumentEvidence.
(** qms.document_evidence *)
Record t : Type := {
  id : Z;
  document_id : string;
  transition_id : option Z;
  evidence_type : string;
  evidence_data : Json;
  evidence_text : option string;
  recorded_by : string;
  recorded_at : Z;
  is_superseded : bool
}.
End DocumentEvidence.

Module RefEvidenceTypes.
(** qms.ref_evidence_types *)
Record t : Type := {
  code : string;
  label : string;
  required : bool;
  phase : Z
}.
End RefEvidenceTypes.

Module TrainingModules.
(** One element of the [steps] array of a module. *)
Record step_def : Type := {
  step : Z;
  key : string;
  validation : string
}.

(** qms.training_modules *)
Record t : Type := {
  id : Z;
  module_code : string;
  title : string;
  sop_reference : option string;
  steps : list step_def;
  grants_roles : option (list string);
  active : bool
}.
End TrainingModules.

Module TrainingSessions.
(** qms.training_sessions *)
Record t : Type := {
  id : Z;
  user_id : string;
  module_id : Z;
  training_doc_id : option string;
  current_step : Z;
  status : string;
  started_at : Z;
  completed_at : option Z;
  certificate_id : option Z
}.
End TrainingSessions.

Module TrainingStepCompletions.
(** qms.training_step_completions *)
Record t : Type := {
  session_id : Z;
  step_number : Z;
  step_key : string;
  validated_by : string;
  validation_data : Json
}.
End TrainingStepCompletions.

Module TrainingCertificates.
(** qms.training_certificates *)
Record t : Type := {
  certificate_id : Z;
  session_id : Z;
  user_id : string;
  user_fullname : string;
  module_code : string;
  module_title : string;
  qualified_for : option (list string);
  issued_at : Z
}.
End TrainingCertificates.

Module UserRoles.
(** qms.user_roles *)
Record t : Type := {
  user_id : string;
  role_code : string;
  granted_by : string;
  active : bool;
  granted_at : Z
}.
End UserRoles.

Module Users.
(** The framework's "user" table. *)
Record t : Type := {
  id : string;
  fullname : string
}.
End Users.

(** Column defaults and row triggers that the statements rely on and
    whose DDL is not part of the sources. *)
Record Schema : Type := {
  (** DEFAULT of i18n.doc_drafts.status *)
  draft_status_default : string;
  (** whether a trigger refreshes i18n.doc_drafts.updated_at on UPDATE *)
  draft_touch_on_update : bool;
  (** DEFAULT of qms.document_evidence.is_superseded *)
  evidence_superseded_default : bool;
  (** DEFAULT of qms.user_roles.active *)
  role_active_default : bool
}.

(** The database as one transaction sees it.  [next_id] is the sequence
    that serial keys and generated identifiers are drawn from; [now] and
    [current_date] are the transaction's clock. *)
Record DB : Type := {
  docs : list Docs.t;
  doc_drafts : list DocDrafts.t;
  doc_versions : list DocVersions.t;
  controlled_documents : list ControlledDocuments.t;
  document_transitions : list DocumentTransitions.t;
  document_evidence : list DocumentEvidence.t;
  ref_evidence_types : list RefEvidenceTypes.t;
  training_modules : list TrainingModules.t;
  training_sessions : list TrainingSessions.t;
  training_step_completions : list TrainingStepCompletions.t;
  training_certificates : list TrainingCertificates.t;
  user_roles : list UserRoles.t;
  users : list Users.t;
  next_id : Z;
  now : Z;
  current_date : string
}.

Definition with_docs (l : list Docs.t) (db : DB) : DB :=
  let '(Build_DB _ b c d e f g h i j k m n o p q) := db in
  Build_DB l b c d e f g h i j k m n o p q.

Definition with_doc_drafts (l : list DocDrafts.t) (db : DB) : DB :=
  let '(Build_DB a _ c d e f g h i j k m n o p q) := db in
  Build_DB a l c d e f g h i j k m n o p q.

Definition with_doc_versions (l : list DocVersions.t) (db : DB) : DB :=
  let '(Build_DB a b _ d e f g h i j k m n o p q) := db in
  Build_DB a b l d e f g h i j k m n o p q.

Definition with_controlled_documents (l : list ControlledDocuments.t) (db : DB) : DB :=
  let '(Build_DB a b c _ e f g h i j k m n o p q) := db in
  Build_DB a b c l e f g h i j k m n o p q.

Definition with_document_transitions (l : list DocumentTransitions.t) (db : DB) : DB :=
  let '(Build_DB a b c d _ f g h i j k m n o p q) := db in
  Build_DB a b c d l f g h i j k m n o p q.

Definition with_document_evidence (l : list DocumentEvidence.t) (db : DB) : DB :=
  let '(Build_DB a b c d e _ g h i j k m n o p q) := db in
  Build_DB a b c d e l g h i j k m n o p q.

Definition with_training_sessions (l : list TrainingSessions.t) (db : DB) : DB :=
  let '(Build_DB a b c d e f g h _ j k m n o p q) := db in
  Build_DB a b c d e f g h l j k m n o p q.

Definition with_training_step_completions (l : list TrainingStepCompletions.t) (db : DB) : DB :=
  let '(Build_DB a b c d e f g h i _ k m n o p q) := db in
  Build_DB a b c d e f g h i l k m n o p q.

Definition with_training_certificates (l : list TrainingCertificates.t) (db : DB) : DB :=
  let '(Build_DB a b c d e f g h i j _ m n o p q) := db in
  Build_DB a b c d e f g h i j l m n o p q.

Definition with_user_roles (l : list UserRoles.t) (db : DB) : DB :=
  let '(Build_DB a b c d e f g h i j k _ n o p q) := db in
  Build_DB a b c d e f g h i j k l n o p q.

Definition with_next_id (z : Z) (db : DB) : DB :=
  let '(Build_DB a b c d e f g h i j k m n _ p q) := db in
  Build_DB a b c d e f g h i j k m n z p q.

(** Draw the next value of the sequence. *)
Definition fresh (db : DB) : Z * DB := (next_id db, with_next_id (next_id db + 1) db).

(** What a handler does: it returns a response, leaving the transaction
    in some state, or it throws. *)
Inductive Result : Type :=
| Returned (r : Response) (db : DB)
| Threw (message : string).

(** ** Requests *)

Module DraftRequest.
(** What the handlers of routes/docs/drafts read from [req]: [slug]
    from the query (GET, DELETE) or the body, the other members from
    the body, [user] for [req.user?.id], [root_url] for
    [getRootUrl(req)].  A member that is [None] is undefined. *)
Record t : Type := {
  slug : option string;
  user : option string;
  version : option string;
  title : option (option string);
  body_md : option (option string);
  frontmatter : option Json;
  justification : option Json;
  coi_declaration : option Json;
  qualification : option Json;
  comment : option string;
  checklist : option Json;
  approval_justification : option Json;
  change_classification : option Json;
  notes : option string;
  rejection : option Json;
  root_url : string
}.
End DraftRequest.

(** A member of a request body that may be undefined ([None]), null
    ([Some None]) or a value. *)
Definition field (A : Type) : Type := option (option A).

Module QmsRequest.
(** What the write handlers of the register read from [req]:
    [param_document_id] is [req.params.document_id], the others are
    members of the body. *)
Record t : Type := {
  param_document_id : string;
  user : option string;
  root_url : string;
  document_id : option string;
  title : field string;
  document_type : field string;
  domain_code : field string;
  version : field string;
  status : field string;
  classification : field string;
  effective_date : field string;
  next_review_date : field string;
  owner : field string;
  author : field string;
  reviewer : field string;
  approver : field string;
  implements : field string;
  retention_years : field Z;
  retention_basis : field string;
  location : field string;
  docs_id : field Z;
  body_md : field string;
  notes : field string;
  action : option string;
  to_status : option string;
  to_version : option string;
  comment : option string;
  evidence_ref : option string
}.
End QmsRequest.

Module TrainingRequest.
(** What the handlers of routes/qms/training read from [req]:
    [session_id], [step_number] and [module_code] from the body (or the
    query for GET), [js_date] for [new Date().toISOString().slice(0, 10)]
    on the server.  [step_number] is a number or undefined, the ids are
    integers. *)
Record t : Type := {
  user : option string;
  root_url : string;
  js_date : string;
  session_id : option Z;
  step_number : option Z;
  module_code : option string;
  certificate_id : option Z
}.
End TrainingRequest.

Module DocsRequest.
(** What POST /@docs/save reads from [req]: the members of the body and
    [req.user.id]. *)
Record t : Type := {
  user : string;
  root_url : string;
  doc_id : option Z;
  body_md : option string;
  version_bump : option string;
  change_summary : option string
}.
End DocsRequest.

Module EvidenceRequest.
(** What POST /@qms/evidence reads from the body. *)
Record t : Type := {
  user : option string;
  root_url : string;
  document_id : option string;
  transition_id : option Z;
  evidence_type : option string;
  evidence_data : option Json;
  evidence_text : option string
}.
End EvidenceRequest.

Module LinkRequest.
(** What POST /@docs/links reads from the body. *)
Record t : Type := {
  user : option string;
  root_url : string;
  source_doc_id : option string;
  target_doc_id : option string;
  relationship_type : option string;
  notes : option string
}.
End LinkRequest.

(** ** Helpers on rows *)

Definition opt_Z_eqb (a : option Z) (b : Z) : bool :=
  match a with Some a => (a =? b)%Z | None => false end.

Definition opt_str_eqb (a : option string) (b : string) : bool :=
  match a with Some a => (a =? b) | None => false end.

(** SQL [COALESCE(p, old)]. *)
Definition coalesce {A : Type} (p old : option A) : option A :=
  match p with Some _ => p | None => old end.

Definition draft_json (dr : DocDrafts.t) : list (string * Json) :=
  [ ("id", JNum (DocDrafts.id dr));
    ("doc_id", JNum (DocDrafts.doc_id dr));
    ("version", JStr (DocDrafts.version dr));
    ("title", json_of_text (DocDrafts.title dr));
    ("body_md", json_of_text (DocDrafts.body_md dr));
    ("frontmatter", json_of_jsonb (DocDrafts.frontmatter dr));
    ("status", JStr (DocDrafts.status dr));
    ("created_by", JStr (DocDrafts.created_by dr));
    ("updated_by", JStr (DocDrafts.updated_by dr));
    ("created_at", JNum (DocDrafts.created_at dr));
    ("updated_at", JNum (DocDrafts.updated_at dr));
    ("reviewer_notes", json_of_text (DocDrafts.reviewer_notes dr)) ].

Definition draft_url (req : DraftRequest.t) (slug : string) : Json :=
  JStr (DraftRequest.root_url req ++ "/@docs/draft?slug=" ++ encodeURIComponent slug).

(** [SELECT ... FROM i18n.docs WHERE slug = ?] *)
Definition docs_by_slug (db : DB) (slug : string) : list Docs.t :=
  filter (fun d => Docs.slug d =? slug) (docs db).

(** [FROM i18n.doc_drafts dr JOIN i18n.docs d ON d.id = dr.doc_id
     WHERE d.slug = ?] *)
Definition drafts_by_slug (db : DB) (slug : string) : list (DocDrafts.t * Docs.t) :=
  flat_map
    (fun dr =>
       map (pair dr)
         (filter (fun d => (Docs.id d =? DocDrafts.doc_id dr)%Z && (Docs.slug d =? slug))
            (docs db)))
    (doc_drafts db).

(** The scalar subquery [(SELECT id FROM i18n.docs WHERE slug = ?)]:
    NULL when no document has the slug, its id when one has, and an error
    of the database when several have. *)
Inductive Scalar : Type :=
| ScalarNull
| ScalarValue (v : Z)
| ScalarError.

Definition doc_id_of_slug (db : DB) (slug : string) : Scalar :=
  match docs_by_slug db slug with
  | [] => ScalarNull
  | [d] => ScalarValue (Docs.id d)
  | _ => ScalarError
  end.

Definition subquery_error : string :=
  "more than one row returned by a subquery used as an expression".

(** [WHERE doc_id = <scalar>]; a comparison with NULL selects nothing. *)
Definition doc_id_is (target : Scalar) (dr : DocDrafts.t) : bool :=
  match target with
  | ScalarValue v => (DocDrafts.doc_id dr =? v)%Z
  | _ => false
  end.

(** [getQmsDocumentId]: the register's document_id of a knowledge-base
    document, or null. *)
Definition getQmsDocumentId (db : DB) (docsId : Z) : option string :=
  match filter (fun cd => opt_Z_eqb (ControlledDocuments.docs_id cd) docsId)
               (controlled_documents db) with
  | cd :: _ => Some (ControlledDocuments.document_id cd)
  | [] => None
  end.

(** [transitionId || null] *)
Definition or_null_id (i : option Z) : option Z :=
  match i with Some 0%Z | None => None | Some i => Some i end.

(** [evidenceText || null] *)
Definition or_null_str (s : option string) : option string :=
  if truthy_str s then s else None.

Section Routes.

Variable schema : Schema.

(** [insertEvidence]: one INSERT into qms.document_evidence.  The callers
    discard the row it returns. *)
Definition insertEvidence (db : DB) (documentId : string) (transitionId : option Z)
    (evidenceType : string) (evidenceData : Json) (evidenceText : option string)
    (recordedBy : string) : DB :=
  let (i, db1) := fresh db in
  with_document_evidence
    (document_evidence db1 ++
     [ {| DocumentEvidence.id := i;
          DocumentEvidence.document_id := documentId;
          DocumentEvidence.transition_id := or_null_id transitionId;
          DocumentEvidence.evidence_type := evidenceType;
          DocumentEvidence.evidence_data := evidenceData;
          DocumentEvidence.evidence_text := or_null_str evidenceText;
          DocumentEvidence.recorded_by := recordedBy;
          DocumentEvidence.recorded_at := now db1;
          DocumentEvidence.is_superseded := evidence_superseded_default schema |} ])
    db1.

(** *** GET /@docs/draft *)
Definition getDocDraft (req : DraftRequest.t) (db : DB) : Result :=
  match DraftRequest.slug req with
  | Some slug =>
      if slug =? "" then Returned (error 400 "Document slug required") db
      else
        match drafts_by_slug db slug with
        | [] => Returned (error 404 "No draft found for this document") db
        | (dr, d) :: _ =>
            Returned
              (ok (("@id", draft_url req slug) :: draft_json dr ++
                   [ ("slug", JStr (Docs.slug d));
                     ("effective_title", json_of_text (Docs.title d));
                     ("effective_version", json_of_text (Docs.version d)) ]))
              db
        end
  | None => Returned (error 400 "Document slug required") db
  end.

(** The row the upsert of PUT /@docs/draft leaves where one conflicts on
    doc_id. *)
Definition upsert_update (db : DB) (version : string) (title body_md : option string)
    (frontmatter : option Json) (userId : string) (old : DocDrafts.t) : DocDrafts.t :=
  let rejected := DocDrafts.status old =? "rejected" in
  {| DocDrafts.id := DocDrafts.id old;
     DocDrafts.doc_id := DocDrafts.doc_id old;
     DocDrafts.version := version;
     DocDrafts.title := title;
     DocDrafts.body_md := body_md;
     DocDrafts.frontmatter := frontmatter;
     DocDrafts.status := if rejected then "draft" else DocDrafts.status old;
     DocDrafts.created_by := DocDrafts.created_by old;
     DocDrafts.updated_by := userId;
     DocDrafts.created_at := DocDrafts.created_at old;
     DocDrafts.updated_at :=
       if draft_touch_on_update schema then now db else DocDrafts.updated_at old;
     DocDrafts.reviewer_notes :=
       if rejected then None else DocDrafts.reviewer_notes old |}.

(** [INSERT INTO i18n.doc_drafts ... ON CONFLICT (doc_id) DO UPDATE ...
     RETURNING ...]: the rows returned and the database afterwards. *)
Definition upsert_draft (db : DB) (docId : Z) (version : string)
    (title body_md : option string) (frontmatter : option Json) (userId : string)
    : list DocDrafts.t * DB :=
  let conflicts dr := (DocDrafts.doc_id dr =? docId)%Z in
  if existsb conflicts (doc_drafts db) then
    let upd := upsert_update db version title body_md frontmatter userId in
    (map upd (filter conflicts (doc_drafts db)),
     with_doc_drafts
       (map (fun dr => if conflicts dr then upd dr else dr) (doc_drafts db)) db)
  else
    let (i, db1) := fresh db in
    let row :=
      {| DocDrafts.id := i;
         DocDrafts.doc_id := docId;
         DocDrafts.version := version;
         DocDrafts.title := title;
         DocDrafts.body_md := body_md;
         DocDrafts.frontmatter := frontmatter;
         DocDrafts.status := draft_status_default schema;
         DocDrafts.created_by := userId;
         DocDrafts.updated_by := userId;
         DocDrafts.created_at := now db1;
         DocDrafts.updated_at := now db1;
         DocDrafts.reviewer_notes := None |} in
    ([row], with_doc_drafts (doc_drafts db1 ++ [row]) db1).

(** [x !== undefined ? x : fallback] on a nullable text member. *)
Definition given_or {A : Type} (x : option A) (fallback : A) : A :=
  match x with Some x => x | None => fallback end.

(** *** PUT /@docs/draft *)
Definition putDocDraft (req : DraftRequest.t) (db : DB) : Result :=
  let userId := or_str (DraftRequest.user req) "unknown" in
  if negb (truthy_str (DraftRequest.slug req)) then
    Returned (error 400 "Document slug required") db
  else
    let slug := or_str (DraftRequest.slug req) "" in
    match docs_by_slug db slug with
    | [] => Returned (error 404 "Document not found") db
    | doc :: _ =>
        if negb (truthy_str (DraftRequest.version req)) then
          Returned (error 400 "Version is required for a draft") db
        else
          let version := or_str (DraftRequest.version req) "" in
          let (rows, db1) :=
            upsert_draft db (Docs.id doc) version
              (given_or (DraftRequest.title req) (Docs.title doc))
              (given_or (DraftRequest.body_md req) (Docs.body_md doc))
              (Some (given_or (DraftRequest.frontmatter req)
                       (json_of_jsonb (Docs.frontmatter doc))))
              userId in
          match rows with
          | [] => Threw "Cannot read properties of undefined"
          | draft :: _ =>
              let isNew := (DocDrafts.created_at draft =? DocDrafts.updated_at draft)%Z in
              let db2 :=
                match DraftRequest.justification req with
                | Some j =>
                    if isNew && truthy j then
                      match getQmsDocumentId db1 (Docs.id doc) with
                      | Some qmsDocId =>
                          if qmsDocId =? "" then db1
                          else
                            insertEvidence db1 qmsDocId None "justification"
                              (JObj
                                 [ ("what", or_json (member j "what") (JStr ""));
                                   ("why", or_json (member j "why") (JStr ""));
                                   ("scope", or_json (member j "scope") (JStr ""));
                                   ("classification_estimate",
                                    or_json (member j "classification_estimate") (JStr ""));
                                   ("trigger", or_json (member j "trigger") (JStr "manual")) ])
                              (Some ("Justification: " ++
                                     to_string (or_json (member j "why") (JStr "(not provided)"))))
                              userId
                      | None => db1
                      end
                    else db1
                | None => db1
                end in
              Returned
                {| status := Some (if isNew then 201 else 200);
                   json := JObj (("@id", draft_url req slug) :: draft_json draft) |}
                db2
          end
    end.

(** *** DELETE /@docs/draft *)
Definition deleteDocDraft (req : DraftRequest.t) (db : DB) : Result :=
  if negb (truthy_str (DraftRequest.slug req)) then
    Returned (error 400 "Document slug required") db
  else
    let slug := or_str (DraftRequest.slug req) "" in
    match doc_id_of_slug db slug with
    | ScalarError => Threw subquery_error
    | target =>
        let deleted := filter (doc_id_is target) (doc_drafts db) in
        let db1 :=
          with_doc_drafts (filter (fun dr => negb (doc_id_is target dr)) (doc_drafts db)) db in
        match deleted with
        | [] => Returned (error 404 "No draft found for this document") db1
        | _ :: _ =>
            Returned
              (ok [ ("@id", draft_url req slug);
                    ("message", JStr "Draft abandoned successfully") ])
              db1
        end
    end.

(** The evidence rows POST /@docs/draft/submit records for a registered
    document. *)
Definition submit_evidence (req : DraftRequest.t) (userId qmsDocId : string) (db : DB) : DB :=
  let db1 :=
    match DraftRequest.coi_declaration req with
    | Some coi =>
        if truthy coi then
          insertEvidence db qmsDocId None "coi_declaration"
            (JObj
               [ ("has_conflict", or_json (member coi "has_conflict") (JBool false));
                 ("declaration", or_json (member coi "declaration") (JStr ""));
                 ("micro_enterprise_provision",
                  or_json (member coi "micro_enterprise_provision") (JBool false));
                 ("same_author_reviewer",
                  or_json (member coi "same_author_reviewer") (JBool false));
                 ("mitigation", or_json (member coi "mitigation") (JStr "")) ])
            (Some (if truthy_opt (member coi "has_conflict")
                   then "COI declared: " ++
                        match member coi "declaration" with
                        | Some v => to_string v
                        | None => "undefined"
                        end
                   else "No conflicts of interest declared"))
            userId
        else db
    | None => db
    end in
  match DraftRequest.qualification req with
  | Some q =>
      if truthy q then
        insertEvidence db1 qmsDocId None "qualification"
          (JObj
             [ ("contributors",
                or_json (member q "contributors")
                  (JArr [ JObj [ ("user_id", JStr userId);
                                 ("role", JStr "reviewer");
                                 ("basis", or_json (member q "basis") (JStr "")) ] ])) ])
          (Some ("Qualification: " ++
                 to_string (or_json (member q "basis") (JStr "(see evidence_data)"))))
          userId
      else db1
  | None => db1
  end.

(** *** POST /@docs/draft/submit *)
Definition postDocDraftSubmit (req : DraftRequest.t) (db : DB) : Result :=
  let userId := or_str (DraftRequest.user req) "unknown" in
  if negb (truthy_str (DraftRequest.slug req)) then
    Returned (error 400 "Document slug required") db
  else
    let slug := or_str (DraftRequest.slug req) "" in
    match doc_id_of_slug db slug with
    | ScalarError => Threw subquery_error
    | target =>
        let hit dr :=
          doc_id_is target dr
          && ((DocDrafts.status dr =? "draft") || (DocDrafts.status dr =? "rejected")) in
        let upd dr :=
          {| DocDrafts.id := DocDrafts.id dr;
             DocDrafts.doc_id := DocDrafts.doc_id dr;
             DocDrafts.version := DocDrafts.version dr;
             DocDrafts.title := DocDrafts.title dr;
             DocDrafts.body_md := DocDrafts.body_md dr;
             DocDrafts.frontmatter := DocDrafts.frontmatter dr;
             DocDrafts.status := "in_review";
             DocDrafts.created_by := DocDrafts.created_by dr;
             DocDrafts.updated_by := userId;
             DocDrafts.created_at := DocDrafts.created_at dr;
             DocDrafts.updated_at :=
               if draft_touch_on_update schema then now db else DocDrafts.updated_at dr;
             DocDrafts.reviewer_notes := None |} in
        let db1 :=
          with_doc_drafts (map (fun dr => if hit dr then upd dr else dr) (doc_drafts db)) db in
        match map upd (filter hit (doc_drafts db)) with
        | [] =>
            match filter (doc_id_is target) (doc_drafts db1) with
            | dr :: _ =>
                Returned
                  (error 409 ("Cannot submit: draft is currently '" ++ DocDrafts.status dr ++ "'"))
                  db1
            | [] => Returned (error 404 "No draft found for this document") db1
            end
        | draftRow :: _ =>
            let db2 :=
              match getQmsDocumentId db1 (DocDrafts.doc_id draftRow) with
              | Some qmsDocId =>
                  if qmsDocId =? "" then db1 else submit_evidence req userId qmsDocId db1
              | None => db1
              end in
            Returned
              (ok (("@id", draft_url req slug) :: draft_json draftRow ++
                   [ ("message", JStr "Draft submitted for review") ]))
              db2
        end
    end.

(** *** POST /@docs/draft/reject *)
Definition postDocDraftReject (req : DraftRequest.t) (db : DB) : Result :=
  let userId := or_str (DraftRequest.user req) "unknown" in
  if negb (truthy_str (DraftRequest.slug req)) then
    Returned (error 400 "Document slug required") db
  else if negb (truthy_str (DraftRequest.notes req)) then
    Returned (error 400 "Reviewer notes are required when rejecting a draft") db
  else
    let slug := or_str (DraftRequest.slug req) "" in
    let notes := or_str (DraftRequest.notes req) "" in
    match doc_id_of_slug db slug with
    | ScalarError => Threw subquery_error
    | target =>
        let hit dr := doc_id_is target dr && (DocDrafts.status dr =? "in_review") in
        let upd dr :=
          {| DocDrafts.id := DocDrafts.id dr;
             DocDrafts.doc_id := DocDrafts.doc_id dr;
             DocDrafts.version := DocDrafts.version dr;
             DocDrafts.title := DocDrafts.title dr;
             DocDrafts.body_md := DocDrafts.body_md dr;
             DocDrafts.frontmatter := DocDrafts.frontmatter dr;
             DocDrafts.status := "rejected";
             DocDrafts.created_by := DocDrafts.created_by dr;
             DocDrafts.updated_by := userId;
             DocDrafts.created_at := DocDrafts.created_at dr;
             DocDrafts.updated_at :=
               if draft_touch_on_update schema then now db else DocDrafts.updated_at dr;
             DocDrafts.reviewer_notes := Some notes |} in
        let db1 :=
          with_doc_drafts (map (fun dr => if hit dr then upd dr else dr) (doc_drafts db)) db in
        match map upd (filter hit (doc_drafts db)) with
        | [] =>
            match filter (doc_id_is target) (doc_drafts db1) with
            | dr :: _ =>
                Returned
                  (error 409 ("Cannot reject: draft status is '" ++ DocDrafts.status dr
                              ++ "', expected 'in_review'"))
                  db1
            | [] => Returned (error 404 "No draft found for this document") db1
            end
        | draftRow :: _ =>
            let severity :=
              or_json (member_opt (DraftRequest.rejection req) "severity") (JStr "major") in
            let db2 :=
              match getQmsDocumentId db1 (DocDrafts.doc_id draftRow) with
              | Some qmsDocId =>
                  if qmsDocId =? "" then db1
                  else
                    insertEvidence db1 qmsDocId None "rejection_feedback"
                      (JObj
                         [ ("categories",
                            or_json (member_opt (DraftRequest.rejection req) "categories")
                              (JArr []));
                           ("feedback", JStr notes);
                           ("severity", severity);
                           ("action_required",
                            or_json (member_opt (DraftRequest.rejection req) "action_required")
                              (JStr "")) ])
                      (Some ("Rejected (" ++ to_string severity ++ "): " ++ notes))
                      userId
              | None => db1
              end in
            Returned
              (ok (("@id", draft_url req slug) :: draft_json draftRow ++
                   [ ("message", JStr "Draft rejected and returned to author") ]))
              db2
        end
    end.

(** [INSERT INTO i18n.doc_versions ... ON CONFLICT (doc_id, version)
     DO NOTHING]; the content hash is taken of the body when it is not
    NULL. *)
Definition insert_doc_version (db : DB) (docId : Z) (version : string)
    (title body_md : option string) (frontmatter : Json) (author : option string)
    (userId : string) : DB :=
  if existsb (fun v => (DocVersions.doc_id v =? docId)%Z && (DocVersions.version v =? version))
       (doc_versions db)
  then db
  else
    let (i, db1) := fresh db in
    with_doc_versions
      (doc_versions db1 ++
       [ {| DocVersions.id := i;
            DocVersions.doc_id := docId;
            DocVersions.version := version;
            DocVersions.title := title;
            DocVersions.body_md := body_md;
            DocVersions.frontmatter := Some frontmatter;
            DocVersions.author := author;
            DocVersions.published_by := userId;
            DocVersions.published_at := now db1;
            DocVersions.content_hash := body_md;
            DocVersions.superseded_at := None;
            DocVersions.superseded_by := None;
            DocVersions.changes := None |} ])
      db1.

(** [UPDATE i18n.doc_versions SET superseded_at = now(), superseded_by = ?
     WHERE doc_id = ? AND superseded_at IS NULL AND version != ?] *)
Definition supersede_versions (db : DB) (docId : Z) (version : string) : DB :=
  with_doc_versions
    (map (fun v =>
            if (DocVersions.doc_id v =? docId)%Z
               && match DocVersions.superseded_at v with None => true | Some _ => false end
               && negb (DocVersions.version v =? version)
            then
              {| DocVersions.id := DocVersions.id v;
                 DocVersions.doc_id := DocVersions.doc_id v;
                 DocVersions.version := DocVersions.version v;
                 DocVersions.title := DocVersions.title v;
                 DocVersions.body_md := DocVersions.body_md v;
                 DocVersions.frontmatter := DocVersions.frontmatter v;
                 DocVersions.author := DocVersions.author v;
                 DocVersions.published_by := DocVersions.published_by v;
                 DocVersions.published_at := DocVersions.published_at v;
                 DocVersions.content_hash := DocVersions.content_hash v;
                 DocVersions.superseded_at := Some (now db);
                 DocVersions.superseded_by := Some version;
                 DocVersions.changes := DocVersions.changes v |}
            else v)
       (doc_versions db))
    db.

(** The row step 4 of the approval leaves in i18n.docs. *)
Definition publish_doc (db : DB) (draft : DocDrafts.t) (userId : string) (d : Docs.t) : Docs.t :=
  {| Docs.id := Docs.id d;
     Docs.slug := Docs.slug d;
     Docs.file_path := Docs.file_path d;
     Docs.title := coalesce (DocDrafts.title draft) (Docs.title d);
     Docs.body_md := coalesce (DocDrafts.body_md draft) (Docs.body_md d);
     Docs.version := Some (DocDrafts.version draft);
     Docs.frontmatter :=
       coalesce
         (if truthy (json_of_jsonb (DocDrafts.frontmatter draft))
          then Some (json_of_jsonb (DocDrafts.frontmatter draft)) else None)
         (Docs.frontmatter d);
     Docs.author := Docs.author d;
     Docs.is_edited := true;
     Docs.edited_by := Some userId;
     Docs.updated_at := now db |}.

(** [UPDATE i18n.docs SET ... WHERE id = ?] *)
Definition update_docs (db : DB) (docId : Z) (draft : DocDrafts.t) (userId : string) : DB :=
  with_docs
    (map (fun d => if (Docs.id d =? docId)%Z then publish_doc db draft userId d else d)
       (docs db))
    db.

(** The rows of the validation gate: required evidence types of phase 1
    or 2 without a non-superseded evidence row of the document. *)
Definition missing_evidence_types (db : DB) (qmsDocId : string) : list RefEvidenceTypes.t :=
  filter
    (fun ret =>
       RefEvidenceTypes.required ret
       && (RefEvidenceTypes.phase ret <=? 2)%Z
       && negb (existsb
                  (fun de =>
                     (DocumentEvidence.document_id de =? qmsDocId)
                     && (DocumentEvidence.evidence_type de =? RefEvidenceTypes.code ret)
                     && negb (DocumentEvidence.is_superseded de))
                  (document_evidence db)))
    (ref_evidence_types db).

Definition missing_evidence_json (rows : list RefEvidenceTypes.t) : Json :=
  JArr (map (fun r => JObj [ ("code", JStr (RefEvidenceTypes.code r));
                             ("label", JStr (RefEvidenceTypes.label r)) ]) rows).

(** [INSERT INTO qms.document_transitions ... RETURNING id] *)
Definition insert_transition (db : DB) (documentId action : string)
    (from_status to_status from_version to_version : option string)
    (performed_by : string) (comment evidence_ref : option string) : Z * DB :=
  let (i, db1) := fresh db in
  (i,
   with_document_transitions
     (document_transitions db1 ++
      [ {| DocumentTransitions.id := i;
           DocumentTransitions.document_id := documentId;
           DocumentTransitions.action := action;
           DocumentTransitions.from_status := from_status;
           DocumentTransitions.to_status := to_status;
           DocumentTransitions.from_version := from_version;
           DocumentTransitions.to_version := to_version;
           DocumentTransitions.performed_by := performed_by;
           DocumentTransitions.comment := comment;
           DocumentTransitions.evidence_ref := evidence_ref;
           DocumentTransitions.performed_at := now db1 |} ])
     db1).

(** The checklist evidence of an approval.  The checklist's decision is
    upper-cased, which throws when it is truthy and not a string. *)
Definition checklist_evidence (req : DraftRequest.t) (userId qmsDocId : string)
    (transitionId : Z) (db : DB) : option DB :=
  match DraftRequest.checklist req with
  | Some c =>
      if truthy c then
        match or_json (member_opt (member c "outcome") "decision") (JStr "pass") with
        | JStr decision =>
            Some
              (insertEvidence db qmsDocId (Some transitionId) "self_review_checklist"
                 (JObj
                    [ ("frm_dc_004_version",
                       or_json (member c "frm_dc_004_version") (JStr "1.0"));
                      ("sections", or_json (member c "sections") (JObj []));
                      ("outcome",
                       or_json (member c "outcome")
                         (JObj [ ("decision", JStr "pass");
                                 ("reviewer_signature", JStr userId) ])) ])
                 (Some ("FRM-DC-004 self-review: " ++ toUpperCase decision))
                 userId)
        | _ => None
        end
      else Some db
  | None => Some db
  end.

Definition approval_justification_evidence (req : DraftRequest.t)
    (userId qmsDocId : string) (transitionId : Z) (db : DB) : DB :=
  match DraftRequest.approval_justification req with
  | Some a =>
      if truthy a then
        insertEvidence db qmsDocId (Some transitionId) "approval_justification"
          (JObj
             [ ("decision", JStr "approve");
               ("justification", or_json (member a "justification") (JStr ""));
               ("ai_assisted", or_json (member a "ai_assisted") (JBool false));
               ("ai_disclosure", or_json (member a "ai_disclosure") (JStr "")) ])
          (Some ("Approved: " ++
                 to_string
                   (or_json (member a "justification")
                      (JStr (or_str (DraftRequest.comment req) "(no justification)")))))
          userId
      else db
  | None => db
  end.

Definition change_classification_evidence (req : DraftRequest.t)
    (userId qmsDocId : string) (transitionId : Z) (db : DB) : DB :=
  match DraftRequest.change_classification req with
  | Some c =>
      if truthy c then
        insertEvidence db qmsDocId (Some transitionId) "change_classification"
          (JObj
             [ ("classification", or_json (member c "classification") (JStr "PATCH"));
               ("rationale", or_json (member c "rationale") (JStr "")) ])
          (Some ("Classification: " ++
                 to_string (or_json (member c "classification") (JStr "PATCH"))
                 ++ " — " ++
                 to_string (or_json (member c "rationale") (JStr ""))))
          userId
      else db
  | None => db
  end.

(** The evidence rows the approval links to its transition, in the order
    the handler records them; [None] when the handler throws. *)
Definition approve_evidence (req : DraftRequest.t) (userId qmsDocId : string)
    (transitionId : Z) (db : DB) : option DB :=
  match checklist_evidence req userId qmsDocId transitionId db with
  | None => None
  | Some db1 =>
      Some
        (change_classification_evidence req userId qmsDocId transitionId
           (approval_justification_evidence req userId qmsDocId transitionId db1))
  end.

(** [UPDATE qms.controlled_documents SET version = ?, status = 'effective',
     effective_date = CURRENT_DATE, updated_at = now() WHERE docs_id = ?] *)
Definition make_effective (db : DB) (version : string) (docId : Z) : DB :=
  with_controlled_documents
    (map (fun cd =>
            if opt_Z_eqb (ControlledDocuments.docs_id cd) docId then
              {| ControlledDocuments.id := ControlledDocuments.id cd;
                 ControlledDocuments.document_id := ControlledDocuments.document_id cd;
                 ControlledDocuments.title := ControlledDocuments.title cd;
                 ControlledDocuments.document_type := ControlledDocuments.document_type cd;
                 ControlledDocuments.domain_code := ControlledDocuments.domain_code cd;
                 ControlledDocuments.version := Some version;
                 ControlledDocuments.status := Some "effective";
                 ControlledDocuments.classification := ControlledDocuments.classification cd;
                 ControlledDocuments.effective_date := Some (current_date db);
                 ControlledDocuments.next_review_date := ControlledDocuments.next_review_date cd;
                 ControlledDocuments.owner := ControlledDocuments.owner cd;
                 ControlledDocuments.author := ControlledDocuments.author cd;
                 ControlledDocuments.reviewer := ControlledDocuments.reviewer cd;
                 ControlledDocuments.approver := ControlledDocuments.approver cd;
                 ControlledDocuments.implements := ControlledDocuments.implements cd;
                 ControlledDocuments.retention_years := ControlledDocuments.retention_years cd;
                 ControlledDocuments.retention_basis := ControlledDocuments.retention_basis cd;
                 ControlledDocuments.location := ControlledDocuments.location cd;
                 ControlledDocuments.docs_id := ControlledDocuments.docs_id cd;
                 ControlledDocuments.body_md := ControlledDocuments.body_md cd;
                 ControlledDocuments.notes := ControlledDocuments.notes cd;
                 ControlledDocuments.updated_at := now db |}
            else cd)
       (controlled_documents db))
    db.

(** *** POST /@docs/draft/approve *)
Definition postDocDraftApprove (req : DraftRequest.t) (db : DB) : Result :=
  let userId := or_str (DraftRequest.user req) "unknown" in
  if negb (truthy_str (DraftRequest.slug req)) then
    Returned (error 400 "Document slug required") db
  else
    let slug := or_str (DraftRequest.slug req) "" in
    (* 1. fetch the draft *)
    match drafts_by_slug db slug with
    | [] => Returned (error 404 "No draft found for this document") db
    | (draft, d) :: _ =>
        if negb (DocDrafts.status draft =? "in_review") then
          Returned
            (error 409 ("Cannot approve: draft status is '" ++ DocDrafts.status draft
                        ++ "', expected 'in_review'"))
            db
        else
          let doc_id := Docs.id d in
          let current_version := or_str (Docs.version d) "0.0" in
          (* 2. snapshot the current effective version *)
          let db2 :=
            insert_doc_version db doc_id current_version (Docs.title d) (Docs.body_md d)
              (json_of_jsonb (Docs.frontmatter d)) (Docs.author d) userId in
          (* 3. mark previous versions as superseded *)
          let db3 := supersede_versions db2 doc_id (DocDrafts.version draft) in
          (* 4. copy the draft into i18n.docs *)
          let db4 := update_docs db3 doc_id draft userId in
          (* 6. the new version snapshot, 7. delete the draft *)
          let finish (db5 : DB) : Result :=
            let db6 :=
              insert_doc_version db5 doc_id (DocDrafts.version draft)
                (or_opt_str (DocDrafts.title draft) (Docs.title d))
                (or_opt_str (DocDrafts.body_md draft) (Docs.body_md d))
                (if truthy (json_of_jsonb (DocDrafts.frontmatter draft))
                 then json_of_jsonb (DocDrafts.frontmatter draft)
                 else json_of_jsonb (Docs.frontmatter d))
                (Docs.author d) userId in
            let db7 :=
              with_doc_drafts
                (filter (fun dr => negb (DocDrafts.id dr =? DocDrafts.id draft)%Z)
                   (doc_drafts db6))
                db6 in
            Returned
              (ok [ ("@id", JStr (DraftRequest.root_url req ++ "/@docs/view?slug="
                                  ++ encodeURIComponent slug));
                    ("message", JStr ("Version " ++ DocDrafts.version draft
                                      ++ " published successfully"));
                    ("version", JStr (DocDrafts.version draft));
                    ("previous_version", JStr current_version) ])
              db7 in
          (* 5. the QMS transition, when the document is registered *)
          match getQmsDocumentId db4 doc_id with
          | Some qmsDocId =>
              if qmsDocId =? "" then finish db4
              else
                match missing_evidence_types db4 qmsDocId with
                | (_ :: _) as missing =>
                    Returned
                      {| status := Some 422;
                         json :=
                           JObj
                             [ ("error",
                                JStr ("Cannot approve: required evidence is missing: "
                                      ++ join ", " (map RefEvidenceTypes.label missing)));
                               ("missing_evidence", missing_evidence_json missing) ] |}
                      db4
                | [] =>
                    let (transitionId, db5) :=
                      insert_transition db4 qmsDocId "approve" (Some "in_review")
                        (Some "effective") (Some current_version)
                        (Some (DocDrafts.version draft)) userId
                        (Some (or_str (DraftRequest.comment req)
                                 "Approved via draft management"))
                        None in
                    match approve_evidence req userId qmsDocId transitionId db5 with
                    | None => Threw "toUpperCase is not a function"
                    | Some db6 =>
                        finish (make_effective db6 (DocDrafts.version draft) doc_id)
                    end
                end
          | None => finish db4
          end
    end.


(** *** The draft operations as a transition system *)




(** At most one draft per document. *)
Definition one_draft_per_doc (db : DB) : Prop :=
  NoDup (map DocDrafts.doc_id (doc_drafts db)).

(** ** The QMS register (routes/qms/qms) *)


(** [!x] on a text member. *)
Definition field_falsy (f : field string) : bool :=
  match f with
  | Some (Some s) => s =? ""
  | _ => true
  end.

(** [x || null] on a text member. *)
Definition field_or_null (f : field string) : option string :=
  match f with
  | Some (Some s) => if s =? "" then None else Some s
  | _ => None
  end.

(** [x || null] on a numeric member. *)
Definition field_or_null_Z (f : field Z) : option Z :=
  match f with
  | Some (Some 0%Z) => None
  | Some (Some n) => Some n
  | _ => None
  end.

(** A destructuring default [x = d]: it applies to undefined only. *)
Definition field_default {A : Type} (f : field A) (d : A) : option A :=
  match f with
  | None => Some d
  | Some v => v
  end.

(** The value a SET clause of PUT /@qms/register/:document_id binds:
    [req.body[field] === '' ? null : req.body[field]], or the old value
    when the member is undefined and the column is not in the clause. *)
Definition put_text (f : field string) (old : option string) : option string :=
  match f with
  | None => old
  | Some None => None
  | Some (Some s) => if s =? "" then None else Some s
  end.

Definition put_int (f : field Z) (old : option Z) : option Z :=
  match f with
  | None => old
  | Some v => v
  end.

Definition is_given {A : Type} (f : field A) : bool :=
  match f with Some _ => true | None => false end.

Definition is_alnum (c : ascii) : bool :=
  let n := nat_of_ascii c in
  ((65 <=? n) && (n <=? 90) || (97 <=? n) && (n <=? 122)
   || (48 <=? n) && (n <=? 57))%nat.

Definition is_doc_id_char (c : ascii) : bool :=
  is_alnum c || existsb (Ascii.eqb c) (list_ascii_of_string "._-").

(** [DOC_ID_RE.test], for [/^[A-Za-z0-9][A-Za-z0-9._-]{0,99}$/]. *)
Definition DOC_ID_RE (s : string) : bool :=
  match s with
  | EmptyString => false
  | String c rest =>
      is_alnum c
      && forallb is_doc_id_char (list_ascii_of_string rest)
      && (String.length rest <=? 99)%nat
  end.

Definition cd_json (cd : ControlledDocuments.t) : list (string * Json) :=
  [ ("id", JNum (ControlledDocuments.id cd));
    ("document_id", JStr (ControlledDocuments.document_id cd));
    ("title", json_of_text (ControlledDocuments.title cd));
    ("document_type", json_of_text (ControlledDocuments.document_type cd));
    ("domain_code", json_of_text (ControlledDocuments.domain_code cd));
    ("version", json_of_text (ControlledDocuments.version cd));
    ("status", json_of_text (ControlledDocuments.status cd));
    ("classification", json_of_text (ControlledDocuments.classification cd));
    ("effective_date", json_of_text (ControlledDocuments.effective_date cd));
    ("docs_id",
     match ControlledDocuments.docs_id cd with Some i => JNum i | None => JNull end);
    ("body_md", json_of_text (ControlledDocuments.body_md cd));
    ("notes", json_of_text (ControlledDocuments.notes cd));
    ("updated_at", JNum (ControlledDocuments.updated_at cd)) ].

Definition transition_json (t : DocumentTransitions.t) : list (string * Json) :=
  [ ("id", JNum (DocumentTransitions.id t));
    ("document_id", JStr (DocumentTransitions.document_id t));
    ("action", JStr (DocumentTransitions.action t));
    ("from_status", json_of_text (DocumentTransitions.from_status t));
    ("to_status", json_of_text (DocumentTransitions.to_status t));
    ("from_version", json_of_text (DocumentTransitions.from_version t));
    ("to_version", json_of_text (DocumentTransitions.to_version t));
    ("performed_by", JStr (DocumentTransitions.performed_by t));
    ("comment", json_of_text (DocumentTransitions.comment t));
    ("evidence_ref", json_of_text (DocumentTransitions.evidence_ref t));
    ("performed_at", JNum (DocumentTransitions.performed_at t)) ].

Definition register_url (req : QmsRequest.t) (document_id : string) : string :=
  QmsRequest.root_url req ++ "/@qms/register/" ++ encodeURIComponent document_id.

(** [SELECT ... FROM qms.controlled_documents WHERE document_id = ?] *)
Definition cd_by_document_id (db : DB) (document_id : string) : list ControlledDocuments.t :=
  filter (fun cd => ControlledDocuments.document_id cd =? document_id)
    (controlled_documents db).

(** A row of the register with its status, version, effective date and
    update time replaced. *)
Definition cd_with_lifecycle (status version effective_date : option string)
    (updated_at : Z) (cd : ControlledDocuments.t) : ControlledDocuments.t :=
  {| ControlledDocuments.id := ControlledDocuments.id cd;
     ControlledDocuments.document_id := ControlledDocuments.document_id cd;
     ControlledDocuments.title := ControlledDocuments.title cd;
     ControlledDocuments.document_type := ControlledDocuments.document_type cd;
     ControlledDocuments.domain_code := ControlledDocuments.domain_code cd;
     ControlledDocuments.version := version;
     ControlledDocuments.status := status;
     ControlledDocuments.classification := ControlledDocuments.classification cd;
     ControlledDocuments.effective_date := effective_date;
     ControlledDocuments.next_review_date := ControlledDocuments.next_review_date cd;
     ControlledDocuments.owner := ControlledDocuments.owner cd;
     ControlledDocuments.author := ControlledDocuments.author cd;
     ControlledDocuments.reviewer := ControlledDocuments.reviewer cd;
     ControlledDocuments.approver := ControlledDocuments.approver cd;
     ControlledDocuments.implements := ControlledDocuments.implements cd;
     ControlledDocuments.retention_years := ControlledDocuments.retention_years cd;
     ControlledDocuments.retention_basis := ControlledDocuments.retention_basis cd;
     ControlledDocuments.location := ControlledDocuments.location cd;
     ControlledDocuments.docs_id := ControlledDocuments.docs_id cd;
     ControlledDocuments.body_md := ControlledDocuments.body_md cd;
     ControlledDocuments.notes := ControlledDocuments.notes cd;
     ControlledDocuments.updated_at := updated_at |}.

(** *** POST /@qms/register *)
Definition postQmsDocument (req : QmsRequest.t) (db : DB) : Result :=
  if negb (truthy_str (QmsRequest.document_id req))
     || field_falsy (QmsRequest.title req)
     || field_falsy (QmsRequest.document_type req)
     || field_falsy (QmsRequest.domain_code req)
  then
    Returned (error 400 "Required fields: document_id, title, document_type, domain_code") db
  else
    let document_id := or_str (QmsRequest.document_id req) "" in
    let version := field_default (QmsRequest.version req) "0.1" in
    let status := field_default (QmsRequest.status req) "draft" in
    let performed_by := or_str (QmsRequest.user req) "unknown" in
    let (i, db1) := fresh db in
    let row :=
      {| ControlledDocuments.id := i;
         ControlledDocuments.document_id := document_id;
         ControlledDocuments.title := field_or_null (QmsRequest.title req);
         ControlledDocuments.document_type := field_or_null (QmsRequest.document_type req);
         ControlledDocuments.domain_code := field_or_null (QmsRequest.domain_code req);
         ControlledDocuments.version := version;
         ControlledDocuments.status := status;
         ControlledDocuments.classification :=
           field_default (QmsRequest.classification req) "internal";
         ControlledDocuments.effective_date := field_or_null (QmsRequest.effective_date req);
         ControlledDocuments.next_review_date :=
           field_or_null (QmsRequest.next_review_date req);
         ControlledDocuments.owner := field_or_null (QmsRequest.owner req);
         ControlledDocuments.author := field_or_null (QmsRequest.author req);
         ControlledDocuments.reviewer := field_or_null (QmsRequest.reviewer req);
         ControlledDocuments.approver := field_or_null (QmsRequest.approver req);
         ControlledDocuments.implements := field_or_null (QmsRequest.implements req);
         ControlledDocuments.retention_years :=
           field_default (QmsRequest.retention_years req) 10%Z;
         ControlledDocuments.retention_basis :=
           field_default (QmsRequest.retention_basis req) "EU MDR Art 10.8";
         ControlledDocuments.location := field_or_null (QmsRequest.location req);
         ControlledDocuments.docs_id := field_or_null_Z (QmsRequest.docs_id req);
         ControlledDocuments.body_md := field_or_null (QmsRequest.body_md req);
         ControlledDocuments.notes := field_or_null (QmsRequest.notes req);
         ControlledDocuments.updated_at := now db1 |} in
    let db2 := with_controlled_documents (controlled_documents db1 ++ [row]) db1 in
    let (_, db3) :=
      insert_transition db2 document_id "create" None status None version performed_by
        (Some "Created via web UI") None in
    Returned
      (created (("@id", JStr (register_url req document_id)) :: cd_json row))
      db3.

(** The row PUT /@qms/register/:document_id leaves: each of the allowed
    fields that the body defines is set, the empty string becoming NULL. *)
Definition put_row (req : QmsRequest.t) (cd : ControlledDocuments.t) : ControlledDocuments.t :=
  {| ControlledDocuments.id := ControlledDocuments.id cd;
     ControlledDocuments.document_id := ControlledDocuments.document_id cd;
     ControlledDocuments.title :=
       put_text (QmsRequest.title req) (ControlledDocuments.title cd);
     ControlledDocuments.document_type :=
       put_text (QmsRequest.document_type req) (ControlledDocuments.document_type cd);
     ControlledDocuments.domain_code :=
       put_text (QmsRequest.domain_code req) (ControlledDocuments.domain_code cd);
     ControlledDocuments.version :=
       put_text (QmsRequest.version req) (ControlledDocuments.version cd);
     ControlledDocuments.status :=
       put_text (QmsRequest.status req) (ControlledDocuments.status cd);
     ControlledDocuments.classification :=
       put_text (QmsRequest.classification req) (ControlledDocuments.classification cd);
     ControlledDocuments.effective_date :=
       put_text (QmsRequest.effective_date req) (ControlledDocuments.effective_date cd);
     ControlledDocuments.next_review_date :=
       put_text (QmsRequest.next_review_date req) (ControlledDocuments.next_review_date cd);
     ControlledDocuments.owner :=
       put_text (QmsRequest.owner req) (ControlledDocuments.owner cd);
     ControlledDocuments.author :=
       put_text (QmsRequest.author req) (ControlledDocuments.author cd);
     ControlledDocuments.reviewer :=
       put_text (QmsRequest.reviewer req) (ControlledDocuments.reviewer cd);
     ControlledDocuments.approver :=
       put_text (QmsRequest.approver req) (ControlledDocuments.approver cd);
     ControlledDocuments.implements :=
       put_text (QmsRequest.implements req) (ControlledDocuments.implements cd);
     ControlledDocuments.retention_years :=
       put_int (QmsRequest.retention_years req) (ControlledDocuments.retention_years cd);
     ControlledDocuments.retention_basis :=
       put_text (QmsRequest.retention_basis req) (ControlledDocuments.retention_basis cd);
     ControlledDocuments.location :=
       put_text (QmsRequest.location req) (ControlledDocuments.location cd);
     ControlledDocuments.docs_id :=
       put_int (QmsRequest.docs_id req) (ControlledDocuments.docs_id cd);
     ControlledDocuments.body_md :=
       put_text (QmsRequest.body_md req) (ControlledDocuments.body_md cd);
     ControlledDocuments.notes :=
       put_text (QmsRequest.notes req) (ControlledDocuments.notes cd);
     ControlledDocuments.updated_at := ControlledDocuments.updated_at cd |}.

(** [setClauses.length === 0]: none of the allowed fields is defined. *)
Definition no_fields_to_update (req : QmsRequest.t) : bool :=
  negb
    (is_given (QmsRequest.title req) || is_given (QmsRequest.document_type req)
     || is_given (QmsRequest.domain_code req) || is_given (QmsRequest.version req)
     || is_given (QmsRequest.status req) || is_given (QmsRequest.classification req)
     || is_given (QmsRequest.effective_date req)
     || is_given (QmsRequest.next_review_date req)
     || is_given (QmsRequest.owner req) || is_given (QmsRequest.author req)
     || is_given (QmsRequest.reviewer req) || is_given (QmsRequest.approver req)
     || is_given (QmsRequest.implements req) || is_given (QmsRequest.retention_years req)
     || is_given (QmsRequest.retention_basis req) || is_given (QmsRequest.location req)
     || is_given (QmsRequest.docs_id req) || is_given (QmsRequest.body_md req)
     || is_given (QmsRequest.notes req)).

(** *** PUT /@qms/register/:document_id *)
Definition putQmsDocument (req : QmsRequest.t) (db : DB) : Result :=
  let document_id := QmsRequest.param_document_id req in
  if negb (DOC_ID_RE document_id) then
    Returned (error 400 "Invalid document ID format") db
  else
    match cd_by_document_id db document_id with
    | [] => Returned (error 404 "Document not found") db
    | _ :: _ =>
        if no_fields_to_update req then
          Returned (error 400 "No fields to update") db
        else
          let db1 :=
            with_controlled_documents
              (map (fun cd =>
                      if ControlledDocuments.document_id cd =? document_id
                      then put_row req cd else cd)
                 (controlled_documents db))
              db in
          match map (put_row req) (cd_by_document_id db document_id) with
          | [] => Returned (ok [ ("@id", JStr (register_url req document_id)) ]) db1
          | row :: _ =>
              Returned (ok (("@id", JStr (register_url req document_id)) :: cd_json row)) db1
          end
    end.

(** *** POST /@qms/register/:document_id/transition *)
Definition postQmsTransition (req : QmsRequest.t) (db : DB) : Result :=
  let document_id := QmsRequest.param_document_id req in
  if negb (DOC_ID_RE document_id) then
    Returned (error 400 "Invalid document ID format") db
  else if negb (truthy_str (QmsRequest.action req)) then
    Returned (error 400 "Required field: action") db
  else
    match cd_by_document_id db document_id with
    | [] => Returned (error 404 "Document not found") db
    | current :: _ =>
        let performed_by := or_str (QmsRequest.user req) "unknown" in
        let to_status := or_null_str (QmsRequest.to_status req) in
        let to_version := or_null_str (QmsRequest.to_version req) in
        let (i, db1) :=
          insert_transition db document_id (or_str (QmsRequest.action req) "")
            (ControlledDocuments.status current)
            (coalesce to_status (ControlledDocuments.status current))
            (ControlledDocuments.version current)
            (coalesce to_version (ControlledDocuments.version current))
            performed_by
            (or_null_str (QmsRequest.comment req))
            (or_null_str (QmsRequest.evidence_ref req)) in
        let db2 :=
          match to_status, to_version with
          | None, None => db1
          | _, _ =>
              with_controlled_documents
                (map (fun cd =>
                        if ControlledDocuments.document_id cd =? document_id then
                          cd_with_lifecycle
                            (coalesce to_status (ControlledDocuments.status cd))
                            (coalesce to_version (ControlledDocuments.version cd))
                            (if opt_str_eqb to_status "effective"
                             then Some (current_date db1)
                             else ControlledDocuments.effective_date cd)
                            (ControlledDocuments.updated_at cd)
                            cd
                        else cd)
                   (controlled_documents db1))
                db1
          end in
        Returned
          {| status := Some 201;
             json :=
               JObj
                 [ ("@id", JStr (register_url req document_id ++ "/transition"));
                   ("transition",
                    match filter (fun t => (DocumentTransitions.id t =? i)%Z)
                            (document_transitions db1) with
                    | t :: _ => JObj (transition_json t)
                    | [] => JNull
                    end) ] |}
          db2
    end.


(** ** Training (routes/qms/training) *)

Definition is_space (c : ascii) : bool :=
  existsb (Nat.eqb (nat_of_ascii c)) [9; 10; 11; 12; 13; 32]%nat.

Fixpoint trim_start (s : string) : string :=
  match s with
  | String c rest => if is_space c then trim_start rest else s
  | EmptyString => EmptyString
  end.

Definition rev_string (s : string) : string :=
  string_of_list_ascii (rev (list_ascii_of_string s)).

(** [s.trim()], for the ASCII white space. *)
Definition trim (s : string) : string :=
  rev_string (trim_start (rev_string (trim_start s))).

(** What a validator returns: [{ ok: false, message }] or
    [{ ok: true, data }]. *)
Inductive validation : Type :=
| Invalid (message : string)
| Valid (data : Json).

(** The first row of [ORDER BY recorded_at DESC]. *)
Fixpoint latest_evidence (l : list DocumentEvidence.t) : option DocumentEvidence.t :=
  match l with
  | [] => None
  | e :: rest =>
      match latest_evidence rest with
      | Some e' =>
          if (DocumentEvidence.recorded_at e <? DocumentEvidence.recorded_at e')%Z
          then Some e' else Some e
      | None => Some e
      end
  end.

(** [WHERE document_id = ? AND evidence_type = ? AND NOT is_superseded] *)
Definition live_evidence (db : DB) (qmsDocId evidence_type : string) : list DocumentEvidence.t :=
  filter
    (fun de =>
       (DocumentEvidence.document_id de =? qmsDocId)
       && (DocumentEvidence.evidence_type de =? evidence_type)
       && negb (DocumentEvidence.is_superseded de))
    (document_evidence db).

Definition evidence_found (e : DocumentEvidence.t) : validation :=
  Valid (JObj [ ("evidence_id", JNum (DocumentEvidence.id e));
                ("recorded_at", JNum (DocumentEvidence.recorded_at e)) ]).

(** Step 1: a draft exists for the training document. *)
Definition draft_exists (db : DB) (docsId : Z) (qmsDocId : string) : validation :=
  match filter (fun dr => (DocDrafts.doc_id dr =? docsId)%Z) (doc_drafts db) with
  | [] => Invalid "No draft found. Open the document editor, write content, and save."
  | draft :: _ =>
      if negb (truthy_str (DocDrafts.body_md draft))
         || (String.length (trim (or_str (DocDrafts.body_md draft) "")) <? 20)%nat
      then
        Invalid "Draft content is too short. Write at least a paragraph of meaningful content."
      else
        Valid (JObj [ ("draft_id", JNum (DocDrafts.id draft));
                      ("version", JStr (DocDrafts.version draft));
                      ("status", JStr (DocDrafts.status draft)) ])
  end.

(** Step 2: justification evidence is recorded. *)
Definition evidence_justification (db : DB) (docsId : Z) (qmsDocId : string) : validation :=
  match latest_evidence (live_evidence db qmsDocId "justification") with
  | None =>
      Invalid "No justification evidence found. Save the draft again with a justification (what, why, and scope)."
  | Some e => evidence_found e
  end.

(** Step 3: the draft is under review. *)
Definition draft_in_review (db : DB) (docsId : Z) (qmsDocId : string) : validation :=
  match filter (fun dr => (DocDrafts.doc_id dr =? docsId)%Z) (doc_drafts db) with
  | [] => Invalid "No draft found. The draft may have already been approved."
  | draft :: _ =>
      if negb (DocDrafts.status draft =? "in_review") then
        Invalid ("Draft status is '" ++ DocDrafts.status draft
                 ++ "', expected 'in_review'. Submit the draft for review.")
      else
        Valid (JObj [ ("draft_id", JNum (DocDrafts.id draft)); ("status", JStr "in_review") ])
  end.

(** Step 4: COI declaration and qualification evidence both exist. *)
Definition evidence_coi_qualification (db : DB) (docsId : Z) (qmsDocId : string) : validation :=
  let rows :=
    filter
      (fun de =>
         (DocumentEvidence.document_id de =? qmsDocId)
         && ((DocumentEvidence.evidence_type de =? "coi_declaration")
             || (DocumentEvidence.evidence_type de =? "qualification"))
         && negb (DocumentEvidence.is_superseded de))
      (document_evidence db) in
  let types := map DocumentEvidence.evidence_type rows in
  let missing :=
    ((if existsb (String.eqb "coi_declaration") types then [] else ["COI declaration"])
     ++ (if existsb (String.eqb "qualification") types then [] else ["qualification"]))%list in
  match missing with
  | [] => Valid (JObj [ ("evidence_count", JNum (Z.of_nat (List.length rows))) ])
  | _ :: _ =>
      Invalid ("Missing evidence: " ++ join ", " missing
               ++ ". Submit the draft with all required fields.")
  end.

(** Step 5: self-review checklist evidence exists. *)
Definition evidence_checklist (db : DB) (docsId : Z) (qmsDocId : string) : validation :=
  match latest_evidence (live_evidence db qmsDocId "self_review_checklist") with
  | None =>
      Invalid "No self-review checklist evidence found. Complete the FRM-DC-004 checklist and approve the document."
  | Some e => evidence_found e
  end.

(** Step 6: the document is effective in the register. *)
Definition document_effective (db : DB) (docsId : Z) (qmsDocId : string) : validation :=
  match cd_by_document_id db qmsDocId with
  | [] => Invalid "Training document not found in QMS register."
  | cd :: _ =>
      if negb (opt_str_eqb (ControlledDocuments.status cd) "effective") then
        Invalid ("Document status is '"
                 ++ to_string (json_of_text (ControlledDocuments.status cd))
                 ++ "', expected 'effective'. Complete the approval step.")
      else
        Valid (JObj [ ("status", JStr "effective");
                      ("version", json_of_text (ControlledDocuments.version cd));
                      ("effective_date",
                       json_of_text (ControlledDocuments.effective_date cd)) ])
  end.

(** [validators[name]], for the names the object defines.  Names that a
    plain object inherits from its prototype are not step validators and
    are not modelled. *)
Definition validators (name : string) : option (DB -> Z -> string -> validation) :=
  if name =? "draft_exists" then Some draft_exists
  else if name =? "evidence_justification" then Some evidence_justification
  else if name =? "draft_in_review" then Some draft_in_review
  else if name =? "evidence_coi_qualification" then Some evidence_coi_qualification
  else if name =? "evidence_checklist" then Some evidence_checklist
  else if name =? "document_effective" then Some document_effective
  else None.

(** [FROM qms.training_sessions ts JOIN qms.training_modules tm
     ON tm.id = ts.module_id WHERE ts.id = ?] *)
Definition session_with_module (db : DB) (session_id : Z)
    : list (TrainingSessions.t * TrainingModules.t) :=
  flat_map
    (fun ts =>
       map (pair ts)
         (filter (fun tm => (TrainingModules.id tm =? TrainingSessions.module_id ts)%Z)
            (training_modules db)))
    (filter (fun ts => (TrainingSessions.id ts =? session_id)%Z) (training_sessions db)).

(** [FROM qms.controlled_documents cd JOIN i18n.docs d ON d.id = cd.docs_id
     WHERE cd.document_id = ?], giving [(docs_id, qms_doc_id)]. *)
Definition training_doc_lookup (db : DB) (training_doc_id : option string) : list (Z * string) :=
  match training_doc_id with
  | None => []
  | Some doc_id =>
      flat_map
        (fun cd =>
           map (fun d => (Docs.id d, ControlledDocuments.document_id cd))
             (filter (fun d => opt_Z_eqb (ControlledDocuments.docs_id cd) (Docs.id d))
                (docs db)))
        (cd_by_document_id db doc_id)
  end.

(** [INSERT INTO qms.training_step_completions ...
     ON CONFLICT (session_id, step_number) DO NOTHING] *)
Definition record_completion (db : DB) (session_id step_number : Z) (step_key userId : string)
    (data : Json) : DB :=
  if existsb
       (fun c => (TrainingStepCompletions.session_id c =? session_id)%Z
                 && (TrainingStepCompletions.step_number c =? step_number)%Z)
       (training_step_completions db)
  then db
  else
    with_training_step_completions
      (training_step_completions db ++
       [ {| TrainingStepCompletions.session_id := session_id;
            TrainingStepCompletions.step_number := step_number;
            TrainingStepCompletions.step_key := step_key;
            TrainingStepCompletions.validated_by := userId;
            TrainingStepCompletions.validation_data := data |} ])
      db.

(** A session row with its progress columns replaced. *)
Definition session_with (status : string) (current_step : Z) (completed_at certificate_id : option Z)
    (ts : TrainingSessions.t) : TrainingSessions.t :=
  {| TrainingSessions.id := TrainingSessions.id ts;
     TrainingSessions.user_id := TrainingSessions.user_id ts;
     TrainingSessions.module_id := TrainingSessions.module_id ts;
     TrainingSessions.training_doc_id := TrainingSessions.training_doc_id ts;
     TrainingSessions.current_step := current_step;
     TrainingSessions.status := status;
     TrainingSessions.started_at := TrainingSessions.started_at ts;
     TrainingSessions.completed_at := completed_at;
     TrainingSessions.certificate_id := certificate_id |}.

(** [UPDATE qms.training_sessions SET ... WHERE id = ?] *)
Definition update_session (db : DB) (session_id : Z)
    (upd : TrainingSessions.t -> TrainingSessions.t) : DB :=
  with_training_sessions
    (map (fun ts => if (TrainingSessions.id ts =? session_id)%Z then upd ts else ts)
       (training_sessions db))
    db.

(** [INSERT INTO qms.user_roles (user_id, role_code, granted_by) ...
     ON CONFLICT (user_id, role_code) DO UPDATE SET active = true,
     granted_by = EXCLUDED.granted_by, granted_at = now()] *)
Definition grant_role (userId : string) (db : DB) (roleCode : string) : DB :=
  let conflicts ur :=
    (UserRoles.user_id ur =? userId) && (UserRoles.role_code ur =? roleCode) in
  if existsb conflicts (user_roles db) then
    with_user_roles
      (map (fun ur =>
              if conflicts ur then
                {| UserRoles.user_id := UserRoles.user_id ur;
                   UserRoles.role_code := UserRoles.role_code ur;
                   UserRoles.granted_by := "training-system";
                   UserRoles.active := true;
                   UserRoles.granted_at := now db |}
              else ur)
         (user_roles db))
      db
  else
    with_user_roles
      (user_roles db ++
       [ {| UserRoles.user_id := userId;
            UserRoles.role_code := roleCode;
            UserRoles.granted_by := "training-system";
            UserRoles.active := role_active_default schema;
            UserRoles.granted_at := now db |} ])
      db.

(** [for (const roleCode of session.grants_roles || [])] *)
Definition grant_roles (userId : string) (roles : option (list string)) (db : DB) : DB :=
  fold_left (grant_role userId) (match roles with Some l => l | None => [] end) db.

(** The completion flow of the last step: certificate, session, roles. *)
Definition complete_session (db : DB) (userId : string) (session_id step_number : Z)
    (tm : TrainingModules.t) : Z * DB :=
  let fullname :=
    match filter (fun u => Users.id u =? userId) (users db) with
    | u :: _ => Users.fullname u
    | [] => userId
    end in
  let (certificateId, db1) := fresh db in
  let db2 :=
    with_training_certificates
      (training_certificates db1 ++
       [ {| TrainingCertificates.certificate_id := certificateId;
            TrainingCertificates.session_id := session_id;
            TrainingCertificates.user_id := userId;
            TrainingCertificates.user_fullname := fullname;
            TrainingCertificates.module_code := TrainingModules.module_code tm;
            TrainingCertificates.module_title := TrainingModules.title tm;
            TrainingCertificates.qualified_for := TrainingModules.grants_roles tm;
            TrainingCertificates.issued_at := now db1 |} ])
      db1 in
  let db3 :=
    update_session db2 session_id
      (session_with "completed" (step_number + 1) (Some (now db2)) (Some certificateId)) in
  (certificateId, grant_roles userId (TrainingModules.grants_roles tm) db3).

Definition validate_url (req : TrainingRequest.t) : Json :=
  JStr (TrainingRequest.root_url req ++ "/@qms/training/session/validate-step").

(** *** POST /@qms/training/session/validate-step *)
Definition postTrainingValidateStep (req : TrainingRequest.t) (db : DB) : Result :=
  let userId := or_str (TrainingRequest.user req) "unknown" in
  match or_null_id (TrainingRequest.session_id req), TrainingRequest.step_number req with
  | Some session_id, Some step_number =>
      match session_with_module db session_id with
      | [] => Returned (error 404 "Training session not found") db
      | (session, tm) :: _ =>
          if negb (TrainingSessions.user_id session =? userId) then
            Returned (error 403 "This session belongs to another user") db
          else if negb (TrainingSessions.status session =? "in_progress") then
            Returned
              (error 409 ("Session is '" ++ TrainingSessions.status session
                          ++ "', cannot validate steps"))
              db
          else if negb (step_number =? TrainingSessions.current_step session)%Z then
            Returned
              (error 409 ("Expected step " ++ string_of_Z (TrainingSessions.current_step session)
                          ++ ", got step " ++ string_of_Z step_number
                          ++ ". Complete steps in order."))
              db
          else
            let steps := TrainingModules.steps tm in
            match find (fun s => (TrainingModules.step s =? step_number)%Z) steps with
            | None =>
                Returned
                  (error 400 ("Step " ++ string_of_Z step_number ++ " not defined in module"))
                  db
            | Some stepDef =>
                match training_doc_lookup db (TrainingSessions.training_doc_id session) with
                | [] => Returned (error 500 "Training document not found in database") db
                | (docsId, qmsDocId) :: _ =>
                    match validators (TrainingModules.validation stepDef) with
                    | None =>
                        Returned
                          (error 500 ("Unknown validator: " ++ TrainingModules.validation stepDef))
                          db
                    | Some validatorFn =>
                        match validatorFn db docsId qmsDocId with
                        | Invalid message =>
                            Returned
                              (ok [ ("@id", validate_url req);
                                    ("ok", JBool false);
                                    ("step_number", JNum step_number);
                                    ("step_key", JStr (TrainingModules.key stepDef));
                                    ("message", JStr message) ])
                              db
                        | Valid data =>
                            let db1 :=
                              record_completion db session_id step_number
                                (TrainingModules.key stepDef) userId data in
                            let totalSteps := Z.of_nat (List.length steps) in
                            if (step_number =? totalSteps)%Z then
                              let (certificateId, db2) :=
                                complete_session db1 userId session_id step_number tm in
                              Returned
                                (ok [ ("@id", validate_url req);
                                      ("ok", JBool true);
                                      ("step_number", JNum step_number);
                                      ("step_key", JStr (TrainingModules.key stepDef));
                                      ("completed", JBool true);
                                      ("certificate_id", JNum certificateId);
                                      ("message",
                                       JStr "Congratulations! All steps completed. Certificate issued.") ])
                                db2
                            else
                              let db2 :=
                                update_session db1 session_id
                                  (fun ts =>
                                     session_with (TrainingSessions.status ts) (step_number + 1)
                                       (TrainingSessions.completed_at ts)
                                       (TrainingSessions.certificate_id ts) ts) in
                              Returned
                                (ok [ ("@id", validate_url req);
                                      ("ok", JBool true);
                                      ("step_number", JNum step_number);
                                      ("step_key", JStr (TrainingModules.key stepDef));
                                      ("completed", JBool false);
                                      ("current_step", JNum (step_number + 1));
                                      ("message",
                                       JStr ("Step " ++ string_of_Z step_number
                                             ++ " validated. Proceed to step "
                                             ++ string_of_Z (step_number + 1) ++ ".")) ])
                                db2
                        end
                    end
                end
            end
      end
  | _, _ => Returned (error 400 "session_id and step_number are required") db
  end.

(** *** POST /@qms/training/session/abandon *)
Definition postTrainingAbandon (req : TrainingRequest.t) (db : DB) : Result :=
  let userId := or_str (TrainingRequest.user req) "unknown" in
  match or_null_id (TrainingRequest.session_id req) with
  | None => Returned (error 400 "session_id is required") db
  | Some session_id =>
      match filter (fun ts => (TrainingSessions.id ts =? session_id)%Z)
              (training_sessions db) with
      | [] => Returned (error 404 "Training session not found") db
      | session :: _ =>
          if negb (TrainingSessions.user_id session =? userId) then
            Returned (error 403 "This session belongs to another user") db
          else if negb (TrainingSessions.status session =? "in_progress") then
            Returned
              (error 409 ("Session is already '" ++ TrainingSessions.status session ++ "'"))
              db
          else
            let db1 :=
              update_session db session_id
                (fun ts =>
                   session_with "abandoned" (TrainingSessions.current_step ts)
                     (Some (now db)) (TrainingSessions.certificate_id ts) ts) in
            let db2 :=
              if truthy_str (TrainingSessions.training_doc_id session) then
                let doc_id := or_str (TrainingSessions.training_doc_id session) "" in
                let db' :=
                  with_controlled_documents
                    (map (fun cd =>
                            if ControlledDocuments.document_id cd =? doc_id then
                              cd_with_lifecycle (Some "obsolete")
                                (ControlledDocuments.version cd)
                                (ControlledDocuments.effective_date cd) (now db1) cd
                            else cd)
                       (controlled_documents db1))
                    db1 in
                snd (insert_transition db' doc_id "obsolete" None (Some "obsolete") None None
                       userId (Some "Training session abandoned") None)
              else db1 in
            Returned
              (ok [ ("@id", JStr (TrainingRequest.root_url req
                                  ++ "/@qms/training/session/abandon"));
                    ("message", JStr "Training session abandoned");
                    ("session_id", JNum session_id) ])
              db2
      end
  end.

(** ** Knowledge base (routes/docs/docs) *)

(** A JavaScript number holding an integer, or NaN.  Numbers are doubles:
    the integers are exact up to 2^53, and the properties of
    [bumpVersion] are stated for version parts below that bound. *)
Inductive jsnum : Type :=
| Num (z : Z)
| NaN.

Definition MAX_SAFE_INTEGER : Z := 2 ^ 53 - 1.

Definition is_digit (c : ascii) : bool :=
  let n := nat_of_ascii c in ((48 <=? n) && (n <=? 57))%nat.

Fixpoint digits_value (acc : Z) (s : string) : option Z :=
  match s with
  | EmptyString => Some acc
  | String c rest =>
      if is_digit c
      then digits_value (10 * acc + Z.of_nat (nat_of_ascii c - 48)) rest
      else None
  end.

(** [Number(s)] for the strings made of decimal digits; the empty string
    is 0.  Other numeric literals (signs, exponents, radix prefixes,
    white space) do not occur in the version parts the properties are
    about and are read as NaN. *)
Definition Number (s : string) : jsnum :=
  match digits_value 0 s with
  | Some z => Num z
  | None => NaN
  end.

(** [s.split(c)] *)
Fixpoint split (sep : ascii) (s : string) : list string :=
  match s with
  | EmptyString => [EmptyString]
  | String c rest =>
      if Ascii.eqb c sep then EmptyString :: split sep rest
      else
        match split sep rest with
        | x :: xs => String c x :: xs
        | [] => [String c EmptyString]
        end
  end.

(** [n + 1] *)
Definition succ_num (n : jsnum) : jsnum :=
  match n with Num z => Num (z + 1) | NaN => NaN end.

(** The interpolation of a number in a template literal. *)
Definition show_num (n : jsnum) : string :=
  match n with Num z => string_of_Z z | NaN => "NaN" end.

(** A value or a thrown [Error]. *)
Inductive outcome (A : Type) : Type :=
| Done (a : A)
| Raised (message : string).
#[global] Arguments Done {A} a.
#[global] Arguments Raised {A} message.

(** [while (parts.length < 3) parts.push(0)] followed by
    [const [major, minor, patch] = parts]. *)
Definition normalize (parts : list jsnum) : jsnum * jsnum * jsnum :=
  match parts with
  | [] => (Num 0, Num 0, Num 0)
  | [a] => (a, Num 0, Num 0)
  | [a; b] => (a, b, Num 0)
  | a :: b :: c :: _ => (a, b, c)
  end.

Definition bumpVersion (version bump : string) : outcome string :=
  let parts := map Number (split "."%char version) in
  let '(major, minor, patch) := normalize parts in
  if bump =? "major" then
    Done (show_num (succ_num major) ++ ".0.0")
  else if bump =? "minor" then
    Done (show_num major ++ "." ++ show_num (succ_num minor) ++ ".0")
  else if bump =? "patch" then
    Done (show_num major ++ "." ++ show_num minor ++ "." ++ show_num (succ_num patch))
  else
    Raised ("Invalid bump type: " ++ bump).

(** The own enumerable members a spread [{ ...v }] copies. *)
Definition spread (v : Json) : list (string * Json) :=
  match v with
  | JObj l => l
  | JArr items =>
      combine (map (fun i => string_of_Z (Z.of_nat i)) (seq 0 (List.length items))) items
  | JStr s =>
      combine (map (fun i => string_of_Z (Z.of_nat i)) (seq 0 (String.length s)))
        (map (fun c => JStr (String c EmptyString)) (list_ascii_of_string s))
  | _ => []
  end.

(** [{ ...o, k: v }] *)
Definition with_member (k : string) (v : Json) (l : list (string * Json)) : list (string * Json) :=
  (filter (fun kv => negb (fst kv =? k)) l ++ [(k, v)])%list.

Definition doc_json (d : Docs.t) : list (string * Json) :=
  [ ("id", JNum (Docs.id d));
    ("slug", JStr (Docs.slug d));
    ("title", json_of_text (Docs.title d));
    ("body_md", json_of_text (Docs.body_md d));
    ("version", json_of_text (Docs.version d));
    ("frontmatter", json_of_jsonb (Docs.frontmatter d));
    ("author", json_of_text (Docs.author d));
    ("is_edited", JBool (Docs.is_edited d));
    ("edited_by", json_of_text (Docs.edited_by d));
    ("updated_at", JNum (Docs.updated_at d)) ].

(** [SELECT * FROM i18n.docs WHERE id = ?] *)
Definition docs_by_id (db : DB) (doc_id : Z) : list Docs.t :=
  filter (fun d => (Docs.id d =? doc_id)%Z) (docs db).

(** *** POST /@docs/save *)
Definition postDocsSave (req : DocsRequest.t) (db : DB) : Result :=
  match or_null_id (DocsRequest.doc_id req),
        or_null_str (DocsRequest.body_md req),
        or_null_str (DocsRequest.version_bump req),
        or_null_str (DocsRequest.change_summary req) with
  | Some doc_id, Some body_md, Some version_bump, Some change_summary =>
      if negb (existsb (String.eqb version_bump) ["patch"; "minor"; "major"]) then
        Returned
          (error 400 ("Invalid version_bump: must be " ++ quoted "patch" ++ ", "
                      ++ quoted "minor" ++ ", or " ++ quoted "major")) db
      else
        match docs_by_id db doc_id with
        | [] => Returned (error 404 "Document not found") db
        | doc :: _ =>
            match or_null_str (Docs.version doc) with
            | None =>
                Returned
                  (error 400 "Document has no current version — cannot bump null") db
            | Some version =>
                match bumpVersion version version_bump with
                | Raised message => Threw message
                | Done newVersion =>
                    let username := DocsRequest.user req in
                    let updatedFrontmatter :=
                      JObj (with_member "version" (JStr newVersion)
                              (spread (or_json (Some (json_of_jsonb (Docs.frontmatter doc)))
                                         (JObj [])))) in
                    (* step 5 *)
                    let db1 :=
                      with_docs
                        (map (fun d =>
                                if (Docs.id d =? doc_id)%Z then
                                  {| Docs.id := Docs.id d;
                                     Docs.slug := Docs.slug d;
                                     Docs.file_path := Docs.file_path d;
                                     Docs.title := Docs.title d;
                                     Docs.body_md := Some body_md;
                                     Docs.version := Some newVersion;
                                     Docs.frontmatter := Some updatedFrontmatter;
                                     Docs.author := Docs.author d;
                                     Docs.is_edited := true;
                                     Docs.edited_by := Some username;
                                     Docs.updated_at := now db |}
                                else d)
                           (docs db))
                        db in
                    (* step 6 *)
                    let db2 :=
                      with_doc_versions
                        (map (fun v =>
                                if (DocVersions.doc_id v =? doc_id)%Z
                                   && (DocVersions.version v =? newVersion)
                                   && match DocVersions.changes v with
                                      | None => true
                                      | Some _ => false
                                      end
                                then
                                  {| DocVersions.id := DocVersions.id v;
                                     DocVersions.doc_id := DocVersions.doc_id v;
                                     DocVersions.version := DocVersions.version v;
                                     DocVersions.title := DocVersions.title v;
                                     DocVersions.body_md := DocVersions.body_md v;
                                     DocVersions.frontmatter := DocVersions.frontmatter v;
                                     DocVersions.author := DocVersions.author v;
                                     DocVersions.published_by := DocVersions.published_by v;
                                     DocVersions.published_at := DocVersions.published_at v;
                                     DocVersions.content_hash := DocVersions.content_hash v;
                                     DocVersions.superseded_at := DocVersions.superseded_at v;
                                     DocVersions.superseded_by := DocVersions.superseded_by v;
                                     DocVersions.changes := Some change_summary |}
                                else v)
                           (doc_versions db1))
                        db1 in
                    (* steps 7 to 9 *)
                    let qmsDocumentId := or_null_str (getQmsDocumentId db2 doc_id) in
                    let db3 :=
                      match qmsDocumentId with
                      | Some qmsDocumentId =>
                          let db' :=
                            with_controlled_documents
                              (map (fun cd =>
                                      if opt_Z_eqb (ControlledDocuments.docs_id cd) doc_id then
                                        cd_with_lifecycle (ControlledDocuments.status cd)
                                          (Some newVersion)
                                          (ControlledDocuments.effective_date cd)
                                          (ControlledDocuments.updated_at cd) cd
                                      else cd)
                                 (controlled_documents db2))
                              db2 in
                          snd (insert_transition db' qmsDocumentId "content_update" None None
                                 (Some version) (Some newVersion) username
                                 (Some change_summary) None)
                      | None => db2
                      end in
                    match docs_by_id db3 doc_id with
                    | updatedDoc :: _ =>
                        Returned
                          (ok (with_member "qms_synced"
                                 (JBool match qmsDocumentId with Some _ => true | None => false end)
                                 (filter (fun kv => negb (fst kv =? "body_tsv"))
                                    (("@id", JStr (DocsRequest.root_url req ++ "/@docs/save"))
                                     :: doc_json updatedDoc))))
                          db3
                    | [] =>
                        Returned
                          (ok [ ("@id", JStr (DocsRequest.root_url req ++ "/@docs/save"));
                                ("qms_synced",
                                 JBool match qmsDocumentId with
                                       | Some _ => true | None => false end) ])
                          db3
                    end
                end
            end
        end
  | _, _, _, _ => Returned (error 400 "Missing required fields: doc_id, body_md, version_bump, change_summary") db
  end.



(** ** The remaining write handlers *)

Definition VALID_EVIDENCE_TYPES : list string :=
  [ "justification"; "qualification"; "coi_declaration"; "review_comment";
    "self_review_checklist"; "approval_justification"; "change_classification";
    "rejection_feedback" ].

(** *** POST /@qms/evidence *)
Definition postQmsEvidence (req : EvidenceRequest.t) (db : DB) : Result :=
  match or_null_str (EvidenceRequest.document_id req),
        or_null_str (EvidenceRequest.evidence_type req),
        EvidenceRequest.evidence_data req with
  | Some document_id, Some evidence_type, Some evidence_data =>
      if negb (truthy evidence_data) then
        Returned (error 400 "Required fields: document_id, evidence_type, evidence_data") db
      else if negb (existsb (String.eqb evidence_type) VALID_EVIDENCE_TYPES) then
        Returned
          (error 400 ("Invalid evidence_type. Valid types: " ++ join ", " VALID_EVIDENCE_TYPES))
          db
      else
        match cd_by_document_id db document_id with
        | [] => Returned (error 404 "Document not found") db
        | _ :: _ =>
            let transition_missing :=
              match or_null_id (EvidenceRequest.transition_id req) with
              | Some tid =>
                  negb (existsb
                          (fun t => (DocumentTransitions.id t =? tid)%Z
                                    && (DocumentTransitions.document_id t =? document_id))
                          (document_transitions db))
              | None => false
              end in
            if transition_missing then
              Returned (error 404 "Transition not found for this document") db
            else
              let recorded_by := or_str (EvidenceRequest.user req) "unknown" in
              let db1 :=
                insertEvidence db document_id (EvidenceRequest.transition_id req)
                  evidence_type evidence_data (EvidenceRequest.evidence_text req)
                  recorded_by in
              Returned
                (created [ ("@id", JStr (EvidenceRequest.root_url req ++ "/@qms/evidence"));
                           ("document_id", JStr document_id);
                           ("evidence_type", JStr evidence_type);
                           ("evidence_data", evidence_data);
                           ("recorded_by", JStr recorded_by) ])
                db1
        end
  | _, _, _ =>
      Returned (error 400 "Required fields: document_id, evidence_type, evidence_data") db
  end.

(** The register row and the 'register' transition that both
    registrations from the knowledge base insert. *)
Definition register_from_kb (item : QmsRequest.t) (performed_by default_notes comment : string)
    (file_path : option string) (db : DB) : ControlledDocuments.t * DB :=
  let document_id := or_str (QmsRequest.document_id item) "" in
  let version := field_default (QmsRequest.version item) "1.0" in
  let status := field_default (QmsRequest.status item) "effective" in
  let (i, db1) := fresh db in
  let row :=
    {| ControlledDocuments.id := i;
       ControlledDocuments.document_id := document_id;
       ControlledDocuments.title := field_or_null (QmsRequest.title item);
       ControlledDocuments.document_type := field_or_null (QmsRequest.document_type item);
       ControlledDocuments.domain_code := field_or_null (QmsRequest.domain_code item);
       ControlledDocuments.version := version;
       ControlledDocuments.status := status;
       ControlledDocuments.classification :=
         field_default (QmsRequest.classification item) "internal";
       ControlledDocuments.effective_date := None;
       ControlledDocuments.next_review_date := None;
       ControlledDocuments.owner := None;
       ControlledDocuments.author := None;
       ControlledDocuments.reviewer := None;
       ControlledDocuments.approver := None;
       ControlledDocuments.implements := None;
       ControlledDocuments.retention_years := None;
       ControlledDocuments.retention_basis := None;
       ControlledDocuments.location := file_path;
       ControlledDocuments.docs_id := field_or_null_Z (QmsRequest.docs_id item);
       ControlledDocuments.body_md := None;
       ControlledDocuments.notes :=
         Some (match field_or_null (QmsRequest.notes item) with
               | Some n => n
               | None => default_notes
               end);
       ControlledDocuments.updated_at := now db1 |} in
  let db2 := with_controlled_documents (controlled_documents db1 ++ [row]) db1 in
  (row,
   snd (insert_transition db2 document_id "register" None status None version performed_by
          (Some comment) None)).

(** [!docs_id || !document_id || !title || !document_type || !domain_code] *)
Definition kb_fields_missing (item : QmsRequest.t) : bool :=
  match field_or_null_Z (QmsRequest.docs_id item) with None => true | Some _ => false end
  || negb (truthy_str (QmsRequest.document_id item))
  || field_falsy (QmsRequest.title item)
  || field_falsy (QmsRequest.document_type item)
  || field_falsy (QmsRequest.domain_code item).

(** [SELECT id, file_path FROM i18n.docs WHERE id = ?] *)
Definition kb_doc (db : DB) (item : QmsRequest.t) : list Docs.t :=
  match field_or_null_Z (QmsRequest.docs_id item) with
  | Some i => docs_by_id db i
  | None => []
  end.

(** *** POST /@qms/register/from-kb *)
Definition postQmsFromKb (req : QmsRequest.t) (db : DB) : Result :=
  if kb_fields_missing req then
    Returned
      (error 400 "Required fields: docs_id, document_id, title, document_type, domain_code") db
  else
    match kb_doc db req with
    | [] => Returned (error 404 "Knowledge Base document not found") db
    | kbDoc :: _ =>
        let (row, db1) :=
          register_from_kb req (or_str (QmsRequest.user req) "unknown")
            "Registered from Knowledge Base"
            "Registered from Knowledge Base via reconciliation" (Docs.file_path kbDoc) db in
        Returned
          (created (("@id", JStr (register_url req (ControlledDocuments.document_id row)))
                    :: cd_json row))
          db1
    end.

(** One turn of the loop of the batch registration: the ids registered,
    the errors collected and the database so far. *)
Definition batch_step (performed_by : string) (acc : list string * list Json * DB)
    (item : QmsRequest.t) : list string * list Json * DB :=
  let '(registered, errors, db) := acc in
  if kb_fields_missing item then
    (registered,
     (errors ++ [ JObj [ ("document_id", JStr (or_str (QmsRequest.document_id item) "(missing)"));
                         ("error", JStr "Missing required fields") ] ])%list,
     db)
  else
    match kb_doc db item with
    | [] =>
        (registered,
         (errors ++ [ JObj [ ("document_id", JStr (or_str (QmsRequest.document_id item) ""));
                             ("error", JStr "KB document not found") ] ])%list,
         db)
    | kbDoc :: _ =>
        let (row, db1) :=
          register_from_kb item performed_by "Batch registered from Knowledge Base"
            "Batch registered from Knowledge Base via reconciliation" (Docs.file_path kbDoc) db in
        ((registered ++ [ControlledDocuments.document_id row])%list, errors, db1)
    end.

(** *** POST /@qms/register/from-kb/batch; [items] is [None] when the
    member is not an array. *)
Definition postQmsFromKbBatch (user : option string) (root_url : string)
    (items : option (list QmsRequest.t)) (db : DB) : Result :=
  match items with
  | Some ((_ :: _) as items) =>
      let '(registered, errors, db1) :=
        fold_left (batch_step (or_str user "unknown")) items ([], [], db) in
      Returned
        (created [ ("@id", JStr (root_url ++ "/@qms/register/from-kb/batch"));
                   ("registered", JArr (map JStr registered));
                   ("registered_count", JNum (Z.of_nat (List.length registered)));
                   ("errors", JArr errors);
                   ("error_count", JNum (Z.of_nat (List.length errors))) ])
        db1
  | _ => Returned (error 400 "Required: items array with registration data") db
  end.

(** SQL [s LIKE pattern]: [%] stands for any text, [_] for any character
    and a backslash makes the next character literal. *)
Fixpoint like (pattern : string) : string -> bool :=
  match pattern with
  | EmptyString => fun s => match s with EmptyString => true | _ => false end
  | String c rest =>
      if Ascii.eqb c "%"%char then
        fix any (s : string) : bool :=
          like rest s || match s with String _ s' => any s' | EmptyString => false end
      else if Ascii.eqb c "_"%char then
        fun s => match s with String _ s' => like rest s' | EmptyString => false end
      else if Ascii.eqb c (ascii_of_nat 92) then
        match rest with
        | String e rest' =>
            fun s =>
              match s with
              | String c' s' => Ascii.eqb c' e && like rest' s'
              | EmptyString => false
              end
        | EmptyString => fun _ => false
        end
      else
        fun s =>
          match s with
          | String c' s' => Ascii.eqb c' c && like rest s'
          | EmptyString => false
          end
  end.

(** [s.replace(/-/g, '')] *)
Fixpoint remove_dashes (s : string) : string :=
  match s with
  | EmptyString => EmptyString
  | String c rest =>
      if Ascii.eqb c "-"%char then remove_dashes rest else String c (remove_dashes rest)
  end.

Definition newline : string := String (ascii_of_nat 10) EmptyString.

Definition session_json (ts : TrainingSessions.t) (tm : TrainingModules.t)
    : list (string * Json) :=
  [ ("session_id", JNum (TrainingSessions.id ts));
    ("user_id", JStr (TrainingSessions.user_id ts));
    ("training_doc_id", json_of_text (TrainingSessions.training_doc_id ts));
    ("current_step", JNum (TrainingSessions.current_step ts));
    ("session_status", JStr (TrainingSessions.status ts));
    ("module_id", JNum (TrainingModules.id tm));
    ("module_code", JStr (TrainingModules.module_code tm));
    ("module_title", JStr (TrainingModules.title tm)) ].

(** *** POST /@qms/training/session/start *)
Definition postTrainingStart (req : TrainingRequest.t) (db : DB) : Result :=
  let userId := or_str (TrainingRequest.user req) "unknown" in
  match or_null_str (TrainingRequest.module_code req) with
  | None => Returned (error 400 "module_code is required") db
  | Some module_code =>
      match filter (fun tm => (TrainingModules.module_code tm =? module_code)
                              && TrainingModules.active tm)
              (training_modules db) with
      | [] => Returned (error 404 "Training module not found or inactive") db
      | mod_ :: _ =>
          match filter (fun ts => (TrainingSessions.user_id ts =? userId)
                                  && (TrainingSessions.module_id ts =? TrainingModules.id mod_)%Z
                                  && (TrainingSessions.status ts =? "in_progress"))
                  (training_sessions db) with
          | existing :: _ =>
              Returned
                {| status := Some 409;
                   json :=
                     JObj [ ("error",
                             JStr "You already have an in-progress session for this module");
                            ("session_id", JNum (TrainingSessions.id existing)) ] |}
                db
          | [] =>
              let dateStr := remove_dashes (TrainingRequest.js_date req) in
              let docId0 := "TST-TRN-" ++ userId ++ "-" ++ dateStr in
              let count :=
                List.length
                  (filter (fun d => like ("training/" ++ docId0 ++ "%") (Docs.slug d))
                     (docs db)) in
              let docId :=
                if (0 <? count)%nat
                then docId0 ++ "-" ++ string_of_Z (Z.of_nat count + 1)
                else docId0 in
              let slug := "training/" ++ docId in
              let title := "Training Document: " ++ docId in
              let bodyMd :=
                join newline
                  [ "# " ++ title; "";
                    "**Module:** " ++ TrainingModules.title mod_;
                    "**SOP Reference:** "
                    ++ to_string (json_of_text (TrainingModules.sop_reference mod_));
                    "**Trainee:** " ++ userId;
                    "**Created:** " ++ TrainingRequest.js_date req;
                    ""; "---"; ""; "## Purpose"; "";
                    "This is a training document created as part of the QMS competence certification process. ";
                    "Edit this document to demonstrate your ability to use the document control system.";
                    ""; "## Content"; "";
                    "*Replace this section with your own content during training.*"; "" ] in
              (* 1. i18n.docs *)
              let (docsId, db1) := fresh db in
              let db2 :=
                with_docs
                  (docs db1 ++
                   [ {| Docs.id := docsId;
                        Docs.slug := slug;
                        Docs.file_path := Some ("training/" ++ docId ++ ".md");
                        Docs.title := Some title;
                        Docs.body_md := Some bodyMd;
                        Docs.version := Some "0.1";
                        Docs.frontmatter := None;
                        Docs.author := Some userId;
                        Docs.is_edited := false;
                        Docs.edited_by := None;
                        Docs.updated_at := now db1 |} ])
                  db1 in
              (* 2. qms.controlled_documents *)
              let (cdId, db3) := fresh db2 in
              let db4 :=
                with_controlled_documents
                  (controlled_documents db3 ++
                   [ {| ControlledDocuments.id := cdId;
                        ControlledDocuments.document_id := docId;
                        ControlledDocuments.title := Some title;
                        ControlledDocuments.document_type := Some "REC";
                        ControlledDocuments.domain_code := Some "HR";
                        ControlledDocuments.version := Some "0.1";
                        ControlledDocuments.status := Some "draft";
                        ControlledDocuments.classification := Some "internal";
                        ControlledDocuments.effective_date := None;
                        ControlledDocuments.next_review_date := None;
                        ControlledDocuments.owner := Some userId;
                        ControlledDocuments.author := Some userId;
                        ControlledDocuments.reviewer := None;
                        ControlledDocuments.approver := None;
                        ControlledDocuments.implements := None;
                        ControlledDocuments.retention_years := None;
                        ControlledDocuments.retention_basis := None;
                        ControlledDocuments.location := None;
                        ControlledDocuments.docs_id := Some docsId;
                        ControlledDocuments.body_md := Some bodyMd;
                        ControlledDocuments.notes :=
                          Some ("Training document for module "
                                ++ TrainingModules.module_code mod_);
                        ControlledDocuments.updated_at := now db3 |} ])
                  db3 in
              (* 3. the create transition *)
              let (_, db5) :=
                insert_transition db4 docId "create" None (Some "draft") None (Some "0.1")
                  userId
                  (Some ("Training session started for " ++ TrainingModules.module_code mod_))
                  None in
              (* 4. the session *)
              let (sessionId, db6) := fresh db5 in
              let session :=
                {| TrainingSessions.id := sessionId;
                   TrainingSessions.user_id := userId;
                   TrainingSessions.module_id := TrainingModules.id mod_;
                   TrainingSessions.training_doc_id := Some docId;
                   TrainingSessions.current_step := 1;
                   TrainingSessions.status := "in_progress";
                   TrainingSessions.started_at := now db6;
                   TrainingSessions.completed_at := None;
                   TrainingSessions.certificate_id := None |} in
              let db7 := with_training_sessions (training_sessions db6 ++ [session]) db6 in
              Returned
                (created
                   (("@id", JStr (TrainingRequest.root_url req
                                  ++ "/@qms/training/session?module_code="
                                  ++ encodeURIComponent module_code))
                    :: session_json session mod_ ++ [ ("training_doc_slug", JStr slug) ]))
                db7
          end
      end
  end.

(** ** Read handlers *)

(** *** GET /@docs/view *)
Definition getDoc (root_url : string) (slug : option string) (db : DB) : Response :=
  match or_null_str slug with
  | None => error 400 "Document slug required"
  | Some slug =>
      match docs_by_slug db slug with
      | [] => error 404 "Document not found"
      | doc :: _ =>
          ok (("@id", JStr (root_url ++ "/@docs/view?slug=" ++ encodeURIComponent slug))
              :: doc_json doc)
      end
  end.

(** *** GET /@qms/training/certificate *)
Definition getTrainingCertificate (req : TrainingRequest.t) (db : DB) : Response :=
  match or_null_id (TrainingRequest.certificate_id req) with
  | None => error 400 "certificate_id query parameter required"
  | Some certificate_id =>
      let rows :=
        flat_map
          (fun tc =>
             flat_map
               (fun ts =>
                  map (fun tm => (tc, tm))
                    (filter (fun tm => (TrainingModules.id tm =? TrainingSessions.module_id ts)%Z)
                       (training_modules db)))
               (filter (fun ts => (TrainingSessions.id ts =? TrainingCertificates.session_id tc)%Z)
                  (training_sessions db)))
          (filter (fun tc => (TrainingCertificates.certificate_id tc =? certificate_id)%Z)
             (training_certificates db)) in
      match rows with
      | [] => error 404 "Certificate not found"
      | (tc, tm) :: _ =>
          ok [ ("@id", JStr (TrainingRequest.root_url req
                             ++ "/@qms/training/certificate?certificate_id="
                             ++ encodeURIComponent (string_of_Z certificate_id)));
               ("certificate_id", JNum (TrainingCertificates.certificate_id tc));
               ("session_id", JNum (TrainingCertificates.session_id tc));
               ("user_id", JStr (TrainingCertificates.user_id tc));
               ("user_fullname", JStr (TrainingCertificates.user_fullname tc));
               ("module_code", JStr (TrainingCertificates.module_code tc));
               ("module_title", JStr (TrainingCertificates.module_title tc));
               ("sop_reference", json_of_text (TrainingModules.sop_reference tm)) ]
      end
  end.

(** *** GET /@qms/register/:document_id *)
Definition getQmsDocument (root_url document_id : string) (db : DB) : Response :=
  if negb (DOC_ID_RE document_id) then error 400 "Invalid document ID format"
  else
    match cd_by_document_id db document_id with
    | [] => error 404 "Document not found"
    | doc :: _ =>
        ok ((("@id", JStr (root_url ++ "/@qms/register/" ++ encodeURIComponent document_id))
             :: cd_json doc)
            ++ [ ("transitions",
                  JArr (map (fun t => JObj (transition_json t))
                          (filter (fun t => DocumentTransitions.document_id t =? document_id)
                             (document_transitions db)))) ])
    end.

(** The handlers below query tables and views that are not modelled;
    they are functions of the request and of the rows their queries
    return. *)

(** *** GET /@docs/links *)
Definition getDocLinks (root_url : string) (doc_id : option string) (rows : list Json)
    : Response :=
  match or_null_str doc_id with
  | None => error 400 "doc_id query parameter required"
  | Some doc_id =>
      ok [ ("@id", JStr (root_url ++ "/@docs/links?doc_id=" ++ encodeURIComponent doc_id));
           ("items", JArr rows) ]
  end.

(** *** POST /@docs/links; [typeCheck] are the rows of the relationship
    type, [inserted] the rows the INSERT ... ON CONFLICT DO NOTHING
    returns, each with its id. *)
Definition postDocLinks (req : LinkRequest.t) (typeCheck : list Json)
    (inserted : list (Z * list (string * Json))) : Response :=
  match or_null_str (LinkRequest.source_doc_id req),
        or_null_str (LinkRequest.target_doc_id req),
        or_null_str (LinkRequest.relationship_type req) with
  | Some source_doc_id, Some target_doc_id, Some relationship_type =>
      if source_doc_id =? target_doc_id then error 400 "Cannot link a document to itself"
      else
        match typeCheck with
        | [] => error 400 ("Invalid relationship_type: " ++ relationship_type)
        | _ :: _ =>
            match inserted with
            | [] => error 409 "Link already exists"
            | (id, row) :: _ =>
                created (("@id", JStr (LinkRequest.root_url req ++ "/@docs/links/"
                                       ++ string_of_Z id)) :: row)
            end
        end
  | _, _, _ =>
      error 400 "Missing required fields: source_doc_id, target_doc_id, relationship_type"
  end.

(** *** DELETE /@docs/links/:id; [deleted] are the rows the DELETE
    returns. *)
Definition deleteDocLink (deleted : list Json) : Response :=
  match deleted with
  | [] => error 404 "Link not found"
  | _ :: _ => {| status := Some 204; json := JNull |}
  end.

(** *** GET /@qms/evidence *)
Definition getQmsEvidence (root_url : string) (document_id : option string) (rows : list Json)
    : Response :=
  match or_null_str document_id with
  | None => error 400 "document_id query parameter required"
  | Some document_id =>
      ok [ ("@id", JStr (root_url ++ "/@qms/evidence?document_id="
                         ++ encodeURIComponent document_id));
           ("items", JArr rows);
           ("items_total", JNum (Z.of_nat (List.length rows))) ]
  end.

(** *** GET /@qms/evidence/summary *)
Definition getQmsEvidenceSummary (root_url : string) (document_id : option string)
    (rows : list Json) : Response :=
  match or_null_str document_id with
  | None => error 400 "document_id query parameter required"
  | Some document_id =>
      let required r := truthy_opt (member r "required") in
      let required_total := List.length (filter required rows) in
      let required_captured :=
        List.length
          (filter (fun r => required r && truthy_opt (member r "captured")) rows) in
      ok [ ("@id", JStr (root_url ++ "/@qms/evidence/summary?document_id="
                         ++ encodeURIComponent document_id));
           ("document_id", JStr document_id);
           ("items", JArr rows);
           ("required_total", JNum (Z.of_nat required_total));
           ("required_captured", JNum (Z.of_nat required_captured));
           ("complete", JBool (required_captured =? required_total)%nat) ]
  end.

(** *** GET /@qms/issues/:report_id *)
Definition getQmsIssue (root_url report_id : string) (rows : list (list (string * Json)))
    (links : list Json) : Response :=
  match rows with
  | [] => error 404 "Issue not found"
  | issue :: _ =>
      ok ((("@id", JStr (root_url ++ "/@qms/issues/" ++ encodeURIComponent report_id))
           :: issue) ++ [ ("links", JArr links) ])
  end.

(** The remaining handlers have no return statement with a status: GET
    /@docs, /@docs/search, /@docs/links/types, /@qms/training/modules,
    /@qms/training/session, /@qms/dashboard, /@qms/register,
    /@qms/register/unregistered, /@qms/reviews, /@qms/external,
    /@qms/issues, the /@polyglot routes and the /@translations routes. *)
Definition listing (root_url path : string) (body : list (string * Json)) : Response :=
  ok (("@id", JStr (root_url ++ path)) :: body).

(** ** The responses of the route handlers *)

(** [produced r]: some route handler of the repository returns the
    response [r], for some request and database. *)
Inductive produced : Response -> Prop :=
| by_getDocDraft req db r db' : getDocDraft req db = Returned r db' -> produced r
| by_putDocDraft req db r db' : putDocDraft req db = Returned r db' -> produced r
| by_deleteDocDraft req db r db' : deleteDocDraft req db = Returned r db' -> produced r
| by_postDocDraftSubmit req db r db' : postDocDraftSubmit req db = Returned r db' -> produced r
| by_postDocDraftApprove req db r db' : postDocDraftApprove req db = Returned r db' -> produced r
| by_postDocDraftReject req db r db' : postDocDraftReject req db = Returned r db' -> produced r
| by_postDocsSave req db r db' : postDocsSave req db = Returned r db' -> produced r
| by_getDoc root_url slug db : produced (getDoc root_url slug db)
| by_getDocLinks root_url doc_id rows : produced (getDocLinks root_url doc_id rows)
| by_postDocLinks req typeCheck inserted : produced (postDocLinks req typeCheck inserted)
| by_deleteDocLink deleted : produced (deleteDocLink deleted)
| by_getQmsEvidence root_url document_id rows :
    produced (getQmsEvidence root_url document_id rows)
| by_getQmsEvidenceSummary root_url document_id rows :
    produced (getQmsEvidenceSummary root_url document_id rows)
| by_postQmsEvidence req db r db' : postQmsEvidence req db = Returned r db' -> produced r
| by_postTrainingStart req db r db' : postTrainingStart req db = Returned r db' -> produced r
| by_postTrainingValidateStep req db r db' :
    postTrainingValidateStep req db = Returned r db' -> produced r
| by_postTrainingAbandon req db r db' : postTrainingAbandon req db = Returned r db' -> produced r
| by_getTrainingCertificate req db : produced (getTrainingCertificate req db)
| by_getQmsDocument root_url document_id db : produced (getQmsDocument root_url document_id db)
| by_getQmsIssue root_url report_id rows links :
    produced (getQmsIssue root_url report_id rows links)
| by_postQmsDocument req db r db' : postQmsDocument req db = Returned r db' -> produced r
| by_postQmsFromKb req db r db' : postQmsFromKb req db = Returned r db' -> produced r
| by_postQmsFromKbBatch user root_url items db r db' :
    postQmsFromKbBatch user root_url items db = Returned r db' -> produced r
| by_putQmsDocument req db r db' : putQmsDocument req db = Returned r db' -> produced r
| by_postQmsTransition req db r db' : postQmsTransition req db = Returned r db' -> produced r
| by_listing root_url path body : produced (listing root_url path body).

(** An error response as the handlers shape it: one of the status codes
    the routes use and an object with an [error] message. *)
Definition error_response (codes : list Z) (r : Response) : Prop :=
  In (status_code r) codes
  /\ exists message rest, json r = JObj (("error", JStr message) :: rest).

(** ** Sample data *)

Definition sample_schema : Schema :=
  {| draft_status_default := "draft";
     draft_touch_on_update := true;
     evidence_superseded_default := false;
     role_active_default := true |}.

Definition empty_db : DB :=
  {| docs := []; doc_drafts := []; doc_versions := []; controlled_documents := [];
     document_transitions := []; document_evidence := []; ref_evidence_types := [];
     training_modules := []; training_sessions := []; training_step_completions := [];
     training_certificates := []; user_roles := []; users := [];
     next_id := 1000; now := 500; current_date := "2026-03-01" |}.

Definition doc_sop : Docs.t :=
  {| Docs.id := 1; Docs.slug := "sop-dc-001"; Docs.file_path := Some "qms/sop-dc-001.md";
     Docs.title := Some "Document Control"; Docs.body_md := Some "Old body";
     Docs.version := Some "1.0"; Docs.frontmatter := None; Docs.author := Some "alice";
     Docs.is_edited := false; Docs.edited_by := None; Docs.updated_at := 100 |}.

(** A draft of [doc_sop] under review, for version 1.1. *)
Definition draft_sop : DocDrafts.t :=
  {| DocDrafts.id := 7; DocDrafts.doc_id := 1; DocDrafts.version := "1.1";
     DocDrafts.title := Some "Document Control (revised)";
     DocDrafts.body_md := Some "New body"; DocDrafts.frontmatter := None;
     DocDrafts.status := "in_review"; DocDrafts.created_by := "alice";
     DocDrafts.updated_by := "alice"; DocDrafts.created_at := 200;
     DocDrafts.updated_at := 210; DocDrafts.reviewer_notes := None |}.

(** A draft of [doc_sop] under review that keeps the version 1.0 and has
    no title of its own. *)
Definition draft_same_version : DocDrafts.t :=
  {| DocDrafts.id := 8; DocDrafts.doc_id := 1; DocDrafts.version := "1.0";
     DocDrafts.title := None;
     DocDrafts.body_md := Some "New body"; DocDrafts.frontmatter := None;
     DocDrafts.status := "in_review"; DocDrafts.created_by := "alice";
     DocDrafts.updated_by := "alice"; DocDrafts.created_at := 200;
     DocDrafts.updated_at := 210; DocDrafts.reviewer_notes := None |}.

Definition cd_sop : ControlledDocuments.t :=
  {| ControlledDocuments.id := 3; ControlledDocuments.document_id := "SOP-DC-001";
     ControlledDocuments.title := Some "Document Control";
     ControlledDocuments.document_type := Some "SOP";
     ControlledDocuments.domain_code := Some "DC";
     ControlledDocuments.version := Some "1.0";
     ControlledDocuments.status := Some "draft";
     ControlledDocuments.classification := Some "internal";
     ControlledDocuments.effective_date := None;
     ControlledDocuments.next_review_date := None;
     ControlledDocuments.owner := Some "alice"; ControlledDocuments.author := Some "alice";
     ControlledDocuments.reviewer := None; ControlledDocuments.approver := None;
     ControlledDocuments.implements := None;
     ControlledDocuments.retention_years := Some 10;
     ControlledDocuments.retention_basis := None; ControlledDocuments.location := None;
     ControlledDocuments.docs_id := Some 1; ControlledDocuments.body_md := None;
     ControlledDocuments.notes := None; ControlledDocuments.updated_at := 100 |}.

Definition ret_justification : RefEvidenceTypes.t :=
  {| RefEvidenceTypes.code := "justification"; RefEvidenceTypes.label := "Justification";
     RefEvidenceTypes.required := true; RefEvidenceTypes.phase := 1 |}.

Definition ret_coi : RefEvidenceTypes.t :=
  {| RefEvidenceTypes.code := "coi_declaration";
     RefEvidenceTypes.label := "Conflict of interest declaration";
     RefEvidenceTypes.required := true; RefEvidenceTypes.phase := 2 |}.

Definition evidence_justification_sop : DocumentEvidence.t :=
  {| DocumentEvidence.id := 40; DocumentEvidence.document_id := "SOP-DC-001";
     DocumentEvidence.transition_id := None;
     DocumentEvidence.evidence_type := "justification";
     DocumentEvidence.evidence_data := JObj [ ("why", JStr "annual review") ];
     DocumentEvidence.evidence_text := Some "Justification: annual review";
     DocumentEvidence.recorded_by := "alice"; DocumentEvidence.recorded_at := 205;
     DocumentEvidence.is_superseded := false |}.

(** A registered document under review whose COI declaration is missing. *)
Definition db_missing_coi : DB :=
  {| docs := [doc_sop]; doc_drafts := [draft_sop]; doc_versions := [];
     controlled_documents := [cd_sop];
     document_transitions := []; document_evidence := [evidence_justification_sop];
     ref_evidence_types := [ret_justification; ret_coi];
     training_modules := []; training_sessions := []; training_step_completions := [];
     training_certificates := []; user_roles := []; users := [];
     next_id := 1000; now := 500; current_date := "2026-03-01" |}.

(** An unregistered document with a draft under review. *)
Definition db_unregistered (draft : DocDrafts.t) : DB :=
  with_docs [doc_sop] (with_doc_drafts [draft] empty_db).

Definition draft_request (slug : string) (user : string) : DraftRequest.t :=
  {| DraftRequest.slug := Some slug; DraftRequest.user := Some user;
     DraftRequest.version := None; DraftRequest.title := None;
     DraftRequest.body_md := None; DraftRequest.frontmatter := None;
     DraftRequest.justification := None; DraftRequest.coi_declaration := None;
     DraftRequest.qualification := None; DraftRequest.comment := None;
     DraftRequest.checklist := None; DraftRequest.approval_justification := None;
     DraftRequest.change_classification := None; DraftRequest.notes := None;
     DraftRequest.rejection := None; DraftRequest.root_url := "http://localhost:8080" |}.

(** PUT /@docs/draft for [doc_sop] at a version. *)
Definition put_request (version body : string) : DraftRequest.t :=
  {| DraftRequest.slug := Some "sop-dc-001"; DraftRequest.user := Some "alice";
     DraftRequest.version := Some version; DraftRequest.title := None;
     DraftRequest.body_md := Some (Some body); DraftRequest.frontmatter := None;
     DraftRequest.justification := None; DraftRequest.coi_declaration := None;
     DraftRequest.qualification := None; DraftRequest.comment := None;
     DraftRequest.checklist := None; DraftRequest.approval_justification := None;
     DraftRequest.change_classification := None; DraftRequest.notes := None;
     DraftRequest.rejection := None; DraftRequest.root_url := "http://localhost:8080" |}.

(** The database a handler leaves, or the one it found when it throws. *)
Definition db_after (res : Result) (db : DB) : DB :=
  match res with Returned _ db' => db' | Threw _ => db end.

(** PUT /@qms/register/SOP-DC-001 with body
    [{ status: 'effective', version: '2.0' }]. *)
Definition put_status_request : QmsRequest.t :=
  {| QmsRequest.param_document_id := "SOP-DC-001"; QmsRequest.user := Some "bob";
     QmsRequest.root_url := "http://localhost:8080"; QmsRequest.document_id := None;
     QmsRequest.title := None; QmsRequest.document_type := None;
     QmsRequest.domain_code := None; QmsRequest.version := Some (Some "2.0");
     QmsRequest.status := Some (Some "effective"); QmsRequest.classification := None;
     QmsRequest.effective_date := None; QmsRequest.next_review_date := None;
     QmsRequest.owner := None; QmsRequest.author := None; QmsRequest.reviewer := None;
     QmsRequest.approver := None; QmsRequest.implements := None;
     QmsRequest.retention_years := None; QmsRequest.retention_basis := None;
     QmsRequest.location := None; QmsRequest.docs_id := None; QmsRequest.body_md := None;
     QmsRequest.notes := None; QmsRequest.action := None; QmsRequest.to_status := None;
     QmsRequest.to_version := None; QmsRequest.comment := None;
     QmsRequest.evidence_ref := None |}.

Definition training_module : TrainingModules.t :=
  {| TrainingModules.id := 1; TrainingModules.module_code := "DC-BASIC";
     TrainingModules.title := "Document control basics";
     TrainingModules.sop_reference := Some "SOP-DC-001";
     TrainingModules.steps :=
       [ {| TrainingModules.step := 1; TrainingModules.key := "draft";
            TrainingModules.validation := "draft_in_review" |};
         {| TrainingModules.step := 2; TrainingModules.key := "effective";
            TrainingModules.validation := "document_effective" |} ];
     TrainingModules.grants_roles := Some ["author"; "reviewer"];
     TrainingModules.active := true |}.

Definition training_session (current_step : Z) : TrainingSessions.t :=
  {| TrainingSessions.id := 5; TrainingSessions.user_id := "alice";
     TrainingSessions.module_id := 1;
     TrainingSessions.training_doc_id := Some "SOP-DC-001";
     TrainingSessions.current_step := current_step;
     TrainingSessions.status := "in_progress"; TrainingSessions.started_at := 300;
     TrainingSessions.completed_at := None; TrainingSessions.certificate_id := None |}.

(** A training database: alice's session at a step, her training
    document with a draft under review and a register row of the given
    status, and an inactive 'author' role of hers. *)
Definition db_training (current_step : Z) (register_status : string) : DB :=
  {| docs := [doc_sop]; doc_drafts := [draft_sop]; doc_versions := [];
     controlled_documents :=
       [ cd_with_lifecycle (Some register_status) (Some "1.0") None 100 cd_sop ];
     document_transitions := []; document_evidence := [];
     ref_evidence_types := [];
     training_modules := [training_module];
     training_sessions := [training_session current_step];
     training_step_completions := [];
     training_certificates := [];
     user_roles :=
       [ {| UserRoles.user_id := "alice"; UserRoles.role_code := "author";
            UserRoles.granted_by := "admin"; UserRoles.active := false;
            UserRoles.granted_at := 50 |} ];
     users := [ {| Users.id := "alice"; Users.fullname := "Alice Example" |} ];
     next_id := 1000; now := 500; current_date := "2026-03-01" |}.

Definition step_request (user : string) (step_number : Z) : TrainingRequest.t :=
  {| TrainingRequest.user := Some user; TrainingRequest.root_url := "http://localhost:8080";
     TrainingRequest.js_date := "2026-03-01"; TrainingRequest.session_id := Some 5;
     TrainingRequest.step_number := Some step_number;
     TrainingRequest.module_code := None; TrainingRequest.certificate_id := None |}.

(** ** The save dialog (frontend, components/Docs/DocSaveDialog) *)

(** [bumpVersion] of the dialog, which previews the version a save will
    give.  [version] is [doc?.version]; the [switch] falls through from
    'patch' to its default. *)
Definition DocSaveDialog_bumpVersion (version : option string) (bump : string) : string :=
  let parts := map Number (split "."%char (or_str version "0.0.0")) in
  let '(major, minor, patch) := normalize parts in
  if bump =? "major" then
    show_num (succ_num major) ++ ".0.0"
  else if bump =? "minor" then
    show_num major ++ "." ++ show_num (succ_num minor) ++ ".0"
  else
    show_num major ++ "." ++ show_num minor ++ "." ++ show_num (succ_num patch).

(** ** Further sample data *)

(** A draft of [doc_sop] that a reviewer has returned with notes. *)
Definition draft_rejected : DocDrafts.t :=
  {| DocDrafts.id := 9; DocDrafts.doc_id := 1; DocDrafts.version := "1.1";
     DocDrafts.title := Some "Document Control (revised)";
     DocDrafts.body_md := Some "New body"; DocDrafts.frontmatter := None;
     DocDrafts.status := "rejected"; DocDrafts.created_by := "alice";
     DocDrafts.updated_by := "bob"; DocDrafts.created_at := 200;
     DocDrafts.updated_at := 220; DocDrafts.reviewer_notes := Some "Section 2 is unclear" |}.

(** POST /@docs/draft/reject for a slug with reviewer notes. *)
Definition reject_request (slug user notes : string) : DraftRequest.t :=
  {| DraftRequest.slug := Some slug; DraftRequest.user := Some user;
     DraftRequest.version := None; DraftRequest.title := None;
     DraftRequest.body_md := None; DraftRequest.frontmatter := None;
     DraftRequest.justification := None; DraftRequest.coi_declaration := None;
     DraftRequest.qualification := None; DraftRequest.comment := None;
     DraftRequest.checklist := None; DraftRequest.approval_justification := None;
     DraftRequest.change_classification := None; DraftRequest.notes := Some notes;
     DraftRequest.rejection := None; DraftRequest.root_url := "http://localhost:8080" |}.

(** POST /@qms/register with the required fields only. *)
Definition create_request (document_id : string) : QmsRequest.t :=
  {| QmsRequest.param_document_id := ""; QmsRequest.user := Some "bob";
     QmsRequest.root_url := "http://localhost:8080";
     QmsRequest.document_id := Some document_id;
     QmsRequest.title := Some (Some "Quality audits");
     QmsRequest.document_type := Some (Some "SOP");
     QmsRequest.domain_code := Some (Some "QA"); QmsRequest.version := None;
     QmsRequest.status := None; QmsRequest.classification := None;
     QmsRequest.effective_date := None; QmsRequest.next_review_date := None;
     QmsRequest.owner := None; QmsRequest.author := None; QmsRequest.reviewer := None;
     QmsRequest.approver := None; QmsRequest.implements := None;
     QmsRequest.retention_years := None; QmsRequest.retention_basis := None;
     QmsRequest.location := None; QmsRequest.docs_id := None; QmsRequest.body_md := None;
     QmsRequest.notes := None; QmsRequest.action := None; QmsRequest.to_status := None;
     QmsRequest.to_version := None; QmsRequest.comment := None;
     QmsRequest.evidence_ref := None |}.

(** POST /@qms/register/:document_id/transition with an action and a
    target status. *)
Definition transition_request (document_id action to_status : string) : QmsRequest.t :=
  {| QmsRequest.param_document_id := document_id; QmsRequest.user := Some "bob";
     QmsRequest.root_url := "http://localhost:8080"; QmsRequest.document_id := None;
     QmsRequest.title := None; QmsRequest.document_type := None;
     QmsRequest.domain_code := None; QmsRequest.version := None;
     QmsRequest.status := None; QmsRequest.classification := None;
     QmsRequest.effective_date := None; QmsRequest.next_review_date := None;
     QmsRequest.owner := None; QmsRequest.author := None; QmsRequest.reviewer := None;
     QmsRequest.approver := None; QmsRequest.implements := None;
     QmsRequest.retention_years := None; QmsRequest.retention_basis := None;
     QmsRequest.location := None; QmsRequest.docs_id := None; QmsRequest.body_md := None;
     QmsRequest.notes := None; QmsRequest.action := Some action;
     QmsRequest.to_status := Some to_status;
     QmsRequest.to_version := None; QmsRequest.comment := None;
     QmsRequest.evidence_ref := None |}.

(** POST /@docs/save of alice for a document and a bump. *)
Definition save_request (doc_id : Z) (bump : string) : DocsRequest.t :=
  {| DocsRequest.user := "alice"; DocsRequest.root_url := "http://localhost:8080";
     DocsRequest.doc_id := Some doc_id; DocsRequest.body_md := Some "Edited body";
     DocsRequest.version_bump := Some bump;
     DocsRequest.change_summary := Some "Clarified section 2" |}.

(** A document that has no version yet. *)
Definition doc_unversioned : Docs.t :=
  {| Docs.id := 2; Docs.slug := "wi-qa-007"; Docs.file_path := None;
     Docs.title := Some "Work instruction"; Docs.body_md := Some "Body";
     Docs.version := None; Docs.frontmatter := None; Docs.author := Some "alice";
     Docs.is_edited := false; Docs.edited_by := None; Docs.updated_at := 100 |}.

(** POST /@qms/register/from-kb for a knowledge-base document. *)
Definition from_kb_request (document_id : string) (docs_id : Z) : QmsRequest.t :=
  {| QmsRequest.param_document_id := ""; QmsRequest.user := Some "bob";
     QmsRequest.root_url := "http://localhost:8080";
     QmsRequest.document_id := Some document_id;
     QmsRequest.title := Some (Some "Document Control");
     QmsRequest.document_type := Some (Some "SOP");
     QmsRequest.domain_code := Some (Some "DC"); QmsRequest.version := None;
     QmsRequest.status := None; QmsRequest.classification := None;
     QmsRequest.effective_date := None; QmsRequest.next_review_date := None;
     QmsRequest.owner := None; QmsRequest.author := None; QmsRequest.reviewer := None;
     QmsRequest.approver := None; QmsRequest.implements := None;
     QmsRequest.retention_years := None; QmsRequest.retention_basis := None;
     QmsRequest.location := None; QmsRequest.docs_id := Some (Some docs_id);
     QmsRequest.body_md := None;
     QmsRequest.notes := None; QmsRequest.action := None; QmsRequest.to_status := None;
     QmsRequest.to_version := None; QmsRequest.comment := None;
     QmsRequest.evidence_ref := None |}.

(** POST /@qms/evidence of bob for a document and an evidence type. *)
Definition evidence_request (document_id evidence_type : string) : EvidenceRequest.t :=
  {| EvidenceRequest.user := Some "bob"; EvidenceRequest.root_url := "http://localhost:8080";
     EvidenceRequest.document_id := Some document_id;
     EvidenceRequest.transition_id := None;
     EvidenceRequest.evidence_type := Some evidence_type;
     EvidenceRequest.evidence_data := Some (JObj [ ("has_conflict", JBool false) ]);
     EvidenceRequest.evidence_text := Some "No conflicts of interest declared" |}.

(** POST /@qms/training/session/start for the module DC-BASIC. *)
Definition start_request (user : string) : TrainingRequest.t :=
  {| TrainingRequest.user := Some user; TrainingRequest.root_url := "http://localhost:8080";
     TrainingRequest.js_date := "2026-03-01"; TrainingRequest.session_id := None;
     TrainingRequest.step_number := None;
     TrainingRequest.module_code := Some "DC-BASIC"; TrainingRequest.certificate_id := None |}.

(** ** Sessions in progress *)

(** The user and module of a session: the key under which
    POST /@qms/training/session/start looks for a session in progress. *)
Definition session_key (ts : TrainingSessions.t) : string * Z :=
  (TrainingSessions.user_id ts, TrainingSessions.module_id ts).

Definition in_progress (ts : TrainingSessions.t) : bool :=
  TrainingSessions.status ts =? "in_progress".

(** No user has two sessions in progress for one module. *)
Definition one_session_in_progress (db : DB) : Prop :=
  NoDup (map session_key (filter in_progress (training_sessions db))).

(** The registered SOP-DC-001 with a rejected draft. *)
Definition db_rejected_registered : DB :=
  with_controlled_documents [cd_sop] (db_unregistered draft_rejected).

(** POST /@docs/draft/submit with a COI declaration and a qualification. *)
Definition submit_request (slug user : string) : DraftRequest.t :=
  {| DraftRequest.slug := Some slug; DraftRequest.user := Some user;
     DraftRequest.version := None; DraftRequest.title := None;
     DraftRequest.body_md := None; DraftRequest.frontmatter := None;
     DraftRequest.justification := None;
     DraftRequest.coi_declaration := Some (JObj [ ("has_conflict", JBool false) ]);
     DraftRequest.qualification := Some (JObj [ ("basis", JStr "Trained author") ]);
     DraftRequest.comment := None;
     DraftRequest.checklist := None; DraftRequest.approval_justification := None;
     DraftRequest.change_classification := None; DraftRequest.notes := None;
     DraftRequest.rejection := None; DraftRequest.root_url := "http://localhost:8080" |}.

(** GET /@qms/training/certificate for a certificate id. *)
Definition certificate_request (certificate_id : Z) : TrainingRequest.t :=
  {| TrainingRequest.user := None; TrainingRequest.root_url := "http://localhost:8080";
     TrainingRequest.js_date := "2026-03-01"; TrainingRequest.session_id := None;
     TrainingRequest.step_number := None;
     TrainingRequest.module_code := None;
     TrainingRequest.certificate_id := Some certificate_id |}.

(** ** Successive saves *)

(** A version of three numeric parts, as a template literal prints it. *)
Definition version_string (t : Z * Z * Z) : string :=
  let '(major, minor, patch) := t in
  string_of_Z major ++ "." ++ string_of_Z minor ++ "." ++ string_of_Z patch.

(** What a bump does to the three parts. *)
Definition bumped (t : Z * Z * Z) (bump : string) : Z * Z * Z :=
  let '(major, minor, patch) := t in
  if bump =? "major" then (major + 1, 0, 0)%Z
  else if bump =? "minor" then (major, minor + 1, 0)%Z
  else (major, minor, patch + 1)%Z.

(** [bumpVersion] applied for each bump of a list in turn, each time to
    the version the previous call returned: the versions that successive
    saves of one document compute. *)
Fixpoint bump_all (bumps : list string) (version : string) : outcome string :=
  match bumps with
  | [] => Done version
  | bump :: rest =>
      match bumpVersion version bump with
      | Done newVersion => bump_all rest newVersion
      | Raised message => Raised message
      end
  end.

(** ** Properties *)

(** *** Frame lemmas: what a statement leaves alone *)

Lemma docs_with l db : docs (with_docs l db) = l.
Proof. destruct db; reflexivity. Qed.

Lemma doc_drafts_with l db : doc_drafts (with_doc_drafts l db) = l.
Proof. destruct db; reflexivity. Qed.

Lemma doc_versions_with l db : doc_versions (with_doc_versions l db) = l.
Proof. destruct db; reflexivity. Qed.

Lemma controlled_documents_with l db :
  controlled_documents (with_controlled_documents l db) = l.
Proof. destruct db; reflexivity. Qed.

Lemma document_transitions_with l db :
  document_transitions (with_document_transitions l db) = l.
Proof. destruct db; reflexivity. Qed.

Ltac frame db := destruct db; reflexivity.

Lemma insert_doc_version_frame db docId v t b f a u :
  let db' := insert_doc_version db docId v t b f a u in
  docs db' = docs db /\ doc_drafts db' = doc_drafts db
  /\ controlled_documents db' = controlled_documents db
  /\ document_transitions db' = document_transitions db
  /\ document_evidence db' = document_evidence db
  /\ ref_evidence_types db' = ref_evidence_types db
  /\ now db' = now db.
Proof.
  unfold insert_doc_version.
  destruct (existsb _ (doc_versions db)); [tauto|].
  destruct db; cbn; tauto.
Qed.

Lemma supersede_versions_frame db docId v :
  let db' := supersede_versions db docId v in
  docs db' = docs db /\ doc_drafts db' = doc_drafts db
  /\ controlled_documents db' = controlled_documents db
  /\ document_transitions db' = document_transitions db
  /\ document_evidence db' = document_evidence db
  /\ ref_evidence_types db' = ref_evidence_types db
  /\ now db' = now db.
Proof. unfold supersede_versions. destruct db; cbn; tauto. Qed.

Lemma update_docs_frame db docId draft u :
  let db' := update_docs db docId draft u in
  doc_versions db' = doc_versions db /\ doc_drafts db' = doc_drafts db
  /\ controlled_documents db' = controlled_documents db
  /\ document_transitions db' = document_transitions db
  /\ document_evidence db' = document_evidence db
  /\ ref_evidence_types db' = ref_evidence_types db
  /\ now db' = now db.
Proof. unfold update_docs. destruct db; cbn; tauto. Qed.

(** The database after steps 2 to 4 of the approval. *)
Definition after_publish (db : DB) (draft : DocDrafts.t) (d : Docs.t) (userId : string) : DB :=
  update_docs
    (supersede_versions
       (insert_doc_version db (Docs.id d) (or_str (Docs.version d) "0.0") (Docs.title d)
          (Docs.body_md d) (json_of_jsonb (Docs.frontmatter d)) (Docs.author d) userId)
       (Docs.id d) (DocDrafts.version draft))
    (Docs.id d) draft userId.

Lemma after_publish_frame db draft d u :
  let db' := after_publish db draft d u in
  doc_drafts db' = doc_drafts db
  /\ controlled_documents db' = controlled_documents db
  /\ document_transitions db' = document_transitions db
  /\ document_evidence db' = document_evidence db
  /\ ref_evidence_types db' = ref_evidence_types db
  /\ now db' = now db.
Proof.
  unfold after_publish. cbv zeta.
  match goal with |- context [update_docs ?x ?i ?dr ?us] =>
    destruct (update_docs_frame x i dr us) as (_ & U1 & U2 & U3 & U4 & U5 & U6);
    match x with supersede_versions ?y ?j ?v =>
      destruct (supersede_versions_frame y j v) as (_ & S1 & S2 & S3 & S4 & S5 & S6);
      match y with insert_doc_version ?z ?k ?w ?t ?b ?f ?a ?p =>
        destruct (insert_doc_version_frame z k w t b f a p) as (_ & I1 & I2 & I3 & I4 & I5 & I6)
      end
    end
  end.
  cbv zeta in *.
  rewrite U1, U2, U3, U4, U5, U6, S1, S2, S3, S4, S5, S6.
  tauto.
Qed.

Lemma getQmsDocumentId_ext db db' i :
  controlled_documents db' = controlled_documents db ->
  getQmsDocumentId db' i = getQmsDocumentId db i.
Proof. unfold getQmsDocumentId. intros ->. reflexivity. Qed.

Lemma missing_evidence_types_ext db db' q :
  document_evidence db' = document_evidence db ->
  ref_evidence_types db' = ref_evidence_types db ->
  missing_evidence_types db' q = missing_evidence_types db q.
Proof. unfold missing_evidence_types. intros -> ->. reflexivity. Qed.

(** The gate's query returns exactly the required phase 1-2 evidence
    types that have no live evidence row for the document. *)
Lemma missing_evidence_types_spec db q ret :
  In ret (missing_evidence_types db q) <->
  In ret (ref_evidence_types db)
  /\ RefEvidenceTypes.required ret = true
  /\ (RefEvidenceTypes.phase ret <= 2)%Z
  /\ (forall de, In de (document_evidence db) ->
        DocumentEvidence.document_id de = q ->
        DocumentEvidence.evidence_type de = RefEvidenceTypes.code ret ->
        DocumentEvidence.is_superseded de = true).
Proof.
  unfold missing_evidence_types. rewrite filter_In.
  rewrite !andb_true_iff, negb_true_iff, Z.leb_le.
  split.
  - intros (Hin & (Hreq & Hph) & Hex). repeat split; auto.
    intros de Hde Hq Ht.
    destruct (DocumentEvidence.is_superseded de) eqn:Hs; auto.
    assert (existsb
              (fun de0 => (DocumentEvidence.document_id de0 =? q)
                 && (DocumentEvidence.evidence_type de0 =? RefEvidenceTypes.code ret)
                 && negb (DocumentEvidence.is_superseded de0))
              (document_evidence db) = true) as Habs.
    { apply existsb_exists. exists de. split; auto.
      rewrite Hs. cbn. rewrite andb_true_r, andb_true_iff.
      split; apply String.eqb_eq; auto. }
    congruence.
  - intros (Hin & Hreq & Hph & Hall). repeat split; auto.
    destruct (existsb _ (document_evidence db)) eqn:Hex; auto.
    apply existsb_exists in Hex. destruct Hex as (de & Hde & Hc).
    rewrite !andb_true_iff, negb_true_iff in Hc.
    destruct Hc as ((Hq & Ht) & Hs).
    apply String.eqb_eq in Hq, Ht.
    rewrite (Hall de Hde Hq Ht) in Hs. discriminate.
Qed.

(** The approval handler up to its QMS step, for a draft under review. *)
Lemma approve_in_review req db slug draft d rest :
  DraftRequest.slug req = Some slug -> slug <> "" ->
  drafts_by_slug db slug = (draft, d) :: rest ->
  DocDrafts.status draft = "in_review" ->
  forall q, getQmsDocumentId db (Docs.id d) = Some q -> q <> "" ->
  forall m ms, missing_evidence_types db q = m :: ms ->
  postDocDraftApprove req db =
  Returned
    {| status := Some 422;
       json :=
         JObj [ ("error",
                 JStr ("Cannot approve: required evidence is missing: "
                       ++ join ", " (map RefEvidenceTypes.label (m :: ms))));
                ("missing_evidence", missing_evidence_json (m :: ms)) ] |}
    (after_publish db draft d (or_str (DraftRequest.user req) "unknown")).
Proof.
  intros Hslug Hne Hq Hst q Hreg Hqne m ms Hmiss.
  unfold postDocDraftApprove.
  rewrite Hslug. cbn [truthy_str negb or_str].
  apply String.eqb_neq in Hne. rewrite Hne. cbn [negb].
  rewrite Hq, Hst. cbn [String.eqb Ascii.eqb Bool.eqb negb].
  fold (after_publish db draft d (or_str (DraftRequest.user req) "unknown")).
  destruct (after_publish_frame db draft d (or_str (DraftRequest.user req) "unknown"))
    as (_ & Hcd & _ & Hev & Hret & _).
  cbv zeta in *.
  rewrite (getQmsDocumentId_ext _ _ _ Hcd), Hreg.
  apply String.eqb_neq in Hqne. rewrite Hqne.
  rewrite (missing_evidence_types_ext _ _ _ Hev Hret), Hmiss.
  reflexivity.
Qed.

(** C1. Approving a draft under review of a QMS-registered document for
    which some required evidence type of phase 1 or 2 has no
    non-superseded evidence row returns 422 with the list of exactly the
    missing evidence types; no row is added to qms.document_transitions
    and qms.controlled_documents is left as it was (in particular no
    status becomes 'effective'). *)
Theorem approve_missing_evidence_422 req db slug draft d rest q ret :
  DraftRequest.slug req = Some slug -> slug <> "" ->
  drafts_by_slug db slug = (draft, d) :: rest ->
  DocDrafts.status draft = "in_review" ->
  getQmsDocumentId db (Docs.id d) = Some q -> q <> "" ->
  In ret (ref_evidence_types db) ->
  RefEvidenceTypes.required ret = true ->
  (RefEvidenceTypes.phase ret <= 2)%Z ->
  (forall de, In de (document_evidence db) ->
     DocumentEvidence.document_id de = q ->
     DocumentEvidence.evidence_type de = RefEvidenceTypes.code ret ->
     DocumentEvidence.is_superseded de = true) ->
  exists r db' missing,
    postDocDraftApprove req db = Returned r db'
    /\ status r = Some 422
    /\ member (json r) "missing_evidence" = Some (missing_evidence_json missing)
    /\ (forall t, In t missing <->
          In t (ref_evidence_types db)
          /\ RefEvidenceTypes.required t = true
          /\ (RefEvidenceTypes.phase t <= 2)%Z
          /\ (forall de, In de (document_evidence db) ->
                DocumentEvidence.document_id de = q ->
                DocumentEvidence.evidence_type de = RefEvidenceTypes.code t ->
                DocumentEvidence.is_superseded de = true))
    /\ document_transitions db' = document_transitions db
    /\ controlled_documents db' = controlled_documents db.
Proof.
  intros Hslug Hne Hq Hst Hreg Hqne Hin Hreq Hph Hnone.
  assert (In ret (missing_evidence_types db q)) as Hmem
    by (apply missing_evidence_types_spec; auto).
  destruct (missing_evidence_types db q) as [|m ms] eqn:Hmiss; [destruct Hmem|].
  eexists _, _, (m :: ms). split.
  - eapply approve_in_review; eauto.
  - destruct (after_publish_frame db draft d (or_str (DraftRequest.user req) "unknown"))
      as (_ & Hcd & Htr & _).
    cbv zeta in *.
    split; [reflexivity|]. split; [reflexivity|].
    split; [|split; assumption].
    intros t. rewrite <- Hmiss. apply missing_evidence_types_spec.
Qed.

(** *** The draft of a slug *)

Lemma drafts_by_slug_In db slug dr d :
  In (dr, d) (drafts_by_slug db slug) <->
  In dr (doc_drafts db) /\ In d (docs db)
  /\ Docs.id d = DocDrafts.doc_id dr /\ Docs.slug d = slug.
Proof.
  unfold drafts_by_slug. rewrite in_flat_map. split.
  - intros (dr' & Hdr & Hin). apply in_map_iff in Hin.
    destruct Hin as (d' & Heq & Hd). inversion Heq; subst dr' d'.
    apply filter_In in Hd. destruct Hd as (Hd & Hc).
    apply andb_true_iff in Hc. destruct Hc as (Hid & Hs).
    apply Z.eqb_eq in Hid. apply String.eqb_eq in Hs. auto.
  - intros (Hdr & Hd & Hid & Hs). exists dr. split; auto.
    apply in_map. apply filter_In. split; auto.
    apply andb_true_iff. split; [apply Z.eqb_eq | apply String.eqb_eq]; auto.
Qed.

(** C2. POST /@docs/draft/approve with a slug: when no draft exists for a
    document of that slug the answer is 404, when drafts exist and none
    is under review the answer is 409, both without touching the
    database; and whenever the handler answers without an error status,
    the draft it published was 'in_review'. *)
Theorem approve_only_from_in_review req db :
  (forall slug, DraftRequest.slug req = Some slug -> slug <> "" ->
     ((forall dr d, In dr (doc_drafts db) -> In d (docs db) ->
         Docs.id d = DocDrafts.doc_id dr -> Docs.slug d <> slug) ->
      exists r, postDocDraftApprove req db = Returned r db /\ status r = Some 404)
     /\
     ((exists dr d, In dr (doc_drafts db) /\ In d (docs db)
         /\ Docs.id d = DocDrafts.doc_id dr /\ Docs.slug d = slug) ->
      (forall dr d, In dr (doc_drafts db) -> In d (docs db) ->
         Docs.id d = DocDrafts.doc_id dr -> Docs.slug d = slug ->
         DocDrafts.status dr <> "in_review") ->
      exists r, postDocDraftApprove req db = Returned r db /\ status r = Some 409))
  /\
  (forall r db', postDocDraftApprove req db = Returned r db' -> is_error r = false ->
     exists slug draft d rest,
       DraftRequest.slug req = Some slug
       /\ drafts_by_slug db slug = (draft, d) :: rest
       /\ DocDrafts.status draft = "in_review").
Proof.
  split.
  - intros slug Hslug Hne.
    assert (postDocDraftApprove req db =
            match drafts_by_slug db slug with
            | [] => Returned (error 404 "No draft found for this document") db
            | (draft, _) :: _ =>
                if negb (DocDrafts.status draft =? "in_review") then
                  Returned
                    (error 409 ("Cannot approve: draft status is '"
                                ++ DocDrafts.status draft ++ "', expected 'in_review'")) db
                else postDocDraftApprove req db
            end) as Hshape.
    { unfold postDocDraftApprove at 1. rewrite Hslug. cbn [truthy_str negb or_str].
      apply String.eqb_neq in Hne. rewrite Hne. cbn [negb].
      destruct (drafts_by_slug db slug) as [|[draft d] rest] eqn:Hq; [reflexivity|].
      destruct (DocDrafts.status draft =? "in_review") eqn:Hst; cbn [negb]; [|reflexivity].
      unfold postDocDraftApprove. rewrite Hslug. cbn [truthy_str negb or_str].
      rewrite Hne. cbn [negb]. rewrite Hq, Hst. reflexivity. }
    split.
    + intros Hnone.
      destruct (drafts_by_slug db slug) as [|[draft d] rest] eqn:Hq.
      * rewrite Hshape. eexists. split; reflexivity.
      * exfalso.
        assert (In (draft, d) (drafts_by_slug db slug)) as Hin by (rewrite Hq; left; reflexivity).
        apply drafts_by_slug_In in Hin. destruct Hin as (H1 & H2 & H3 & H4).
        exact (Hnone draft d H1 H2 H3 H4).
    + intros (dr0 & d0 & Hex) Hall.
      apply drafts_by_slug_In in Hex.
      destruct (drafts_by_slug db slug) as [|[draft d] rest] eqn:Hq; [destruct Hex|].
      assert (In (draft, d) (drafts_by_slug db slug)) as Hin by (rewrite Hq; left; reflexivity).
      apply drafts_by_slug_In in Hin. destruct Hin as (H1 & H2 & H3 & H4).
      specialize (Hall draft d H1 H2 H3 H4).
      apply String.eqb_neq in Hall.
      rewrite Hshape, Hall. eexists. split; reflexivity.
  - intros r db'. unfold postDocDraftApprove.
    destruct (DraftRequest.slug req) as [slug|] eqn:Hslug; cbn [truthy_str negb or_str].
    2:{ intros H; inversion H; subst; discriminate. }
    destruct (slug =? "") eqn:Hne; cbn [negb].
    { intros H; inversion H; subst; discriminate. }
    destruct (drafts_by_slug db slug) as [|[draft d] rest] eqn:Hq.
    { intros H; inversion H; subst; discriminate. }
    destruct (DocDrafts.status draft =? "in_review") eqn:Hst; cbn [negb].
    2:{ intros H; inversion H; subst; discriminate. }
    intros _ _. exists slug, draft, d, rest.
    apply String.eqb_eq in Hst. auto.
Qed.

(** *** What the QMS statements leave alone *)

(** The knowledge-base tables and the clock agree. *)
Definition same_i18n (db db' : DB) : Prop :=
  docs db' = docs db /\ doc_drafts db' = doc_drafts db
  /\ doc_versions db' = doc_versions db
  /\ now db' = now db /\ current_date db' = current_date db.

Lemma same_i18n_refl db : same_i18n db db.
Proof. unfold same_i18n; tauto. Qed.

Lemma same_i18n_trans a b c : same_i18n a b -> same_i18n b c -> same_i18n a c.
Proof. unfold same_i18n; intuition congruence. Qed.

Lemma insertEvidence_frame db q t ty data text u :
  let db' := insertEvidence db q t ty data text u in
  same_i18n db db'
  /\ controlled_documents db' = controlled_documents db
  /\ document_transitions db' = document_transitions db
  /\ training_sessions db' = training_sessions db
  /\ user_roles db' = user_roles db.
Proof. unfold insertEvidence, same_i18n. destruct db; cbn; tauto. Qed.

Lemma insert_transition_frame db q a fs ts fv tv u c e :
  let db' := snd (insert_transition db q a fs ts fv tv u c e) in
  same_i18n db db'
  /\ controlled_documents db' = controlled_documents db
  /\ document_evidence db' = document_evidence db.
Proof. unfold insert_transition, same_i18n. destruct db; cbn; tauto. Qed.

Lemma insert_transition_rows db q a fs ts fv tv u c e :
  exists row,
    document_transitions (snd (insert_transition db q a fs ts fv tv u c e))
    = (document_transitions db ++ [row])%list
    /\ DocumentTransitions.document_id row = q
    /\ DocumentTransitions.action row = a
    /\ DocumentTransitions.from_status row = fs
    /\ DocumentTransitions.to_status row = ts
    /\ DocumentTransitions.from_version row = fv
    /\ DocumentTransitions.to_version row = tv.
Proof.
  unfold insert_transition. destruct db; cbn. eexists. split; [reflexivity|].
  cbn. tauto.
Qed.

(** What the evidence statements of one handler leave alone. *)
Definition evidence_only (db db' : DB) : Prop :=
  same_i18n db db'
  /\ controlled_documents db' = controlled_documents db
  /\ document_transitions db' = document_transitions db.

Lemma evidence_only_refl db : evidence_only db db.
Proof. split; [apply same_i18n_refl|tauto]. Qed.

Lemma evidence_only_trans a b c :
  evidence_only a b -> evidence_only b c -> evidence_only a c.
Proof.
  intros (A & B & C) (A' & B' & C').
  split; [eapply same_i18n_trans; eauto|split; congruence].
Qed.

Lemma insertEvidence_only db q t ty data text u :
  evidence_only db (insertEvidence db q t ty data text u).
Proof. destruct (insertEvidence_frame db q t ty data text u) as (? & ? & ? & _). split; auto. Qed.

Lemma approve_evidence_frame req u q t db db' :
  approve_evidence req u q t db = Some db' -> evidence_only db db'.
Proof.
  unfold approve_evidence.
  destruct (checklist_evidence req u q t db) as [db1|] eqn:Hc; [|discriminate].
  intros H; inversion H; subst db'; clear H.
  apply evidence_only_trans with db1.
  - unfold checklist_evidence in Hc.
    destruct (DraftRequest.checklist req) as [c|];
      [|inversion Hc; apply evidence_only_refl].
    destruct (truthy c); [|inversion Hc; apply evidence_only_refl].
    destruct (or_json _ _); try discriminate.
    inversion Hc. apply insertEvidence_only.
  - apply evidence_only_trans with (approval_justification_evidence req u q t db1).
    + unfold approval_justification_evidence.
      destruct (DraftRequest.approval_justification req) as [a|];
        [destruct (truthy a)|]; first [apply insertEvidence_only|apply evidence_only_refl].
    + unfold change_classification_evidence.
      destruct (DraftRequest.change_classification req) as [c|];
        [destruct (truthy c)|]; first [apply insertEvidence_only|apply evidence_only_refl].
Qed.

Lemma make_effective_frame db v i :
  let db' := make_effective db v i in
  same_i18n db db' /\ document_transitions db' = document_transitions db.
Proof. unfold make_effective, same_i18n. destruct db; cbn; tauto. Qed.

(** *** Version snapshots *)

(** A snapshot row exists for a version of a document. *)
Definition has_version (l : list DocVersions.t) (docId : Z) (version : string) : Prop :=
  exists w, In w l /\ DocVersions.doc_id w = docId /\ DocVersions.version w = version.

Lemma has_version_existsb l docId version :
  existsb (fun v => (DocVersions.doc_id v =? docId)%Z && (DocVersions.version v =? version)) l
  = true <-> has_version l docId version.
Proof.
  unfold has_version. rewrite existsb_exists.
  split; intros (w & Hw & Hc); exists w; split; auto.
  - apply andb_true_iff in Hc. destruct Hc as (A & B).
    apply Z.eqb_eq in A. apply String.eqb_eq in B. auto.
  - apply andb_true_iff. split; [apply Z.eqb_eq | apply String.eqb_eq]; tauto.
Qed.

(** INSERT ... ON CONFLICT (doc_id, version) DO NOTHING: either a row of
    that key was there and nothing changes, or one row with the given
    content is appended. *)
Lemma insert_doc_version_rows db i v t b f a u :
  (has_version (doc_versions db) i v
   /\ doc_versions (insert_doc_version db i v t b f a u) = doc_versions db)
  \/
  (~ has_version (doc_versions db) i v
   /\ exists row,
        doc_versions (insert_doc_version db i v t b f a u)
        = (doc_versions db ++ [row])%list
        /\ DocVersions.doc_id row = i /\ DocVersions.version row = v
        /\ DocVersions.title row = t /\ DocVersions.body_md row = b
        /\ DocVersions.frontmatter row = Some f
        /\ DocVersions.author row = a /\ DocVersions.published_by row = u
        /\ DocVersions.content_hash row = b).
Proof.
  unfold insert_doc_version.
  destruct (existsb _ (doc_versions db)) eqn:Hex.
  - left. split; [apply has_version_existsb; assumption | reflexivity].
  - right. split.
    + intros Hv. apply has_version_existsb in Hv. congruence.
    + destruct db; cbn. eexists. split; [reflexivity|]. cbn. tauto.
Qed.

(** Superseding rewrites [superseded_at] and [superseded_by] only. *)
Definition same_snapshot (v v' : DocVersions.t) : Prop :=
  DocVersions.doc_id v' = DocVersions.doc_id v
  /\ DocVersions.version v' = DocVersions.version v
  /\ DocVersions.title v' = DocVersions.title v
  /\ DocVersions.body_md v' = DocVersions.body_md v
  /\ DocVersions.author v' = DocVersions.author v
  /\ DocVersions.content_hash v' = DocVersions.content_hash v.

Lemma supersede_versions_rows db i ver :
  Forall2 same_snapshot (doc_versions db) (doc_versions (supersede_versions db i ver)).
Proof.
  unfold supersede_versions.
  rewrite doc_versions_with.
  induction (doc_versions db) as [|v l IH]; cbn [map]; constructor; auto.
  destruct (_ && _); unfold same_snapshot; cbn; tauto.
Qed.

Lemma Forall2_In_l {A B} (R : A -> B -> Prop) l l' x :
  Forall2 R l l' -> In x l -> exists y, In y l' /\ R x y.
Proof.
  induction 1; cbn; [tauto|]. intros [->|Hin]; [eauto|].
  destruct (IHForall2 Hin) as (y' & ? & ?). eauto.
Qed.

Lemma Forall2_In_r {A B} (R : A -> B -> Prop) l l' y :
  Forall2 R l l' -> In y l' -> exists x, In x l /\ R x y.
Proof.
  induction 1; cbn; [tauto|]. intros [->|Hin]; [eauto|].
  destruct (IHForall2 Hin) as (x' & ? & ?). eauto.
Qed.

Lemma has_version_same l l' i v :
  Forall2 same_snapshot l l' -> (has_version l i v <-> has_version l' i v).
Proof.
  intros HF. unfold has_version. split.
  - intros (w & Hw & A & B).
    destruct (Forall2_In_l _ _ _ _ HF Hw) as (y & Hy & S).
    exists y. destruct S as (S1 & S2 & _). split; auto. split; congruence.
  - intros (w & Hw & A & B).
    destruct (Forall2_In_r _ _ _ _ HF Hw) as (x & Hx & S).
    exists x. destruct S as (S1 & S2 & _). split; auto. split; congruence.
Qed.

(** *** The register after an approval *)

Lemma make_effective_rows db v i :
  let db' := make_effective db v i in
  (forall cd', In cd' (controlled_documents db') ->
     ControlledDocuments.docs_id cd' = Some i ->
     ControlledDocuments.status cd' = Some "effective"
     /\ ControlledDocuments.version cd' = Some v)
  /\ (forall cd, In cd (controlled_documents db) ->
        ControlledDocuments.docs_id cd = Some i ->
        exists cd', In cd' (controlled_documents db')
          /\ ControlledDocuments.document_id cd' = ControlledDocuments.document_id cd
          /\ ControlledDocuments.docs_id cd' = Some i).
Proof.
  unfold make_effective. cbv zeta.
  rewrite controlled_documents_with.
  split.
  - intros cd' Hin Hd. apply in_map_iff in Hin. destruct Hin as (cd & Heq & _).
    destruct (opt_Z_eqb (ControlledDocuments.docs_id cd) i) eqn:Hm; subst cd'.
    + cbn. tauto.
    + rewrite Hd in Hm. cbn in Hm. rewrite Z.eqb_refl in Hm. discriminate.
  - intros cd Hin Hd. eexists. split; [apply in_map; exact Hin|].
    rewrite Hd. cbn. rewrite Z.eqb_refl. cbn. auto.
Qed.

Lemma getQmsDocumentId_Some db i q :
  getQmsDocumentId db i = Some q ->
  exists cd, In cd (controlled_documents db)
    /\ ControlledDocuments.docs_id cd = Some i
    /\ ControlledDocuments.document_id cd = q.
Proof.
  unfold getQmsDocumentId.
  destruct (filter _ (controlled_documents db)) as [|cd l] eqn:Hf; [discriminate|].
  intros H; inversion H; subst q.
  assert (In cd (filter (fun cd => opt_Z_eqb (ControlledDocuments.docs_id cd) i)
                   (controlled_documents db))) as Hin by (rewrite Hf; left; reflexivity).
  apply filter_In in Hin. destruct Hin as (Hin & Hc).
  exists cd. split; auto. split; auto.
  unfold opt_Z_eqb in Hc. destruct (ControlledDocuments.docs_id cd); [|discriminate].
  apply Z.eqb_eq in Hc. congruence.
Qed.

(** *** A successful approval *)

(** Steps 6 and 7 of the approval: the snapshot of the new version and
    the deletion of the draft. *)
Definition after_snapshot (db5 : DB) (draft : DocDrafts.t) (d : Docs.t) (userId : string) : DB :=
  let db6 :=
    insert_doc_version db5 (Docs.id d) (DocDrafts.version draft)
      (or_opt_str (DocDrafts.title draft) (Docs.title d))
      (or_opt_str (DocDrafts.body_md draft) (Docs.body_md d))
      (if truthy (json_of_jsonb (DocDrafts.frontmatter draft))
       then json_of_jsonb (DocDrafts.frontmatter draft)
       else json_of_jsonb (Docs.frontmatter d))
      (Docs.author d) userId in
  with_doc_drafts
    (filter (fun dr => negb (DocDrafts.id dr =? DocDrafts.id draft)%Z) (doc_drafts db6))
    db6.

(** Whenever the approval answers without an error status it has run all
    its steps: the database is that of steps 2-4, then of the QMS step for
    a registered document, then of steps 6-7. *)
Lemma approve_success_shape req db r db' :
  postDocDraftApprove req db = Returned r db' -> is_error r = false ->
  exists slug draft d rest db5,
    DraftRequest.slug req = Some slug
    /\ drafts_by_slug db slug = (draft, d) :: rest
    /\ DocDrafts.status draft = "in_review"
    /\ same_i18n (after_publish db draft d (or_str (DraftRequest.user req) "unknown")) db5
    /\ (forall q, getQmsDocumentId db (Docs.id d) = Some q -> q <> "" ->
          exists db6 row,
            controlled_documents db6 = controlled_documents db
            /\ controlled_documents db5
               = controlled_documents (make_effective db6 (DocDrafts.version draft) (Docs.id d))
            /\ document_transitions db5 = (document_transitions db ++ [row])%list
            /\ DocumentTransitions.document_id row = q
            /\ DocumentTransitions.action row = "approve"
            /\ DocumentTransitions.to_status row = Some "effective"
            /\ DocumentTransitions.to_version row = Some (DocDrafts.version draft))
    /\ db' = after_snapshot db5 draft d (or_str (DraftRequest.user req) "unknown").
Proof.
  unfold postDocDraftApprove.
  destruct (DraftRequest.slug req) as [slug|] eqn:Hslug; cbn [truthy_str negb or_str].
  2:{ intros H; inversion H; subst; discriminate. }
  destruct (slug =? "") eqn:Hne; cbn [negb].
  { intros H; inversion H; subst; discriminate. }
  destruct (drafts_by_slug db slug) as [|[draft d] rest] eqn:Hq.
  { intros H; inversion H; subst; discriminate. }
  destruct (DocDrafts.status draft =? "in_review") eqn:Hst; cbn [negb].
  2:{ intros H; inversion H; subst; discriminate. }
  apply String.eqb_eq in Hst.
  set (u := or_str (DraftRequest.user req) "unknown").
  fold (after_publish db draft d u).
  set (db4 := after_publish db draft d u).
  destruct (after_publish_frame db draft d u) as (_ & Hcd & Htr & _).
  fold db4 in Hcd, Htr. cbv zeta in Hcd, Htr.
  rewrite (getQmsDocumentId_ext _ _ _ Hcd).
  fold (after_snapshot db4 draft d u).
  destruct (getQmsDocumentId db (Docs.id d)) as [q|] eqn:Hreg.
  2:{ intros H _. inversion H; subst.
      exists slug, draft, d, rest, db4.
      split; [reflexivity|]. split; [assumption|]. split; [assumption|].
      split; [apply same_i18n_refl|].
      split; [intros; congruence | reflexivity]. }
  destruct (q =? "") eqn:Hqe.
  { intros H _. inversion H; subst.
    exists slug, draft, d, rest, db4.
    split; [reflexivity|]. split; [assumption|]. split; [assumption|].
    split; [apply same_i18n_refl|].
    split; [|reflexivity].
    intros q' Hq' Hne'. rewrite Hreg in Hq'. inversion Hq'; subst q'.
    apply String.eqb_eq in Hqe. congruence. }
  destruct (missing_evidence_types db4 q) as [|m ms].
  2:{ intros H; inversion H; subst; discriminate. }
  match goal with |- context [insert_transition db4 q ?a ?fs ?ts ?fv ?tv ?us ?c ?e] =>
    destruct (insert_transition_frame db4 q a fs ts fv tv us c e) as (Ti & Tcd & _);
    destruct (insert_transition_rows db4 q a fs ts fv tv us c e)
      as (row & Trow & R1 & R2 & _ & R4 & _ & R6);
    destruct (insert_transition db4 q a fs ts fv tv us c e) as [tid db5] eqn:Hins
  end.
  cbn [snd] in *. cbv zeta in Ti, Tcd.
  destruct (approve_evidence req u q tid db5) as [db6|] eqn:Hev; [|discriminate].
  destruct (approve_evidence_frame _ _ _ _ _ _ Hev) as (Ei & Ecd & Etr).
  set (db7 := make_effective db6 (DocDrafts.version draft) (Docs.id d)).
  destruct (make_effective_frame db6 (DocDrafts.version draft) (Docs.id d)) as (Mi & Mtr).
  fold db7 in Mi, Mtr. cbv zeta in Mi, Mtr.
  fold (after_snapshot db7 draft d u).
  intros H _. inversion H; subst r db'.
  exists slug, draft, d, rest, db7.
  split; [reflexivity|]. split; [assumption|]. split; [assumption|].
  split; [eapply same_i18n_trans; [exact Ti|]; eapply same_i18n_trans; eassumption|].
  split; [|reflexivity].
  intros q' Hq' _. rewrite Hreg in Hq'. inversion Hq'; subst q'.
  exists db6, row. split; [congruence|]. split; [reflexivity|].
  split; [rewrite Mtr, Etr, Trow, Htr; reflexivity|tauto].
Qed.

(** How step 4 of the approval relates a row of i18n.docs to the row
    that replaces it: only the row of the document changes; it takes the
    draft's version, and the draft's title and body where these are not
    NULL. *)
Definition published_row (draft : DocDrafts.t) (d x x' : Docs.t) : Prop :=
  Docs.id x' = Docs.id x /\ Docs.slug x' = Docs.slug x
  /\ if (Docs.id x =? Docs.id d)%Z then
       Docs.version x' = Some (DocDrafts.version draft)
       /\ Docs.title x' = coalesce (DocDrafts.title draft) (Docs.title x)
       /\ Docs.body_md x' = coalesce (DocDrafts.body_md draft) (Docs.body_md x)
       /\ Docs.is_edited x' = true
     else x' = x.

Lemma update_docs_rows db draft d u :
  Forall2 (published_row draft d) (docs db) (docs (update_docs db (Docs.id d) draft u)).
Proof.
  unfold update_docs. rewrite docs_with.
  induction (docs db) as [|x l IH]; cbn [map]; constructor; auto.
  unfold published_row.
  destruct (Docs.id x =? Docs.id d)%Z; cbn; tauto.
Qed.

Lemma after_publish_docs db draft d u :
  Forall2 (published_row draft d) (docs db) (docs (after_publish db draft d u)).
Proof.
  unfold after_publish.
  match goal with |- context [update_docs ?x _ _ _] =>
    replace (docs db) with (docs x); [apply update_docs_rows|]
  end.
  match goal with |- docs (supersede_versions ?y ?j ?v) = _ =>
    destruct (supersede_versions_frame y j v) as (-> & _);
    match y with insert_doc_version ?z ?k ?w ?t ?b ?f ?a ?p =>
      destruct (insert_doc_version_frame z k w t b f a p) as (-> & _)
    end
  end.
  reflexivity.
Qed.

Lemma after_publish_versions db draft d u :
  Forall2 same_snapshot
    (doc_versions
       (insert_doc_version db (Docs.id d) (or_str (Docs.version d) "0.0") (Docs.title d)
          (Docs.body_md d) (json_of_jsonb (Docs.frontmatter d)) (Docs.author d) u))
    (doc_versions (after_publish db draft d u)).
Proof.
  unfold after_publish.
  match goal with |- context [update_docs ?x ?i ?dr ?us] =>
    destruct (update_docs_frame x i dr us) as (-> & _)
  end.
  apply supersede_versions_rows.
Qed.

Lemma after_snapshot_frame db5 draft d u :
  let db' := after_snapshot db5 draft d u in
  docs db' = docs db5
  /\ controlled_documents db' = controlled_documents db5
  /\ document_transitions db' = document_transitions db5
  /\ doc_drafts db'
     = filter (fun dr => negb (DocDrafts.id dr =? DocDrafts.id draft)%Z) (doc_drafts db5)
  /\ doc_versions db'
     = doc_versions
         (insert_doc_version db5 (Docs.id d) (DocDrafts.version draft)
            (or_opt_str (DocDrafts.title draft) (Docs.title d))
            (or_opt_str (DocDrafts.body_md draft) (Docs.body_md d))
            (if truthy (json_of_jsonb (DocDrafts.frontmatter draft))
             then json_of_jsonb (DocDrafts.frontmatter draft)
             else json_of_jsonb (Docs.frontmatter d))
            (Docs.author d) u).
Proof.
  unfold after_snapshot. cbv zeta.
  match goal with |- context [insert_doc_version ?z ?k ?w ?t ?b ?f ?a ?p] =>
    destruct (insert_doc_version_frame z k w t b f a p) as (I1 & I2 & I3 & I4 & _);
    set (db6 := insert_doc_version z k w t b f a p) in *
  end.
  cbv zeta in *. rewrite doc_drafts_with.
  rewrite <- I1, <- I2, <- I3, <- I4.
  destruct db6; cbn; tauto.
Qed.

(** C3 (as amended). Whenever POST /@docs/draft/approve answers without
    an error status, for the draft [draft] under review it fetched and
    its document [d]:
    - i18n.doc_versions holds a row for the previous version of [d], and
      when none existed before, that row carries the previous title, body
      and author;
    - the row of [d] in i18n.docs has the draft's version, and the
      draft's title and body where they are not NULL; other rows are
      unchanged;
    - i18n.doc_versions holds a row for the draft's version, and when
      none existed before and the version differs from the previous one,
      that row carries the draft's title and body (the previous ones
      where the draft's are empty);
    - the draft row is gone from i18n.doc_drafts;
    - for a QMS-registered document the register row is 'effective' at
      the draft's version. *)
Theorem approve_publishes_draft req db r db' :
  postDocDraftApprove req db = Returned r db' -> is_error r = false ->
  exists slug draft d rest,
    DraftRequest.slug req = Some slug
    /\ drafts_by_slug db slug = (draft, d) :: rest
    /\ DocDrafts.status draft = "in_review"
    /\ (exists v, In v (doc_versions db')
          /\ DocVersions.doc_id v = Docs.id d
          /\ DocVersions.version v = or_str (Docs.version d) "0.0"
          /\ (~ has_version (doc_versions db) (Docs.id d) (or_str (Docs.version d) "0.0") ->
              DocVersions.title v = Docs.title d
              /\ DocVersions.body_md v = Docs.body_md d
              /\ DocVersions.author v = Docs.author d))
    /\ Forall2 (published_row draft d) (docs db) (docs db')
    /\ (exists v, In v (doc_versions db')
          /\ DocVersions.doc_id v = Docs.id d
          /\ DocVersions.version v = DocDrafts.version draft
          /\ (~ has_version (doc_versions db) (Docs.id d) (DocDrafts.version draft) ->
              DocDrafts.version draft <> or_str (Docs.version d) "0.0" ->
              DocVersions.title v = or_opt_str (DocDrafts.title draft) (Docs.title d)
              /\ DocVersions.body_md v = or_opt_str (DocDrafts.body_md draft) (Docs.body_md d)))
    /\ doc_drafts db'
       = filter (fun dr => negb (DocDrafts.id dr =? DocDrafts.id draft)%Z) (doc_drafts db)
    /\ (forall q, getQmsDocumentId db (Docs.id d) = Some q -> q <> "" ->
          (exists cd, In cd (controlled_documents db')
             /\ ControlledDocuments.document_id cd = q
             /\ ControlledDocuments.docs_id cd = Some (Docs.id d))
          /\ (forall cd, In cd (controlled_documents db') ->
                ControlledDocuments.docs_id cd = Some (Docs.id d) ->
                ControlledDocuments.status cd = Some "effective"
                /\ ControlledDocuments.version cd = Some (DocDrafts.version draft))).
Proof.
  intros Hrun Hok.
  destruct (approve_success_shape _ _ _ _ Hrun Hok)
    as (slug & draft & d & rest & db5 & Hslug & Hq & Hst & Hsame & Hqms & ->).
  set (u := or_str (DraftRequest.user req) "unknown") in *.
  exists slug, draft, d, rest.
  split; [assumption|]. split; [assumption|]. split; [assumption|].
  destruct Hsame as (Sdocs & Sdr & Sver & _).
  destruct (after_publish_frame db draft d u) as (Pdr & _).
  destruct (after_snapshot_frame db5 draft d u) as (Fdocs & Fcd & _ & Fdr & Fver).
  cbv zeta in *.
  pose proof (after_publish_versions db draft d u) as Hsnap.
  rewrite <- Sver in Hsnap.
  (* the table after step 2 *)
  set (v2 := doc_versions (insert_doc_version db (Docs.id d) (or_str (Docs.version d) "0.0") (Docs.title d)
               (Docs.body_md d) (json_of_jsonb (Docs.frontmatter d)) (Docs.author d) u)) in *.
  (* a row of the table after step 3 survives step 6 *)
  assert (forall w, In w (doc_versions db5) ->
            In w (doc_versions (after_snapshot db5 draft d u))) as Hkeep.
  { intros w Hw. rewrite Fver.
    match goal with |- context [insert_doc_version ?z ?k ?x ?t ?b ?f ?a ?p] =>
      destruct (insert_doc_version_rows z k x t b f a p)
        as [(_ & ->)|(_ & row & -> & _)]
    end; [assumption | apply in_or_app; left; assumption]. }
  split.
  { (* the previous version *)
    destruct (insert_doc_version_rows db (Docs.id d) (or_str (Docs.version d) "0.0") (Docs.title d) (Docs.body_md d)
                (json_of_jsonb (Docs.frontmatter d)) (Docs.author d) u)
      as [((w & Hw & W1 & W2) & E)|(Hno & row & E & R1 & R2 & R3 & R4 & _ & R6 & _)];
      fold v2 in E.
    - assert (In w v2) as Hw2 by (rewrite E; assumption).
      destruct (Forall2_In_l _ _ _ _ Hsnap Hw2) as (y & Hy & Sy1 & Sy2 & _).
      exists y. split; [apply Hkeep; assumption|].
      split; [congruence|]. split; [congruence|].
      intros Hnone. exfalso. apply Hnone. exists w. auto.
    - assert (In row v2) as Hw2 by (rewrite E; apply in_or_app; right; left; reflexivity).
      destruct (Forall2_In_l _ _ _ _ Hsnap Hw2) as (y & Hy & Sy1 & Sy2 & Sy3 & Sy4 & Sy5 & _).
      exists y. split; [apply Hkeep; assumption|].
      split; [congruence|]. split; [congruence|].
      intros _. repeat split; congruence. }
  split.
  { rewrite Fdocs, Sdocs. apply after_publish_docs. }
  split.
  { (* the new version *)
    rewrite Fver.
    match goal with |- context [insert_doc_version ?z ?k ?x ?t ?b ?f ?a ?p] =>
      destruct (insert_doc_version_rows z k x t b f a p)
        as [((w & Hw & W1 & W2) & ->)|(Hno & row & -> & R1 & R2 & R3 & R4 & _)]
    end.
    - exists w. split; [assumption|]. split; [assumption|]. split; [assumption|].
      intros Hnone Hdiff. exfalso.
      assert (has_version (doc_versions db5) (Docs.id d) (DocDrafts.version draft)) as H5
        by (exists w; auto).
      apply (has_version_same _ _ _ _ Hsnap) in H5.
      destruct (insert_doc_version_rows db (Docs.id d) (or_str (Docs.version d) "0.0") (Docs.title d) (Docs.body_md d)
                  (json_of_jsonb (Docs.frontmatter d)) (Docs.author d) u)
        as [(_ & E)|(_ & row & E & R1 & R2 & _)]; fold v2 in E; rewrite E in H5.
      + contradiction.
      + destruct H5 as (x & Hx & X1 & X2).
        apply in_app_or in Hx. destruct Hx as [Hx|[<-|[]]].
        * apply Hnone. exists x. auto.
        * congruence.
    - exists row. split; [apply in_or_app; right; left; reflexivity|].
      split; [assumption|]. split; [assumption|]. intros _ _. split; assumption. }
  split.
  { rewrite Fdr, Sdr, Pdr. reflexivity. }
  intros q Hreg Hqne.
  destruct (Hqms q Hreg Hqne) as (db6 & row & C6 & C5 & _).
  destruct (make_effective_rows db6 (DocDrafts.version draft) (Docs.id d)) as (Mall & Mex).
  cbv zeta in *. rewrite Fcd, C5.
  split; [|exact Mall].
  destruct (getQmsDocumentId_Some _ _ _ Hreg) as (cd & Hcd & D1 & D2).
  rewrite <- C6 in Hcd.
  destruct (Mex cd Hcd D1) as (cd' & Hin' & E1 & E2).
  exists cd'. split; [assumption|]. split; congruence.
Qed.

(** *** At most one draft per document *)















Lemma NoDup_map_inj {A B} (f : A -> B) l x y :
  NoDup (map f l) -> In x l -> In y l -> f x = f y -> x = y.
Proof.
  induction l as [|a l IH]; cbn; [tauto|].
  intros H. inversion H as [|? ? Hnin Hnd]; subst.
  intros [->|Hx] [->|Hy] Heq; auto.
  - exfalso. apply Hnin. rewrite Heq. apply in_map. assumption.
  - exfalso. apply Hnin. rewrite <- Heq. apply in_map. assumption.
Qed.




(** *** Training steps *)

Lemma training_sessions_with l db : training_sessions (with_training_sessions l db) = l.
Proof. destruct db; reflexivity. Qed.

Lemma record_completion_frame db sid n k u data :
  let db' := record_completion db sid n k u data in
  training_sessions db' = training_sessions db
  /\ training_certificates db' = training_certificates db
  /\ user_roles db' = user_roles db
  /\ users db' = users db /\ now db' = now db /\ next_id db' = next_id db.
Proof.
  unfold record_completion. destruct (existsb _ _); [tauto|]. destruct db; cbn; tauto.
Qed.

(** The session row an accepted non-final step leaves. *)
Definition advance (n : Z) (ts : TrainingSessions.t) : TrainingSessions.t :=
  session_with (TrainingSessions.status ts) (n + 1) (TrainingSessions.completed_at ts)
    (TrainingSessions.certificate_id ts) ts.

(** The checks of validate-step that precede the validator, for a request
    that passes them. *)
Lemma validate_step_checked req db sid n session tm rest stepDef docsId q lk v :
  TrainingRequest.session_id req = Some sid -> sid <> 0%Z ->
  TrainingRequest.step_number req = Some n ->
  session_with_module db sid = (session, tm) :: rest ->
  TrainingSessions.user_id session = or_str (TrainingRequest.user req) "unknown" ->
  TrainingSessions.status session = "in_progress" ->
  n = TrainingSessions.current_step session ->
  find (fun s => (TrainingModules.step s =? n)%Z) (TrainingModules.steps tm) = Some stepDef ->
  training_doc_lookup db (TrainingSessions.training_doc_id session) = (docsId, q) :: lk ->
  validators (TrainingModules.validation stepDef) = Some v ->
  forall data, v db docsId q = Valid data ->
  postTrainingValidateStep req db =
  let userId := or_str (TrainingRequest.user req) "unknown" in
  let db1 := record_completion db sid n (TrainingModules.key stepDef) userId data in
  if (n =? Z.of_nat (List.length (TrainingModules.steps tm)))%Z then
    let (certificateId, db2) := complete_session db1 userId sid n tm in
    Returned
      (ok [ ("@id", validate_url req); ("ok", JBool true); ("step_number", JNum n);
            ("step_key", JStr (TrainingModules.key stepDef));
            ("completed", JBool true); ("certificate_id", JNum certificateId);
            ("message", JStr "Congratulations! All steps completed. Certificate issued.") ])
      db2
  else
    Returned
      (ok [ ("@id", validate_url req); ("ok", JBool true); ("step_number", JNum n);
            ("step_key", JStr (TrainingModules.key stepDef));
            ("completed", JBool false); ("current_step", JNum (n + 1));
            ("message",
             JStr ("Step " ++ string_of_Z n ++ " validated. Proceed to step "
                   ++ string_of_Z (n + 1) ++ ".")) ])
      (update_session db1 sid (advance n)).
Proof.
  intros Hsid Hnz Hn Hs Hu Hst Hcur Hfind Hlk Hv data Hval.
  unfold postTrainingValidateStep.
  rewrite Hsid, Hn.
  replace (or_null_id (Some sid)) with (Some sid)
    by (unfold or_null_id; destruct sid; congruence).
  rewrite Hs, Hu, String.eqb_refl, Hst. cbn [String.eqb Ascii.eqb Bool.eqb negb].
  rewrite <- Hcur, Z.eqb_refl. cbn [negb].
  rewrite Hfind, Hlk, Hv, Hval. reflexivity.
Qed.

(** C9. For an in-progress session of the requesting user,
    validate-step answers 409 and changes nothing when the submitted
    step_number differs from the session's current_step; a response with
    ok = true is only given for step_number = current_step; and when the
    validator of a non-final step succeeds, the step is accepted and the
    current_step of the session becomes current_step + 1, nothing else in
    qms.training_sessions changing. *)
Theorem validate_step_in_order req db sid n session tm rest :
  TrainingRequest.session_id req = Some sid -> sid <> 0%Z ->
  TrainingRequest.step_number req = Some n ->
  session_with_module db sid = (session, tm) :: rest ->
  TrainingSessions.user_id session = or_str (TrainingRequest.user req) "unknown" ->
  TrainingSessions.status session = "in_progress" ->
  (n <> TrainingSessions.current_step session ->
   exists r, postTrainingValidateStep req db = Returned r db /\ status r = Some 409)
  /\ (forall r db', postTrainingValidateStep req db = Returned r db' ->
        member (json r) "ok" = Some (JBool true) ->
        n = TrainingSessions.current_step session)
  /\ (forall stepDef docsId q lk v data,
        n = TrainingSessions.current_step session ->
        find (fun s => (TrainingModules.step s =? n)%Z) (TrainingModules.steps tm)
          = Some stepDef ->
        training_doc_lookup db (TrainingSessions.training_doc_id session) = (docsId, q) :: lk ->
        validators (TrainingModules.validation stepDef) = Some v ->
        v db docsId q = Valid data ->
        n <> Z.of_nat (List.length (TrainingModules.steps tm)) ->
        exists r db',
          postTrainingValidateStep req db = Returned r db'
          /\ status r = None
          /\ member (json r) "current_step"
             = Some (JNum (TrainingSessions.current_step session + 1))
          /\ training_sessions db'
             = map (fun ts =>
                      if (TrainingSessions.id ts =? sid)%Z
                      then session_with (TrainingSessions.status ts)
                             (TrainingSessions.current_step session + 1)
                             (TrainingSessions.completed_at ts)
                             (TrainingSessions.certificate_id ts) ts
                      else ts)
                 (training_sessions db)).
Proof.
  intros Hsid Hnz Hn Hs Hu Hst.
  assert (or_null_id (Some sid) = Some sid) as Hid
    by (unfold or_null_id; destruct sid; congruence).
  split; [|split].
  - intros Hne. unfold postTrainingValidateStep.
    rewrite Hsid, Hn, Hid, Hs, Hu, String.eqb_refl, Hst.
    cbn [String.eqb Ascii.eqb Bool.eqb negb].
    apply Z.eqb_neq in Hne. rewrite Hne. cbn [negb].
    eexists. split; reflexivity.
  - intros r db'. unfold postTrainingValidateStep.
    rewrite Hsid, Hn, Hid, Hs, Hu, String.eqb_refl, Hst.
    cbn [String.eqb Ascii.eqb Bool.eqb negb].
    destruct (n =? TrainingSessions.current_step session)%Z eqn:Heq; cbn [negb].
    + intros _ _. apply Z.eqb_eq. assumption.
    + intros H; inversion H; subst. cbn. discriminate.
  - intros stepDef docsId q lk v data Hcur Hfind Hlk Hv Hval Hlast.
    rewrite (validate_step_checked _ _ _ _ _ _ _ _ _ _ _ _
               Hsid Hnz Hn Hs Hu Hst Hcur Hfind Hlk Hv data Hval).
    cbv zeta. apply Z.eqb_neq in Hlast. rewrite Hlast.
    eexists _, _. split; [reflexivity|]. split; [reflexivity|].
    split; [cbn; rewrite Hcur; reflexivity|].
    unfold update_session. rewrite training_sessions_with.
    destruct (record_completion_frame db sid n (TrainingModules.key stepDef)
                (or_str (TrainingRequest.user req) "unknown") data) as (-> & _).
    unfold advance. rewrite Hcur. reflexivity.
Qed.

(** *** Completion of a session *)

Lemma user_roles_with l db : user_roles (with_user_roles l db) = l.
Proof. destruct db; reflexivity. Qed.

(** The user holds a role row whose [active] flag satisfies [Q]. *)
Definition holds_role (Q : bool -> Prop) (userId role : string) (l : list UserRoles.t) : Prop :=
  exists ur, In ur l /\ UserRoles.user_id ur = userId /\ UserRoles.role_code ur = role
             /\ UserRoles.granted_by ur = "training-system" /\ Q (UserRoles.active ur).

Definition has_role_row (userId role : string) (l : list UserRoles.t) : Prop :=
  exists ur, In ur l /\ UserRoles.user_id ur = userId /\ UserRoles.role_code ur = role.

Lemma has_role_row_existsb userId role l :
  existsb (fun ur => (UserRoles.user_id ur =? userId) && (UserRoles.role_code ur =? role)) l
  = true <-> has_role_row userId role l.
Proof.
  unfold has_role_row. rewrite existsb_exists.
  split; intros (ur & Hin & Hc); exists ur; split; auto.
  - apply andb_true_iff in Hc. destruct Hc as (A & B).
    apply String.eqb_eq in A, B. auto.
  - apply andb_true_iff. split; apply String.eqb_eq; tauto.
Qed.

(** Granting any role keeps the rows of every key, and keeps a role row
    whose flag is acceptable when [true] is. *)
Lemma grant_role_keeps Q userId role other db :
  Q true ->
  holds_role Q userId role (user_roles db) ->
  holds_role Q userId role (user_roles (grant_role userId db other)).
Proof.
  intros Ht (ur & Hin & U1 & U2 & U3 & U4). unfold grant_role.
  destruct (existsb _ (user_roles db)); rewrite user_roles_with.
  - eexists. split; [apply in_map; exact Hin|].
    destruct (_ && _); cbn; auto.
  - exists ur. split; [apply in_or_app; left; assumption|auto].
Qed.

Lemma grant_role_keeps_row userId role other db :
  has_role_row userId role (user_roles db) ->
  has_role_row userId role (user_roles (grant_role userId db other)).
Proof.
  intros (ur & Hin & U1 & U2). unfold grant_role.
  destruct (existsb _ (user_roles db)); rewrite user_roles_with.
  - eexists. split; [apply in_map; exact Hin|].
    destruct (_ && _); cbn; auto.
  - exists ur. split; [apply in_or_app; left; assumption|auto].
Qed.

(** Granting a role leaves a row of it: active when one was there, with
    the column default otherwise. *)
Lemma grant_role_grants userId role db :
  holds_role
    (fun a => a = true
              \/ (~ has_role_row userId role (user_roles db)
                  /\ a = role_active_default schema))
    userId role (user_roles (grant_role userId db role)).
Proof.
  unfold grant_role.
  destruct (existsb _ (user_roles db)) eqn:Hex; rewrite user_roles_with.
  - apply has_role_row_existsb in Hex. destruct Hex as (ur & Hin & U1 & U2).
    eexists. split; [apply in_map; exact Hin|].
    rewrite U1, U2, !String.eqb_refl. cbn. auto.
  - eexists. split; [apply in_or_app; right; left; reflexivity|].
    cbn. repeat split; auto. right. split; auto.
    intros Hrow. apply has_role_row_existsb in Hrow. congruence.
Qed.

Lemma grant_roles_keeps Q userId role roles db :
  Q true ->
  holds_role Q userId role (user_roles db) ->
  holds_role Q userId role (user_roles (fold_left (grant_role userId) roles db)).
Proof.
  intros Ht. revert db. induction roles as [|r roles IH]; cbn; auto.
  intros db H. apply IH. apply grant_role_keeps; assumption.
Qed.

(** After the loop every listed role has a row: active when the user had
    a row of it before the loop, active or at the column default
    otherwise. *)
Lemma grant_roles_grants userId roles db role :
  In role roles ->
  holds_role
    (fun a => a = true
              \/ (~ has_role_row userId role (user_roles db)
                  /\ a = role_active_default schema))
    userId role (user_roles (fold_left (grant_role userId) roles db)).
Proof.
  revert db. induction roles as [|r roles IH]; cbn; [tauto|].
  intros db [->|Hin].
  - apply grant_roles_keeps; [auto|]. apply grant_role_grants.
  - destruct (IH (grant_role userId db r) Hin) as (ur & H1 & H2 & H3 & H4 & H5).
    exists ur. repeat (split; [assumption|]).
    destruct H5 as [H5|(Hno & H5)]; [auto|]. right. split; auto.
    intros Hrow. apply Hno. apply grant_role_keeps_row. assumption.
Qed.

Lemma update_session_frame db sid upd :
  let db' := update_session db sid upd in
  training_certificates db' = training_certificates db
  /\ user_roles db' = user_roles db /\ now db' = now db.
Proof. unfold update_session. destruct db; cbn; tauto. Qed.

Lemma grant_role_frame userId db role :
  let db' := grant_role userId db role in
  training_sessions db' = training_sessions db
  /\ training_certificates db' = training_certificates db.
Proof.
  unfold grant_role. destruct (existsb _ _); destruct db; cbn; tauto.
Qed.

Lemma grant_roles_frame userId roles db :
  let db' := fold_left (grant_role userId) roles db in
  training_sessions db' = training_sessions db
  /\ training_certificates db' = training_certificates db.
Proof.
  revert db. induction roles as [|r roles IH]; cbn; [tauto|].
  intros db. destruct (IH (grant_role userId db r)) as (A & B).
  destruct (grant_role_frame userId db r) as (C & D).
  cbv zeta in *. split; congruence.
Qed.

(** C7. When the validator of the final step of an in-progress session
    of the requesting user succeeds, validate-step answers with
    completed = true and the id of a certificate; one certificate row of
    that id is added to qms.training_certificates for the session and
    user; the session row becomes 'completed' with that certificate_id;
    and for every role code of the module's grants_roles the user has a
    row in qms.user_roles granted by the training system, active when a
    row of the role existed before (ON CONFLICT ... SET active = true) and
    with the column default otherwise. *)
Theorem final_step_completes_session req db sid n session tm rest stepDef docsId q lk v data :
  TrainingRequest.session_id req = Some sid -> sid <> 0%Z ->
  TrainingRequest.step_number req = Some n ->
  session_with_module db sid = (session, tm) :: rest ->
  TrainingSessions.user_id session = or_str (TrainingRequest.user req) "unknown" ->
  TrainingSessions.status session = "in_progress" ->
  n = TrainingSessions.current_step session ->
  find (fun s => (TrainingModules.step s =? n)%Z) (TrainingModules.steps tm) = Some stepDef ->
  training_doc_lookup db (TrainingSessions.training_doc_id session) = (docsId, q) :: lk ->
  validators (TrainingModules.validation stepDef) = Some v ->
  v db docsId q = Valid data ->
  n = Z.of_nat (List.length (TrainingModules.steps tm)) ->
  let userId := or_str (TrainingRequest.user req) "unknown" in
  exists r db' cert certificateId,
    postTrainingValidateStep req db = Returned r db'
    /\ status r = None
    /\ member (json r) "completed" = Some (JBool true)
    /\ member (json r) "certificate_id" = Some (JNum certificateId)
    /\ training_certificates db' = (training_certificates db ++ [cert])%list
    /\ TrainingCertificates.certificate_id cert = certificateId
    /\ TrainingCertificates.session_id cert = sid
    /\ TrainingCertificates.user_id cert = userId
    /\ TrainingCertificates.module_code cert = TrainingModules.module_code tm
    /\ TrainingCertificates.qualified_for cert = TrainingModules.grants_roles tm
    /\ training_sessions db'
       = map (fun ts =>
                if (TrainingSessions.id ts =? sid)%Z
                then session_with "completed" (n + 1) (Some (now db)) (Some certificateId) ts
                else ts)
           (training_sessions db)
    /\ (forall roles role,
          TrainingModules.grants_roles tm = Some roles -> In role roles ->
          exists ur, In ur (user_roles db')
            /\ UserRoles.user_id ur = userId /\ UserRoles.role_code ur = role
            /\ UserRoles.granted_by ur = "training-system"
            /\ (has_role_row userId role (user_roles db) -> UserRoles.active ur = true)
            /\ (role_active_default schema = true -> UserRoles.active ur = true)).
Proof.
  intros Hsid Hnz Hn Hs Hu Hst Hcur Hfind Hlk Hv Hval Hlast userId.
  rewrite (validate_step_checked _ _ _ _ _ _ _ _ _ _ _ _
             Hsid Hnz Hn Hs Hu Hst Hcur Hfind Hlk Hv data Hval).
  cbv zeta. fold userId. rewrite <- Hlast, Z.eqb_refl.
  set (db1 := record_completion db sid n (TrainingModules.key stepDef) userId data).
  destruct (record_completion_frame db sid n (TrainingModules.key stepDef) userId data)
    as (Rs & Rc & Rr & Ru & Rn & Ri).
  fold db1 in Rs, Rc, Rr, Ru, Rn, Ri. cbv zeta in Rs, Rc, Rr, Ru, Rn, Ri.
  unfold complete_session, fresh. cbv beta iota zeta.
  set (db2 := with_next_id (next_id db1 + 1) db1).
  set (certificateId := next_id db1).
  match goal with |- context [with_training_certificates (?l ++ [?c])%list db2] =>
    set (cert := c); set (db3 := with_training_certificates (l ++ [cert])%list db2)
  end.
  match goal with |- context [update_session db3 sid ?f] =>
    set (db4 := update_session db3 sid f)
  end.
  set (db5 := grant_roles userId (TrainingModules.grants_roles tm) db4).
  assert (training_certificates db3 = (training_certificates db ++ [cert])%list
          /\ training_sessions db3 = training_sessions db
          /\ user_roles db3 = user_roles db /\ now db3 = now db) as (C3 & S3 & U3 & N3).
  { unfold db3, db2. rewrite <- Rc, <- Rs, <- Rr, <- Rn.
    destruct db1; cbn; tauto. }
  destruct (update_session_frame db3 sid
              (session_with "completed" (n + 1) (Some (now db3)) (Some certificateId)))
    as (C4 & U4 & _).
  fold db4 in C4, U4. cbv zeta in C4, U4.
  destruct (grant_roles_frame userId
              (match TrainingModules.grants_roles tm with Some l => l | None => [] end) db4)
    as (S5 & C5).
  fold (grant_roles userId (TrainingModules.grants_roles tm) db4) in S5, C5.
  fold db5 in S5, C5. cbv zeta in S5, C5.
  exists (ok [ ("@id", validate_url req); ("ok", JBool true); ("step_number", JNum n);
               ("step_key", JStr (TrainingModules.key stepDef));
               ("completed", JBool true); ("certificate_id", JNum certificateId);
               ("message", JStr "Congratulations! All steps completed. Certificate issued.") ]),
    db5, cert, certificateId.
  split; [reflexivity|]. split; [reflexivity|]. split; [reflexivity|].
  split; [reflexivity|].
  split; [rewrite C5, C4, C3; reflexivity|].
  split; [reflexivity|]. split; [reflexivity|]. split; [reflexivity|].
  split; [reflexivity|]. split; [reflexivity|].
  split.
  { rewrite S5. unfold db4, update_session. rewrite training_sessions_with, S3, N3.
    reflexivity. }
  intros roles role Hroles Hin.
  unfold db5, grant_roles. rewrite Hroles.
  destruct (grant_roles_grants userId roles db4 role Hin) as (ur & H1 & H2 & H3 & H4 & H5).
  rewrite U4, U3 in H5.
  exists ur. repeat (split; [assumption|]).
  split; intros H; destruct H5 as [H5|(Hno & H5)]; auto; try contradiction; congruence.
Qed.

(** *** Version bumps *)

Example bumpVersion_minor : bumpVersion "1.2.3" "minor" = Done "1.3.0".
Proof. reflexivity. Qed.

Example bumpVersion_short : bumpVersion "2" "patch" = Done "2.0.1".
Proof. reflexivity. Qed.

Example bumpVersion_leading_zero : bumpVersion "01.9" "major" = Done "2.0.0".
Proof. reflexivity. Qed.



(** No character of the string is a dot. *)
Definition dotless (s : string) : Prop :=
  forallb (fun c => negb (Ascii.eqb c "."%char)) (list_ascii_of_string s) = true.


Lemma split_dotless s : dotless s -> split "."%char s = [s].
Proof.
  unfold dotless. induction s as [|c s IH]; cbn [split list_ascii_of_string forallb].
  - reflexivity.
  - intros H. apply andb_true_iff in H. destruct H as (Hc & Hs).
    apply negb_true_iff in Hc. rewrite Hc, (IH Hs). reflexivity.
Qed.

Lemma split_dotless_app s rest :
  dotless s -> split "."%char (s ++ String "."%char rest) = s :: split "."%char rest.
Proof.
  unfold dotless. induction s as [|c s IH]; cbn [split list_ascii_of_string forallb append].
  - reflexivity.
  - intros H. apply andb_true_iff in H. destruct H as (Hc & Hs).
    apply negb_true_iff in Hc. rewrite Hc, (IH Hs). reflexivity.
Qed.


(** *** Error responses *)

(** The status codes of the error returns of the routes. *)
Definition error_codes : list Z := [400; 403; 404; 409; 422; 500]%Z.

(** A response is a success or a well-formed error. *)
Definition sound_response (r : Response) : Prop :=
  is_error r = true -> error_response error_codes r.

Ltac response_done :=
  unfold sound_response, error_response, error_codes, is_error, status_code,
    error, ok, created, listing, error_json;
  cbn [status json];
  first
    [ intros H; discriminate H
    | intros _; split; [cbn; tauto | eexists _, _; reflexivity] ].

Ltac handler_step :=
  match goal with
  | |- Returned _ _ = Returned _ _ -> _ =>
      let H := fresh in intros H; inversion H; subst; clear H
  | |- Threw _ = Returned _ _ -> _ => intros H; discriminate H
  | |- (match ?x with _ => _ end) = Returned _ _ -> _ => destruct x eqn:?
  | |- (if ?x then _ else _) = Returned _ _ -> _ => destruct x eqn:?
  | |- sound_response (match ?x with _ => _ end) => destruct x eqn:?
  | |- sound_response (if ?x then _ else _) => destruct x eqn:?
  | |- sound_response _ => response_done
  end.

Ltac handler_cases := cbv zeta; repeat handler_step.

Lemma getDocDraft_sound req db r db' :
  getDocDraft req db = Returned r db' -> sound_response r.
Proof. unfold getDocDraft. handler_cases. Qed.

Lemma putDocDraft_sound req db r db' :
  putDocDraft req db = Returned r db' -> sound_response r.
Proof.
  unfold putDocDraft. handler_cases.
  destruct (_ =? _)%Z; response_done.
Qed.

Lemma deleteDocDraft_sound req db r db' :
  deleteDocDraft req db = Returned r db' -> sound_response r.
Proof. unfold deleteDocDraft. handler_cases. Qed.

Lemma postDocDraftSubmit_sound req db r db' :
  postDocDraftSubmit req db = Returned r db' -> sound_response r.
Proof. unfold postDocDraftSubmit. handler_cases. Qed.

Lemma postDocDraftApprove_sound req db r db' :
  postDocDraftApprove req db = Returned r db' -> sound_response r.
Proof. unfold postDocDraftApprove. handler_cases. Qed.

Lemma postDocDraftReject_sound req db r db' :
  postDocDraftReject req db = Returned r db' -> sound_response r.
Proof. unfold postDocDraftReject. handler_cases. Qed.

Lemma postDocsSave_sound req db r db' :
  postDocsSave req db = Returned r db' -> sound_response r.
Proof. unfold postDocsSave. handler_cases. Qed.

Lemma postQmsEvidence_sound req db r db' :
  postQmsEvidence req db = Returned r db' -> sound_response r.
Proof. unfold postQmsEvidence. handler_cases. Qed.

Lemma postTrainingStart_sound req db r db' :
  postTrainingStart req db = Returned r db' -> sound_response r.
Proof. unfold postTrainingStart. handler_cases. Qed.

Lemma postTrainingValidateStep_sound req db r db' :
  postTrainingValidateStep req db = Returned r db' -> sound_response r.
Proof. unfold postTrainingValidateStep. handler_cases. Qed.

Lemma postTrainingAbandon_sound req db r db' :
  postTrainingAbandon req db = Returned r db' -> sound_response r.
Proof. unfold postTrainingAbandon. handler_cases. Qed.

Lemma postQmsDocument_sound req db r db' :
  postQmsDocument req db = Returned r db' -> sound_response r.
Proof. unfold postQmsDocument. handler_cases. Qed.

Lemma postQmsFromKb_sound req db r db' :
  postQmsFromKb req db = Returned r db' -> sound_response r.
Proof. unfold postQmsFromKb. handler_cases. Qed.

Lemma postQmsFromKbBatch_sound user root_url items db r db' :
  postQmsFromKbBatch user root_url items db = Returned r db' -> sound_response r.
Proof. unfold postQmsFromKbBatch. handler_cases. Qed.

Lemma putQmsDocument_sound req db r db' :
  putQmsDocument req db = Returned r db' -> sound_response r.
Proof. unfold putQmsDocument. handler_cases. Qed.

Lemma postQmsTransition_sound req db r db' :
  postQmsTransition req db = Returned r db' -> sound_response r.
Proof. unfold postQmsTransition. handler_cases. Qed.

(** C8 (as amended). Every error response a route handler returns
    carries one of the status codes 400, 403, 404, 409, 422 or 500, and
    its body is a JSON object whose first member, [error], is the
    message. *)
Theorem error_responses_are_uniform r :
  produced r -> is_error r = true -> error_response [400; 403; 404; 409; 422; 500]%Z r.
Proof.
  intros Hp. change (sound_response r).
  destruct Hp;
    first
      [ eapply getDocDraft_sound; eassumption
      | eapply putDocDraft_sound; eassumption
      | eapply deleteDocDraft_sound; eassumption
      | eapply postDocDraftSubmit_sound; eassumption
      | eapply postDocDraftApprove_sound; eassumption
      | eapply postDocDraftReject_sound; eassumption
      | eapply postDocsSave_sound; eassumption
      | eapply postQmsEvidence_sound; eassumption
      | eapply postTrainingStart_sound; eassumption
      | eapply postTrainingValidateStep_sound; eassumption
      | eapply postTrainingAbandon_sound; eassumption
      | eapply postQmsDocument_sound; eassumption
      | eapply postQmsFromKb_sound; eassumption
      | eapply postQmsFromKbBatch_sound; eassumption
      | eapply putQmsDocument_sound; eassumption
      | eapply postQmsTransition_sound; eassumption
      | idtac ].
  - unfold getDoc. handler_cases.
  - unfold getDocLinks. handler_cases.
  - unfold postDocLinks. handler_cases.
  - unfold deleteDocLink. handler_cases.
  - unfold getQmsEvidence. handler_cases.
  - unfold getQmsEvidenceSummary. handler_cases.
  - unfold getTrainingCertificate. handler_cases.
  - unfold getQmsDocument. handler_cases.
  - unfold getQmsIssue. handler_cases.
  - response_done.
Qed.

(** *** The register's audit trail *)

(** PUT /@qms/register/:document_id writes no transition, whatever it
    changes. *)
Lemma putQmsDocument_transitions req db r db' :
  putQmsDocument req db = Returned r db' ->
  document_transitions db' = document_transitions db.
Proof.
  unfold putQmsDocument.
  destruct (negb _); [intros H; inversion H; reflexivity|].
  destruct (cd_by_document_id db _) as [|cd l]; [intros H; inversion H; reflexivity|].
  destruct (no_fields_to_update req); [intros H; inversion H; reflexivity|].
  destruct (map _ _); intros H; inversion H; subst; destruct db; reflexivity.
Qed.

(** POST /@qms/register/:document_id/transition, the sibling write path,
    records a transition row with the old and the new status and version
    whenever it succeeds. *)
Lemma postQmsTransition_audits req db r db' :
  postQmsTransition req db = Returned r db' -> is_error r = false ->
  exists current rest row,
    cd_by_document_id db (QmsRequest.param_document_id req) = current :: rest
    /\ document_transitions db' = (document_transitions db ++ [row])%list
    /\ DocumentTransitions.document_id row = QmsRequest.param_document_id req
    /\ DocumentTransitions.from_status row = ControlledDocuments.status current
    /\ DocumentTransitions.from_version row = ControlledDocuments.version current
    /\ DocumentTransitions.to_status row
       = coalesce (or_null_str (QmsRequest.to_status req)) (ControlledDocuments.status current)
    /\ DocumentTransitions.to_version row
       = coalesce (or_null_str (QmsRequest.to_version req))
           (ControlledDocuments.version current).
Proof.
  unfold postQmsTransition.
  destruct (negb _); [intros H; inversion H; subst; discriminate|].
  destruct (negb _); [intros H; inversion H; subst; discriminate|].
  destruct (cd_by_document_id db _) as [|current rest];
    [intros H; inversion H; subst; discriminate|].
  match goal with |- context [insert_transition db ?q ?a ?fs ?ts ?fv ?tv ?u ?c ?e] =>
    destruct (insert_transition_rows db q a fs ts fv tv u c e)
      as (row & Hrow & R1 & _ & R3 & R4 & R5 & R6);
    destruct (insert_transition db q a fs ts fv tv u c e) as [i db1]
  end.
  cbn [snd] in Hrow.
  intros H _. inversion H; subst. clear H.
  exists current, rest, row.
  split; [reflexivity|].
  split; [|tauto].
  rewrite <- Hrow.
  destruct (or_null_str (QmsRequest.to_status req));
    destruct (or_null_str (QmsRequest.to_version req));
    try reflexivity; destruct db1; reflexivity.
Qed.

(** ** Further properties of the draft routes *)

Lemma with_doc_drafts_same db : with_doc_drafts (doc_drafts db) db = db.
Proof. destruct db; reflexivity. Qed.

Lemma map_if_none {A} (p : A -> bool) (g : A -> A) l :
  filter p l = [] -> map (fun x => if p x then g x else x) l = l.
Proof.
  induction l as [|x l IH]; cbn; [reflexivity|].
  destruct (p x); [discriminate|]. intros H. rewrite (IH H). reflexivity.
Qed.

Lemma filter_nil_iff {A} (p : A -> bool) l :
  filter p l = [] <-> forall x, In x l -> p x = false.
Proof.
  split.
  - intros H x Hin. destruct (p x) eqn:Hp; [|reflexivity].
    assert (In x (filter p l)) as Hf by (apply filter_In; auto).
    rewrite H in Hf. destruct Hf.
  - intros H. induction l as [|x l IH]; cbn; [reflexivity|].
    rewrite (H x (or_introl eq_refl)). apply IH. intros y Hy. apply H. right. assumption.
Qed.

Lemma filter_all {A} (p : A -> bool) l :
  (forall x, In x l -> p x = true) -> filter p l = l.
Proof.
  induction l as [|x l IH]; cbn; [reflexivity|]. intros H.
  rewrite (H x (or_introl eq_refl)), IH; [reflexivity|].
  intros y Hy. apply H. right. assumption.
Qed.

Lemma Forall2_map_r {A} (R : A -> A -> Prop) (f : A -> A) l :
  (forall x, R x (f x)) -> Forall2 R l (map f l).
Proof. intros H. induction l; cbn; constructor; auto. Qed.

(** One INSERT of [insertEvidence]: the row it appends. *)
Lemma insertEvidence_rows db q t ty data text u :
  exists row,
    document_evidence (insertEvidence db q t ty data text u)
    = (document_evidence db ++ [row])%list
    /\ DocumentEvidence.document_id row = q
    /\ DocumentEvidence.transition_id row = or_null_id t
    /\ DocumentEvidence.evidence_type row = ty
    /\ DocumentEvidence.evidence_data row = data
    /\ DocumentEvidence.recorded_by row = u
    /\ DocumentEvidence.is_superseded row = evidence_superseded_default schema.
Proof.
  unfold insertEvidence. destruct db; cbn. eexists. split; [reflexivity|]. cbn. tauto.
Qed.

(** How POST /@docs/draft/submit relates a draft row to the row it
    leaves: the drafts of document [v] that are 'draft' or 'rejected'
    come under review with their notes cleared, nothing else changes. *)
Definition submitted_row (v : Z) (userId : string) (dr dr' : DocDrafts.t) : Prop :=
  if (DocDrafts.doc_id dr =? v)%Z
     && ((DocDrafts.status dr =? "draft") || (DocDrafts.status dr =? "rejected"))
  then
    DocDrafts.id dr' = DocDrafts.id dr /\ DocDrafts.doc_id dr' = DocDrafts.doc_id dr
    /\ DocDrafts.version dr' = DocDrafts.version dr
    /\ DocDrafts.title dr' = DocDrafts.title dr
    /\ DocDrafts.body_md dr' = DocDrafts.body_md dr
    /\ DocDrafts.frontmatter dr' = DocDrafts.frontmatter dr
    /\ DocDrafts.created_by dr' = DocDrafts.created_by dr
    /\ DocDrafts.created_at dr' = DocDrafts.created_at dr
    /\ DocDrafts.status dr' = "in_review"
    /\ DocDrafts.reviewer_notes dr' = None
    /\ DocDrafts.updated_by dr' = userId
  else dr' = dr.

Lemma doc_id_of_slug_one db slug d :
  docs_by_slug db slug = [d] -> doc_id_of_slug db slug = ScalarValue (Docs.id d).
Proof. unfold doc_id_of_slug. intros ->. reflexivity. Qed.

Lemma submit_evidence_frame req u q db :
  let db' := submit_evidence req u q db in
  same_i18n db db'
  /\ controlled_documents db' = controlled_documents db
  /\ document_transitions db' = document_transitions db.
Proof.
  unfold submit_evidence. cbv zeta.
  assert (forall x a b c d e f,
             same_i18n x (insertEvidence x a b c d e f)
             /\ controlled_documents (insertEvidence x a b c d e f) = controlled_documents x
             /\ document_transitions (insertEvidence x a b c d e f) = document_transitions x)
    as HE by (intros; apply insertEvidence_only).
  assert (forall x, same_i18n x x /\ controlled_documents x = controlled_documents x
                    /\ document_transitions x = document_transitions x) as HR
    by (intros; apply evidence_only_refl).
  match goal with |- context [match DraftRequest.qualification req with
                              | Some _ => _ | None => ?d end] => set (db1 := d) end.
  assert (evidence_only db db1) as H1.
  { unfold db1. destruct (DraftRequest.coi_declaration req) as [c|]; [|apply HR].
    destruct (truthy c); [apply HE|apply HR]. }
  assert (evidence_only db1
            match DraftRequest.qualification req with
            | Some q0 =>
                if truthy q0
                then insertEvidence db1 q None "qualification"
                       (JObj [("contributors",
                               or_json (member q0 "contributors")
                                 (JArr [JObj [("user_id", JStr u); ("role", JStr "reviewer");
                                              ("basis", or_json (member q0 "basis") (JStr ""))]]))])
                       (Some ("Qualification: "
                              ++ to_string (or_json (member q0 "basis")
                                              (JStr "(see evidence_data)")))) u
                else db1
            | None => db1
            end) as H2.
  { destruct (DraftRequest.qualification req) as [c|]; [|apply HR].
    destruct (truthy c); [apply HE|apply HR]. }
  exact (evidence_only_trans _ _ _ H1 H2).
Qed.

(** The drafts of document [d], and those of them that can be submitted. *)
Definition draft_of (db : DB) (d : Docs.t) (dr : DocDrafts.t) : Prop :=
  In dr (doc_drafts db) /\ DocDrafts.doc_id dr = Docs.id d.

Definition submittable (dr : DocDrafts.t) : Prop :=
  DocDrafts.status dr = "draft" \/ DocDrafts.status dr = "rejected".

Lemma submit_run req db slug d :
  DraftRequest.slug req = Some slug -> slug <> "" ->
  docs_by_slug db slug = [d] ->
  (exists dr, draft_of db d dr /\ submittable dr) ->
  exists r db',
    postDocDraftSubmit req db = Returned r db'
    /\ status r = None
    /\ Forall2 (submitted_row (Docs.id d) (or_str (DraftRequest.user req) "unknown"))
         (doc_drafts db) (doc_drafts db')
    /\ docs db' = docs db /\ doc_versions db' = doc_versions db
    /\ controlled_documents db' = controlled_documents db
    /\ document_transitions db' = document_transitions db.
Proof.
  intros Hslug Hne Hd (dr0 & (Hin0 & Hid0) & Hopen0).
  set (u := or_str (DraftRequest.user req) "unknown").
  set (hit := fun dr : DocDrafts.t =>
                doc_id_is (ScalarValue (Docs.id d)) dr
                && ((DocDrafts.status dr =? "draft") || (DocDrafts.status dr =? "rejected"))).
  pose proof (doc_id_of_slug_one _ _ _ Hd) as Hscalar.
  apply String.eqb_neq in Hne.
  unfold postDocDraftSubmit. rewrite Hslug. cbn [truthy_str negb or_str].
  rewrite Hne. cbn [negb]. rewrite Hscalar. cbv beta iota zeta. fold u.
  match goal with |- context [map ?f (filter ?h (doc_drafts db))] =>
    set (upd := f); change h with hit end.
  assert (In (upd dr0) (map upd (filter hit (doc_drafts db)))) as Hne0.
  { apply in_map, filter_In. split; [assumption|]. unfold hit, doc_id_is.
    rewrite Hid0, Z.eqb_refl. destruct Hopen0 as [-> | ->]; reflexivity. }
  destruct (map upd (filter hit (doc_drafts db))) as [|row rows]; [destruct Hne0|].
  match goal with |- context [getQmsDocumentId ?x _] => set (db1 := x) end.
  assert (Forall2 (submitted_row (Docs.id d) u) (doc_drafts db) (doc_drafts db1)) as HF.
  { unfold db1. rewrite doc_drafts_with. apply Forall2_map_r. intros x.
    unfold submitted_row. unfold doc_id_is.
    destruct (_ && _); [|reflexivity]. cbn. tauto. }
  assert (docs db1 = docs db /\ doc_versions db1 = doc_versions db
          /\ controlled_documents db1 = controlled_documents db
          /\ document_transitions db1 = document_transitions db) as (F1 & F2 & F3 & F4)
    by (unfold db1; destruct db; cbn; tauto).
  eexists _, _. split; [reflexivity|]. split; [reflexivity|].
  destruct (getQmsDocumentId db1 (DocDrafts.doc_id row)) as [q|]; [|tauto].
  destruct (q =? ""); [tauto|].
  destruct (submit_evidence_frame req u q db1) as ((S1 & S2 & S3 & _) & S4 & S5).
  cbv zeta in *. rewrite S1, S2, S3, S4, S5. tauto.
Qed.

(** The answer of the two status-changing handlers when their UPDATE
    matched no row. *)
Lemma no_row_updated (hit : DocDrafts.t -> bool) upd db :
  filter hit (doc_drafts db) = [] ->
  with_doc_drafts (map (fun dr => if hit dr then upd dr else dr) (doc_drafts db)) db = db.
Proof. intros H. rewrite (map_if_none hit _ _ H). apply with_doc_drafts_same. Qed.

Lemma submit_not_open req db slug d :
  DraftRequest.slug req = Some slug -> slug <> "" ->
  docs_by_slug db slug = [d] ->
  (exists dr, draft_of db d dr) -> (forall dr, draft_of db d dr -> ~ submittable dr) ->
  exists r, postDocDraftSubmit req db = Returned r db /\ status r = Some 409.
Proof.
  intros Hslug Hne Hd (dr0 & Hin0 & Hid0) Hnone.
  set (hit := fun dr : DocDrafts.t =>
                doc_id_is (ScalarValue (Docs.id d)) dr
                && ((DocDrafts.status dr =? "draft") || (DocDrafts.status dr =? "rejected"))).
  pose proof (doc_id_of_slug_one _ _ _ Hd) as Hscalar.
  apply String.eqb_neq in Hne.
  assert (filter hit (doc_drafts db) = []) as Hf.
  { apply filter_nil_iff. intros x Hx. destruct (hit x) eqn:E; [|reflexivity].
    unfold hit, doc_id_is in E.
    rewrite andb_true_iff, orb_true_iff, Z.eqb_eq, !String.eqb_eq in E.
    destruct E as (E1 & E2). exfalso. apply (Hnone x); [split|]; assumption. }
  unfold postDocDraftSubmit. rewrite Hslug. cbn [truthy_str negb or_str].
  rewrite Hne. cbn [negb]. rewrite Hscalar. cbv beta iota zeta.
  match goal with |- context [map ?f (filter ?h (doc_drafts db))] =>
    set (upd := f); change h with hit end.
  match goal with |- context [with_doc_drafts ?l db] =>
    replace (with_doc_drafts l db) with db
      by (symmetry; exact (no_row_updated hit upd db Hf)) end.
  rewrite Hf. cbn [map].
  assert (In dr0 (filter (doc_id_is (ScalarValue (Docs.id d))) (doc_drafts db))) as Hm.
  { apply filter_In. split; [assumption|]. cbn. apply Z.eqb_eq. assumption. }
  destruct (filter (doc_id_is (ScalarValue (Docs.id d))) (doc_drafts db)); [destruct Hm|].
  eexists. split; reflexivity.
Qed.

Lemma submit_no_draft req db slug d :
  DraftRequest.slug req = Some slug -> slug <> "" ->
  docs_by_slug db slug = [d] ->
  (forall dr, ~ draft_of db d dr) ->
  exists r, postDocDraftSubmit req db = Returned r db /\ status r = Some 404.
Proof.
  intros Hslug Hne Hd Hnone.
  set (hit := fun dr : DocDrafts.t =>
                doc_id_is (ScalarValue (Docs.id d)) dr
                && ((DocDrafts.status dr =? "draft") || (DocDrafts.status dr =? "rejected"))).
  pose proof (doc_id_of_slug_one _ _ _ Hd) as Hscalar.
  apply String.eqb_neq in Hne.
  assert (filter (doc_id_is (ScalarValue (Docs.id d))) (doc_drafts db) = []) as Hm.
  { apply filter_nil_iff. intros x Hx. cbn. apply Z.eqb_neq. intros E.
    apply (Hnone x). split; assumption. }
  assert (filter hit (doc_drafts db) = []) as Hf.
  { apply filter_nil_iff. intros x Hx. unfold hit.
    rewrite (proj1 (filter_nil_iff _ _) Hm x Hx). reflexivity. }
  unfold postDocDraftSubmit. rewrite Hslug. cbn [truthy_str negb or_str].
  rewrite Hne. cbn [negb]. rewrite Hscalar. cbv beta iota zeta.
  match goal with |- context [map ?f (filter ?h (doc_drafts db))] =>
    set (upd := f); change h with hit end.
  match goal with |- context [with_doc_drafts ?l db] =>
    replace (with_doc_drafts l db) with db
      by (symmetry; exact (no_row_updated hit upd db Hf)) end.
  rewrite Hf, Hm. cbn [map].
  eexists. split; reflexivity.
Qed.

(** X1. POST /@docs/draft/submit, for a slug that names one document.
    When the document has a draft that is 'draft' or 'rejected', the
    answer is a success and such drafts come under review with their
    reviewer notes cleared, every other draft row and the knowledge-base
    and register tables staying as they were; when its drafts are in
    another status the answer is 409, and when it has none 404, both
    without any change. *)
Theorem submit_moves_draft_to_review req db slug d :
  DraftRequest.slug req = Some slug -> slug <> "" ->
  docs_by_slug db slug = [d] ->
  ((exists dr, draft_of db d dr /\ submittable dr) ->
   exists r db',
     postDocDraftSubmit req db = Returned r db'
     /\ status r = None
     /\ Forall2 (submitted_row (Docs.id d) (or_str (DraftRequest.user req) "unknown"))
          (doc_drafts db) (doc_drafts db')
     /\ docs db' = docs db /\ doc_versions db' = doc_versions db
     /\ controlled_documents db' = controlled_documents db
     /\ document_transitions db' = document_transitions db)
  /\ ((exists dr, draft_of db d dr) -> (forall dr, draft_of db d dr -> ~ submittable dr) ->
      exists r, postDocDraftSubmit req db = Returned r db /\ status r = Some 409)
  /\ ((forall dr, ~ draft_of db d dr) ->
      exists r, postDocDraftSubmit req db = Returned r db /\ status r = Some 404).
Proof.
  intros Hslug Hne Hd. split; [|split].
  - apply (submit_run req db slug d Hslug Hne Hd).
  - apply (submit_not_open req db slug d Hslug Hne Hd).
  - apply (submit_no_draft req db slug d Hslug Hne Hd).
Qed.

(** How POST /@docs/draft/reject relates a draft row to the row it
    leaves. *)
Definition rejected_row (v : Z) (userId notes : string) (dr dr' : DocDrafts.t) : Prop :=
  if (DocDrafts.doc_id dr =? v)%Z && (DocDrafts.status dr =? "in_review")
  then
    DocDrafts.id dr' = DocDrafts.id dr /\ DocDrafts.doc_id dr' = DocDrafts.doc_id dr
    /\ DocDrafts.version dr' = DocDrafts.version dr
    /\ DocDrafts.title dr' = DocDrafts.title dr
    /\ DocDrafts.body_md dr' = DocDrafts.body_md dr
    /\ DocDrafts.frontmatter dr' = DocDrafts.frontmatter dr
    /\ DocDrafts.created_by dr' = DocDrafts.created_by dr
    /\ DocDrafts.created_at dr' = DocDrafts.created_at dr
    /\ DocDrafts.status dr' = "rejected"
    /\ DocDrafts.reviewer_notes dr' = Some notes
    /\ DocDrafts.updated_by dr' = userId
  else dr' = dr.

Lemma reject_run req db slug notes d :
  DraftRequest.slug req = Some slug -> slug <> "" ->
  DraftRequest.notes req = Some notes -> notes <> "" ->
  docs_by_slug db slug = [d] ->
  (exists dr, In dr (doc_drafts db) /\ DocDrafts.doc_id dr = Docs.id d
              /\ DocDrafts.status dr = "in_review") ->
  exists r db',
    postDocDraftReject req db = Returned r db'
    /\ status r = None
    /\ Forall2 (rejected_row (Docs.id d) (or_str (DraftRequest.user req) "unknown") notes)
         (doc_drafts db) (doc_drafts db')
    /\ docs db' = docs db /\ doc_versions db' = doc_versions db
    /\ controlled_documents db' = controlled_documents db
    /\ document_transitions db' = document_transitions db
    /\ match getQmsDocumentId db (Docs.id d) with
       | Some q =>
           if q =? "" then document_evidence db' = document_evidence db
           else exists row,
               document_evidence db' = (document_evidence db ++ [row])%list
               /\ DocumentEvidence.document_id row = q
               /\ DocumentEvidence.transition_id row = None
               /\ DocumentEvidence.evidence_type row = "rejection_feedback"
               /\ member (DocumentEvidence.evidence_data row) "feedback" = Some (JStr notes)
               /\ DocumentEvidence.recorded_by row = or_str (DraftRequest.user req) "unknown"
       | None => document_evidence db' = document_evidence db
       end.
Proof.
  intros Hslug Hne Hnotes Hnn Hd (dr0 & Hin0 & Hid0 & Hst0).
  set (u := or_str (DraftRequest.user req) "unknown").
  set (hit := fun dr : DocDrafts.t =>
                doc_id_is (ScalarValue (Docs.id d)) dr && (DocDrafts.status dr =? "in_review")).
  pose proof (doc_id_of_slug_one _ _ _ Hd) as Hscalar.
  apply String.eqb_neq in Hne. apply String.eqb_neq in Hnn.
  unfold postDocDraftReject. rewrite Hslug, Hnotes. cbn [truthy_str negb or_str].
  rewrite Hne, Hnn. cbn [negb]. rewrite Hscalar. cbv beta iota zeta. fold u.
  match goal with |- context [map ?f (filter ?h (doc_drafts db))] =>
    set (upd := f); change h with hit end.
  assert (In (upd dr0) (map upd (filter hit (doc_drafts db)))) as Hne0.
  { apply in_map, filter_In. split; [assumption|]. unfold hit, doc_id_is.
    rewrite Hid0, Hst0, Z.eqb_refl. reflexivity. }
  destruct (map upd (filter hit (doc_drafts db))) as [|row rows] eqn:Erows; [destruct Hne0|].
  assert (DocDrafts.doc_id row = Docs.id d) as Hrow.
  { assert (In row (map upd (filter hit (doc_drafts db)))) as Hr by (rewrite Erows; left; reflexivity).
    apply in_map_iff in Hr. destruct Hr as (x & <- & Hx). apply filter_In in Hx.
    destruct Hx as (_ & Hx). unfold hit, doc_id_is in Hx.
    apply andb_true_iff in Hx. destruct Hx as (Hx & _). apply Z.eqb_eq in Hx. exact Hx. }
  match goal with |- context [getQmsDocumentId ?x _] => set (db1 := x) end.
  assert (Forall2 (rejected_row (Docs.id d) u notes) (doc_drafts db) (doc_drafts db1)) as HF.
  { unfold db1. rewrite doc_drafts_with. apply Forall2_map_r. intros x.
    unfold rejected_row. unfold doc_id_is.
    destruct (_ && _); [|reflexivity]. cbn. tauto. }
  assert (docs db1 = docs db /\ doc_versions db1 = doc_versions db
          /\ controlled_documents db1 = controlled_documents db
          /\ document_transitions db1 = document_transitions db
          /\ document_evidence db1 = document_evidence db) as (F1 & F2 & F3 & F4 & F5)
    by (unfold db1; destruct db; cbn; tauto).
  rewrite Hrow, (getQmsDocumentId_ext db db1 _ F3).
  eexists _, _. split; [reflexivity|]. split; [reflexivity|].
  destruct (getQmsDocumentId db (Docs.id d)) as [q|]; [|tauto].
  destruct (q =? ""); [tauto|].
  match goal with |- context [insertEvidence db1 q ?t ?ty ?data ?text u] =>
    destruct (insertEvidence_only db1 q t ty data text u) as ((S1 & S2 & S3 & _) & S4 & S5);
    destruct (insertEvidence_rows db1 q t ty data text u)
      as (erow & E1 & E2 & E3 & E4 & E5 & E6 & _)
  end.
  rewrite S1, S2, S3, S4, S5.
  repeat (split; [assumption|]).
  exists erow. rewrite E1, F5, E5. cbn in E3. repeat (split; [assumption || reflexivity|]).
  assumption.
Qed.

Lemma reject_not_in_review req db slug notes d :
  DraftRequest.slug req = Some slug -> slug <> "" ->
  DraftRequest.notes req = Some notes -> notes <> "" ->
  docs_by_slug db slug = [d] ->
  (exists dr, draft_of db d dr) ->
  (forall dr, draft_of db d dr -> DocDrafts.status dr <> "in_review") ->
  exists r, postDocDraftReject req db = Returned r db /\ status r = Some 409.
Proof.
  intros Hslug Hne Hnotes Hnn Hd (dr0 & Hin0 & Hid0) Hnone.
  set (hit := fun dr : DocDrafts.t =>
                doc_id_is (ScalarValue (Docs.id d)) dr && (DocDrafts.status dr =? "in_review")).
  pose proof (doc_id_of_slug_one _ _ _ Hd) as Hscalar.
  apply String.eqb_neq in Hne. apply String.eqb_neq in Hnn.
  assert (filter hit (doc_drafts db) = []) as Hf.
  { apply filter_nil_iff. intros x Hx. destruct (hit x) eqn:E; [|reflexivity].
    unfold hit, doc_id_is in E. rewrite andb_true_iff, Z.eqb_eq, String.eqb_eq in E.
    destruct E as (E1 & E2). exfalso. apply (Hnone x); [split|]; assumption. }
  unfold postDocDraftReject. rewrite Hslug, Hnotes. cbn [truthy_str negb or_str].
  rewrite Hne, Hnn. cbn [negb]. rewrite Hscalar. cbv beta iota zeta.
  match goal with |- context [map ?f (filter ?h (doc_drafts db))] =>
    set (upd := f); change h with hit end.
  match goal with |- context [with_doc_drafts ?l db] =>
    replace (with_doc_drafts l db) with db
      by (symmetry; exact (no_row_updated hit upd db Hf)) end.
  rewrite Hf. cbn [map].
  assert (In dr0 (filter (doc_id_is (ScalarValue (Docs.id d))) (doc_drafts db))) as Hm.
  { apply filter_In. split; [assumption|]. cbn. apply Z.eqb_eq. assumption. }
  destruct (filter (doc_id_is (ScalarValue (Docs.id d))) (doc_drafts db)); [destruct Hm|].
  eexists. split; reflexivity.
Qed.

(** X2. POST /@docs/draft/reject with notes, for a slug that names one
    document.  When the document has a draft under review the answer is a
    success, the draft becomes 'rejected' and carries the notes, the other
    rows and tables stay, and exactly when the document is in the register
    under a non-empty id one 'rejection_feedback' evidence row with the
    notes as feedback is appended for it.  When the document has drafts
    and none is under review the answer is 409 and nothing changes. *)
Theorem reject_returns_draft_with_notes req db slug notes d :
  DraftRequest.slug req = Some slug -> slug <> "" ->
  DraftRequest.notes req = Some notes -> notes <> "" ->
  docs_by_slug db slug = [d] ->
  ((exists dr, draft_of db d dr /\ DocDrafts.status dr = "in_review") ->
   exists r db',
     postDocDraftReject req db = Returned r db'
     /\ status r = None
     /\ Forall2 (rejected_row (Docs.id d) (or_str (DraftRequest.user req) "unknown") notes)
          (doc_drafts db) (doc_drafts db')
     /\ docs db' = docs db /\ doc_versions db' = doc_versions db
     /\ controlled_documents db' = controlled_documents db
     /\ document_transitions db' = document_transitions db
     /\ match getQmsDocumentId db (Docs.id d) with
        | Some q =>
            if q =? "" then document_evidence db' = document_evidence db
            else exists row,
                document_evidence db' = (document_evidence db ++ [row])%list
                /\ DocumentEvidence.document_id row = q
                /\ DocumentEvidence.transition_id row = None
                /\ DocumentEvidence.evidence_type row = "rejection_feedback"
                /\ member (DocumentEvidence.evidence_data row) "feedback" = Some (JStr notes)
                /\ DocumentEvidence.recorded_by row = or_str (DraftRequest.user req) "unknown"
        | None => document_evidence db' = document_evidence db
        end)
  /\ ((exists dr, draft_of db d dr) ->
      (forall dr, draft_of db d dr -> DocDrafts.status dr <> "in_review") ->
      exists r, postDocDraftReject req db = Returned r db /\ status r = Some 409).
Proof.
  intros Hslug Hne Hnotes Hnn Hd. split.
  - intros (dr & (Hin & Hid) & Hst).
    apply (reject_run req db slug notes d Hslug Hne Hnotes Hnn Hd).
    exists dr. auto.
  - apply (reject_not_in_review req db slug notes d Hslug Hne Hnotes Hnn Hd).
Qed.

Lemma docs_by_slug_unique db slug d d' :
  docs_by_slug db slug = [d] -> In d' (docs db) -> Docs.slug d' = slug -> d' = d.
Proof.
  intros Hd Hin Hs.
  assert (In d' (docs_by_slug db slug)) as H
      by (apply filter_In; split; [assumption|apply String.eqb_eq; assumption]).
  rewrite Hd in H. destruct H as [H|[]]. symmetry. exact H.
Qed.

(** X3. DELETE /@docs/draft for a slug that names one document removes
    the drafts of that document and no other row; the answer is a success
    exactly when there was such a draft; afterwards the document has no
    draft, so that reading it or deleting it again answers 404. *)
Theorem delete_removes_the_drafts_of_the_document req db slug d :
  DraftRequest.slug req = Some slug -> slug <> "" ->
  docs_by_slug db slug = [d] ->
  exists r db',
    deleteDocDraft req db = Returned r db'
    /\ (forall dr, In dr (doc_drafts db') <->
                   In dr (doc_drafts db) /\ DocDrafts.doc_id dr <> Docs.id d)
    /\ docs db' = docs db /\ doc_versions db' = doc_versions db
    /\ controlled_documents db' = controlled_documents db
    /\ document_evidence db' = document_evidence db
    /\ (status r = None <->
        exists dr, In dr (doc_drafts db) /\ DocDrafts.doc_id dr = Docs.id d)
    /\ (exists r2, deleteDocDraft req db' = Returned r2 db' /\ status r2 = Some 404)
    /\ (exists r3, getDocDraft req db' = Returned r3 db' /\ status r3 = Some 404).
Proof.
  intros Hslug Hne Hd.
  pose proof (doc_id_of_slug_one _ _ _ Hd) as Hscalar.
  apply String.eqb_neq in Hne.
  set (keep := fun dr : DocDrafts.t => negb (doc_id_is (ScalarValue (Docs.id d)) dr)).
  set (db1 := with_doc_drafts (filter keep (doc_drafts db)) db).
  assert (forall dr, In dr (doc_drafts db1) <->
                     In dr (doc_drafts db) /\ DocDrafts.doc_id dr <> Docs.id d) as Hkeep.
  { intros dr. unfold db1. rewrite doc_drafts_with, filter_In. unfold keep, doc_id_is.
    rewrite negb_true_iff, Z.eqb_neq. tauto. }
  assert (docs db1 = docs db) as Hdocs by (unfold db1; destruct db; reflexivity).
  assert (doc_id_of_slug db1 slug = ScalarValue (Docs.id d)) as Hscalar1
      by (unfold doc_id_of_slug, docs_by_slug in *; rewrite Hdocs; exact Hscalar).
  assert (filter (doc_id_is (ScalarValue (Docs.id d))) (doc_drafts db1) = []) as Hgone.
  { apply filter_nil_iff. intros x Hx. apply Hkeep in Hx. destruct Hx as (_ & Hx).
    cbn. apply Z.eqb_neq. exact Hx. }
  assert (with_doc_drafts (filter keep (doc_drafts db1)) db1 = db1) as Hsame.
  { rewrite <- (with_doc_drafts_same db1) at 3. f_equal.
    apply filter_all. intros x Hx. apply Hkeep in Hx. destruct Hx as (_ & Hx).
    unfold keep. cbn. apply negb_true_iff, Z.eqb_neq. exact Hx. }
  assert (exists r, deleteDocDraft req db = Returned r db1
                    /\ (status r = None <->
                        exists dr, In dr (doc_drafts db) /\ DocDrafts.doc_id dr = Docs.id d))
    as (r & Hrun & Hst).
  { unfold deleteDocDraft. rewrite Hslug. cbn [truthy_str negb or_str].
    rewrite Hne. cbn [negb]. rewrite Hscalar. cbv beta iota zeta. fold keep. fold db1.
    destruct (filter (doc_id_is (ScalarValue (Docs.id d))) (doc_drafts db))
      as [|x rest] eqn:E.
    - eexists. split; [reflexivity|]. split; [discriminate|].
      intros (dr & Hin & Hid).
      assert (In dr (filter (doc_id_is (ScalarValue (Docs.id d))) (doc_drafts db))) as H
          by (apply filter_In; split; [assumption|cbn; apply Z.eqb_eq; assumption]).
      rewrite E in H. destruct H.
    - eexists. split; [reflexivity|]. split; [|reflexivity]. intros _.
      assert (In x (filter (doc_id_is (ScalarValue (Docs.id d))) (doc_drafts db))) as H
          by (rewrite E; left; reflexivity).
      apply filter_In in H. destruct H as (H1 & H2). cbn in H2. apply Z.eqb_eq in H2.
      exists x. split; assumption. }
  exists r, db1. split; [exact Hrun|]. split; [exact Hkeep|].
  split; [exact Hdocs|].
  split; [unfold db1; destruct db; reflexivity|].
  split; [unfold db1; destruct db; reflexivity|].
  split; [unfold db1; destruct db; reflexivity|].
  split; [exact Hst|]. split.
  - unfold deleteDocDraft. rewrite Hslug. cbn [truthy_str negb or_str].
    rewrite Hne. cbn [negb]. rewrite Hscalar1. cbv beta iota zeta. fold keep.
    rewrite Hgone, Hsame. eexists. split; reflexivity.
  - unfold getDocDraft. rewrite Hslug, Hne.
    destruct (drafts_by_slug db1 slug) as [|[dr d'] rest] eqn:E.
    + eexists. split; reflexivity.
    + exfalso.
      assert (In (dr, d') (drafts_by_slug db1 slug)) as H by (rewrite E; left; reflexivity).
      apply drafts_by_slug_In in H. destruct H as (H1 & H2 & H3 & H4).
      rewrite Hdocs in H2. rewrite (docs_by_slug_unique _ _ _ _ Hd H2 H4) in H3.
      apply Hkeep in H1. destruct H1 as (_ & H1). apply H1. symmetry. exact H3.
Qed.

Lemma Forall2_map_In {A} (R : A -> A -> Prop) (f : A -> A) l :
  (forall x, In x l -> R x (f x)) -> Forall2 R l (map f l).
Proof.
  intros H. induction l as [|x l IH]; cbn; constructor.
  - apply H. left. reflexivity.
  - apply IH. intros y Hy. apply H. right. assumption.
Qed.

Lemma existsb_filter {A} (p : A -> bool) l :
  existsb p l = match filter p l with [] => false | _ :: _ => true end.
Proof.
  induction l as [|x l IH]; cbn; [reflexivity|].
  destruct (p x); cbn; [reflexivity|]. exact IH.
Qed.

(** X4. PUT /@docs/draft on a document that has a draft rewrites that
    draft in place: its id, author and creation time stay, version, title
    and body are the request's (the document's where title or body is not
    given), a 'rejected' draft returns to 'draft' with its notes cleared
    while any other status, 'in_review' included, and its notes are kept.
    No row is added, the other drafts and tables stay, and no evidence is
    recorded unless the row's modification time coincides with its
    creation time, which is also the only case where the answer is 201
    rather than 200. *)
Theorem put_revises_the_existing_draft req db slug version d rest old :
  DraftRequest.slug req = Some slug -> slug <> "" ->
  DraftRequest.version req = Some version -> version <> "" ->
  docs_by_slug db slug = d :: rest ->
  filter (fun dr => (DocDrafts.doc_id dr =? Docs.id d)%Z) (doc_drafts db) = [old] ->
  exists r db' new,
    putDocDraft req db = Returned r db'
    /\ status r
       = Some (if (DocDrafts.created_at old =? DocDrafts.updated_at new)%Z then 201 else 200)
    /\ Forall2 (fun dr dr' => if (DocDrafts.doc_id dr =? Docs.id d)%Z
                              then dr' = new else dr' = dr)
         (doc_drafts db) (doc_drafts db')
    /\ DocDrafts.id new = DocDrafts.id old
    /\ DocDrafts.doc_id new = Docs.id d
    /\ DocDrafts.created_by new = DocDrafts.created_by old
    /\ DocDrafts.created_at new = DocDrafts.created_at old
    /\ DocDrafts.version new = version
    /\ DocDrafts.title new = given_or (DraftRequest.title req) (Docs.title d)
    /\ DocDrafts.body_md new = given_or (DraftRequest.body_md req) (Docs.body_md d)
    /\ DocDrafts.updated_by new = or_str (DraftRequest.user req) "unknown"
    /\ (DocDrafts.status old = "rejected" ->
        DocDrafts.status new = "draft" /\ DocDrafts.reviewer_notes new = None)
    /\ (DocDrafts.status old <> "rejected" ->
        DocDrafts.status new = DocDrafts.status old
        /\ DocDrafts.reviewer_notes new = DocDrafts.reviewer_notes old)
    /\ docs db' = docs db /\ doc_versions db' = doc_versions db
    /\ controlled_documents db' = controlled_documents db
    /\ document_transitions db' = document_transitions db
    /\ (DocDrafts.created_at old <> DocDrafts.updated_at new ->
        document_evidence db' = document_evidence db).
Proof.
  intros Hslug Hne Hver Hvn Hd Hold.
  apply String.eqb_neq in Hne. apply String.eqb_neq in Hvn.
  set (u := or_str (DraftRequest.user req) "unknown").
  assert (In old (doc_drafts db) /\ DocDrafts.doc_id old = Docs.id d) as (Hin & Hid).
  { assert (In old (filter (fun dr => (DocDrafts.doc_id dr =? Docs.id d)%Z) (doc_drafts db)))
      as H by (rewrite Hold; left; reflexivity).
    apply filter_In in H. destruct H as (H1 & H2). apply Z.eqb_eq in H2. auto. }
  unfold putDocDraft. rewrite Hslug, Hver. cbn [truthy_str negb or_str].
  rewrite Hne, Hvn. cbn [negb]. rewrite Hd. fold u.
  unfold upsert_draft. rewrite existsb_filter, Hold. cbn [map].
  match goal with |- context [upsert_update db ?v ?t ?b ?f u] =>
    set (upd := upsert_update db v t b f u) end.
  match goal with |- context [getQmsDocumentId ?x _] => set (db1 := x) end.
  assert (docs db1 = docs db /\ doc_versions db1 = doc_versions db
          /\ controlled_documents db1 = controlled_documents db
          /\ document_transitions db1 = document_transitions db
          /\ document_evidence db1 = document_evidence db) as (F1 & F2 & F3 & F4 & F5)
    by (unfold db1; destruct db; cbn; tauto).
  assert (Forall2 (fun dr dr' => if (DocDrafts.doc_id dr =? Docs.id d)%Z
                                 then dr' = upd old else dr' = dr)
            (doc_drafts db) (doc_drafts db1)) as HF.
  { unfold db1. rewrite doc_drafts_with. apply Forall2_map_In. intros x Hx.
    destruct (DocDrafts.doc_id x =? Docs.id d)%Z eqn:E; [|reflexivity].
    assert (In x (filter (fun dr => (DocDrafts.doc_id dr =? Docs.id d)%Z) (doc_drafts db)))
      as H by (apply filter_In; auto).
    rewrite Hold in H. destruct H as [<-|[]]. reflexivity. }
  cbv beta iota zeta.
  eexists _, _, (upd old). split; [reflexivity|]. split; [reflexivity|].
  assert (DocDrafts.created_at (upd old) = DocDrafts.created_at old) as Hc by reflexivity.
  rewrite Hc.
  assert (forall x, evidence_only db1 x ->
            docs x = docs db /\ doc_versions x = doc_versions db
            /\ controlled_documents x = controlled_documents db
            /\ document_transitions x = document_transitions db) as Hframe.
  { intros x ((S1 & _ & S3 & _) & S4 & S5). rewrite S1, S3, S4, S5. tauto. }
  assert (DocDrafts.status old = "rejected" ->
          DocDrafts.status (upd old) = "draft" /\ DocDrafts.reviewer_notes (upd old) = None)
    as Hrej by (intros E; unfold upd, upsert_update; cbn; rewrite E; cbn; tauto).
  assert (DocDrafts.status old <> "rejected" ->
          DocDrafts.status (upd old) = DocDrafts.status old
          /\ DocDrafts.reviewer_notes (upd old) = DocDrafts.reviewer_notes old) as Hkeep.
  { intros E. apply String.eqb_neq in E. unfold upd, upsert_update. cbn. rewrite E. tauto. }
  destruct (DocDrafts.created_at old =? DocDrafts.updated_at (upd old))%Z eqn:Enew.
  - cbn [andb].
    assert (forall j, evidence_only db1
              match j with
              | Some j0 =>
                  if truthy j0
                  then match getQmsDocumentId db1 (Docs.id d) with
                       | Some q =>
                           if q =? "" then db1
                           else insertEvidence db1 q None "justification"
                                  (JObj
                                     [("what", or_json (member j0 "what") (JStr ""));
                                      ("why", or_json (member j0 "why") (JStr ""));
                                      ("scope", or_json (member j0 "scope") (JStr ""));
                                      ("classification_estimate",
                                       or_json (member j0 "classification_estimate") (JStr ""));
                                      ("trigger", or_json (member j0 "trigger") (JStr "manual"))])
                                  (Some ("Justification: "
                                         ++ to_string (or_json (member j0 "why")
                                                         (JStr "(not provided)")))) u
                       | None => db1
                       end
                  else db1
              | None => db1
              end) as Hev.
    { intros [j0|]; [|apply evidence_only_refl].
      destruct (truthy j0); [|apply evidence_only_refl].
      destruct (getQmsDocumentId db1 (Docs.id d)) as [q|]; [|apply evidence_only_refl].
      destruct (q =? ""); [apply evidence_only_refl|apply insertEvidence_only]. }
    specialize (Hev (DraftRequest.justification req)).
    pose proof Hev as ((_ & S2 & _) & _).
    destruct (Hframe _ Hev) as (G1 & G2 & G3 & G4).
    split; [rewrite S2; exact HF|].
    split; [reflexivity|]. split; [exact Hid|]. split; [reflexivity|]. split; [reflexivity|].
    split; [reflexivity|]. split; [reflexivity|]. split; [reflexivity|].
    split; [reflexivity|].
    split; [exact Hrej|]. split; [exact Hkeep|].
    split; [exact G1|]. split; [exact G2|]. split; [exact G3|]. split; [exact G4|].
    intros E. apply Z.eqb_eq in Enew. contradiction.
  - cbn [andb].
    assert (forall j : option Json, match j with Some _ => db1 | None => db1 end = db1)
      as Hj by (intros [?|]; reflexivity).
    rewrite Hj.
    split; [exact HF|].
    split; [reflexivity|]. split; [exact Hid|]. split; [reflexivity|]. split; [reflexivity|].
    split; [reflexivity|]. split; [reflexivity|]. split; [reflexivity|].
    split; [reflexivity|].
    split; [exact Hrej|]. split; [exact Hkeep|].
    split; [exact F1|]. split; [exact F2|]. split; [exact F3|]. split; [exact F4|].
    intros _. exact F5.
Qed.

(** X5. PUT /@docs/draft on a document without a draft answers 201 and
    appends one draft row: of that document, with the next id, the
    request's version, the column default as status, no reviewer notes and
    the user as author.  A 'justification' evidence row is recorded
    exactly when the request carries a justification and the document is
    in the register under a non-empty id. *)
Theorem put_creates_the_first_draft req db slug version d rest :
  DraftRequest.slug req = Some slug -> slug <> "" ->
  DraftRequest.version req = Some version -> version <> "" ->
  docs_by_slug db slug = d :: rest ->
  filter (fun dr => (DocDrafts.doc_id dr =? Docs.id d)%Z) (doc_drafts db) = [] ->
  exists r db' new,
    putDocDraft req db = Returned r db'
    /\ status r = Some 201
    /\ doc_drafts db' = (doc_drafts db ++ [new])%list
    /\ DocDrafts.id new = next_id db
    /\ DocDrafts.doc_id new = Docs.id d
    /\ DocDrafts.version new = version
    /\ DocDrafts.status new = draft_status_default schema
    /\ DocDrafts.reviewer_notes new = None
    /\ DocDrafts.created_by new = or_str (DraftRequest.user req) "unknown"
    /\ DocDrafts.title new = given_or (DraftRequest.title req) (Docs.title d)
    /\ DocDrafts.body_md new = given_or (DraftRequest.body_md req) (Docs.body_md d)
    /\ docs db' = docs db /\ doc_versions db' = doc_versions db
    /\ controlled_documents db' = controlled_documents db
    /\ document_transitions db' = document_transitions db
    /\ if truthy_opt (DraftRequest.justification req)
          && match getQmsDocumentId db (Docs.id d) with
             | Some q => negb (q =? "")
             | None => false
             end
       then exists row,
           document_evidence db' = (document_evidence db ++ [row])%list
           /\ Some (DocumentEvidence.document_id row) = getQmsDocumentId db (Docs.id d)
           /\ DocumentEvidence.evidence_type row = "justification"
           /\ DocumentEvidence.transition_id row = None
           /\ DocumentEvidence.recorded_by row = or_str (DraftRequest.user req) "unknown"
       else document_evidence db' = document_evidence db.
Proof.
  intros Hslug Hne Hver Hvn Hd Hnone.
  apply String.eqb_neq in Hne. apply String.eqb_neq in Hvn.
  set (u := or_str (DraftRequest.user req) "unknown").
  unfold putDocDraft. rewrite Hslug, Hver. cbn [truthy_str negb or_str].
  rewrite Hne, Hvn. cbn [negb]. rewrite Hd. fold u.
  unfold upsert_draft. rewrite existsb_filter, Hnone. unfold fresh.
  cbv beta iota zeta. rewrite Z.eqb_refl. cbn [andb].
  match goal with |- context [getQmsDocumentId ?x _] => set (db1 := x) end.
  match type of db1 with _ => idtac end.
  assert (docs db1 = docs db /\ doc_versions db1 = doc_versions db
          /\ controlled_documents db1 = controlled_documents db
          /\ document_transitions db1 = document_transitions db
          /\ document_evidence db1 = document_evidence db) as (F1 & F2 & F3 & F4 & F5)
    by (unfold db1; destruct db; cbn; tauto).
  rewrite (getQmsDocumentId_ext db db1 _ F3).
  eexists _, _, _. split; [reflexivity|]. split; [reflexivity|].
  assert (forall x, evidence_only db1 x ->
            doc_drafts x = doc_drafts db1
            /\ docs x = docs db /\ doc_versions x = doc_versions db
            /\ controlled_documents x = controlled_documents db
            /\ document_transitions x = document_transitions db) as Hframe.
  { intros x ((S1 & S2 & S3 & _) & S4 & S5). rewrite S1, S2, S3, S4, S5. tauto. }
  assert (doc_drafts db1 = (doc_drafts db ++ [_])%list) as Hrows
      by (unfold db1; destruct db; reflexivity).
  destruct (DraftRequest.justification req) as [j|]; cbn [truthy_opt andb].
  - destruct (truthy j); cbn [andb].
    + destruct (getQmsDocumentId db (Docs.id d)) as [q|]; cbn [negb].
      * destruct (q =? ""); cbn [negb].
        -- split; [exact Hrows|]. cbn. repeat (split; [reflexivity || assumption|]).
           assumption.
        -- match goal with |- context [insertEvidence db1 q ?t ?ty ?data ?text u] =>
             destruct (Hframe _ (insertEvidence_only db1 q t ty data text u))
               as (G0 & G1 & G2 & G3 & G4);
             destruct (insertEvidence_rows db1 q t ty data text u)
               as (erow & E1 & E2 & E3 & E4 & E5 & E6 & _)
           end.
           split; [rewrite G0; exact Hrows|].
           do 12 (split; [reflexivity || assumption|]).
           exists erow. rewrite E1, F5, E2. cbn in E3.
           repeat (split; [reflexivity || assumption|]). assumption.
      * split; [exact Hrows|]. cbn. repeat (split; [reflexivity || assumption|]).
        assumption.
    + split; [exact Hrows|]. cbn. repeat (split; [reflexivity || assumption|]).
      assumption.
  - split; [exact Hrows|]. cbn. repeat (split; [reflexivity || assumption|]).
    assumption.
Qed.

(** ** The review cycle *)

Lemma approve_not_in_review req db slug draft d rest :
  DraftRequest.slug req = Some slug -> slug <> "" ->
  drafts_by_slug db slug = (draft, d) :: rest ->
  DocDrafts.status draft <> "in_review" ->
  exists r, postDocDraftApprove req db = Returned r db /\ status r = Some 409.
Proof.
  intros Hslug Hne Hq Hst. apply String.eqb_neq in Hne. apply String.eqb_neq in Hst.
  unfold postDocDraftApprove. rewrite Hslug. cbn [truthy_str negb or_str].
  rewrite Hne. cbn [negb]. rewrite Hq, Hst. cbn [negb].
  eexists. split; reflexivity.
Qed.

(** Past its status check the approval answers a success or 422. *)
Lemma approve_past_status_check req db slug draft d rest r db' :
  DraftRequest.slug req = Some slug -> slug <> "" ->
  drafts_by_slug db slug = (draft, d) :: rest ->
  DocDrafts.status draft = "in_review" ->
  postDocDraftApprove req db = Returned r db' ->
  status r = None \/ status r = Some 422.
Proof.
  intros Hslug Hne Hq Hst. apply String.eqb_neq in Hne.
  unfold postDocDraftApprove. rewrite Hslug. cbn [truthy_str negb or_str].
  rewrite Hne. cbn [negb]. rewrite Hq, Hst. cbn [String.eqb Ascii.eqb Bool.eqb negb].
  cbv zeta.
  destruct (getQmsDocumentId _ _) as [q|].
  - destruct (q =? "").
    + intros H. inversion H. left. reflexivity.
    + destruct (missing_evidence_types _ q).
      * destruct (insert_transition _ _ _ _ _ _ _ _ _ _) as [t db5].
        destruct (approve_evidence _ _ _ _ _); [|discriminate].
        intros H. inversion H. left. reflexivity.
      * intros H. inversion H. right. reflexivity.
  - intros H. inversion H. left. reflexivity.
Qed.

(** The drafts of the one document of a slug, as the join sees them. *)
Lemma drafts_by_slug_of db slug d :
  docs_by_slug db slug = [d] ->
  forall dr d', In (dr, d') (drafts_by_slug db slug) <-> draft_of db d dr /\ d' = d.
Proof.
  intros Hd dr d'. rewrite drafts_by_slug_In. unfold draft_of.
  assert (In d (docs db) /\ Docs.slug d = slug) as (Hin & Hs).
  { assert (In d (docs_by_slug db slug)) as H by (rewrite Hd; left; reflexivity).
    apply filter_In in H. destruct H as (H1 & H2). apply String.eqb_eq in H2. auto. }
  split.
  - intros (H1 & H2 & H3 & H4).
    pose proof (docs_by_slug_unique _ _ _ _ Hd H2 H4) as ->. auto.
  - intros ((H1 & H2) & ->). auto.
Qed.

Lemma docs_by_slug_ext db db' slug :
  docs db' = docs db -> docs_by_slug db' slug = docs_by_slug db slug.
Proof. unfold docs_by_slug. intros ->. reflexivity. Qed.

(** X6. A rejected draft has to be submitted again.  After a successful
    POST /@docs/draft/reject for a slug that names one document, an
    approval of that slug answers 409 and changes nothing, a second
    rejection answers 409 as well, and a submission is accepted. *)
Theorem rejected_draft_must_be_resubmitted reject_req req db slug notes d :
  DraftRequest.slug reject_req = Some slug -> slug <> "" ->
  DraftRequest.notes reject_req = Some notes -> notes <> "" ->
  DraftRequest.slug req = Some slug ->
  docs_by_slug db slug = [d] ->
  (exists dr, draft_of db d dr /\ DocDrafts.status dr = "in_review") ->
  exists r1 db1,
    postDocDraftReject reject_req db = Returned r1 db1 /\ status r1 = None
    /\ (exists r, postDocDraftApprove req db1 = Returned r db1 /\ status r = Some 409)
    /\ (exists r, postDocDraftReject reject_req db1 = Returned r db1 /\ status r = Some 409)
    /\ (exists r db2, postDocDraftSubmit req db1 = Returned r db2 /\ status r = None).
Proof.
  intros Hslug Hne Hnotes Hnn Hslug' Hd (dr0 & (Hin0 & Hid0) & Hst0).
  destruct (reject_run reject_req db slug notes d Hslug Hne Hnotes Hnn Hd)
    as (r1 & db1 & Hrun & Hok & HF & Hdocs & _).
  { exists dr0. auto. }
  set (u := or_str (DraftRequest.user reject_req) "unknown") in *.
  assert (docs_by_slug db1 slug = [d]) as Hd1
      by (rewrite (docs_by_slug_ext db db1 slug Hdocs); exact Hd).
  assert (exists dr', draft_of db1 d dr' /\ DocDrafts.status dr' = "rejected") as (dr1 & Hdr1 & Hst1).
  { destruct (Forall2_In_l _ _ _ _ HF Hin0) as (y & Hy & Hrow).
    unfold rejected_row in Hrow. rewrite Hid0, Hst0, Z.eqb_refl in Hrow. cbn in Hrow.
    destruct Hrow as (_ & R2 & _ & _ & _ & _ & _ & _ & R9 & _).
    exists y. split; [split; [assumption|congruence]|assumption]. }
  assert (forall dr', draft_of db1 d dr' -> DocDrafts.status dr' <> "in_review") as Hnone.
  { intros dr' (Hin' & Hid').
    destruct (Forall2_In_r _ _ _ _ HF Hin') as (x & Hx & Hrow).
    unfold rejected_row in Hrow.
    destruct (DocDrafts.doc_id x =? Docs.id d)%Z eqn:E1; cbn [andb] in Hrow.
    - destruct (DocDrafts.status x =? "in_review") eqn:E2.
      + destruct Hrow as (_ & _ & _ & _ & _ & _ & _ & _ & R9 & _). rewrite R9. discriminate.
      + subst dr'. apply String.eqb_neq. exact E2.
    - subst dr'. apply Z.eqb_neq in E1. contradiction. }
  exists r1, db1. split; [assumption|]. split; [assumption|]. split; [|split].
  - destruct (drafts_by_slug db1 slug) as [|[draft d'] rest] eqn:Hq.
    + exfalso.
      assert (In (dr1, d) (drafts_by_slug db1 slug)) as H
          by (apply (drafts_by_slug_of db1 slug d Hd1); auto).
      rewrite Hq in H. destruct H.
    + assert (In (draft, d') (drafts_by_slug db1 slug)) as H by (rewrite Hq; left; reflexivity).
      apply (drafts_by_slug_of db1 slug d Hd1) in H. destruct H as (H & _).
      apply (approve_not_in_review req db1 slug draft d' rest Hslug' Hne Hq (Hnone _ H)).
  - apply (reject_not_in_review reject_req db1 slug notes d Hslug Hne Hnotes Hnn Hd1).
    + exists dr1. exact Hdr1.
    + exact Hnone.
  - destruct (submit_run req db1 slug d Hslug' Hne Hd1) as (r & db2 & Hr & Hs & _).
    + exists dr1. split; [exact Hdr1|]. right. exact Hst1.
    + exists r, db2. auto.
Qed.

(** X7. A submitted draft is under review.  Where every document has at
    most one draft, after a successful POST /@docs/draft/submit for a
    slug that names one document a second submission answers 409 and
    changes nothing, and an approval never answers 404 or 409: it passes
    its status check and answers a success or 422. *)
Theorem submitted_draft_is_under_review req db slug d :
  DraftRequest.slug req = Some slug -> slug <> "" ->
  docs_by_slug db slug = [d] ->
  one_draft_per_doc db ->
  (exists dr, draft_of db d dr /\ submittable dr) ->
  exists r1 db1,
    postDocDraftSubmit req db = Returned r1 db1 /\ status r1 = None
    /\ (forall dr, draft_of db1 d dr -> DocDrafts.status dr = "in_review")
    /\ (exists r, postDocDraftSubmit req db1 = Returned r db1 /\ status r = Some 409)
    /\ (forall r db2, postDocDraftApprove req db1 = Returned r db2 ->
          status r = None \/ status r = Some 422).
Proof.
  intros Hslug Hne Hd Hone (dr0 & (Hin0 & Hid0) & Hopen0).
  destruct (submit_run req db slug d Hslug Hne Hd)
    as (r1 & db1 & Hrun & Hok & HF & Hdocs & _).
  { exists dr0. split; [split|]; assumption. }
  set (u := or_str (DraftRequest.user req) "unknown") in *.
  assert (docs_by_slug db1 slug = [d]) as Hd1
      by (rewrite (docs_by_slug_ext db db1 slug Hdocs); exact Hd).
  assert (forall dr, draft_of db1 d dr -> DocDrafts.status dr = "in_review") as Hall.
  { intros dr' (Hin' & Hid').
    destruct (Forall2_In_r _ _ _ _ HF Hin') as (x & Hx & Hrow).
    unfold submitted_row in Hrow.
    destruct (DocDrafts.doc_id x =? Docs.id d)%Z eqn:E1; cbn [andb] in Hrow.
    - apply Z.eqb_eq in E1.
      assert (x = dr0) as -> by (apply (NoDup_map_inj DocDrafts.doc_id _ _ _ Hone Hx Hin0);
                                 congruence).
      assert ((DocDrafts.status dr0 =? "draft") || (DocDrafts.status dr0 =? "rejected") = true)
        as E2 by (destruct Hopen0 as [-> | ->]; reflexivity).
      rewrite E2 in Hrow. tauto.
    - subst dr'. apply Z.eqb_neq in E1. contradiction. }
  assert (exists dr', draft_of db1 d dr') as (dr1 & Hdr1).
  { destruct (Forall2_In_l _ _ _ _ HF Hin0) as (y & Hy & Hrow).
    unfold submitted_row in Hrow. rewrite Hid0, Z.eqb_refl in Hrow.
    assert ((DocDrafts.status dr0 =? "draft") || (DocDrafts.status dr0 =? "rejected") = true)
      as E2 by (destruct Hopen0 as [-> | ->]; reflexivity).
    rewrite E2 in Hrow. cbn in Hrow. destruct Hrow as (_ & R2 & _).
    exists y. split; [assumption|congruence]. }
  exists r1, db1. split; [assumption|]. split; [assumption|]. split; [exact Hall|]. split.
  - apply (submit_not_open req db1 slug d Hslug Hne Hd1).
    + exists dr1. exact Hdr1.
    + intros dr Hdr [E|E]; rewrite (Hall dr Hdr) in E; discriminate.
  - intros r db2 Hrun2.
    destruct (drafts_by_slug db1 slug) as [|[draft d'] rest] eqn:Hq.
    + exfalso.
      assert (In (dr1, d) (drafts_by_slug db1 slug)) as H
          by (apply (drafts_by_slug_of db1 slug d Hd1); auto).
      rewrite Hq in H. destruct H.
    + assert (In (draft, d') (drafts_by_slug db1 slug)) as H by (rewrite Hq; left; reflexivity).
      apply (drafts_by_slug_of db1 slug d Hd1) in H. destruct H as (H & _).
      apply (approve_past_status_check req db1 slug draft d' rest r db2 Hslug Hne Hq
               (Hall _ H) Hrun2).
Qed.

(** ** Further properties of the register routes *)

(** X8. POST /@qms/register with its four required fields answers 201,
    appends one row to the register under the given id, with the status
    and version of the body or their defaults 'draft' and '0.1', and one
    'create' transition that leads from nothing to that status and
    version; the knowledge-base tables and the evidence are untouched. *)
Theorem register_creates_document_with_audit req db document_id :
  QmsRequest.document_id req = Some document_id -> document_id <> "" ->
  field_falsy (QmsRequest.title req) = false ->
  field_falsy (QmsRequest.document_type req) = false ->
  field_falsy (QmsRequest.domain_code req) = false ->
  exists r db' row t,
    postQmsDocument req db = Returned r db'
    /\ status r = Some 201
    /\ controlled_documents db' = (controlled_documents db ++ [row])%list
    /\ ControlledDocuments.document_id row = document_id
    /\ ControlledDocuments.status row = field_default (QmsRequest.status req) "draft"
    /\ ControlledDocuments.version row = field_default (QmsRequest.version req) "0.1"
    /\ document_transitions db' = (document_transitions db ++ [t])%list
    /\ DocumentTransitions.document_id t = document_id
    /\ DocumentTransitions.action t = "create"
    /\ DocumentTransitions.from_status t = None
    /\ DocumentTransitions.from_version t = None
    /\ DocumentTransitions.to_status t = ControlledDocuments.status row
    /\ DocumentTransitions.to_version t = ControlledDocuments.version row
    /\ DocumentTransitions.performed_by t = or_str (QmsRequest.user req) "unknown"
    /\ docs db' = docs db /\ doc_drafts db' = doc_drafts db
    /\ document_evidence db' = document_evidence db.
Proof.
  intros Hid Hne Ht Hty Hdc. apply String.eqb_neq in Hne.
  unfold postQmsDocument. rewrite Hid. cbn [truthy_str or_str].
  rewrite Hne, Ht, Hty, Hdc. cbn [negb orb].
  unfold insert_transition, fresh. cbv beta iota zeta.
  destruct db. eexists _, _, _, _. split; [reflexivity|].
  cbn. repeat (split; [reflexivity|]). reflexivity.
Qed.

(** X9. The register accepts ids that its other routes refuse.  POST
    /@qms/register does not apply the id pattern: with an id outside it
    the document is created all the same, and from then on reading it,
    updating it and recording a transition for it all answer 400. *)
Theorem registered_id_outside_pattern_is_unreachable req db document_id :
  QmsRequest.document_id req = Some document_id -> document_id <> "" ->
  field_falsy (QmsRequest.title req) = false ->
  field_falsy (QmsRequest.document_type req) = false ->
  field_falsy (QmsRequest.domain_code req) = false ->
  DOC_ID_RE document_id = false ->
  exists r db',
    postQmsDocument req db = Returned r db'
    /\ status r = Some 201
    /\ (exists cd, In cd (controlled_documents db')
                   /\ ControlledDocuments.document_id cd = document_id)
    /\ (forall root_url, status (getQmsDocument root_url document_id db') = Some 400)
    /\ (forall req', QmsRequest.param_document_id req' = document_id ->
          (exists r', putQmsDocument req' db' = Returned r' db' /\ status r' = Some 400)
          /\ (exists r', postQmsTransition req' db' = Returned r' db'
                         /\ status r' = Some 400)).
Proof.
  intros Hid Hne Ht Hty Hdc Hre. apply String.eqb_neq in Hne.
  unfold postQmsDocument. rewrite Hid. cbn [truthy_str or_str].
  rewrite Hne, Ht, Hty, Hdc. cbn [negb orb].
  unfold insert_transition, fresh. cbv beta iota zeta.
  destruct db.
  eexists _, _. split; [reflexivity|]. split; [reflexivity|]. split; [|split].
  - eexists. split.
    + cbn. apply in_or_app. right. left. reflexivity.
    + reflexivity.
  - intros root_url. unfold getQmsDocument. rewrite Hre. reflexivity.
  - intros req' Hp. split.
    + unfold putQmsDocument. rewrite Hp, Hre. eexists. split; reflexivity.
    + unfold postQmsTransition. rewrite Hp, Hre. eexists. split; reflexivity.
Qed.

(** How POST /@qms/register/:document_id/transition relates a register
    row to the row it leaves, for the status and version it is given
    (NULL where the body has none) on the day [today]. *)
Definition transitioned_row (document_id : string) (to_status to_version : option string)
    (today : string) (cd cd' : ControlledDocuments.t) : Prop :=
  if ControlledDocuments.document_id cd =? document_id then
    ControlledDocuments.status cd' = coalesce to_status (ControlledDocuments.status cd)
    /\ ControlledDocuments.version cd' = coalesce to_version (ControlledDocuments.version cd)
    /\ ControlledDocuments.effective_date cd'
       = (if opt_str_eqb to_status "effective" then Some today
          else ControlledDocuments.effective_date cd)
    /\ ControlledDocuments.id cd' = ControlledDocuments.id cd
    /\ ControlledDocuments.document_id cd' = ControlledDocuments.document_id cd
    /\ ControlledDocuments.title cd' = ControlledDocuments.title cd
    /\ ControlledDocuments.docs_id cd' = ControlledDocuments.docs_id cd
    /\ ControlledDocuments.updated_at cd' = ControlledDocuments.updated_at cd
  else cd' = cd.

Lemma Forall2_diag {A} (R : A -> A -> Prop) l : (forall x, R x x) -> Forall2 R l l.
Proof. intros H. induction l; constructor; auto. Qed.

(** X10. POST /@qms/register/:document_id/transition with a valid id and an
    action, for a registered document, answers 201 and appends one
    transition from the current status and version to the ones given
    (the current ones where none is given).  The rows of the document
    take the given status and version, and today's date as effective date
    exactly when the given status is 'effective'; with neither given the
    register is unchanged while the transition is recorded all the same.
    No evidence is consulted or written. *)
Theorem transition_updates_register_and_audits req db current rest :
  DOC_ID_RE (QmsRequest.param_document_id req) = true ->
  truthy_str (QmsRequest.action req) = true ->
  cd_by_document_id db (QmsRequest.param_document_id req) = current :: rest ->
  exists r db' t,
    postQmsTransition req db = Returned r db'
    /\ status r = Some 201
    /\ document_transitions db' = (document_transitions db ++ [t])%list
    /\ DocumentTransitions.document_id t = QmsRequest.param_document_id req
    /\ DocumentTransitions.action t = or_str (QmsRequest.action req) ""
    /\ DocumentTransitions.from_status t = ControlledDocuments.status current
    /\ DocumentTransitions.from_version t = ControlledDocuments.version current
    /\ DocumentTransitions.to_status t
       = coalesce (or_null_str (QmsRequest.to_status req)) (ControlledDocuments.status current)
    /\ DocumentTransitions.to_version t
       = coalesce (or_null_str (QmsRequest.to_version req))
           (ControlledDocuments.version current)
    /\ DocumentTransitions.performed_by t = or_str (QmsRequest.user req) "unknown"
    /\ Forall2 (transitioned_row (QmsRequest.param_document_id req)
                  (or_null_str (QmsRequest.to_status req))
                  (or_null_str (QmsRequest.to_version req)) (current_date db))
         (controlled_documents db) (controlled_documents db')
    /\ (or_null_str (QmsRequest.to_status req) = None ->
        or_null_str (QmsRequest.to_version req) = None ->
        controlled_documents db' = controlled_documents db)
    /\ document_evidence db' = document_evidence db
    /\ docs db' = docs db /\ doc_drafts db' = doc_drafts db.
Proof.
  intros Hre Hact Hcur.
  unfold postQmsTransition. rewrite Hre, Hact. cbn [negb]. rewrite Hcur.
  unfold insert_transition, fresh. cbv beta iota zeta.
  set (ts := or_null_str (QmsRequest.to_status req)).
  set (tv := or_null_str (QmsRequest.to_version req)).
  clear Hcur. destruct db as [a b c cds e f g h i j k m n nid nw today].
  assert (forall cd, transitioned_row (QmsRequest.param_document_id req) None None today cd cd)
    as Hdiag.
  { intros cd. unfold transitioned_row. destruct (_ =? _); cbn; tauto. }
  assert (forall s v,
            Forall2 (transitioned_row (QmsRequest.param_document_id req) s v today) cds
              (map (fun cd =>
                      if ControlledDocuments.document_id cd =? QmsRequest.param_document_id req
                      then cd_with_lifecycle (coalesce s (ControlledDocuments.status cd))
                             (coalesce v (ControlledDocuments.version cd))
                             (if opt_str_eqb s "effective" then Some today
                              else ControlledDocuments.effective_date cd)
                             (ControlledDocuments.updated_at cd) cd
                      else cd) cds)) as Hmap.
  { intros s v. apply Forall2_map_r. intros cd. unfold transitioned_row.
    destruct (_ =? _); cbn; tauto. }
  destruct ts as [s|] eqn:Ets; [|destruct tv as [v|] eqn:Etv].
  - eexists _, _, _. split; [reflexivity|]. cbn.
    repeat (split; [reflexivity|]).
    split; [apply Hmap|]. split; [discriminate|]. repeat split.
  - eexists _, _, _. split; [reflexivity|]. cbn.
    repeat (split; [reflexivity|]).
    split; [apply Hmap|]. split; [discriminate|]. repeat split.
  - eexists _, _, _. split; [reflexivity|]. cbn.
    repeat (split; [reflexivity|]).
    split; [apply Forall2_diag; exact Hdiag|]. repeat split.
Qed.

Lemma put_text_idem f old : put_text f (put_text f old) = put_text f old.
Proof. destruct f as [[s|]|]; cbn; [destruct (s =? "")|..]; reflexivity. Qed.

Lemma put_int_idem f old : put_int f (put_int f old) = put_int f old.
Proof. destruct f; reflexivity. Qed.

Lemma put_row_idem req cd : put_row req (put_row req cd) = put_row req cd.
Proof. unfold put_row. cbn. rewrite !put_text_idem, !put_int_idem. reflexivity. Qed.

Lemma filter_map_update {A} (p : A -> bool) (g : A -> A) l :
  (forall x, p (g x) = p x) ->
  filter p (map (fun x => if p x then g x else x) l) = map g (filter p l).
Proof.
  intros Hp. induction l as [|x l IH]; cbn; [reflexivity|].
  destruct (p x) eqn:E.
  - rewrite Hp, E. cbn. rewrite IH. reflexivity.
  - rewrite E. exact IH.
Qed.

Lemma filter_others_update {A} (p : A -> bool) (g : A -> A) l :
  (forall x, p (g x) = p x) ->
  filter (fun x => negb (p x)) (map (fun x => if p x then g x else x) l)
  = filter (fun x => negb (p x)) l.
Proof.
  intros Hp. induction l as [|x l IH]; cbn; [reflexivity|].
  destruct (p x) eqn:E.
  - rewrite Hp, E. cbn. exact IH.
  - rewrite E. cbn. rewrite IH. reflexivity.
Qed.

Lemma map_update_idem {A} (p : A -> bool) (g : A -> A) l :
  (forall x, p (g x) = p x) -> (forall x, g (g x) = g x) ->
  map (fun x => if p x then g x else x) (map (fun x => if p x then g x else x) l)
  = map (fun x => if p x then g x else x) l.
Proof.
  intros Hp Hg. rewrite map_map. apply map_ext. intros x.
  destruct (p x) eqn:E; [rewrite Hp, E; apply Hg|rewrite E; reflexivity].
Qed.

(** X11. PUT /@qms/register/:document_id is idempotent and keeps the keys.
    Whenever it succeeds, the same request on the resulting database
    gives the same answer and the same database; the ids and document
    ids of the register are what they were, in the same order, the rows
    of other documents are untouched, and neither a transition nor
    evidence is written. *)
Theorem put_register_is_idempotent req db r db' :
  putQmsDocument req db = Returned r db' -> is_error r = false ->
  putQmsDocument req db' = Returned r db'
  /\ map ControlledDocuments.id (controlled_documents db')
     = map ControlledDocuments.id (controlled_documents db)
  /\ map ControlledDocuments.document_id (controlled_documents db')
     = map ControlledDocuments.document_id (controlled_documents db)
  /\ filter (fun cd => negb (ControlledDocuments.document_id cd
                              =? QmsRequest.param_document_id req))
       (controlled_documents db')
     = filter (fun cd => negb (ControlledDocuments.document_id cd
                                =? QmsRequest.param_document_id req))
         (controlled_documents db)
  /\ document_transitions db' = document_transitions db
  /\ document_evidence db' = document_evidence db.
Proof.
  unfold putQmsDocument.
  set (q := QmsRequest.param_document_id req).
  set (p := fun cd => ControlledDocuments.document_id cd =? q).
  set (g := fun cd => if p cd then put_row req cd else cd).
  destruct (DOC_ID_RE q) eqn:Hre; cbn [negb];
    [|intros H; inversion H; subst; discriminate].
  unfold cd_by_document_id. fold p.
  destruct (filter p (controlled_documents db)) as [|cd0 l0] eqn:Hcur;
    [intros H; inversion H; subst; discriminate|].
  destruct (no_fields_to_update req) eqn:Hno;
    [intros H; inversion H; subst; discriminate|].
  cbn [map]. intros H _. inversion H as [[Hr Hdb]]. clear H.
  assert (forall x, p (put_row req x) = p x) as Hp by reflexivity.
  assert (controlled_documents
            (with_controlled_documents (map g (controlled_documents db)) db)
          = map g (controlled_documents db)) as Hcds by (destruct db; reflexivity).
  change (fun cd => if ControlledDocuments.document_id cd =? q then put_row req cd else cd)
    with g in *.
  rewrite Hcds.
  split; [|split; [|split; [|split; [|split]]]].
  - assert (filter p (map g (controlled_documents db))
            = map (put_row req) (filter p (controlled_documents db))) as Hfg
        by exact (filter_map_update p (put_row req) _ Hp).
    rewrite !Hfg, Hcur. cbn [map].
    rewrite put_row_idem.
    assert (map g (map g (controlled_documents db)) = map g (controlled_documents db)) as Hgg
        by (apply (map_update_idem p (put_row req)); [exact Hp|apply put_row_idem]).
    rewrite Hgg. f_equal. destruct db; reflexivity.
  - rewrite map_map. apply map_ext. intros x. unfold g. destruct (p x); reflexivity.
  - rewrite map_map. apply map_ext. intros x. unfold g. destruct (p x); reflexivity.
  - exact (filter_others_update p (put_row req) _ Hp).
  - destruct db; reflexivity.
  - destruct db; reflexivity.
Qed.

(** ** Saving a document with a version bump (routes/docs/docs) *)

Lemma bumpVersion_done version bump :
  In bump ["patch"; "minor"; "major"] -> exists v, bumpVersion version bump = Done v.
Proof.
  unfold bumpVersion. cbv zeta.
  destruct (normalize (map Number (split "."%char version))) as [[major minor] patch].
  intros [<-|[<-|[<-|[]]]]; cbn; eexists; reflexivity.
Qed.

Lemma lookup_with_member k v l : lookup k (with_member k v l) = Some v.
Proof.
  unfold with_member.
  induction (filter (fun kv => negb (fst kv =? k)) l) as [|[k' v'] l' IH]; cbn.
  - rewrite String.eqb_refl. reflexivity.
  - rewrite IH. reflexivity.
Qed.

(** How POST /@docs/save relates a row of i18n.docs to the row it
    leaves. *)
Definition saved_row (i : Z) (body newVersion username : string) (d d' : Docs.t) : Prop :=
  if (Docs.id d =? i)%Z then
    Docs.id d' = Docs.id d /\ Docs.slug d' = Docs.slug d
    /\ Docs.file_path d' = Docs.file_path d /\ Docs.title d' = Docs.title d
    /\ Docs.author d' = Docs.author d
    /\ Docs.body_md d' = Some body /\ Docs.version d' = Some newVersion
    /\ Docs.is_edited d' = true /\ Docs.edited_by d' = Some username
    /\ exists fm, Docs.frontmatter d' = Some fm
                  /\ member fm "version" = Some (JStr newVersion)
  else d' = d.

(** ... and a row of the register, for a registered document. *)
Definition synced_row (i : Z) (newVersion : string) (cd cd' : ControlledDocuments.t) : Prop :=
  if opt_Z_eqb (ControlledDocuments.docs_id cd) i then
    ControlledDocuments.version cd' = Some newVersion
    /\ ControlledDocuments.status cd' = ControlledDocuments.status cd
    /\ ControlledDocuments.effective_date cd' = ControlledDocuments.effective_date cd
    /\ ControlledDocuments.id cd' = ControlledDocuments.id cd
    /\ ControlledDocuments.document_id cd' = ControlledDocuments.document_id cd
    /\ ControlledDocuments.docs_id cd' = ControlledDocuments.docs_id cd
  else cd' = cd.

(** X12. POST /@docs/save with its four fields and a bump of 'patch',
    'minor' or 'major', for a document that has a version, succeeds: the
    rows of the document take the body, the bumped version (also as the
    version member of the frontmatter), the edited flag and the user; no
    draft and no evidence is involved.  When the document is in the
    register under a non-empty id, its register rows take the new
    version with their status unchanged and one 'content_update'
    transition from the old to the new version is recorded with the
    change summary as comment and no status on either side; otherwise
    the register and the transitions are unchanged. *)
Theorem save_bumps_version_and_syncs_register req db i body bump summary doc rest version :
  or_null_id (DocsRequest.doc_id req) = Some i ->
  or_null_str (DocsRequest.body_md req) = Some body ->
  or_null_str (DocsRequest.version_bump req) = Some bump ->
  or_null_str (DocsRequest.change_summary req) = Some summary ->
  In bump ["patch"; "minor"; "major"] ->
  docs_by_id db i = doc :: rest ->
  or_null_str (Docs.version doc) = Some version ->
  exists r db' newVersion,
    bumpVersion version bump = Done newVersion
    /\ postDocsSave req db = Returned r db'
    /\ status r = None
    /\ Forall2 (saved_row i body newVersion (DocsRequest.user req)) (docs db) (docs db')
    /\ doc_drafts db' = doc_drafts db
    /\ document_evidence db' = document_evidence db
    /\ match or_null_str (getQmsDocumentId db i) with
       | Some q =>
           Forall2 (synced_row i newVersion)
             (controlled_documents db) (controlled_documents db')
           /\ exists t,
               document_transitions db' = (document_transitions db ++ [t])%list
               /\ DocumentTransitions.document_id t = q
               /\ DocumentTransitions.action t = "content_update"
               /\ DocumentTransitions.from_status t = None
               /\ DocumentTransitions.to_status t = None
               /\ DocumentTransitions.from_version t = Some version
               /\ DocumentTransitions.to_version t = Some newVersion
               /\ DocumentTransitions.performed_by t = DocsRequest.user req
               /\ DocumentTransitions.comment t = Some summary
       | None =>
           controlled_documents db' = controlled_documents db
           /\ document_transitions db' = document_transitions db
       end.
Proof.
  intros Hi Hbody Hbump Hsum Hin Hdoc Hver.
  destruct (bumpVersion_done version bump Hin) as (nv & Hnv).
  assert (existsb (String.eqb bump) ["patch"; "minor"; "major"] = true) as Hex
      by (destruct Hin as [<-|[<-|[<-|[]]]]; reflexivity).
  unfold postDocsSave. rewrite Hi, Hbody, Hbump, Hsum, Hex. cbn [negb].
  rewrite Hdoc, Hver, Hnv. cbv zeta.
  match goal with |- context [getQmsDocumentId ?x i] => set (db2 := x) end.
  assert (Forall2 (saved_row i body nv (DocsRequest.user req)) (docs db) (docs db2)) as HF.
  { unfold db2. destruct db; cbn. apply Forall2_map_r. intros d. unfold saved_row.
    destruct (Docs.id d =? i)%Z; [|reflexivity]. cbn.
    repeat (split; [reflexivity|]). eexists. split; [reflexivity|].
    cbn. apply lookup_with_member. }
  assert (doc_drafts db2 = doc_drafts db /\ document_evidence db2 = document_evidence db
          /\ controlled_documents db2 = controlled_documents db
          /\ document_transitions db2 = document_transitions db) as (F1 & F2 & F3 & F4)
    by (unfold db2; destruct db; cbn; tauto).
  rewrite (getQmsDocumentId_ext db db2 i F3).
  destruct (or_null_str (getQmsDocumentId db i)) as [q|].
  - match goal with |- context [insert_transition ?x q _ _ _ _ _ _ _ _] =>
      set (db3 := x) end.
    match goal with |- context [insert_transition db3 q ?a ?fs ?ts ?fv ?tv ?u ?c ?e] =>
      set (dbT := snd (insert_transition db3 q a fs ts fv tv u c e));
      destruct (insert_transition_rows db3 q a fs ts fv tv u c e)
        as (t & T0 & T1 & T2 & T3 & T4 & T5 & T6);
      destruct (insert_transition_frame db3 q a fs ts fv tv u c e)
        as ((S1 & S2 & _) & S3 & S4);
      assert (DocumentTransitions.performed_by (last (document_transitions dbT) t) = u
              /\ DocumentTransitions.comment (last (document_transitions dbT) t) = c)
        as (T7 & T8)
        by (unfold dbT, insert_transition, fresh; cbv beta iota zeta;
            destruct db3; cbn [snd with_document_transitions document_transitions
                                 with_next_id];
            rewrite last_last; cbn; tauto)
    end.
    fold dbT in T0, S1, S2, S3, S4.
    rewrite T0, last_last in T7, T8. cbv zeta in S1, S2, S3, S4.
    assert (docs db3 = docs db2 /\ doc_drafts db3 = doc_drafts db2
            /\ document_evidence db3 = document_evidence db2
            /\ document_transitions db3 = document_transitions db2) as (G1 & G2 & G3 & G4)
      by (unfold db3; destruct db2; cbn; tauto).
    assert (Forall2 (synced_row i nv) (controlled_documents db) (controlled_documents db3))
      as HC.
    { unfold db3. rewrite controlled_documents_with, F3. apply Forall2_map_r. intros cd.
      unfold synced_row. destruct (opt_Z_eqb _ i); [|reflexivity]. cbn. tauto. }
    match goal with |- context [docs_by_id ?x i] => destruct (docs_by_id x i) end.
    + eexists _, _, nv. split; [reflexivity|]. split; [reflexivity|]. split; [reflexivity|].
      rewrite S1, S2, S3, S4, G1, G2, G3, F1, F2, T0, G4, F4.
      split; [exact HF|]. split; [reflexivity|]. split; [reflexivity|].
      split; [exact HC|]. exists t. tauto.
    + eexists _, _, nv. split; [reflexivity|]. split; [reflexivity|]. split; [reflexivity|].
      rewrite S1, S2, S3, S4, G1, G2, G3, F1, F2, T0, G4, F4.
      split; [exact HF|]. split; [reflexivity|]. split; [reflexivity|].
      split; [exact HC|]. exists t. tauto.
  - destruct (docs_by_id db2 i);
      (eexists _, _, nv; split; [reflexivity|]; split; [reflexivity|];
       split; [reflexivity|]; tauto).
Qed.

(** X13. The version the save dialog previews is the version the server
    computes.  For a non-empty version and a bump of 'patch', 'minor' or
    'major' the dialog's [bumpVersion] returns what the server's returns;
    for any other bump the server's throws while the dialog's answers as
    for 'patch'. *)
Theorem dialog_preview_agrees_with_server version bump :
  version <> "" ->
  (In bump ["patch"; "minor"; "major"] ->
   bumpVersion version bump = Done (DocSaveDialog_bumpVersion (Some version) bump))
  /\ (~ In bump ["patch"; "minor"; "major"] ->
      bumpVersion version bump = Raised ("Invalid bump type: " ++ bump)
      /\ DocSaveDialog_bumpVersion (Some version) bump
         = DocSaveDialog_bumpVersion (Some version) "patch").
Proof.
  intros Hne. apply String.eqb_neq in Hne.
  unfold bumpVersion, DocSaveDialog_bumpVersion. cbn [or_str]. rewrite Hne. cbv zeta.
  destruct (normalize (map Number (split "."%char version))) as [[major minor] patch].
  split.
  - intros [<-|[<-|[<-|[]]]]; reflexivity.
  - intros Hnot.
    assert ((bump =? "major") = false /\ (bump =? "minor") = false
            /\ (bump =? "patch") = false) as (E1 & E2 & E3).
    { repeat split; apply String.eqb_neq; intros ->; apply Hnot; cbn; tauto. }
    rewrite E1, E2, E3. split; reflexivity.
Qed.

(** X14. A document without a version cannot be saved, although the dialog
    previews a version for it.  With all four fields and a valid bump,
    POST /@docs/save for an existing document whose version is NULL or
    empty answers 400 and changes nothing, while the dialog's preview is
    the bump of 0.0.0. *)
Theorem save_refuses_document_without_version req db i body bump summary doc rest :
  or_null_id (DocsRequest.doc_id req) = Some i ->
  or_null_str (DocsRequest.body_md req) = Some body ->
  or_null_str (DocsRequest.version_bump req) = Some bump ->
  or_null_str (DocsRequest.change_summary req) = Some summary ->
  In bump ["patch"; "minor"; "major"] ->
  docs_by_id db i = doc :: rest ->
  or_null_str (Docs.version doc) = None ->
  (exists r, postDocsSave req db = Returned r db /\ status r = Some 400)
  /\ DocSaveDialog_bumpVersion (Docs.version doc) bump
     = (if bump =? "major" then "1.0.0" else if bump =? "minor" then "0.1.0" else "0.0.1").
Proof.
  intros Hi Hbody Hbump Hsum Hin Hdoc Hver.
  assert (existsb (String.eqb bump) ["patch"; "minor"; "major"] = true) as Hex
      by (destruct Hin as [<-|[<-|[<-|[]]]]; reflexivity).
  split.
  - unfold postDocsSave. rewrite Hi, Hbody, Hbump, Hsum, Hex. cbn [negb].
    rewrite Hdoc, Hver. eexists. split; reflexivity.
  - assert (or_str (Docs.version doc) "0.0.0" = "0.0.0") as Hv.
    { unfold or_null_str, truthy_str in Hver. unfold or_str.
      destruct (Docs.version doc) as [v|]; [|reflexivity].
      destruct (v =? ""); [reflexivity|discriminate Hver]. }
    unfold DocSaveDialog_bumpVersion. rewrite Hv.
    destruct Hin as [<-|[<-|[<-|[]]]]; reflexivity.
Qed.

(** ** Further properties of the training routes *)

(** What the training routes leave alone when they validate a step: the
    documents, drafts, register, transitions and evidence that the
    validators read, and the modules. *)
Definition documents_untouched (db db' : DB) : Prop :=
  docs db' = docs db /\ doc_drafts db' = doc_drafts db
  /\ doc_versions db' = doc_versions db
  /\ controlled_documents db' = controlled_documents db
  /\ document_transitions db' = document_transitions db
  /\ document_evidence db' = document_evidence db
  /\ training_modules db' = training_modules db.

Lemma documents_untouched_refl db : documents_untouched db db.
Proof. unfold documents_untouched. tauto. Qed.

Lemma documents_untouched_trans a b c :
  documents_untouched a b -> documents_untouched b c -> documents_untouched a c.
Proof. unfold documents_untouched. intuition congruence. Qed.

Lemma record_completion_untouched db sid n k u data :
  documents_untouched db (record_completion db sid n k u data).
Proof.
  unfold record_completion, documents_untouched.
  destruct (existsb _ _); [tauto|]. destruct db; cbn; tauto.
Qed.

Lemma update_session_untouched db sid upd :
  documents_untouched db (update_session db sid upd).
Proof. unfold update_session, documents_untouched. destruct db; cbn; tauto. Qed.

Lemma grant_roles_untouched userId roles db :
  documents_untouched db (fold_left (grant_role userId) roles db).
Proof.
  revert db. induction roles as [|r roles IH]; cbn; [apply documents_untouched_refl|].
  intros db. apply documents_untouched_trans with (grant_role userId db r); [|apply IH].
  unfold grant_role, documents_untouched. destruct (existsb _ _); destruct db; cbn; tauto.
Qed.

Lemma complete_session_untouched db u sid n tm :
  documents_untouched db (snd (complete_session db u sid n tm)).
Proof.
  unfold complete_session, fresh. cbv beta iota zeta. cbn [snd].
  unfold grant_roles.
  match goal with |- documents_untouched _ (fold_left _ _ ?x) =>
    apply documents_untouched_trans with x; [|apply grant_roles_untouched] end.
  match goal with |- documents_untouched _ (update_session ?x _ _) =>
    apply documents_untouched_trans with x; [|apply update_session_untouched] end.
  unfold documents_untouched. destruct db; cbn; tauto.
Qed.

(** X15. A step whose validator fails is answered without an error status
    and with ok = false and the validator's message, and nothing is
    written: no completion is recorded and the session stays at its step. *)
Theorem failed_validation_changes_nothing
    req db sid n session tm rest stepDef docsId q lk v message :
  TrainingRequest.session_id req = Some sid -> sid <> 0%Z ->
  TrainingRequest.step_number req = Some n ->
  session_with_module db sid = (session, tm) :: rest ->
  TrainingSessions.user_id session = or_str (TrainingRequest.user req) "unknown" ->
  TrainingSessions.status session = "in_progress" ->
  n = TrainingSessions.current_step session ->
  find (fun s => (TrainingModules.step s =? n)%Z) (TrainingModules.steps tm) = Some stepDef ->
  training_doc_lookup db (TrainingSessions.training_doc_id session) = (docsId, q) :: lk ->
  validators (TrainingModules.validation stepDef) = Some v ->
  v db docsId q = Invalid message ->
  exists r,
    postTrainingValidateStep req db = Returned r db
    /\ status r = None
    /\ member (json r) "ok" = Some (JBool false)
    /\ member (json r) "message" = Some (JStr message)
    /\ member (json r) "step_number" = Some (JNum n).
Proof.
  intros Hsid Hnz Hn Hs Hu Hst Hcur Hfind Hlk Hv Hval.
  unfold postTrainingValidateStep.
  rewrite Hsid, Hn.
  replace (or_null_id (Some sid)) with (Some sid)
    by (unfold or_null_id; destruct sid; congruence).
  rewrite Hs, Hu, String.eqb_refl, Hst. cbn [String.eqb Ascii.eqb Bool.eqb negb].
  rewrite <- Hcur, Z.eqb_refl. cbn [negb].
  rewrite Hfind, Hlk, Hv, Hval.
  eexists. split; [reflexivity|]. repeat split.
Qed.

(** X16. Validating a step never writes to what it validates.  Whatever
    POST /@qms/training/session/validate-step answers, the knowledge
    base, the drafts, the register, the transitions, the evidence and the
    training modules are what they were; and when the answer is an error
    or carries ok = false, the whole database is. *)
Theorem validate_step_never_writes_documents req db r db' :
  postTrainingValidateStep req db = Returned r db' ->
  documents_untouched db db'
  /\ (is_error r = true -> db' = db)
  /\ (member (json r) "ok" = Some (JBool false) -> db' = db).
Proof.
  unfold postTrainingValidateStep.
  assert (forall c msg, Returned (error c msg) db = Returned r db' ->
            documents_untouched db db' /\ (is_error r = true -> db' = db)
            /\ (member (json r) "ok" = Some (JBool false) -> db' = db)) as Herr.
  { intros c msg H. inversion H; subst. split; [apply documents_untouched_refl|]. tauto. }
  destruct (or_null_id _) as [sid|]; [|apply Herr].
  destruct (TrainingRequest.step_number req) as [n|]; [|apply Herr].
  destruct (session_with_module db sid) as [|[session tm] rest]; [apply Herr|].
  destruct (negb (_ =? _)); [apply Herr|].
  destruct (negb (_ =? _)); [apply Herr|].
  destruct (negb (_ =? _)%Z); [apply Herr|].
  destruct (find _ _) as [stepDef|]; [|apply Herr].
  destruct (training_doc_lookup _ _) as [|[docsId q] lk]; [apply Herr|].
  destruct (validators _) as [v|]; [|apply Herr].
  destruct (v db docsId q) as [message|data].
  - intros H. inversion H; subst. split; [apply documents_untouched_refl|]. tauto.
  - cbv zeta.
    set (db1 := record_completion db sid n (TrainingModules.key stepDef)
                  (or_str (TrainingRequest.user req) "unknown") data).
    pose proof (record_completion_untouched db sid n (TrainingModules.key stepDef)
                  (or_str (TrainingRequest.user req) "unknown") data) as H1.
    fold db1 in H1.
    destruct (n =? Z.of_nat (List.length (TrainingModules.steps tm)))%Z.
    + pose proof (complete_session_untouched db1
                    (or_str (TrainingRequest.user req) "unknown") sid n tm) as H2.
      destruct (complete_session db1 _ sid n tm) as [certificateId db2]. cbn [snd] in H2.
      intros H. inversion H; subst.
      split; [exact (documents_untouched_trans _ _ _ H1 H2)|].
      split; [discriminate|]. cbn. discriminate.
    + intros H. inversion H; subst.
      split; [exact (documents_untouched_trans _ _ _ H1
                       (update_session_untouched db1 sid _))|].
      split; [discriminate|]. cbn. discriminate.
Qed.

Lemma or_null_id_nonzero sid : sid <> 0%Z -> or_null_id (Some sid) = Some sid.
Proof. unfold or_null_id. destruct sid; congruence. Qed.

(** A session that is not in progress accepts neither steps nor
    abandonment. *)
Lemma closed_session_refuses req db sid session :
  TrainingRequest.session_id req = Some sid -> sid <> 0%Z ->
  filter (fun ts => (TrainingSessions.id ts =? sid)%Z) (training_sessions db) = [session] ->
  TrainingSessions.user_id session = or_str (TrainingRequest.user req) "unknown" ->
  TrainingSessions.status session <> "in_progress" ->
  (exists r, postTrainingAbandon req db = Returned r db /\ status r = Some 409)
  /\ (exists r, postTrainingValidateStep req db = Returned r db
                /\ (status r = Some 409 \/ status r = Some 404 \/ status r = Some 400)).
Proof.
  intros Hsid Hnz Hrow Hu Hst. apply String.eqb_neq in Hst. split.
  - unfold postTrainingAbandon. rewrite Hsid, (or_null_id_nonzero sid Hnz), Hrow, Hu.
    rewrite String.eqb_refl, Hst. cbn [negb]. eexists. split; reflexivity.
  - unfold postTrainingValidateStep. rewrite Hsid, (or_null_id_nonzero sid Hnz).
    destruct (TrainingRequest.step_number req) as [n|];
      [|eexists; split; [reflexivity|]; right; right; reflexivity].
    unfold session_with_module. rewrite Hrow. cbn [flat_map]. rewrite app_nil_r.
    destruct (filter _ (training_modules db)) as [|tm tms]; cbn [map].
    + eexists. split; [reflexivity|]. right. left. reflexivity.
    + rewrite Hu, String.eqb_refl, Hst. cbn [negb].
      eexists. split; [reflexivity|]. left. reflexivity.
Qed.

Lemma complete_session_sessions db u sid n tm :
  training_sessions (snd (complete_session db u sid n tm))
  = map (fun ts =>
           if (TrainingSessions.id ts =? sid)%Z
           then session_with "completed" (n + 1) (Some (now db)) (Some (next_id db)) ts
           else ts)
      (training_sessions db).
Proof.
  unfold complete_session, fresh. cbv beta iota zeta. cbn [snd].
  unfold grant_roles.
  match goal with |- training_sessions (fold_left _ ?l ?x) = _ =>
    destruct (grant_roles_frame u l x) as (S & _); cbv zeta in S; rewrite S end.
  unfold update_session. rewrite training_sessions_with.
  destruct db; reflexivity.
Qed.

(** X17. A completed session is closed.  After the final step of a session
    has been validated, the session being the only row of its id, every
    further validate-step of its user for it is answered 409 (or 404 or
    400) and abandoning it is answered 409, all without any change. *)
Theorem completed_session_accepts_nothing
    req db sid n session tm rest stepDef docsId q lk v data :
  TrainingRequest.session_id req = Some sid -> sid <> 0%Z ->
  TrainingRequest.step_number req = Some n ->
  filter (fun ts => (TrainingSessions.id ts =? sid)%Z) (training_sessions db) = [session] ->
  session_with_module db sid = (session, tm) :: rest ->
  TrainingSessions.user_id session = or_str (TrainingRequest.user req) "unknown" ->
  TrainingSessions.status session = "in_progress" ->
  n = TrainingSessions.current_step session ->
  find (fun s => (TrainingModules.step s =? n)%Z) (TrainingModules.steps tm) = Some stepDef ->
  training_doc_lookup db (TrainingSessions.training_doc_id session) = (docsId, q) :: lk ->
  validators (TrainingModules.validation stepDef) = Some v ->
  v db docsId q = Valid data ->
  n = Z.of_nat (List.length (TrainingModules.steps tm)) ->
  exists r db',
    postTrainingValidateStep req db = Returned r db'
    /\ member (json r) "completed" = Some (JBool true)
    /\ forall req',
        TrainingRequest.session_id req' = Some sid ->
        or_str (TrainingRequest.user req') "unknown"
        = or_str (TrainingRequest.user req) "unknown" ->
        (exists r', postTrainingAbandon req' db' = Returned r' db' /\ status r' = Some 409)
        /\ (exists r', postTrainingValidateStep req' db' = Returned r' db'
                       /\ (status r' = Some 409 \/ status r' = Some 404
                           \/ status r' = Some 400)).
Proof.
  intros Hsid Hnz Hn Hrow Hs Hu Hst Hcur Hfind Hlk Hv Hval Hlast.
  rewrite (validate_step_checked _ _ _ _ _ _ _ _ _ _ _ _
             Hsid Hnz Hn Hs Hu Hst Hcur Hfind Hlk Hv data Hval).
  cbv zeta. rewrite <- Hlast, Z.eqb_refl.
  set (u := or_str (TrainingRequest.user req) "unknown") in *.
  set (db1 := record_completion db sid n (TrainingModules.key stepDef) u data).
  destruct (record_completion_frame db sid n (TrainingModules.key stepDef) u data)
    as (Rs & _). fold db1 in Rs. cbv zeta in Rs.
  pose proof (complete_session_sessions db1 u sid n tm) as Hsess.
  destruct (complete_session db1 u sid n tm) as [certificateId db2]. cbn [snd] in Hsess.
  eexists _, db2. split; [reflexivity|]. split; [reflexivity|].
  intros req' Hsid' Hu'.
  assert (filter (fun ts => (TrainingSessions.id ts =? sid)%Z) (training_sessions db2)
          = [session_with "completed" (n + 1) (Some (now db1)) (Some (next_id db1)) session])
    as Hrow2.
  { rewrite Hsess, Rs.
    rewrite (filter_map_update (fun ts => (TrainingSessions.id ts =? sid)%Z)
               (session_with "completed" (n + 1) (Some (now db1)) (Some (next_id db1))));
      [|reflexivity].
    rewrite Hrow. reflexivity. }
  apply (closed_session_refuses req' db2 sid _ Hsid' Hnz Hrow2).
  - cbn. rewrite Hu'. exact Hu.
  - cbn. discriminate.
Qed.

(** How POST /@qms/training/session/abandon relates a session row to the
    row it leaves, at the time [t]. *)
Definition abandoned_row (sid t : Z) (ts ts' : TrainingSessions.t) : Prop :=
  if (TrainingSessions.id ts =? sid)%Z then
    TrainingSessions.status ts' = "abandoned"
    /\ TrainingSessions.completed_at ts' = Some t
    /\ TrainingSessions.id ts' = TrainingSessions.id ts
    /\ TrainingSessions.user_id ts' = TrainingSessions.user_id ts
    /\ TrainingSessions.module_id ts' = TrainingSessions.module_id ts
    /\ TrainingSessions.training_doc_id ts' = TrainingSessions.training_doc_id ts
    /\ TrainingSessions.current_step ts' = TrainingSessions.current_step ts
    /\ TrainingSessions.certificate_id ts' = TrainingSessions.certificate_id ts
  else ts' = ts.

(** ... and a register row, for the training document [doc_id]. *)
Definition obsoleted_row (doc_id : string) (cd cd' : ControlledDocuments.t) : Prop :=
  if ControlledDocuments.document_id cd =? doc_id then
    ControlledDocuments.status cd' = Some "obsolete"
    /\ ControlledDocuments.version cd' = ControlledDocuments.version cd
    /\ ControlledDocuments.effective_date cd' = ControlledDocuments.effective_date cd
    /\ ControlledDocuments.id cd' = ControlledDocuments.id cd
    /\ ControlledDocuments.document_id cd' = ControlledDocuments.document_id cd
    /\ ControlledDocuments.docs_id cd' = ControlledDocuments.docs_id cd
  else cd' = cd.

(** X18. Abandoning a session in progress.  For the one session row of the
    given id, in progress and of the requesting user, the answer is a
    success; the session becomes 'abandoned' with the current time as
    completion time, its step and certificate staying; when the session
    has a training document, the register rows of that document become
    'obsolete' and one 'obsolete' transition is recorded for it, without
    a previous status; the knowledge base, the drafts, the evidence, the
    certificates and the roles are untouched.  Afterwards the session
    accepts neither a second abandonment nor a step. *)
Theorem abandon_closes_session req db sid session :
  TrainingRequest.session_id req = Some sid -> sid <> 0%Z ->
  filter (fun ts => (TrainingSessions.id ts =? sid)%Z) (training_sessions db) = [session] ->
  TrainingSessions.user_id session = or_str (TrainingRequest.user req) "unknown" ->
  TrainingSessions.status session = "in_progress" ->
  exists r db',
    postTrainingAbandon req db = Returned r db'
    /\ status r = None
    /\ Forall2 (abandoned_row sid (now db)) (training_sessions db) (training_sessions db')
    /\ match or_null_str (TrainingSessions.training_doc_id session) with
       | Some doc_id =>
           Forall2 (obsoleted_row doc_id)
             (controlled_documents db) (controlled_documents db')
           /\ exists t,
               document_transitions db' = (document_transitions db ++ [t])%list
               /\ DocumentTransitions.document_id t = doc_id
               /\ DocumentTransitions.action t = "obsolete"
               /\ DocumentTransitions.from_status t = None
               /\ DocumentTransitions.to_status t = Some "obsolete"
       | None =>
           controlled_documents db' = controlled_documents db
           /\ document_transitions db' = document_transitions db
       end
    /\ docs db' = docs db /\ doc_drafts db' = doc_drafts db
    /\ document_evidence db' = document_evidence db
    /\ training_certificates db' = training_certificates db
    /\ user_roles db' = user_roles db
    /\ (exists r', postTrainingAbandon req db' = Returned r' db' /\ status r' = Some 409)
    /\ (exists r', postTrainingValidateStep req db' = Returned r' db'
                   /\ (status r' = Some 409 \/ status r' = Some 404
                       \/ status r' = Some 400)).
Proof.
  intros Hsid Hnz Hrow Hu Hst.
  unfold postTrainingAbandon at 1. rewrite Hsid, (or_null_id_nonzero sid Hnz), Hrow, Hu.
  rewrite String.eqb_refl, Hst. cbn [String.eqb Ascii.eqb Bool.eqb negb]. cbv zeta.
  set (u := or_str (TrainingRequest.user req) "unknown") in *.
  match goal with |- context [update_session db sid ?f] =>
    set (upd := f); set (db1 := update_session db sid upd) end.
  assert (training_sessions db1
          = map (fun ts => if (TrainingSessions.id ts =? sid)%Z then upd ts else ts)
              (training_sessions db)) as Hs1
      by (unfold db1, update_session; apply training_sessions_with).
  assert (Forall2 (abandoned_row sid (now db)) (training_sessions db) (training_sessions db1))
    as HF.
  { rewrite Hs1. apply Forall2_map_r. intros ts. unfold abandoned_row.
    destruct (_ =? _)%Z; [|reflexivity]. cbn. tauto. }
  assert (filter (fun ts => (TrainingSessions.id ts =? sid)%Z) (training_sessions db1)
          = [upd session]) as Hrow1.
  { rewrite Hs1.
    rewrite (filter_map_update (fun ts => (TrainingSessions.id ts =? sid)%Z) upd);
      [|reflexivity].
    rewrite Hrow. reflexivity. }
  assert (docs db1 = docs db /\ doc_drafts db1 = doc_drafts db
          /\ document_evidence db1 = document_evidence db
          /\ training_certificates db1 = training_certificates db
          /\ user_roles db1 = user_roles db
          /\ controlled_documents db1 = controlled_documents db
          /\ document_transitions db1 = document_transitions db
          /\ training_modules db1 = training_modules db)
    as (F1 & F2 & F3 & F4 & F5 & F6 & F7 & F8)
    by (unfold db1, update_session; destruct db; cbn; tauto).
  unfold or_null_str.
  destruct (truthy_str (TrainingSessions.training_doc_id session)) eqn:Hdoc.
  - destruct (TrainingSessions.training_doc_id session) as [doc_id|] eqn:Htd;
      [|discriminate Hdoc].
    assert (or_str (Some doc_id) "" = doc_id) as Hor.
    { cbn in Hdoc |- *. destruct (doc_id =? ""); [discriminate Hdoc|reflexivity]. }
    rewrite Hor.
    match goal with |- context [insert_transition ?x doc_id _ _ _ _ _ _ _ _] =>
      set (db2 := x) end.
    match goal with |- context [insert_transition db2 doc_id ?a ?fs ?ts ?fv ?tv ?us ?c ?e] =>
      set (db3 := snd (insert_transition db2 doc_id a fs ts fv tv us c e));
      destruct (insert_transition_rows db2 doc_id a fs ts fv tv us c e)
        as (t & T0 & T1 & T2 & T3 & T4 & _);
      assert (docs db3 = docs db2 /\ doc_drafts db3 = doc_drafts db2
              /\ document_evidence db3 = document_evidence db2
              /\ training_certificates db3 = training_certificates db2
              /\ user_roles db3 = user_roles db2
              /\ controlled_documents db3 = controlled_documents db2
              /\ training_sessions db3 = training_sessions db2
              /\ training_modules db3 = training_modules db2)
        as (G1 & G2 & G3 & G4 & G5 & G6 & G7 & G8)
        by (unfold db3, insert_transition, fresh; destruct db2; cbn; tauto)
    end.
    fold db3 in T0.
    assert (docs db2 = docs db1 /\ doc_drafts db2 = doc_drafts db1
            /\ document_evidence db2 = document_evidence db1
            /\ training_certificates db2 = training_certificates db1
            /\ user_roles db2 = user_roles db1
            /\ document_transitions db2 = document_transitions db1
            /\ training_sessions db2 = training_sessions db1
            /\ training_modules db2 = training_modules db1)
      as (K1 & K2 & K3 & K4 & K5 & K6 & K7 & K8)
      by (unfold db2; destruct db1; cbn; tauto).
    assert (Forall2 (obsoleted_row doc_id) (controlled_documents db)
              (controlled_documents db2)) as HC.
    { unfold db2. rewrite controlled_documents_with, F6. apply Forall2_map_r. intros cd.
      unfold obsoleted_row. destruct (_ =? _); [|reflexivity]. cbn. tauto. }
    assert (filter (fun ts => (TrainingSessions.id ts =? sid)%Z) (training_sessions db3)
            = [upd session]) as Hrow3 by (rewrite G7, K7; exact Hrow1).
    destruct (closed_session_refuses req db3 sid (upd session) Hsid Hnz Hrow3)
      as (A1 & A2); [exact Hu|cbn; discriminate|].
    eexists _, db3. split; [reflexivity|]. split; [reflexivity|].
    rewrite G7, K7, G6, G1, K1, F1, G2, K2, F2, G3, K3, F3, G4, K4, F4, G5, K5, F5.
    split; [exact HF|]. split.
    { split; [exact HC|]. exists t. rewrite T0, K6, F7. tauto. }
    repeat (split; [reflexivity|]). split; [exact A1|exact A2].
  - assert (match TrainingSessions.training_doc_id session with
            | Some _ => None | None => None end = @None string) as Hn
        by (destruct (TrainingSessions.training_doc_id session); reflexivity).
    destruct (closed_session_refuses req db1 sid (upd session) Hsid Hnz Hrow1)
      as (A1 & A2); [exact Hu|cbn; discriminate|].
    eexists _, db1. split; [reflexivity|]. split; [reflexivity|].
    split; [exact HF|]. split; [split; assumption|].
    repeat (split; [assumption|]). exact A2.
Qed.

(** ** Registration from the knowledge base *)

(** The two INSERTs of a registration from the knowledge base. *)
Lemma register_from_kb_rows item u default_notes comment file_path db :
  exists t,
    let res := register_from_kb item u default_notes comment file_path db in
    controlled_documents (snd res) = (controlled_documents db ++ [fst res])%list
    /\ document_transitions (snd res) = (document_transitions db ++ [t])%list
    /\ ControlledDocuments.document_id (fst res) = or_str (QmsRequest.document_id item) ""
    /\ ControlledDocuments.status (fst res)
       = field_default (QmsRequest.status item) "effective"
    /\ ControlledDocuments.version (fst res) = field_default (QmsRequest.version item) "1.0"
    /\ ControlledDocuments.location (fst res) = file_path
    /\ ControlledDocuments.docs_id (fst res) = field_or_null_Z (QmsRequest.docs_id item)
    /\ DocumentTransitions.document_id t = ControlledDocuments.document_id (fst res)
    /\ DocumentTransitions.action t = "register"
    /\ DocumentTransitions.from_status t = None
    /\ DocumentTransitions.to_status t = ControlledDocuments.status (fst res)
    /\ DocumentTransitions.to_version t = ControlledDocuments.version (fst res)
    /\ DocumentTransitions.performed_by t = u
    /\ docs (snd res) = docs db /\ doc_drafts (snd res) = doc_drafts db
    /\ document_evidence (snd res) = document_evidence db.
Proof.
  unfold register_from_kb, insert_transition, fresh. cbv beta iota zeta.
  destruct db. eexists. cbn. repeat (split; [reflexivity|]). reflexivity.
Qed.

(** X19. POST /@qms/register/from-kb with its five required fields, for an
    existing knowledge-base document, answers 201 and appends one register
    row linked to that document, 'effective' at version 1.0 unless the
    body says otherwise and located at the document's file path, together
    with one 'register' transition to that status and version.  Unless
    the document was linked before, the draft routes then find it
    registered under the new id. *)
Theorem from_kb_registers_and_links req db i kbDoc rest :
  kb_fields_missing req = false ->
  field_or_null_Z (QmsRequest.docs_id req) = Some i ->
  docs_by_id db i = kbDoc :: rest ->
  exists r db' row t,
    postQmsFromKb req db = Returned r db'
    /\ status r = Some 201
    /\ controlled_documents db' = (controlled_documents db ++ [row])%list
    /\ ControlledDocuments.document_id row = or_str (QmsRequest.document_id req) ""
    /\ ControlledDocuments.docs_id row = Some i
    /\ ControlledDocuments.status row = field_default (QmsRequest.status req) "effective"
    /\ ControlledDocuments.version row = field_default (QmsRequest.version req) "1.0"
    /\ ControlledDocuments.location row = Docs.file_path kbDoc
    /\ document_transitions db' = (document_transitions db ++ [t])%list
    /\ DocumentTransitions.document_id t = ControlledDocuments.document_id row
    /\ DocumentTransitions.action t = "register"
    /\ DocumentTransitions.from_status t = None
    /\ DocumentTransitions.to_status t = ControlledDocuments.status row
    /\ DocumentTransitions.to_version t = ControlledDocuments.version row
    /\ docs db' = docs db /\ doc_drafts db' = doc_drafts db
    /\ document_evidence db' = document_evidence db
    /\ (getQmsDocumentId db i = None ->
        getQmsDocumentId db' i = Some (ControlledDocuments.document_id row)).
Proof.
  intros Hreq Hi Hdoc.
  unfold postQmsFromKb. rewrite Hreq. unfold kb_doc. rewrite Hi, Hdoc.
  set (u := or_str (QmsRequest.user req) "unknown").
  destruct (register_from_kb_rows req u "Registered from Knowledge Base"
              "Registered from Knowledge Base via reconciliation" (Docs.file_path kbDoc) db)
    as (t & R). cbv zeta in R.
  destruct (register_from_kb req u _ _ (Docs.file_path kbDoc) db) as [row db1].
  cbn [fst snd] in R.
  destruct R as (R1 & R2 & R3 & R4 & R5 & R6 & R7 & R8 & R9 & R10 & R11 & R12 & R13
                 & R14 & R15 & R16).
  exists (created (("@id", JStr (register_url req (ControlledDocuments.document_id row)))
                   :: cd_json row)), db1, row, t.
  split; [reflexivity|]. split; [reflexivity|].
  rewrite Hi in R7.
  repeat (split; [assumption|]).
  intros Hnone. unfold getQmsDocumentId in *. rewrite R1, filter_app.
  destruct (filter _ (controlled_documents db)); [|discriminate Hnone].
  cbn. rewrite R7. cbn. rewrite Z.eqb_refl. reflexivity.
Qed.



(** ** Evidence and the approval gate *)

Lemma filter_and {A} (p q : A -> bool) l :
  filter (fun x => p x && q x) l = filter q (filter p l).
Proof.
  induction l as [|x l IH]; cbn; [reflexivity|].
  destruct (p x); cbn; [destruct (q x); rewrite IH; reflexivity|exact IH].
Qed.

(** The gate's query after one more live evidence row. *)
Lemma missing_after_evidence db db' q row :
  document_evidence db' = (document_evidence db ++ [row])%list ->
  ref_evidence_types db' = ref_evidence_types db ->
  DocumentEvidence.is_superseded row = false ->
  missing_evidence_types db' q
  = if DocumentEvidence.document_id row =? q
    then filter (fun ret => negb (RefEvidenceTypes.code ret
                                  =? DocumentEvidence.evidence_type row))
           (missing_evidence_types db q)
    else missing_evidence_types db q.
Proof.
  intros Hev Hret Hlive. unfold missing_evidence_types. rewrite Hev, Hret.
  destruct (DocumentEvidence.document_id row =? q) eqn:Eq.
  - rewrite <- filter_and. apply filter_ext. intros ret.
    rewrite existsb_app. cbn [existsb]. rewrite Eq, Hlive, orb_false_r. cbn [negb andb].
    rewrite andb_true_r, negb_orb, andb_assoc.
    rewrite (String.eqb_sym (RefEvidenceTypes.code ret)). reflexivity.
  - apply filter_ext. intros ret.
    rewrite existsb_app. cbn [existsb]. rewrite Eq. cbn [andb]. rewrite !orb_false_r.
    reflexivity.
Qed.

(** X21. POST /@qms/evidence with a document id, one of the eight evidence
    types and truthy evidence data, for a registered document and, when a
    transition id is given, a transition of that document, answers 201 and
    appends exactly one evidence row for the document, of that type, tied
    to the transition if any and recorded by the user; the register and
    the transitions are unchanged.  Where evidence rows are live by
    default, the approval gate then no longer misses that type for the
    document, and misses what it missed before for every other type and
    every other document. *)
Theorem evidence_route_closes_the_gate req db document_id evidence_type evidence_data cd rest :
  or_null_str (EvidenceRequest.document_id req) = Some document_id ->
  or_null_str (EvidenceRequest.evidence_type req) = Some evidence_type ->
  EvidenceRequest.evidence_data req = Some evidence_data ->
  truthy evidence_data = true ->
  In evidence_type VALID_EVIDENCE_TYPES ->
  cd_by_document_id db document_id = cd :: rest ->
  (forall tid, or_null_id (EvidenceRequest.transition_id req) = Some tid ->
     exists t, In t (document_transitions db)
               /\ DocumentTransitions.id t = tid
               /\ DocumentTransitions.document_id t = document_id) ->
  exists r db' row,
    postQmsEvidence req db = Returned r db'
    /\ status r = Some 201
    /\ document_evidence db' = (document_evidence db ++ [row])%list
    /\ DocumentEvidence.document_id row = document_id
    /\ DocumentEvidence.evidence_type row = evidence_type
    /\ DocumentEvidence.evidence_data row = evidence_data
    /\ DocumentEvidence.transition_id row = or_null_id (EvidenceRequest.transition_id req)
    /\ DocumentEvidence.recorded_by row = or_str (EvidenceRequest.user req) "unknown"
    /\ controlled_documents db' = controlled_documents db
    /\ document_transitions db' = document_transitions db
    /\ (evidence_superseded_default schema = false ->
        forall q,
          missing_evidence_types db' q
          = if document_id =? q
            then filter (fun ret => negb (RefEvidenceTypes.code ret =? evidence_type))
                   (missing_evidence_types db q)
            else missing_evidence_types db q).
Proof.
  intros Hid Hty Hdata Htruthy Hvalid Hcd Htr.
  assert (existsb (String.eqb evidence_type) VALID_EVIDENCE_TYPES = true) as Hex.
  { apply existsb_exists. exists evidence_type. split; [assumption|apply String.eqb_refl]. }
  unfold postQmsEvidence. rewrite Hid, Hty, Hdata, Htruthy, Hex. cbn [negb]. rewrite Hcd.
  assert (match or_null_id (EvidenceRequest.transition_id req) with
          | Some tid =>
              negb (existsb (fun t => (DocumentTransitions.id t =? tid)%Z
                                      && (DocumentTransitions.document_id t =? document_id))
                      (document_transitions db))
          | None => false
          end = false) as Hmiss.
  { destruct (or_null_id (EvidenceRequest.transition_id req)) as [tid|]; [|reflexivity].
    destruct (Htr tid eq_refl) as (t & Hin & H1 & H2).
    apply negb_false_iff, existsb_exists. exists t. split; [assumption|].
    rewrite H1, H2, Z.eqb_refl, String.eqb_refl. reflexivity. }
  rewrite Hmiss. cbv zeta.
  set (u := or_str (EvidenceRequest.user req) "unknown").
  destruct (insertEvidence_rows db document_id (EvidenceRequest.transition_id req)
              evidence_type evidence_data (EvidenceRequest.evidence_text req) u)
    as (row & E1 & E2 & E3 & E4 & E5 & E6 & E7).
  destruct (insertEvidence_only db document_id (EvidenceRequest.transition_id req)
              evidence_type evidence_data (EvidenceRequest.evidence_text req) u)
    as (_ & S4 & S5).
  eexists _, _, row. split; [reflexivity|]. split; [reflexivity|].
  repeat (split; [assumption|]).
  intros Hlive q. rewrite Hlive in E7.
  rewrite (missing_after_evidence db _ q row E1); [rewrite E2, E4; reflexivity| |exact E7].
  unfold insertEvidence, fresh. destruct db; reflexivity.
Qed.

(** X22. The approval is refused with 422 only for missing evidence.
    Whenever POST /@docs/draft/approve answers 422, the draft it fetched
    was under review, its document is in the register under a non-empty
    id, and at least one required evidence type of phase 1 or 2 has no
    live evidence row for that id. *)
Theorem approve_422_only_for_missing_evidence req db r db' :
  postDocDraftApprove req db = Returned r db' -> status r = Some 422 ->
  exists slug draft d rest q ret,
    DraftRequest.slug req = Some slug
    /\ drafts_by_slug db slug = (draft, d) :: rest
    /\ DocDrafts.status draft = "in_review"
    /\ getQmsDocumentId db (Docs.id d) = Some q /\ q <> ""
    /\ In ret (ref_evidence_types db)
    /\ RefEvidenceTypes.required ret = true
    /\ (RefEvidenceTypes.phase ret <= 2)%Z
    /\ (forall de, In de (document_evidence db) ->
          DocumentEvidence.document_id de = q ->
          DocumentEvidence.evidence_type de = RefEvidenceTypes.code ret ->
          DocumentEvidence.is_superseded de = true).
Proof.
  unfold postDocDraftApprove.
  destruct (DraftRequest.slug req) as [slug|] eqn:Hslug; cbn [truthy_str negb or_str].
  2:{ intros H; inversion H; subst; discriminate. }
  destruct (slug =? "") eqn:Hne; cbn [negb].
  { intros H; inversion H; subst; discriminate. }
  destruct (drafts_by_slug db slug) as [|[draft d] rest] eqn:Hq.
  { intros H; inversion H; subst; discriminate. }
  destruct (DocDrafts.status draft =? "in_review") eqn:Hst; cbn [negb].
  2:{ intros H; inversion H; subst; discriminate. }
  apply String.eqb_eq in Hst.
  set (u := or_str (DraftRequest.user req) "unknown").
  fold (after_publish db draft d u).
  destruct (after_publish_frame db draft d u) as (_ & Hcd & _ & Hev & Hret & _).
  cbv zeta in Hcd, Hev, Hret.
  rewrite (getQmsDocumentId_ext _ _ _ Hcd).
  destruct (getQmsDocumentId db (Docs.id d)) as [q|] eqn:Hreg.
  2:{ intros H; inversion H; subst; discriminate. }
  destruct (q =? "") eqn:Hqe.
  { intros H; inversion H; subst; discriminate. }
  rewrite (missing_evidence_types_ext _ _ _ Hev Hret).
  destruct (missing_evidence_types db q) as [|ret more] eqn:Hmiss.
  { destruct (insert_transition _ _ _ _ _ _ _ _ _ _) as [t db5].
    destruct (approve_evidence _ _ _ _ _); [|discriminate].
    intros H; inversion H; subst; discriminate. }
  intros _ _.
  assert (In ret (missing_evidence_types db q)) as Hin by (rewrite Hmiss; left; reflexivity).
  apply missing_evidence_types_spec in Hin. destruct Hin as (H1 & H2 & H3 & H4).
  exists slug, draft, d, rest, q, ret.
  apply String.eqb_neq in Hqe. repeat (split; [assumption || reflexivity|]). exact H4.
Qed.

(** The row an INSERT into qms.document_transitions appends, in full. *)
Lemma insert_transition_row db q a fs ts fv tv u c e :
  exists row,
    document_transitions (snd (insert_transition db q a fs ts fv tv u c e))
    = (document_transitions db ++ [row])%list
    /\ DocumentTransitions.id row = fst (insert_transition db q a fs ts fv tv u c e)
    /\ DocumentTransitions.document_id row = q
    /\ DocumentTransitions.action row = a
    /\ DocumentTransitions.from_status row = fs
    /\ DocumentTransitions.to_status row = ts
    /\ DocumentTransitions.from_version row = fv
    /\ DocumentTransitions.to_version row = tv
    /\ DocumentTransitions.performed_by row = u
    /\ DocumentTransitions.comment row = c
    /\ DocumentTransitions.evidence_ref row = e.
Proof.
  unfold insert_transition, fresh. destruct db; cbn. eexists. split; [reflexivity|].
  cbn. tauto.
Qed.

(** X23. The audit trail of an approval.  Whenever POST /@docs/draft/approve
    answers without an error status, for the draft and document it
    fetched: when the document is in the register under a non-empty id,
    exactly one transition is appended, an 'approve' of that id by the
    user, from 'in_review' (whatever status the register held) and the
    document's previous version ('0.0' when it had none) to 'effective'
    and the draft's version, with the request's comment or the default
    one; otherwise the transitions and the register are unchanged. *)
Theorem approval_audit_trail req db r db' :
  postDocDraftApprove req db = Returned r db' -> is_error r = false ->
  exists slug draft d rest,
    DraftRequest.slug req = Some slug
    /\ drafts_by_slug db slug = (draft, d) :: rest
    /\ if match getQmsDocumentId db (Docs.id d) with
          | Some q => negb (q =? "")
          | None => false
          end
       then exists row,
           document_transitions db' = (document_transitions db ++ [row])%list
           /\ Some (DocumentTransitions.document_id row) = getQmsDocumentId db (Docs.id d)
           /\ DocumentTransitions.action row = "approve"
           /\ DocumentTransitions.from_status row = Some "in_review"
           /\ DocumentTransitions.to_status row = Some "effective"
           /\ DocumentTransitions.from_version row = Some (or_str (Docs.version d) "0.0")
           /\ DocumentTransitions.to_version row = Some (DocDrafts.version draft)
           /\ DocumentTransitions.performed_by row = or_str (DraftRequest.user req) "unknown"
           /\ DocumentTransitions.comment row
              = Some (or_str (DraftRequest.comment req) "Approved via draft management")
           /\ DocumentTransitions.evidence_ref row = None
       else document_transitions db' = document_transitions db
            /\ controlled_documents db' = controlled_documents db
            /\ document_evidence db' = document_evidence db.
Proof.
  unfold postDocDraftApprove.
  destruct (DraftRequest.slug req) as [slug|] eqn:Hslug; cbn [truthy_str negb or_str].
  2:{ intros H; inversion H; subst; discriminate. }
  destruct (slug =? "") eqn:Hne; cbn [negb].
  { intros H; inversion H; subst; discriminate. }
  destruct (drafts_by_slug db slug) as [|[draft d] rest] eqn:Hq.
  { intros H; inversion H; subst; discriminate. }
  destruct (DocDrafts.status draft =? "in_review") eqn:Hst; cbn [negb].
  2:{ intros H; inversion H; subst; discriminate. }
  set (u := or_str (DraftRequest.user req) "unknown").
  fold (after_publish db draft d u).
  set (db4 := after_publish db draft d u).
  destruct (after_publish_frame db draft d u) as (_ & Hcd & Htr & Hev & _).
  fold db4 in Hcd, Htr, Hev. cbv zeta in Hcd, Htr, Hev.
  rewrite (getQmsDocumentId_ext _ _ _ Hcd).
  fold (after_snapshot db4 draft d u).
  assert (forall x, document_transitions (after_snapshot x draft d u) = document_transitions x
                    /\ controlled_documents (after_snapshot x draft d u)
                       = controlled_documents x
                    /\ document_evidence (after_snapshot x draft d u) = document_evidence x)
    as Hsnap.
  { intros x. destruct (after_snapshot_frame x draft d u) as (_ & S2 & S3 & _).
    cbv zeta in S2, S3. split; [exact S3|]. split; [exact S2|].
    unfold after_snapshot, insert_doc_version, fresh.
    destruct (existsb _ _); destruct x; reflexivity. }
  destruct (getQmsDocumentId db (Docs.id d)) as [q|] eqn:Hreg.
  2:{ intros H _. inversion H; subst. exists slug, draft, d, rest.
      split; [reflexivity|]. split; [assumption|].
      destruct (Hsnap db4) as (A & B & C). rewrite Hreg. rewrite A, B, C. tauto. }
  destruct (q =? "") eqn:Hqe; cbn [negb].
  { intros H _. inversion H; subst. exists slug, draft, d, rest.
    split; [reflexivity|]. split; [assumption|].
    destruct (Hsnap db4) as (A & B & C). rewrite Hreg, Hqe. cbn [negb]. rewrite A, B, C. tauto. }
  destruct (missing_evidence_types db4 q) as [|m ms].
  2:{ intros H; inversion H; subst; discriminate. }
  match goal with |- context [insert_transition db4 q ?a ?fs ?ts ?fv ?tv ?us ?c ?e] =>
    destruct (insert_transition_row db4 q a fs ts fv tv us c e)
      as (row & Trow & _ & R1 & R2 & R3 & R4 & R5 & R6 & R7 & R8 & R9);
    destruct (insert_transition db4 q a fs ts fv tv us c e) as [tid db5]
  end.
  cbn [snd] in Trow.
  destruct (approve_evidence req u q tid db5) as [db6|] eqn:Hae; [|discriminate].
  destruct (approve_evidence_frame _ _ _ _ _ _ Hae) as (_ & _ & Etr).
  destruct (make_effective_frame db6 (DocDrafts.version draft) (Docs.id d)) as (_ & Mtr).
  cbv zeta in Mtr.
  fold (after_snapshot (make_effective db6 (DocDrafts.version draft) (Docs.id d)) draft d u).
  intros H _. inversion H; subst r db'.
  exists slug, draft, d, rest. split; [reflexivity|]. split; [assumption|].
  rewrite Hreg, Hqe. cbn [negb].
  exists row. destruct (Hsnap (make_effective db6 (DocDrafts.version draft) (Docs.id d)))
    as (A & _).
  rewrite A, Mtr, Etr, Trow, Htr, R1.
  repeat (split; [reflexivity || assumption|]). assumption.
Qed.

(** ** Starting a training session *)

(** X24. POST /@qms/training/session/start for an active module of which
    the user has no session in progress answers 201 and creates, with
    fresh ids, a knowledge-base document at version 0.1 authored by the
    user, a 'draft' register row linked to it, a 'create' transition for
    that row and a session in progress at step 1 that refers to the
    register row; no draft is created.  The training document can then be
    looked up by validate-step, and a second start answers 409 with the
    id of the session. *)
Theorem start_creates_session_and_document req db module_code mod_ mods :
  or_null_str (TrainingRequest.module_code req) = Some module_code ->
  filter (fun tm => (TrainingModules.module_code tm =? module_code)
                    && TrainingModules.active tm) (training_modules db) = mod_ :: mods ->
  filter (fun ts => (TrainingSessions.user_id ts
                     =? or_str (TrainingRequest.user req) "unknown")
                    && (TrainingSessions.module_id ts =? TrainingModules.id mod_)%Z
                    && (TrainingSessions.status ts =? "in_progress"))
    (training_sessions db) = [] ->
  exists r db' session d cd t,
    postTrainingStart req db = Returned r db'
    /\ status r = Some 201
    /\ docs db' = (docs db ++ [d])%list
    /\ Docs.id d = next_id db
    /\ Docs.version d = Some "0.1"
    /\ Docs.author d = Some (or_str (TrainingRequest.user req) "unknown")
    /\ controlled_documents db' = (controlled_documents db ++ [cd])%list
    /\ ControlledDocuments.docs_id cd = Some (Docs.id d)
    /\ ControlledDocuments.status cd = Some "draft"
    /\ ControlledDocuments.version cd = Some "0.1"
    /\ document_transitions db' = (document_transitions db ++ [t])%list
    /\ DocumentTransitions.document_id t = ControlledDocuments.document_id cd
    /\ DocumentTransitions.action t = "create"
    /\ DocumentTransitions.to_status t = Some "draft"
    /\ training_sessions db' = (training_sessions db ++ [session])%list
    /\ TrainingSessions.user_id session = or_str (TrainingRequest.user req) "unknown"
    /\ TrainingSessions.module_id session = TrainingModules.id mod_
    /\ TrainingSessions.current_step session = 1%Z
    /\ TrainingSessions.status session = "in_progress"
    /\ TrainingSessions.training_doc_id session = Some (ControlledDocuments.document_id cd)
    /\ doc_drafts db' = doc_drafts db
    /\ document_evidence db' = document_evidence db
    /\ In (Docs.id d, ControlledDocuments.document_id cd)
         (training_doc_lookup db' (TrainingSessions.training_doc_id session))
    /\ exists r2,
        postTrainingStart req db' = Returned r2 db'
        /\ status r2 = Some 409
        /\ member (json r2) "session_id" = Some (JNum (TrainingSessions.id session)).
Proof.
  intros Hcode Hmod Hnone.
  set (u := or_str (TrainingRequest.user req) "unknown") in *.
  unfold postTrainingStart at 1. rewrite Hcode. fold u. rewrite Hmod, Hnone.
  cbv zeta. unfold insert_transition, fresh. cbv beta iota zeta.
  match goal with |- context [if (0 <? ?c)%nat then ?a else ?b] =>
    set (docId := if (0 <? c)%nat then a else b) end.
  match goal with |- context [join newline ?l] => set (bodyMd := join newline l) end.
  destruct db as [ds drs dvs cds trs evs rets tms tss tscs tcs urs us nid nw today].
  cbn [next_id now docs controlled_documents document_transitions training_sessions
       training_modules with_next_id with_docs with_controlled_documents with_document_transitions
       with_training_sessions fst snd] in *.
  eexists _, _, _, _, _, _. split; [reflexivity|]. split; [reflexivity|].
  cbn [training_sessions docs controlled_documents document_transitions doc_drafts
       document_evidence TrainingSessions.user_id TrainingSessions.module_id
       TrainingSessions.current_step TrainingSessions.status TrainingSessions.id
       TrainingSessions.training_doc_id Docs.id Docs.version Docs.author
       ControlledDocuments.docs_id ControlledDocuments.status ControlledDocuments.version
       ControlledDocuments.document_id DocumentTransitions.document_id
       DocumentTransitions.action DocumentTransitions.to_status].
  do 20 (split; [reflexivity|]). split.
  - unfold training_doc_lookup, cd_by_document_id.
    cbn [controlled_documents docs TrainingSessions.training_doc_id Docs.id
         ControlledDocuments.document_id].
    rewrite filter_app, flat_map_app.
    apply in_or_app. right. cbn [filter ControlledDocuments.document_id].
    rewrite String.eqb_refl. cbn [flat_map]. rewrite app_nil_r.
    apply in_map_iff. eexists. split; [|apply filter_In; split;
      [apply in_or_app; right; left; reflexivity|]].
    + reflexivity.
    + cbn. apply Z.eqb_refl.
  - unfold postTrainingStart. rewrite Hcode. fold u.
    cbn [training_modules training_sessions]. rewrite Hmod, filter_app, Hnone.
    cbn [filter app TrainingSessions.user_id TrainingSessions.module_id
         TrainingSessions.status].
    rewrite String.eqb_refl, Z.eqb_refl. cbn [andb String.eqb Ascii.eqb Bool.eqb].
    eexists. split; [reflexivity|]. split; reflexivity.
Qed.

(** ** One session in progress per user and module *)

(** An update of the sessions that keeps users and modules and puts no
    session in progress. *)
Definition closes_only (g : TrainingSessions.t -> TrainingSessions.t) : Prop :=
  forall ts, session_key (g ts) = session_key ts
             /\ (in_progress (g ts) = true -> in_progress ts = true).

Lemma closes_only_keys g l k :
  closes_only g ->
  In k (map session_key (filter in_progress (map g l))) ->
  In k (map session_key (filter in_progress l)).
Proof.
  intros Hg. induction l as [|x l IH]; cbn [map filter]; [tauto|].
  destruct (Hg x) as (Hk & Hp).
  destruct (in_progress (g x)) eqn:E.
  - rewrite (Hp eq_refl). cbn [map In]. rewrite Hk. intros [H|H]; [left|right]; auto.
  - intros H. destruct (in_progress x); [right|]; auto.
Qed.

Lemma closes_only_NoDup g l :
  closes_only g ->
  NoDup (map session_key (filter in_progress l)) ->
  NoDup (map session_key (filter in_progress (map g l))).
Proof.
  intros Hg. induction l as [|x l IH]; cbn [map filter]; [tauto|].
  destruct (Hg x) as (Hk & Hp).
  destruct (in_progress (g x)) eqn:E.
  - rewrite (Hp eq_refl). cbn [map]. intros H. inversion H as [|? ? Hnin Hnd]; subst.
    constructor; [|auto]. rewrite Hk. intros Hin. apply Hnin.
    apply (closes_only_keys g l _ Hg Hin).
  - destruct (in_progress x); cbn [map]; intros H; [inversion H; subst|]; auto.
Qed.

Lemma closes_only_update sid upd :
  (forall ts, session_key (upd ts) = session_key ts
              /\ (in_progress (upd ts) = true -> in_progress ts = true)) ->
  closes_only (fun ts => if (TrainingSessions.id ts =? sid)%Z then upd ts else ts).
Proof. intros H ts. destruct (_ =? _)%Z; [apply H|tauto]. Qed.

Lemma validate_step_sessions req db r db' :
  postTrainingValidateStep req db = Returned r db' ->
  exists g, closes_only g /\ training_sessions db' = map g (training_sessions db).
Proof.
  unfold postTrainingValidateStep.
  assert (forall c msg, Returned (error c msg) db = Returned r db' ->
            exists g, closes_only g /\ training_sessions db' = map g (training_sessions db))
    as Herr.
  { intros c msg H. inversion H; subst. exists (fun ts => ts).
    split; [intros ts; tauto|]. symmetry. apply map_id. }
  destruct (or_null_id _) as [sid|]; [|apply Herr].
  destruct (TrainingRequest.step_number req) as [n|]; [|apply Herr].
  destruct (session_with_module db sid) as [|[session tm] rest]; [apply Herr|].
  destruct (negb (_ =? _)); [apply Herr|].
  destruct (negb (_ =? _)); [apply Herr|].
  destruct (negb (_ =? _)%Z); [apply Herr|].
  destruct (find _ _) as [stepDef|]; [|apply Herr].
  destruct (training_doc_lookup _ _) as [|[docsId q] lk]; [apply Herr|].
  destruct (validators _) as [v|]; [|apply Herr].
  destruct (v db docsId q) as [message|data].
  - intros H. inversion H; subst. exists (fun ts => ts).
    split; [intros ts; tauto|]. symmetry. apply map_id.
  - cbv zeta.
    set (u := or_str (TrainingRequest.user req) "unknown").
    set (db1 := record_completion db sid n (TrainingModules.key stepDef) u data).
    destruct (record_completion_frame db sid n (TrainingModules.key stepDef) u data)
      as (Rs & _). fold db1 in Rs. cbv zeta in Rs.
    destruct (n =? Z.of_nat (List.length (TrainingModules.steps tm)))%Z.
    + pose proof (complete_session_sessions db1 u sid n tm) as Hs.
      destruct (complete_session db1 u sid n tm) as [certificateId db2]. cbn [snd] in Hs.
      intros H. inversion H; subst. eexists. split; [|rewrite Hs, Rs; reflexivity].
      apply closes_only_update. intros ts. split; [reflexivity|]. cbn. discriminate.
    + intros H. inversion H; subst. eexists. split.
      2:{ unfold update_session. rewrite training_sessions_with, Rs. reflexivity. }
      apply closes_only_update. intros ts. split; [reflexivity|]. cbn. tauto.
Qed.

Lemma abandon_sessions req db r db' :
  postTrainingAbandon req db = Returned r db' ->
  exists g, closes_only g /\ training_sessions db' = map g (training_sessions db).
Proof.
  unfold postTrainingAbandon.
  assert (forall c msg, Returned (error c msg) db = Returned r db' ->
            exists g, closes_only g /\ training_sessions db' = map g (training_sessions db))
    as Herr.
  { intros c msg H. inversion H; subst. exists (fun ts => ts).
    split; [intros ts; tauto|]. symmetry. apply map_id. }
  destruct (or_null_id _) as [sid|]; [|apply Herr].
  destruct (filter _ (training_sessions db)) as [|session rest]; [apply Herr|].
  destruct (negb (_ =? _)); [apply Herr|].
  destruct (negb (_ =? _)); [apply Herr|].
  cbv zeta. intros H. inversion H; subst. clear H. eexists. split.
  2:{ destruct (truthy_str _).
      - unfold insert_transition, fresh, update_session. cbv beta iota zeta.
        destruct db; reflexivity.
      - unfold update_session. apply training_sessions_with. }
  apply closes_only_update. intros ts. split; [reflexivity|]. cbn. discriminate.
Qed.

Lemma start_sessions req db r db' :
  postTrainingStart req db = Returned r db' ->
  training_sessions db' = training_sessions db
  \/ exists session,
       training_sessions db' = (training_sessions db ++ [session])%list
       /\ in_progress session = true
       /\ forall ts, In ts (training_sessions db) -> in_progress ts = true ->
                     session_key ts <> session_key session.
Proof.
  unfold postTrainingStart.
  destruct (or_null_str _) as [module_code|]; [|intros H; inversion H; auto].
  destruct (filter _ (training_modules db)) as [|mod_ mods]; [intros H; inversion H; auto|].
  set (u := or_str (TrainingRequest.user req) "unknown").
  destruct (filter _ (training_sessions db)) as [|existing l] eqn:Hnone;
    [|intros H; inversion H; auto].
  cbv zeta. unfold insert_transition, fresh. cbv beta iota zeta.
  intros H. inversion H; subst. clear H. right. eexists. split; [|split].
  - destruct db; reflexivity.
  - reflexivity.
  - intros ts Hin Hip Hkey. unfold session_key in Hkey. cbn in Hkey.
    injection Hkey as Hu Hm.
    assert (In ts (filter (fun ts => (TrainingSessions.user_id ts =? u)
                                     && (TrainingSessions.module_id ts
                                         =? TrainingModules.id mod_)%Z
                                     && (TrainingSessions.status ts =? "in_progress"))
                     (training_sessions db))) as Hf.
    { apply filter_In. split; [assumption|]. unfold in_progress in Hip.
      rewrite Hu, Hm, String.eqb_refl, Z.eqb_refl, Hip. reflexivity. }
    rewrite Hnone in Hf. destruct Hf.
Qed.

(** X25. No user ever has two sessions in progress for one module.  The
    property is kept by each of the three session routes, whatever they
    answer: start adds a session in progress only where the user has none
    for the module, validate-step and abandon keep users and modules and
    put no session in progress. *)
Theorem one_session_in_progress_is_kept req db r db' :
  one_session_in_progress db ->
  postTrainingStart req db = Returned r db'
  \/ postTrainingValidateStep req db = Returned r db'
  \/ postTrainingAbandon req db = Returned r db' ->
  one_session_in_progress db'.
Proof.
  unfold one_session_in_progress. intros Hinv [Hrun|[Hrun|Hrun]].
  - destruct (start_sessions req db r db' Hrun) as [->|(s & -> & Hip & Hfresh)];
      [assumption|].
    rewrite filter_app, map_app. cbn [filter]. rewrite Hip. cbn [map].
    apply NoDup_app; [assumption|constructor; [intros []|constructor]|].
    intros k Hk [<-|[]]. apply in_map_iff in Hk. destruct Hk as (ts & Hkey & Hts).
    apply filter_In in Hts. destruct Hts as (Hin & Hp).
    exact (Hfresh ts Hin Hp Hkey).
  - destruct (validate_step_sessions req db r db' Hrun) as (g & Hg & ->).
    apply closes_only_NoDup; assumption.
  - destruct (abandon_sessions req db r db' Hrun) as (g & Hg & ->).
    apply closes_only_NoDup; assumption.
Qed.

(** ** Document ids in URLs *)

Lemma doc_id_char_unreserved c : is_doc_id_char c = true -> is_unreserved c = true.
Proof.
  unfold is_doc_id_char, is_unreserved, is_alnum.
  intros H. apply orb_true_iff in H. destruct H as [H|H].
  - rewrite H. reflexivity.
  - cbn [existsb list_ascii_of_string] in H.
    repeat (apply orb_true_iff in H; destruct H as [H|H]);
      try discriminate H; apply Ascii.eqb_eq in H; subst c; reflexivity.
Qed.

Lemma encodeURIComponent_unreserved s :
  forallb is_unreserved (list_ascii_of_string s) = true -> encodeURIComponent s = s.
Proof.
  induction s as [|c s IH]; cbn [list_ascii_of_string forallb encodeURIComponent];
    [reflexivity|].
  intros H. apply andb_true_iff in H. destruct H as (Hc & Hs).
  rewrite Hc, (IH Hs). reflexivity.
Qed.

(** X26. The ids that the register routes accept are safe in URLs.  A
    string that passes the id pattern has between 1 and 100 characters
    and [encodeURIComponent] leaves it as it is, so that the '@id' of a
    document read from the register is the root URL, the route and the id
    itself. *)
Theorem accepted_ids_are_url_safe s :
  DOC_ID_RE s = true ->
  (1 <= String.length s <= 100)%nat
  /\ encodeURIComponent s = s
  /\ forall root_url db,
      status (getQmsDocument root_url s db) = None ->
      member (json (getQmsDocument root_url s db)) "@id"
      = Some (JStr (root_url ++ "/@qms/register/" ++ s)).
Proof.
  intros Hre.
  assert ((1 <= String.length s <= 100)%nat /\ encodeURIComponent s = s) as (Hlen & Henc).
  { unfold DOC_ID_RE in Hre. destruct s as [|c rest]; [discriminate Hre|].
    apply andb_true_iff in Hre. destruct Hre as (Hre & Hl).
    apply andb_true_iff in Hre. destruct Hre as (Hc & Hrest).
    apply Nat.leb_le in Hl. split; [cbn [String.length]; lia|].
    apply encodeURIComponent_unreserved. cbn [list_ascii_of_string forallb].
    apply andb_true_iff. split.
    - apply doc_id_char_unreserved. unfold is_doc_id_char. rewrite Hc. reflexivity.
    - apply forallb_forall. intros x Hx. apply doc_id_char_unreserved.
      exact (proj1 (forallb_forall _ _) Hrest x Hx). }
  split; [exact Hlen|]. split; [exact Henc|].
  intros root_url db. unfold getQmsDocument. rewrite Hre. cbn [negb].
  destruct (cd_by_document_id db s) as [|doc l]; [discriminate|].
  intros _. rewrite Henc. reflexivity.
Qed.

(** ** The training validators along the review cycle *)

(** A successful submission, with the database before its evidence is
    recorded. *)
Lemma submit_run_shape req db slug d :
  DraftRequest.slug req = Some slug -> slug <> "" ->
  docs_by_slug db slug = [d] ->
  (exists dr, draft_of db d dr /\ submittable dr) ->
  exists r db1,
    status r = None
    /\ Forall2 (submitted_row (Docs.id d) (or_str (DraftRequest.user req) "unknown"))
         (doc_drafts db) (doc_drafts db1)
    /\ docs db1 = docs db
    /\ controlled_documents db1 = controlled_documents db
    /\ document_evidence db1 = document_evidence db
    /\ postDocDraftSubmit req db
       = Returned r
           match getQmsDocumentId db (Docs.id d) with
           | Some q =>
               if q =? "" then db1
               else submit_evidence req (or_str (DraftRequest.user req) "unknown") q db1
           | None => db1
           end.
Proof.
  intros Hslug Hne Hd (dr0 & (Hin0 & Hid0) & Hopen0).
  set (u := or_str (DraftRequest.user req) "unknown").
  set (hit := fun dr : DocDrafts.t =>
                doc_id_is (ScalarValue (Docs.id d)) dr
                && ((DocDrafts.status dr =? "draft") || (DocDrafts.status dr =? "rejected"))).
  pose proof (doc_id_of_slug_one _ _ _ Hd) as Hscalar.
  apply String.eqb_neq in Hne.
  unfold postDocDraftSubmit. rewrite Hslug. cbn [truthy_str negb or_str].
  rewrite Hne. cbn [negb]. rewrite Hscalar. cbv beta iota zeta. fold u.
  match goal with |- context [map ?f (filter ?h (doc_drafts db))] =>
    set (upd := f); change h with hit end.
  assert (In (upd dr0) (map upd (filter hit (doc_drafts db)))) as Hne0.
  { apply in_map, filter_In. split; [assumption|]. unfold hit, doc_id_is.
    rewrite Hid0, Z.eqb_refl. destruct Hopen0 as [-> | ->]; reflexivity. }
  destruct (map upd (filter hit (doc_drafts db))) as [|row rows] eqn:Erows;
    [destruct Hne0|].
  assert (DocDrafts.doc_id row = Docs.id d) as Hrow.
  { assert (In row (map upd (filter hit (doc_drafts db)))) as Hr
        by (rewrite Erows; left; reflexivity).
    apply in_map_iff in Hr. destruct Hr as (x & <- & Hx). apply filter_In in Hx.
    destruct Hx as (_ & Hx). unfold hit, doc_id_is in Hx.
    apply andb_true_iff in Hx. destruct Hx as (Hx & _). apply Z.eqb_eq in Hx. exact Hx. }
  match goal with |- context [getQmsDocumentId ?x _] => set (db1 := x) end.
  assert (Forall2 (submitted_row (Docs.id d) u) (doc_drafts db) (doc_drafts db1)) as HF.
  { unfold db1. rewrite doc_drafts_with. apply Forall2_map_r. intros x.
    unfold submitted_row. unfold doc_id_is.
    destruct (_ && _); [|reflexivity]. cbn. tauto. }
  assert (docs db1 = docs db /\ controlled_documents db1 = controlled_documents db
          /\ document_evidence db1 = document_evidence db) as (F1 & F2 & F3)
    by (unfold db1; destruct db; cbn; tauto).
  rewrite Hrow, (getQmsDocumentId_ext db db1 _ F2).
  eexists _, db1. split; [|split; [exact HF|split; [exact F1|split; [exact F2|
    split; [exact F3|reflexivity]]]]].
  reflexivity.
Qed.

(** After a submission every draft of the document is under review,
    where it had one draft. *)
Lemma submitted_rows_in_review db db1 d u dr0 :
  one_draft_per_doc db ->
  draft_of db d dr0 -> submittable dr0 ->
  Forall2 (submitted_row (Docs.id d) u) (doc_drafts db) (doc_drafts db1) ->
  (exists dr, draft_of db1 d dr)
  /\ forall dr, draft_of db1 d dr -> DocDrafts.status dr = "in_review".
Proof.
  intros Hone (Hin0 & Hid0) Hopen0 HF.
  assert ((DocDrafts.status dr0 =? "draft") || (DocDrafts.status dr0 =? "rejected") = true)
    as E2 by (destruct Hopen0 as [-> | ->]; reflexivity).
  split.
  - destruct (Forall2_In_l _ _ _ _ HF Hin0) as (y & Hy & Hrow).
    unfold submitted_row in Hrow. rewrite Hid0, Z.eqb_refl, E2 in Hrow. cbn in Hrow.
    destruct Hrow as (_ & R2 & _). exists y. split; [assumption|congruence].
  - intros dr' (Hin' & Hid').
    destruct (Forall2_In_r _ _ _ _ HF Hin') as (x & Hx & Hrow).
    unfold submitted_row in Hrow.
    destruct (DocDrafts.doc_id x =? Docs.id d)%Z eqn:E1; cbn [andb] in Hrow.
    + apply Z.eqb_eq in E1.
      assert (x = dr0) as -> by (apply (NoDup_map_inj DocDrafts.doc_id _ _ _ Hone Hx Hin0);
                                 congruence).
      rewrite E2 in Hrow. tauto.
    + subst dr'. apply Z.eqb_neq in E1. contradiction.
Qed.

(** The evidence a submission records when it carries both a COI
    declaration and a qualification. *)
Lemma submit_evidence_both req u q db coi qual :
  DraftRequest.coi_declaration req = Some coi -> truthy coi = true ->
  DraftRequest.qualification req = Some qual -> truthy qual = true ->
  exists e1 e2,
    document_evidence (submit_evidence req u q db) = (document_evidence db ++ [e1; e2])%list
    /\ DocumentEvidence.document_id e1 = q
    /\ DocumentEvidence.evidence_type e1 = "coi_declaration"
    /\ DocumentEvidence.is_superseded e1 = evidence_superseded_default schema
    /\ DocumentEvidence.document_id e2 = q
    /\ DocumentEvidence.evidence_type e2 = "qualification"
    /\ DocumentEvidence.is_superseded e2 = evidence_superseded_default schema
    /\ doc_drafts (submit_evidence req u q db) = doc_drafts db.
Proof.
  intros Hcoi Htc Hqual Htq.
  unfold submit_evidence. rewrite Hcoi, Htc, Hqual, Htq. cbv zeta.
  match goal with |- context [insertEvidence (insertEvidence db q ?t ?ty ?data ?text u)
                                q ?t' ?ty' ?data' ?text' u] =>
    set (db1 := insertEvidence db q t ty data text u);
    destruct (insertEvidence_rows db q t ty data text u)
      as (e1 & A1 & A2 & _ & A4 & _ & _ & A7);
    destruct (insertEvidence_only db q t ty data text u) as ((_ & D1 & _) & _);
    destruct (insertEvidence_rows db1 q t' ty' data' text' u)
      as (e2 & B1 & B2 & _ & B4 & _ & _ & B7);
    destruct (insertEvidence_only db1 q t' ty' data' text' u) as ((_ & D2 & _) & _)
  end.
  fold db1 in A1, D1.
  exists e1, e2. rewrite B1, A1, <- app_assoc, D2, D1. cbn [app]. tauto.
Qed.

(** X27. A complete submission passes steps 3 and 4 of the training.
    Where every document has one draft at most and evidence rows are live
    by default, after POST /@docs/draft/submit with a COI declaration and
    a qualification, for a registered document with a draft to submit,
    the validator of step 3 finds the draft under review and the
    validator of step 4 finds both kinds of evidence. *)
Theorem complete_submission_passes_steps_3_and_4 req db slug d q coi qual :
  DraftRequest.slug req = Some slug -> slug <> "" ->
  docs_by_slug db slug = [d] ->
  one_draft_per_doc db ->
  (exists dr, draft_of db d dr /\ submittable dr) ->
  getQmsDocumentId db (Docs.id d) = Some q -> q <> "" ->
  DraftRequest.coi_declaration req = Some coi -> truthy coi = true ->
  DraftRequest.qualification req = Some qual -> truthy qual = true ->
  evidence_superseded_default schema = false ->
  exists r db',
    postDocDraftSubmit req db = Returned r db'
    /\ status r = None
    /\ (exists data, draft_in_review db' (Docs.id d) q = Valid data)
    /\ (exists data, evidence_coi_qualification db' (Docs.id d) q = Valid data).
Proof.
  intros Hslug Hne Hd Hone Hex Hreg Hqne Hcoi Htc Hqual Htq Hlive.
  destruct (submit_run_shape req db slug d Hslug Hne Hd Hex)
    as (r & db1 & Hst & HF & _ & _ & _ & Hrun).
  destruct Hex as (dr0 & Hdr0 & Hopen0).
  destruct (submitted_rows_in_review db db1 d _ dr0 Hone Hdr0 Hopen0 HF)
    as ((dr1 & Hin1 & Hid1) & Hall).
  apply String.eqb_neq in Hqne. rewrite Hreg, Hqne in Hrun.
  set (u := or_str (DraftRequest.user req) "unknown") in *.
  destruct (submit_evidence_both req u q db1 coi qual Hcoi Htc Hqual Htq)
    as (e1 & e2 & Hev & A1 & A2 & A3 & B1 & B2 & B3 & Hdr).
  rewrite Hlive in A3, B3.
  exists r, (submit_evidence req u q db1). split; [exact Hrun|]. split; [exact Hst|]. split.
  - unfold draft_in_review. rewrite Hdr.
    destruct (filter (fun dr => (DocDrafts.doc_id dr =? Docs.id d)%Z) (doc_drafts db1))
      as [|x l] eqn:Ef.
    + exfalso.
      assert (In dr1 (filter (fun dr => (DocDrafts.doc_id dr =? Docs.id d)%Z)
                        (doc_drafts db1))) as H
          by (apply filter_In; split; [assumption|apply Z.eqb_eq; assumption]).
      rewrite Ef in H. destruct H.
    + assert (In x (filter (fun dr => (DocDrafts.doc_id dr =? Docs.id d)%Z)
                      (doc_drafts db1))) as H by (rewrite Ef; left; reflexivity).
      apply filter_In in H. destruct H as (H1 & H2). apply Z.eqb_eq in H2.
      rewrite (Hall x (conj H1 H2)). cbn. eexists. reflexivity.
  - unfold evidence_coi_qualification. cbv zeta. rewrite Hev.
    match goal with |- context [filter ?p (document_evidence db1 ++ [e1; e2])%list] =>
      set (rows := filter p (document_evidence db1 ++ [e1; e2])%list);
      assert (In e1 rows /\ In e2 rows) as (I1 & I2)
    end.
    { split; apply filter_In; split.
      - apply in_or_app. right. left. reflexivity.
      - rewrite A1, A2, A3, String.eqb_refl. reflexivity.
      - apply in_or_app. right. right. left. reflexivity.
      - rewrite B1, B2, B3, String.eqb_refl. reflexivity. }
    assert (existsb (String.eqb "coi_declaration") (map DocumentEvidence.evidence_type rows)
            = true) as E1.
    { apply existsb_exists. exists "coi_declaration". split; [|reflexivity].
      rewrite <- A2. apply in_map. exact I1. }
    assert (existsb (String.eqb "qualification") (map DocumentEvidence.evidence_type rows)
            = true) as E2.
    { apply existsb_exists. exists "qualification". split; [|reflexivity].
      rewrite <- B2. apply in_map. exact I2. }
    rewrite E1, E2. cbn [app]. eexists. reflexivity.
Qed.

Lemma filter_map_comm {A} (p : A -> bool) (g : A -> A) l :
  (forall x, p (g x) = p x) -> filter p (map g l) = map g (filter p l).
Proof.
  intros Hp. induction l as [|x l IH]; cbn; [reflexivity|].
  rewrite Hp. destruct (p x); cbn; rewrite IH; reflexivity.
Qed.

(** X28. An approved document passes the last step of the training.
    Whenever POST /@docs/draft/approve answers without an error status,
    for the draft and document it fetched: where every document has one
    draft at most, the validator of step 3 finds no draft any more; and
    when the document is in the register under a non-empty id that has a
    single row, the validator of step 6 finds it effective at the draft's
    version. *)
Theorem approved_document_passes_final_step req db r db' :
  postDocDraftApprove req db = Returned r db' -> is_error r = false ->
  exists slug draft d rest,
    DraftRequest.slug req = Some slug
    /\ drafts_by_slug db slug = (draft, d) :: rest
    /\ (one_draft_per_doc db ->
        forall q, draft_in_review db' (Docs.id d) q
                  = Invalid "No draft found. The draft may have already been approved.")
    /\ (forall q cd,
          getQmsDocumentId db (Docs.id d) = Some q -> q <> "" ->
          cd_by_document_id db q = [cd] ->
          exists data,
            document_effective db' (Docs.id d) q = Valid data
            /\ member data "status" = Some (JStr "effective")
            /\ member data "version" = Some (JStr (DocDrafts.version draft))).
Proof.
  intros Hrun Hok.
  destruct (approve_success_shape _ _ _ _ Hrun Hok)
    as (slug & draft & d & rest & db5 & Hslug & Hq & _ & (_ & Sdr & _) & Hqms & ->).
  set (u := or_str (DraftRequest.user req) "unknown") in *.
  destruct (after_publish_frame db draft d u) as (Pdr & _).
  destruct (after_snapshot_frame db5 draft d u) as (_ & Fcd & _ & Fdr & _).
  cbv zeta in Pdr, Fcd, Fdr.
  exists slug, draft, d, rest. split; [assumption|]. split; [assumption|].
  assert (In (draft, d) (drafts_by_slug db slug)) as Hj by (rewrite Hq; left; reflexivity).
  apply drafts_by_slug_In in Hj. destruct Hj as (Hdin & _ & Hdid & _).
  split.
  - intros Hone q. unfold draft_in_review.
    assert (filter (fun dr => (DocDrafts.doc_id dr =? Docs.id d)%Z)
              (doc_drafts (after_snapshot db5 draft d u)) = []) as Hnone.
    { apply filter_nil_iff. intros x Hx. rewrite Fdr, Sdr, Pdr in Hx.
      apply filter_In in Hx. destruct Hx as (Hx & Hne).
      apply Z.eqb_neq. intros E.
      assert (x = draft) as -> by (apply (NoDup_map_inj DocDrafts.doc_id _ _ _ Hone Hx Hdin);
                                   congruence).
      rewrite Z.eqb_refl in Hne. discriminate Hne. }
    rewrite Hnone. reflexivity.
  - intros q cd Hreg Hqne Hcd.
    destruct (Hqms q Hreg Hqne) as (db6 & row & C6 & C5 & _).
    destruct (getQmsDocumentId_Some _ _ _ Hreg) as (cd0 & Hcd0 & D1 & D2).
    assert (cd0 = cd) as ->.
    { assert (In cd0 (cd_by_document_id db q)) as H
          by (apply filter_In; split; [assumption|apply String.eqb_eq; assumption]).
      rewrite Hcd in H. destruct H as [H|[]]. symmetry. exact H. }
    unfold document_effective, cd_by_document_id.
    rewrite Fcd, C5. unfold make_effective. rewrite controlled_documents_with, C6.
    rewrite filter_map_comm.
    2:{ intros x. destruct (opt_Z_eqb _ _); reflexivity. }
    fold (cd_by_document_id db q). rewrite Hcd. cbn [map].
    rewrite D1. cbn [opt_Z_eqb]. rewrite Z.eqb_refl.
    cbn. eexists. split; [reflexivity|]. split; reflexivity.
Qed.

(** ** The certificate of a completed session *)

Lemma complete_session_certificate db u sid n tm :
  exists cert,
    training_certificates (snd (complete_session db u sid n tm))
    = (training_certificates db ++ [cert])%list
    /\ TrainingCertificates.certificate_id cert = fst (complete_session db u sid n tm)
    /\ TrainingCertificates.session_id cert = sid
    /\ TrainingCertificates.user_id cert = u
    /\ TrainingCertificates.module_code cert = TrainingModules.module_code tm
    /\ TrainingCertificates.module_title cert = TrainingModules.title tm.
Proof.
  unfold complete_session, fresh. cbv beta iota zeta. cbn [fst snd].
  unfold grant_roles.
  match goal with |- context [fold_left _ ?l ?x] =>
    destruct (grant_roles_frame u l x) as (_ & C); cbv zeta in C; rewrite C end.
  match goal with |- context [update_session ?x ?i ?f] =>
    destruct (update_session_frame x i f) as (C' & _); cbv zeta in C'; rewrite C' end.
  destruct db; cbn. eexists. split; [reflexivity|]. cbn. tauto.
Qed.

Lemma filter_unique_key {A} (f : A -> Z) l x :
  NoDup (map f l) -> In x l -> filter (fun y => (f y =? f x)%Z) l = [x].
Proof.
  induction l as [|a l IH]; cbn [map filter In]; [tauto|].
  intros Hnd Hin. inversion Hnd as [|? ? Hnin Hnd']; subst.
  destruct Hin as [->|Hin].
  - rewrite Z.eqb_refl. f_equal. apply filter_nil_iff. intros y Hy.
    apply Z.eqb_neq. intros E. apply Hnin. rewrite <- E. apply in_map. exact Hy.
  - destruct (f a =? f x)%Z eqn:E; [|auto].
    exfalso. apply Z.eqb_eq in E. apply Hnin. rewrite E. apply in_map. exact Hin.
Qed.

(** X29. The certificate issued for a completed session is served.  After
    the final step of a session, the only row of its id, has been
    validated, GET /@qms/training/certificate with the certificate id of
    the answer finds the certificate, where certificate ids are unique:
    it is the one of this session, user and module. *)
Theorem issued_certificate_is_served
    req db sid n session tm rest stepDef docsId q lk v data :
  TrainingRequest.session_id req = Some sid -> sid <> 0%Z ->
  TrainingRequest.step_number req = Some n ->
  filter (fun ts => (TrainingSessions.id ts =? sid)%Z) (training_sessions db) = [session] ->
  session_with_module db sid = (session, tm) :: rest ->
  TrainingSessions.user_id session = or_str (TrainingRequest.user req) "unknown" ->
  TrainingSessions.status session = "in_progress" ->
  n = TrainingSessions.current_step session ->
  find (fun s => (TrainingModules.step s =? n)%Z) (TrainingModules.steps tm) = Some stepDef ->
  training_doc_lookup db (TrainingSessions.training_doc_id session) = (docsId, q) :: lk ->
  validators (TrainingModules.validation stepDef) = Some v ->
  v db docsId q = Valid data ->
  n = Z.of_nat (List.length (TrainingModules.steps tm)) ->
  exists r db' certificateId,
    postTrainingValidateStep req db = Returned r db'
    /\ member (json r) "certificate_id" = Some (JNum certificateId)
    /\ forall req',
        or_null_id (TrainingRequest.certificate_id req') = Some certificateId ->
        NoDup (map TrainingCertificates.certificate_id (training_certificates db')) ->
        status (getTrainingCertificate req' db') = None
        /\ member (json (getTrainingCertificate req' db')) "certificate_id"
           = Some (JNum certificateId)
        /\ member (json (getTrainingCertificate req' db')) "session_id" = Some (JNum sid)
        /\ member (json (getTrainingCertificate req' db')) "user_id"
           = Some (JStr (or_str (TrainingRequest.user req) "unknown"))
        /\ member (json (getTrainingCertificate req' db')) "module_code"
           = Some (JStr (TrainingModules.module_code tm)).
Proof.
  intros Hsid Hnz Hn Hrow Hs Hu Hst Hcur Hfind Hlk Hv Hval Hlast.
  rewrite (validate_step_checked _ _ _ _ _ _ _ _ _ _ _ _
             Hsid Hnz Hn Hs Hu Hst Hcur Hfind Hlk Hv data Hval).
  cbv zeta. rewrite <- Hlast, Z.eqb_refl.
  set (u := or_str (TrainingRequest.user req) "unknown") in *.
  set (db1 := record_completion db sid n (TrainingModules.key stepDef) u data).
  destruct (record_completion_frame db sid n (TrainingModules.key stepDef) u data)
    as (Rs & Rc & _). fold db1 in Rs, Rc. cbv zeta in Rs, Rc.
  pose proof (record_completion_untouched db sid n (TrainingModules.key stepDef) u data)
    as (_ & _ & _ & _ & _ & _ & Rm). fold db1 in Rm.
  pose proof (complete_session_sessions db1 u sid n tm) as Hsess.
  pose proof (complete_session_untouched db1 u sid n tm) as (_ & _ & _ & _ & _ & _ & Cm).
  destruct (complete_session_certificate db1 u sid n tm)
    as (cert & Hcerts & K1 & K2 & K3 & K4 & K5).
  destruct (complete_session db1 u sid n tm) as [certificateId db2].
  cbn [fst snd] in Hsess, Cm, Hcerts, K1.
  eexists _, db2, certificateId. split; [reflexivity|]. split; [reflexivity|].
  intros req' Hcid Hnd. unfold getTrainingCertificate. rewrite Hcid.
  assert (In cert (training_certificates db2)) as Hin
      by (rewrite Hcerts; apply in_or_app; right; left; reflexivity).
  rewrite <- K1.
  rewrite (filter_unique_key TrainingCertificates.certificate_id _ cert Hnd Hin).
  cbn [flat_map]. rewrite app_nil_r, K2.
  assert (filter (fun ts => (TrainingSessions.id ts =? sid)%Z) (training_sessions db2)
          = [session_with "completed" (n + 1) (Some (now db1)) (Some (next_id db1)) session])
    as Hrow2.
  { rewrite Hsess, Rs.
    rewrite (filter_map_update (fun ts => (TrainingSessions.id ts =? sid)%Z)
               (session_with "completed" (n + 1) (Some (now db1)) (Some (next_id db1))));
      [|reflexivity].
    rewrite Hrow. reflexivity. }
  rewrite Hrow2. cbn [flat_map]. rewrite app_nil_r. cbn [session_with TrainingSessions.module_id].
  rewrite Cm, Rm.
  unfold session_with_module in Hs. rewrite Hrow in Hs. cbn [flat_map] in Hs.
  rewrite app_nil_r in Hs.
  destruct (filter (fun tm0 => (TrainingModules.id tm0 =? TrainingSessions.module_id session)%Z)
              (training_modules db)) as [|tm0 tms]; [discriminate Hs|].
  cbn [map] in Hs. injection Hs as Htm _. subst tm0.
  cbn [map]. rewrite K2, K3, K4. cbn. repeat split; reflexivity.
Qed.

(** ** Successive version bumps *)

Lemma string_of_uint_digits d :
  forallb is_digit (list_ascii_of_string (NilEmpty.string_of_uint d)) = true.
Proof. induction d; cbn [NilEmpty.string_of_uint list_ascii_of_string forallb]; auto. Qed.

Lemma digits_value_acc d : forall acc,
  digits_value (Z.pos acc) (NilEmpty.string_of_uint d)
  = Some (Z.pos (Pos.of_uint_acc d acc)).
Proof.
  induction d; intros acc; cbn [NilEmpty.string_of_uint digits_value Pos.of_uint_acc];
    [reflexivity|..];
    (match goal with |- context [is_digit ?c] =>
       change (is_digit c) with true; cbv iota end;
     match goal with |- context [Z.of_nat ?n] =>
       let v := eval vm_compute in (Z.of_nat n) in change (Z.of_nat n) with v end;
     rewrite <- IHd; f_equal; lia).
Qed.

Lemma digits_value_uint d :
  digits_value 0 (NilEmpty.string_of_uint d) = Some (Z.of_N (Pos.of_uint d)).
Proof.
  induction d; cbn [NilEmpty.string_of_uint digits_value Pos.of_uint];
    [reflexivity|exact IHd|..];
    (match goal with |- context [is_digit ?c] =>
       change (is_digit c) with true; cbv iota end;
     match goal with |- context [Z.of_nat ?n] =>
       let v := eval vm_compute in (Z.of_nat n) in change (Z.of_nat n) with v end;
     cbn [Z.mul Z.add Z.of_N]; apply digits_value_acc).
Qed.

Lemma string_of_Z_pos p :
  string_of_Z (Z.pos p) = NilEmpty.string_of_uint (Pos.to_uint p).
Proof.
  unfold string_of_Z. cbn [Z.to_int NilZero.string_of_int]. unfold NilZero.string_of_uint.
  pose proof (DecimalPos.Unsigned.to_uint_nonnil p) as H.
  destruct (Pos.to_uint p); [contradiction|reflexivity..].
Qed.

(** A number below 2^53 is read back from the text a template literal
    prints for it. *)
Lemma Number_string_of_Z z : (0 <= z)%Z -> Number (string_of_Z z) = Num z.
Proof.
  intros Hz. destruct z as [|p|p]; [reflexivity| |lia].
  rewrite string_of_Z_pos. unfold Number.
  rewrite digits_value_uint, DecimalPos.Unsigned.of_to. reflexivity.
Qed.

Lemma string_of_Z_dotless z : (0 <= z)%Z -> dotless (string_of_Z z).
Proof.
  intros Hz. unfold dotless. apply forallb_forall. intros c Hc.
  assert (is_digit c = true) as Hd.
  { destruct z as [|p|p]; [|rewrite string_of_Z_pos in Hc|lia].
    - destruct Hc as [<-|[]]. reflexivity.
    - exact (proj1 (forallb_forall _ _) (string_of_uint_digits _) c Hc). }
  destruct (Ascii.eqb_spec c "."%char) as [->|]; [discriminate Hd|reflexivity].
Qed.

(** One bump of a printed version. *)
Lemma bumpVersion_version_string t bump :
  (0 <= fst (fst t))%Z -> (0 <= snd (fst t))%Z -> (0 <= snd t)%Z ->
  In bump ["patch"; "minor"; "major"] ->
  bumpVersion (version_string t) bump = Done (version_string (bumped t bump)).
Proof.
  destruct t as [[M m] p]. cbn [fst snd]. intros HM Hm Hp Hin.
  unfold bumpVersion, version_string.
  change (string_of_Z M ++ "." ++ string_of_Z m ++ "." ++ string_of_Z p)
    with (string_of_Z M ++ String "."%char (string_of_Z m ++ String "."%char (string_of_Z p))).
  rewrite (split_dotless_app _ _ (string_of_Z_dotless M HM)),
    (split_dotless_app _ _ (string_of_Z_dotless m Hm)),
    (split_dotless _ (string_of_Z_dotless p Hp)).
  cbn [map normalize].
  rewrite (Number_string_of_Z M HM), (Number_string_of_Z m Hm), (Number_string_of_Z p Hp).
  destruct Hin as [<-|[<-|[<-|[]]]]; reflexivity.
Qed.

Lemma bumped_nonneg t bump :
  (0 <= fst (fst t))%Z -> (0 <= snd (fst t))%Z -> (0 <= snd t)%Z ->
  (0 <= fst (fst (bumped t bump)))%Z /\ (0 <= snd (fst (bumped t bump)))%Z
  /\ (0 <= snd (bumped t bump))%Z.
Proof.
  destruct t as [[M m] p]. unfold bumped. cbn [fst snd].
  destruct (bump =? "major"); [cbn; lia|]. destruct (bump =? "minor"); cbn; lia.
Qed.

(** X30. Successive saves count up.  Starting from a version printed from
    three numbers, any sequence of bumps of 'patch', 'minor' and 'major',
    each applied to the version the previous one returned, never throws
    and ends at the version printed from the three numbers bumped in the
    same order: what [bumpVersion] returns is always a version it reads
    back exactly.  (Stated for parts that stay below 2^53.) *)
Theorem successive_bumps_count_up bumps major minor patch :
  (0 <= major)%Z -> (0 <= minor)%Z -> (0 <= patch)%Z ->
  (major + Z.of_nat (List.length bumps) <= MAX_SAFE_INTEGER)%Z ->
  (minor + Z.of_nat (List.length bumps) <= MAX_SAFE_INTEGER)%Z ->
  (patch + Z.of_nat (List.length bumps) <= MAX_SAFE_INTEGER)%Z ->
  Forall (fun bump => In bump ["patch"; "minor"; "major"]) bumps ->
  bump_all bumps (version_string (major, minor, patch))
  = Done (version_string (fold_left bumped bumps (major, minor, patch))).
Proof.
  intros HM Hm Hp _ _ _ Hall.
  set (t := (major, minor, patch)).
  assert ((0 <= fst (fst t))%Z /\ (0 <= snd (fst t))%Z /\ (0 <= snd t)%Z) as Ht
      by (cbn; auto).
  clearbody t. revert t Ht.
  induction Hall as [|bump bumps Hb Hall IH]; intros t (H1 & H2 & H3); [reflexivity|].
  cbn [bump_all fold_left].
  rewrite (bumpVersion_version_string t bump H1 H2 H3 Hb).
  apply IH. apply bumped_nonneg; assumption.
Qed.

End Routes.

(** ** The properties at sample inputs *)

(** C1 at a sample input: the COI declaration of SOP-DC-001 is missing,
    the approval answers 422 and neither table is written. *)
Lemma approve_missing_evidence_422_sample :
  exists r db',
    postDocDraftApprove sample_schema (draft_request "sop-dc-001" "bob") db_missing_coi
    = Returned r db'
    /\ status r = Some 422
    /\ document_transitions db' = []
    /\ controlled_documents db' = [cd_sop].
Proof.
  destruct (approve_missing_evidence_422 sample_schema (draft_request "sop-dc-001" "bob")
              db_missing_coi "sop-dc-001" draft_sop doc_sop [] "SOP-DC-001" ret_coi)
    as (r & db' & missing & Hrun & Hst & _ & _ & Htr & Hcd).
  - reflexivity.
  - discriminate.
  - reflexivity.
  - reflexivity.
  - reflexivity.
  - discriminate.
  - right. left. reflexivity.
  - reflexivity.
  - vm_compute. discriminate.
  - intros de [<-|[]] _ Hty. vm_compute in Hty. discriminate Hty.
  - exists r, db'. repeat split; assumption.
Defined.

(** C3 at a sample input: approving the draft of version 1.1 of an
    unregistered document publishes it and deletes the draft. *)
Lemma approve_publishes_draft_sample :
  exists r db',
    postDocDraftApprove sample_schema (draft_request "sop-dc-001" "bob")
      (db_unregistered draft_sop)
    = Returned r db'
    /\ doc_drafts db' = []
    /\ exists v, In v (doc_versions db') /\ DocVersions.version v = "1.1"
                 /\ DocVersions.body_md v = Some "New body".
Proof.
  assert (exists r db',
            postDocDraftApprove sample_schema (draft_request "sop-dc-001" "bob")
              (db_unregistered draft_sop) = Returned r db' /\ is_error r = false)
    as (r & db' & Hrun & Hok) by (eexists _, _; split; reflexivity).
  destruct (approve_publishes_draft sample_schema _ _ r db' Hrun Hok)
    as (slug & draft & d & rest & Hslug & Hq & _ & _ & _ & (v & Hv & _ & V2 & V3) & Hdr & _).
  injection Hslug as <-.
  vm_compute in Hq. inversion Hq; subst. clear Hq.
  exists r, db'. split; [assumption|]. split; [rewrite Hdr; reflexivity|].
  exists v. split; [assumption|]. split; [assumption|].
  destruct V3 as (_ & V3).
  - intros (w & [] & _).
  - discriminate.
  - exact V3.
Defined.

(** C3 as stated fails where the draft keeps the version of the
    document and has no title: the approval succeeds, i18n.docs holds the
    new body under the old title, no snapshot is inserted for the
    published content, and the only snapshot of version 1.0 is that of
    the previous body. *)
Lemma approve_same_version_inserts_no_snapshot :
  exists r db',
    postDocDraftApprove sample_schema (draft_request "sop-dc-001" "bob")
      (db_unregistered draft_same_version)
    = Returned r db'
    /\ is_error r = false
    /\ map Docs.body_md (docs db') = [Some "New body"]
    /\ map Docs.title (docs db') = [Some "Document Control"]
    /\ map (fun v => (DocVersions.version v, DocVersions.body_md v)) (doc_versions db')
       = [("1.0", Some "Old body")].
Proof. eexists _, _. repeat split. Qed.


Example two_puts_one_draft :
  map DocDrafts.version
    (doc_drafts
       (db_after (putDocDraft sample_schema (put_request "1.2" "second")
                    (db_after (putDocDraft sample_schema (put_request "1.1" "first")
                                 (with_docs [doc_sop] empty_db))
                       empty_db))
          empty_db))
  = ["1.2"].
Proof. reflexivity. Qed.

(** C5 at the failing input: PUT /@qms/register/SOP-DC-001 with a new
    status and version succeeds, changes both columns of the register row
    and leaves qms.document_transitions empty. *)
Lemma putQmsDocument_changes_status_without_transition :
  exists r db',
    putQmsDocument put_status_request db_missing_coi = Returned r db'
    /\ is_error r = false
    /\ map ControlledDocuments.status (controlled_documents db_missing_coi) = [Some "draft"]
    /\ map ControlledDocuments.version (controlled_documents db_missing_coi) = [Some "1.0"]
    /\ map ControlledDocuments.status (controlled_documents db') = [Some "effective"]
    /\ map ControlledDocuments.version (controlled_documents db') = [Some "2.0"]
    /\ document_transitions db' = [].
Proof. eexists _, _. repeat split. Qed.

(** C7 at a sample input: alice validates the last step of her session;
    she gets a certificate, the session is completed and both roles of
    the module are hers and active. *)
Lemma final_step_completes_session_sample :
  exists r db',
    postTrainingValidateStep sample_schema (step_request "alice" 2) (db_training 2 "effective")
    = Returned r db'
    /\ member (json r) "completed" = Some (JBool true)
    /\ map TrainingSessions.status (training_sessions db') = ["completed"]
    /\ map TrainingCertificates.user_id (training_certificates db') = ["alice"]
    /\ exists ur, In ur (user_roles db') /\ UserRoles.role_code ur = "reviewer"
                  /\ UserRoles.active ur = true.
Proof.
  destruct (final_step_completes_session sample_schema (step_request "alice" 2)
              (db_training 2 "effective") 5 2 (training_session 2) training_module []
              {| TrainingModules.step := 2; TrainingModules.key := "effective";
                 TrainingModules.validation := "document_effective" |}
              1 "SOP-DC-001" [] document_effective
              (JObj [ ("status", JStr "effective"); ("version", JStr "1.0");
                      ("effective_date", JNull) ]))
    as (r & db' & cert & cid & Hrun & _ & Hc & _ & Hcert & _ & _ & Hu & _ & _ & Hs & Hroles).
  - reflexivity.
  - discriminate.
  - reflexivity.
  - reflexivity.
  - reflexivity.
  - reflexivity.
  - reflexivity.
  - reflexivity.
  - reflexivity.
  - reflexivity.
  - reflexivity.
  - reflexivity.
  - exists r, db'. split; [assumption|]. split; [assumption|].
    split; [rewrite Hs; reflexivity|].
    split; [rewrite Hcert; cbn; rewrite Hu; reflexivity|].
    destruct (Hroles ["author"; "reviewer"] "reviewer" eq_refl)
      as (ur & Hin & _ & Hrc & _ & _ & Hact).
    + right. left. reflexivity.
    + exists ur. split; [assumption|]. split; [assumption|]. apply Hact. reflexivity.
Defined.

(** C9 at a sample input: alice validates step 1 of 2; the session moves
    to step 2. *)
Lemma validate_step_in_order_sample :
  exists r db',
    postTrainingValidateStep sample_schema (step_request "alice" 1) (db_training 1 "draft")
    = Returned r db'
    /\ member (json r) "current_step" = Some (JNum 2)
    /\ map TrainingSessions.current_step (training_sessions db') = [2%Z].
Proof.
  destruct (validate_step_in_order sample_schema (step_request "alice" 1)
              (db_training 1 "draft") 5 1 (training_session 1) training_module [])
    as (_ & _ & Hnext); try reflexivity; try discriminate.
  destruct (Hnext {| TrainingModules.step := 1; TrainingModules.key := "draft";
                     TrainingModules.validation := "draft_in_review" |}
              1%Z "SOP-DC-001" [] draft_in_review
              (JObj [ ("draft_id", JNum 7); ("status", JStr "in_review") ]))
    as (r & db' & Hrun & _ & Hcur & Hs); try reflexivity; try discriminate.
  exists r, db'. split; [assumption|]. split; [assumption|].
  rewrite Hs. reflexivity.
Defined.

(** C8 as stated fails: validating a step of another user's session is
    answered 403, which is none of 400, 404, 409, 422 and 500. *)
Lemma validate_step_of_other_user_is_403 :
  exists r,
    produced sample_schema r
    /\ is_error r = true
    /\ status r = Some 403
    /\ ~ In (status_code r) [400; 404; 409; 422; 500]%Z.
Proof.
  exists (error 403 "This session belongs to another user").
  split.
  - apply (by_postTrainingValidateStep sample_schema (step_request "bob" 1)
             (db_training 1 "draft") _ (db_training 1 "draft")).
    reflexivity.
  - split; [reflexivity|]. split; [reflexivity|].
    cbn. intros [H|[H|[H|[H|[H|[]]]]]]; discriminate H.
Qed.

(** C8 (as amended) at a sample input: the 403 of a foreign session is a
    well-formed error response. *)
Lemma error_responses_are_uniform_sample :
  error_response [400; 403; 404; 409; 422; 500]%Z
    (error 403 "This session belongs to another user").
Proof.
  apply (error_responses_are_uniform sample_schema).
  - apply (by_postTrainingValidateStep sample_schema (step_request "bob" 1)
             (db_training 1 "draft") _ (db_training 1 "draft")).
    reflexivity.
  - reflexivity.
Defined.

(** C2 at sample inputs: no draft for the slug gives 404, a draft that
    is still 'draft' gives 409. *)
Lemma approve_only_from_in_review_sample :
  (exists r,
     postDocDraftApprove sample_schema (draft_request "sop-dc-001" "bob")
       (with_docs [doc_sop] empty_db)
     = Returned r (with_docs [doc_sop] empty_db)
     /\ status r = Some 404)
  /\ (exists r,
        postDocDraftApprove sample_schema (draft_request "sop-dc-001" "bob")
          (db_after (putDocDraft sample_schema (put_request "1.1" "first")
                       (with_docs [doc_sop] empty_db)) empty_db)
        = Returned r
            (db_after (putDocDraft sample_schema (put_request "1.1" "first")
                         (with_docs [doc_sop] empty_db)) empty_db)
        /\ status r = Some 409).
Proof.
  split.
  - apply (proj1 (approve_only_from_in_review sample_schema
                    (draft_request "sop-dc-001" "bob") (with_docs [doc_sop] empty_db))
             "sop-dc-001" eq_refl).
    + discriminate.
    + intros dr d [].
  - apply (proj1 (approve_only_from_in_review sample_schema
                    (draft_request "sop-dc-001" "bob")
                    (db_after (putDocDraft sample_schema (put_request "1.1" "first")
                                 (with_docs [doc_sop] empty_db)) empty_db))
             "sop-dc-001" eq_refl).
    + discriminate.
    + eexists _, _. split; [left; reflexivity|]. split; [left; reflexivity|].
      split; reflexivity.
    + intros dr d [<-|[]] _ _ _. discriminate.
Defined.


(** The state of the transaction when the approval returns 422 at the
    sample input: the previous version is snapshotted and i18n.docs holds
    the draft.  Whether this state is kept is decided by the caller of
    the handler. *)
Example approve_422_has_written :
  exists r db',
    postDocDraftApprove sample_schema (draft_request "sop-dc-001" "bob") db_missing_coi
    = Returned r db'
    /\ status r = Some 422
    /\ map DocVersions.version (doc_versions db') = ["1.0"]
    /\ map Docs.version (docs db') = [Some "1.1"]
    /\ map Docs.body_md (docs db') = [Some "New body"].
Proof. eexists _, _. repeat split. Qed.

(** ** Further properties at sample inputs *)

(** Submitting the rejected draft of SOP-DC-001 puts it under review and
    clears the reviewer's notes. *)
Lemma submit_moves_draft_to_review_sample :
  exists r db' dr',
    postDocDraftSubmit sample_schema (draft_request "sop-dc-001" "alice")
      (db_unregistered draft_rejected) = Returned r db'
    /\ status r = None
    /\ doc_drafts db' = [dr']
    /\ DocDrafts.status dr' = "in_review" /\ DocDrafts.reviewer_notes dr' = None.
Proof.
  destruct (submit_moves_draft_to_review sample_schema (draft_request "sop-dc-001" "alice")
              (db_unregistered draft_rejected) "sop-dc-001" doc_sop eq_refl) as (H & _ & _).
  - discriminate.
  - reflexivity.
  - destruct H as (r & db' & Hrun & Hst & HF & _).
    + exists draft_rejected. split; [split; [left|]; reflexivity|right; reflexivity].
    + inversion HF as [|a b l l' Hrow Hrest Ha Hb]. subst. inversion Hrest. subst.
      exists r, db', b. split; [assumption|]. split; [assumption|].
      split; [symmetry; assumption|]. vm_compute in Hrow. tauto.
Defined.

(** Rejecting the draft of the registered SOP-DC-001 records the notes
    on the draft and as one evidence row. *)
Lemma reject_returns_draft_with_notes_sample :
  exists r db' row,
    postDocDraftReject sample_schema (reject_request "sop-dc-001" "bob" "Fix section 2")
      db_missing_coi = Returned r db'
    /\ status r = None
    /\ document_evidence db' = [evidence_justification_sop; row]
    /\ DocumentEvidence.evidence_type row = "rejection_feedback".
Proof.
  destruct (reject_returns_draft_with_notes sample_schema
              (reject_request "sop-dc-001" "bob" "Fix section 2")
              db_missing_coi "sop-dc-001" "Fix section 2" doc_sop eq_refl)
    as ((r & db' & Hrun & Hst & _ & _ & _ & _ & _ & Hev) & _).
  - discriminate.
  - reflexivity.
  - discriminate.
  - reflexivity.
  - exists draft_sop. split; [split; [left|]; reflexivity|reflexivity].
  - vm_compute in Hev. destruct Hev as (row & E1 & _ & _ & E4 & _).
    exists r, db', row. repeat (split; [assumption|]). assumption.
Defined.

(** Abandoning the draft of SOP-DC-001 leaves no draft. *)
Lemma delete_removes_the_drafts_sample :
  exists r db',
    deleteDocDraft (draft_request "sop-dc-001" "alice") (db_unregistered draft_sop)
    = Returned r db'
    /\ status r = None /\ doc_drafts db' = [].
Proof.
  destruct (delete_removes_the_drafts_of_the_document (draft_request "sop-dc-001" "alice")
              (db_unregistered draft_sop) "sop-dc-001" doc_sop eq_refl)
    as (r & db' & Hrun & Hkeep & _ & _ & _ & _ & Hst & _).
  - discriminate.
  - reflexivity.
  - exists r, db'. split; [assumption|]. split.
    + apply Hst. exists draft_sop. split; [left|]; reflexivity.
    + destruct (doc_drafts db') as [|x l]; [reflexivity|].
      destruct (proj1 (Hkeep x) (or_introl eq_refl)) as ([<-|[]] & Hx).
      exfalso. apply Hx. reflexivity.
Defined.

(** Saving over the rejected draft of SOP-DC-001 makes it a draft again. *)
Lemma put_revises_the_existing_draft_sample :
  exists r db' new,
    putDocDraft sample_schema (put_request "1.2" "Reworked body")
      (db_unregistered draft_rejected) = Returned r db'
    /\ status r = Some 200
    /\ doc_drafts db' = [new]
    /\ DocDrafts.id new = 9 /\ DocDrafts.version new = "1.2"
    /\ DocDrafts.status new = "draft" /\ DocDrafts.reviewer_notes new = None.
Proof.
  destruct (put_revises_the_existing_draft sample_schema (put_request "1.2" "Reworked body")
              (db_unregistered draft_rejected) "sop-dc-001" "1.2" doc_sop [] draft_rejected
              eq_refl)
    as (r & db' & new & Hrun & Hst & HF & H1 & _ & _ & _ & H5 & _ & _ & _ & Hrej & _).
  - discriminate.
  - reflexivity.
  - discriminate.
  - reflexivity.
  - reflexivity.
  - exists r, db', new. split; [assumption|].
    inversion HF as [|a b l l' Hrow Hrest Ha Hb]. subst. inversion Hrest. subst.
    vm_compute in Hrow. subst b.
    destruct (Hrej eq_refl) as (R1 & R2).
    assert (DocDrafts.updated_at new = 500%Z) as Hupd.
    { pose proof Hrun as Hc. vm_compute in Hc. injection Hc as _ Hdb.
      rewrite <- Hdb in Hb. injection Hb as ->. reflexivity. }
    rewrite Hupd in Hst.
    split; [exact Hst|]. split; [reflexivity|]. repeat (split; [assumption|]). assumption.
Defined.

(** The first save for SOP-DC-001 creates its draft. *)
Lemma put_creates_the_first_draft_sample :
  exists r db' new,
    putDocDraft sample_schema (put_request "1.1" "New body")
      (with_docs [doc_sop] empty_db) = Returned r db'
    /\ status r = Some 201
    /\ doc_drafts db' = [new]
    /\ DocDrafts.status new = "draft" /\ DocDrafts.created_by new = "alice".
Proof.
  destruct (put_creates_the_first_draft sample_schema (put_request "1.1" "New body")
              (with_docs [doc_sop] empty_db) "sop-dc-001" "1.1" doc_sop [] eq_refl)
    as (r & db' & new & Hrun & Hst & Hrows & _ & _ & _ & H4 & _ & H6 & _).
  - discriminate.
  - reflexivity.
  - discriminate.
  - reflexivity.
  - reflexivity.
  - exists r, db', new. repeat (split; [assumption|]). assumption.
Defined.

(** After bob rejects the draft of SOP-DC-001 an approval answers 409. *)
Lemma rejected_draft_must_be_resubmitted_sample :
  exists r1 db1 r,
    postDocDraftReject sample_schema (reject_request "sop-dc-001" "bob" "Fix section 2")
      (db_unregistered draft_sop) = Returned r1 db1
    /\ postDocDraftApprove sample_schema (draft_request "sop-dc-001" "bob") db1
       = Returned r db1
    /\ status r = Some 409.
Proof.
  destruct (rejected_draft_must_be_resubmitted sample_schema
              (reject_request "sop-dc-001" "bob" "Fix section 2")
              (draft_request "sop-dc-001" "bob")
              (db_unregistered draft_sop) "sop-dc-001" "Fix section 2" doc_sop eq_refl)
    as (r1 & db1 & Hrun & _ & (r & Ha & Hs) & _).
  - discriminate.
  - reflexivity.
  - discriminate.
  - reflexivity.
  - reflexivity.
  - exists draft_sop. split; [split; [left|]; reflexivity|reflexivity].
  - exists r1, db1, r. auto.
Defined.

(** After alice submits her rejected draft again a second submission
    answers 409. *)
Lemma submitted_draft_is_under_review_sample :
  exists r1 db1 r,
    postDocDraftSubmit sample_schema (draft_request "sop-dc-001" "alice")
      (db_unregistered draft_rejected) = Returned r1 db1
    /\ postDocDraftSubmit sample_schema (draft_request "sop-dc-001" "alice") db1
       = Returned r db1
    /\ status r = Some 409.
Proof.
  destruct (submitted_draft_is_under_review sample_schema (draft_request "sop-dc-001" "alice")
              (db_unregistered draft_rejected) "sop-dc-001" doc_sop eq_refl)
    as (r1 & db1 & Hrun & _ & _ & (r & Ha & Hs) & _).
  - discriminate.
  - reflexivity.
  - unfold one_draft_per_doc. cbn. constructor; [intros []|constructor].
  - exists draft_rejected. split; [split; [left|]; reflexivity|right; reflexivity].
  - exists r1, db1, r. auto.
Defined.

(** Registering SOP-QA-002 with the required fields only creates a
    'draft' at version 0.1 and its 'create' transition. *)
Lemma register_creates_document_with_audit_sample :
  exists r db' row t,
    postQmsDocument (create_request "SOP-QA-002") empty_db = Returned r db'
    /\ status r = Some 201
    /\ controlled_documents db' = [row]
    /\ ControlledDocuments.status row = Some "draft"
    /\ ControlledDocuments.version row = Some "0.1"
    /\ document_transitions db' = [t]
    /\ DocumentTransitions.action t = "create"
    /\ DocumentTransitions.to_status t = Some "draft".
Proof.
  destruct (register_creates_document_with_audit (create_request "SOP-QA-002") empty_db
              "SOP-QA-002" eq_refl)
    as (r & db' & row & t & Hrun & Hst & Hcd & _ & H1 & H2 & Htr & _ & H3 & _ & _ & H4 & _).
  - discriminate.
  - reflexivity.
  - reflexivity.
  - reflexivity.
  - exists r, db', row, t. rewrite H4, H1.
    repeat (split; [assumption || reflexivity|]). reflexivity.
Defined.

(** A document registered as 'SOP QA/002' can afterwards not be
    updated: the id fails the pattern of the other routes. *)
Lemma registered_id_outside_pattern_sample :
  exists r db' r',
    postQmsDocument (create_request "SOP QA/002") empty_db = Returned r db'
    /\ status r = Some 201
    /\ putQmsDocument (transition_request "SOP QA/002" "release" "effective") db'
       = Returned r' db'
    /\ status r' = Some 400.
Proof.
  destruct (registered_id_outside_pattern_is_unreachable (create_request "SOP QA/002")
              empty_db "SOP QA/002" eq_refl)
    as (r & db' & Hrun & Hst & _ & _ & Hreq).
  - discriminate.
  - reflexivity.
  - reflexivity.
  - reflexivity.
  - reflexivity.
  - destruct (Hreq (transition_request "SOP QA/002" "release" "effective") eq_refl)
      as ((r' & Hput & Hst') & _).
    exists r, db', r'. auto.
Defined.

(** Releasing SOP-DC-001 by a transition makes it effective today,
    although its COI declaration is missing. *)
Lemma transition_updates_register_sample :
  exists r db' cd,
    postQmsTransition (transition_request "SOP-DC-001" "release" "effective") db_missing_coi
    = Returned r db'
    /\ status r = Some 201
    /\ controlled_documents db' = [cd]
    /\ ControlledDocuments.status cd = Some "effective"
    /\ ControlledDocuments.effective_date cd = Some "2026-03-01"
    /\ missing_evidence_types db' "SOP-DC-001" = [ret_coi].
Proof.
  destruct (transition_updates_register_and_audits
              (transition_request "SOP-DC-001" "release" "effective") db_missing_coi
              cd_sop [] eq_refl eq_refl eq_refl)
    as (r & db' & t & Hrun & Hst & _ & _ & _ & _ & _ & _ & _ & _ & HF & _ & Hev & _).
  inversion HF as [|a b l l' Hrow Hrest Ha Hb]. subst. inversion Hrest. subst.
  vm_compute in Hrow. destruct Hrow as (R1 & _ & R3 & _).
  exists r, db', b. split; [assumption|]. split; [assumption|].
  split; [symmetry; assumption|]. split; [assumption|]. split; [assumption|].
  unfold missing_evidence_types.
  pose proof Hrun as Hc. vm_compute in Hc. injection Hc as _ Hdb. rewrite <- Hdb.
  reflexivity.
Defined.

(** Repeating the PUT that makes SOP-DC-001 effective changes nothing
    more. *)
Lemma put_register_is_idempotent_sample :
  exists r db',
    putQmsDocument put_status_request db_missing_coi = Returned r db'
    /\ putQmsDocument put_status_request db' = Returned r db'.
Proof.
  assert (exists r db', putQmsDocument put_status_request db_missing_coi = Returned r db'
                        /\ is_error r = false) as (r & db' & Hrun & Hok)
      by (eexists _, _; split; reflexivity).
  destruct (put_register_is_idempotent put_status_request db_missing_coi r db' Hrun Hok)
    as (Hagain & _).
  exists r, db'. split; assumption.
Defined.

(** A minor save of SOP-DC-001 at 1.0 gives 1.1.0 in the knowledge base
    and in the register, where the document stays a 'draft'. *)
Lemma save_bumps_version_sample :
  exists r db' d cd,
    postDocsSave (save_request 1 "minor") db_missing_coi = Returned r db'
    /\ docs db' = [d] /\ Docs.version d = Some "1.1.0"
    /\ controlled_documents db' = [cd]
    /\ ControlledDocuments.version cd = Some "1.1.0"
    /\ ControlledDocuments.status cd = Some "draft".
Proof.
  destruct (save_bumps_version_and_syncs_register (save_request 1 "minor") db_missing_coi
              1 "Edited body" "minor" "Clarified section 2" doc_sop [] "1.0"
              eq_refl eq_refl eq_refl eq_refl)
    as (r & db' & nv & Hnv & Hrun & _ & HF & _ & _ & Hq).
  - right. left. reflexivity.
  - reflexivity.
  - reflexivity.
  - vm_compute in Hnv. injection Hnv as <-.
    change (or_null_str (getQmsDocumentId db_missing_coi 1)) with (Some "SOP-DC-001") in Hq.
    destruct Hq as (HC & _).
    inversion HF as [|a d l l' Hd Hrest Ha Hb]. subst. inversion Hrest. subst.
    inversion HC as [|a cd l l' Hcd Hrest' Ha' Hb']. subst. inversion Hrest'. subst.
    vm_compute in Hd. vm_compute in Hcd.
    exists r, db', d, cd. split; [assumption|]. split; [symmetry; assumption|].
    split; [tauto|]. split; [symmetry; assumption|]. tauto.
Defined.

(** The dialog previews 1.1.0 for a minor bump of 1.0, as the server
    computes. *)
Lemma dialog_preview_agrees_sample :
  bumpVersion "1.0" "minor" = Done "1.1.0"
  /\ DocSaveDialog_bumpVersion (Some "1.0") "minor" = "1.1.0".
Proof.
  destruct (dialog_preview_agrees_with_server "1.0" "minor") as (H & _).
  - discriminate.
  - split; [|reflexivity]. rewrite H; [reflexivity|]. right. left. reflexivity.
Defined.

(** The dialog previews 0.0.1 for a document without a version, which
    the server refuses to save. *)
Lemma save_refuses_document_without_version_sample :
  exists r,
    postDocsSave (save_request 2 "patch") (with_docs [doc_unversioned] empty_db)
    = Returned r (with_docs [doc_unversioned] empty_db)
    /\ status r = Some 400
    /\ DocSaveDialog_bumpVersion None "patch" = "0.0.1".
Proof.
  destruct (save_refuses_document_without_version (save_request 2 "patch")
              (with_docs [doc_unversioned] empty_db)
              2 "Edited body" "patch" "Clarified section 2" doc_unversioned []
              eq_refl eq_refl eq_refl eq_refl)
    as ((r & Hrun & Hst) & Hprev).
  - left. reflexivity.
  - reflexivity.
  - reflexivity.
  - exists r. split; [assumption|]. split; [assumption|]. exact Hprev.
Defined.

(** Alice asks for the last step while her document is still a draft in
    the register: the answer is ok = false and nothing changes. *)
Lemma failed_validation_changes_nothing_sample :
  exists r,
    postTrainingValidateStep sample_schema (step_request "alice" 2) (db_training 2 "draft")
    = Returned r (db_training 2 "draft")
    /\ status r = None
    /\ member (json r) "ok" = Some (JBool false).
Proof.
  edestruct (failed_validation_changes_nothing sample_schema (step_request "alice" 2)
               (db_training 2 "draft") 5 2 (training_session 2) training_module []
               {| TrainingModules.step := 2; TrainingModules.key := "effective";
                  TrainingModules.validation := "document_effective" |}
               1 "SOP-DC-001" [] document_effective)
    as (r & Hrun & Hst & Hok & _).
  - reflexivity.
  - discriminate.
  - reflexivity.
  - reflexivity.
  - reflexivity.
  - reflexivity.
  - reflexivity.
  - reflexivity.
  - reflexivity.
  - reflexivity.
  - reflexivity.
  - exists r. auto.
Defined.

(** Alice's accepted first step leaves the register and her draft as
    they were. *)
Lemma validate_step_never_writes_documents_sample :
  exists r db',
    postTrainingValidateStep sample_schema (step_request "alice" 1) (db_training 1 "draft")
    = Returned r db'
    /\ member (json r) "ok" = Some (JBool true)
    /\ doc_drafts db' = [draft_sop]
    /\ controlled_documents db' = controlled_documents (db_training 1 "draft").
Proof.
  assert (exists r db',
            postTrainingValidateStep sample_schema (step_request "alice" 1)
              (db_training 1 "draft") = Returned r db'
            /\ member (json r) "ok" = Some (JBool true))
    as (r & db' & Hrun & Hok) by (eexists _, _; split; reflexivity).
  destruct (validate_step_never_writes_documents sample_schema _ _ r db' Hrun)
    as ((_ & Hdr & _ & Hcd & _) & _).
  exists r, db'. auto.
Defined.

(** Once alice has completed her session, abandoning it answers 409. *)
Lemma completed_session_accepts_nothing_sample :
  exists r db' r',
    postTrainingValidateStep sample_schema (step_request "alice" 2) (db_training 2 "effective")
    = Returned r db'
    /\ member (json r) "completed" = Some (JBool true)
    /\ postTrainingAbandon (step_request "alice" 2) db' = Returned r' db'
    /\ status r' = Some 409.
Proof.
  destruct (completed_session_accepts_nothing sample_schema (step_request "alice" 2)
              (db_training 2 "effective") 5 2 (training_session 2) training_module []
              {| TrainingModules.step := 2; TrainingModules.key := "effective";
                 TrainingModules.validation := "document_effective" |}
              1 "SOP-DC-001" [] document_effective
              (JObj [ ("status", JStr "effective"); ("version", JStr "1.0");
                      ("effective_date", JNull) ]))
    as (r & db' & Hrun & Hc & Hnext).
  - reflexivity.
  - discriminate.
  - reflexivity.
  - reflexivity.
  - reflexivity.
  - reflexivity.
  - reflexivity.
  - reflexivity.
  - reflexivity.
  - reflexivity.
  - reflexivity.
  - reflexivity.
  - reflexivity.
  - destruct (Hnext (step_request "alice" 2) eq_refl eq_refl) as ((r' & Ha & Hs) & _).
    exists r, db', r'. auto.
Defined.

(** Alice abandons her session: her training document becomes obsolete
    in the register. *)
Lemma abandon_closes_session_sample :
  exists r db' ts cd,
    postTrainingAbandon (step_request "alice" 1) (db_training 1 "draft") = Returned r db'
    /\ status r = None
    /\ training_sessions db' = [ts] /\ TrainingSessions.status ts = "abandoned"
    /\ controlled_documents db' = [cd]
    /\ ControlledDocuments.status cd = Some "obsolete".
Proof.
  destruct (abandon_closes_session sample_schema (step_request "alice" 1) (db_training 1 "draft") 5
              (training_session 1) eq_refl)
    as (r & db' & Hrun & Hst & HF & Hreg & _).
  - discriminate.
  - reflexivity.
  - reflexivity.
  - reflexivity.
  - change (or_null_str (TrainingSessions.training_doc_id (training_session 1)))
      with (Some "SOP-DC-001") in Hreg.
    destruct Hreg as (HC & _).
    inversion HF as [|a ts l l' Hts Hrest Ha Hb]. subst. inversion Hrest. subst.
    inversion HC as [|a cd l l' Hcd Hrest' Ha' Hb']. subst. inversion Hrest'. subst.
    vm_compute in Hts. vm_compute in Hcd.
    exists r, db', ts, cd. split; [assumption|]. split; [assumption|].
    split; [symmetry; assumption|]. split; [tauto|].
    split; [symmetry; assumption|]. tauto.
Defined.

(** Registering the knowledge-base document 1 as SOP-DC-001 makes it
    'effective' at 1.0 and known to the draft routes. *)
Lemma from_kb_registers_and_links_sample :
  exists r db' row,
    postQmsFromKb (from_kb_request "SOP-DC-001" 1) (with_docs [doc_sop] empty_db)
    = Returned r db'
    /\ status r = Some 201
    /\ controlled_documents db' = [row]
    /\ ControlledDocuments.status row = Some "effective"
    /\ ControlledDocuments.location row = Some "qms/sop-dc-001.md"
    /\ getQmsDocumentId db' 1 = Some "SOP-DC-001".
Proof.
  destruct (from_kb_registers_and_links (from_kb_request "SOP-DC-001" 1)
              (with_docs [doc_sop] empty_db) 1 doc_sop [] eq_refl eq_refl eq_refl)
    as (r & db' & row & t & Hrun & Hst & Hcd & Hid & _ & Hs & _ & Hloc & _ & _ & _ & _ & _ & _
        & _ & _ & _ & Hlink).
  exists r, db', row. split; [assumption|]. split; [assumption|].
  split; [assumption|]. split; [assumption|]. split; [assumption|].
  rewrite (Hlink eq_refl), Hid. reflexivity.
Defined.

(** Once bob has recorded the COI declaration of SOP-DC-001 the gate
    misses nothing. *)
Lemma evidence_route_closes_the_gate_sample :
  exists r db',
    postQmsEvidence sample_schema (evidence_request "SOP-DC-001" "coi_declaration")
      db_missing_coi = Returned r db'
    /\ status r = Some 201
    /\ missing_evidence_types db_missing_coi "SOP-DC-001" = [ret_coi]
    /\ missing_evidence_types db' "SOP-DC-001" = [].
Proof.
  destruct (evidence_route_closes_the_gate sample_schema
              (evidence_request "SOP-DC-001" "coi_declaration") db_missing_coi
              "SOP-DC-001" "coi_declaration" (JObj [ ("has_conflict", JBool false) ])
              cd_sop [] eq_refl eq_refl eq_refl eq_refl)
    as (r & db' & row & Hrun & Hst & _ & _ & _ & _ & _ & _ & _ & _ & Hgate).
  - right. right. left. reflexivity.
  - reflexivity.
  - intros tid H. discriminate H.
  - exists r, db'. split; [assumption|]. split; [assumption|]. split; [reflexivity|].
    rewrite (Hgate eq_refl "SOP-DC-001"). reflexivity.
Defined.

(** The 422 of the sample approval names a type without evidence. *)
Lemma approve_422_only_for_missing_evidence_sample :
  exists r db' ret,
    postDocDraftApprove sample_schema (draft_request "sop-dc-001" "bob") db_missing_coi
    = Returned r db'
    /\ status r = Some 422
    /\ In ret (ref_evidence_types db_missing_coi)
    /\ RefEvidenceTypes.required ret = true.
Proof.
  assert (exists r db',
            postDocDraftApprove sample_schema (draft_request "sop-dc-001" "bob")
              db_missing_coi = Returned r db' /\ status r = Some 422)
    as (r & db' & Hrun & Hst) by (eexists _, _; split; reflexivity).
  destruct (approve_422_only_for_missing_evidence sample_schema _ _ r db' Hrun Hst)
    as (slug & draft & d & rest & q & ret & _ & _ & _ & _ & _ & Hin & Hreq & _).
  exists r, db', ret. auto.
Defined.

(** Approving the draft of an unregistered document writes no
    transition. *)
Lemma approval_audit_trail_sample :
  exists r db',
    postDocDraftApprove sample_schema (draft_request "sop-dc-001" "bob")
      (db_unregistered draft_sop) = Returned r db'
    /\ status r = None
    /\ document_transitions db' = [].
Proof.
  assert (exists r db',
            postDocDraftApprove sample_schema (draft_request "sop-dc-001" "bob")
              (db_unregistered draft_sop) = Returned r db'
            /\ status r = None /\ is_error r = false)
    as (r & db' & Hrun & Hst & Hok) by (eexists _, _; split; [|split]; reflexivity).
  destruct (approval_audit_trail sample_schema _ _ r db' Hrun Hok)
    as (slug & draft & d & rest & Hslug & Hq & Haudit).
  injection Hslug as <-. vm_compute in Hq. inversion Hq; subst. clear Hq.
  change (getQmsDocumentId (db_unregistered draft_sop) (Docs.id doc_sop)) with (@None string)
    in Haudit.
  destruct Haudit as (Htr & _). exists r, db'. auto.
Defined.

(** Carol starts the module DC-BASIC: she gets a session at step 1 and a
    training document, and cannot start the module a second time. *)
Lemma start_creates_session_and_document_sample :
  exists r db' session cd r2,
    postTrainingStart (start_request "carol") (db_training 1 "draft") = Returned r db'
    /\ status r = Some 201
    /\ training_sessions db' = [training_session 1; session]
    /\ TrainingSessions.user_id session = "carol"
    /\ TrainingSessions.current_step session = 1%Z
    /\ controlled_documents db' = (controlled_documents (db_training 1 "draft") ++ [cd])%list
    /\ ControlledDocuments.document_id cd = "TST-TRN-carol-20260301"
    /\ postTrainingStart (start_request "carol") db' = Returned r2 db'
    /\ status r2 = Some 409.
Proof.
  destruct (start_creates_session_and_document (start_request "carol")
              (db_training 1 "draft") "DC-BASIC" training_module [] eq_refl eq_refl eq_refl)
    as (r & db' & session & d & cd & t & Hrun & Hst & _ & _ & _ & _ & Hcd & _ & _ & _ & _ & _
        & _ & _ & Hs & Hu & _ & Hstep & _ & Hdoc & _ & _ & _ & (r2 & Hrun2 & Hst2 & _)).
  exists r, db', session, cd, r2.
  split; [assumption|]. split; [assumption|]. split; [assumption|].
  split; [assumption|]. split; [assumption|]. split; [assumption|].
  split; [|split; assumption].
  pose proof Hrun as Hc. vm_compute in Hc. injection Hc as _ Hdb.
  rewrite <- Hdb in Hcd. vm_compute in Hcd. injection Hcd as <-. reflexivity.
Defined.

(** After carol's start, alice and carol each have one session in
    progress for DC-BASIC. *)
Lemma one_session_in_progress_is_kept_sample :
  exists r db',
    postTrainingStart (start_request "carol") (db_training 1 "draft") = Returned r db'
    /\ one_session_in_progress db'.
Proof.
  assert (exists r db',
            postTrainingStart (start_request "carol") (db_training 1 "draft")
            = Returned r db') as (r & db' & Hrun) by (eexists _, _; reflexivity).
  exists r, db'. split; [assumption|].
  apply (one_session_in_progress_is_kept sample_schema (start_request "carol")
           (db_training 1 "draft") r db').
  - unfold one_session_in_progress. cbn. constructor; [intros []|constructor].
  - left. assumption.
Defined.

(** SOP-DC-001 passes the id pattern and needs no escaping. *)
Lemma accepted_ids_are_url_safe_sample :
  encodeURIComponent "SOP-DC-001" = "SOP-DC-001"
  /\ member (json (getQmsDocument "http://localhost:8080" "SOP-DC-001" db_missing_coi)) "@id"
     = Some (JStr "http://localhost:8080/@qms/register/SOP-DC-001").
Proof.
  destruct (accepted_ids_are_url_safe "SOP-DC-001" eq_refl) as (_ & Henc & Hid).
  split; [exact Henc|]. apply (Hid "http://localhost:8080" db_missing_coi). reflexivity.
Defined.

(** Alice submits her draft of the registered SOP-DC-001 with both
    declarations: steps 3 and 4 of her training would pass. *)
Lemma complete_submission_passes_steps_sample :
  exists r db' data3 data4,
    postDocDraftSubmit sample_schema (submit_request "sop-dc-001" "alice")
      db_rejected_registered = Returned r db'
    /\ draft_in_review db' 1 "SOP-DC-001" = Valid data3
    /\ evidence_coi_qualification db' 1 "SOP-DC-001" = Valid data4.
Proof.
  destruct (complete_submission_passes_steps_3_and_4 sample_schema
              (submit_request "sop-dc-001" "alice") db_rejected_registered
              "sop-dc-001" doc_sop "SOP-DC-001"
              (JObj [ ("has_conflict", JBool false) ])
              (JObj [ ("basis", JStr "Trained author") ]) eq_refl)
    as (r & db' & Hrun & _ & (data3 & H3) & (data4 & H4)).
  - discriminate.
  - reflexivity.
  - unfold one_draft_per_doc. cbn. constructor; [intros []|constructor].
  - exists draft_rejected. split; [split; [left|]; reflexivity|right; reflexivity].
  - reflexivity.
  - discriminate.
  - reflexivity.
  - reflexivity.
  - reflexivity.
  - reflexivity.
  - reflexivity.
  - exists r, db', data3, data4. auto.
Defined.

(** Once the draft of SOP-DC-001 is approved, step 3 finds no draft. *)
Lemma approved_document_passes_final_step_sample :
  exists r db',
    postDocDraftApprove sample_schema (draft_request "sop-dc-001" "bob")
      (db_unregistered draft_sop) = Returned r db'
    /\ draft_in_review db' 1 "SOP-DC-001"
       = Invalid "No draft found. The draft may have already been approved.".
Proof.
  assert (exists r db',
            postDocDraftApprove sample_schema (draft_request "sop-dc-001" "bob")
              (db_unregistered draft_sop) = Returned r db' /\ is_error r = false)
    as (r & db' & Hrun & Hok) by (eexists _, _; split; reflexivity).
  destruct (approved_document_passes_final_step sample_schema _ _ r db' Hrun Hok)
    as (slug & draft & d & rest & Hslug & Hq & Hgone & _).
  injection Hslug as <-. vm_compute in Hq. inversion Hq; subst. clear Hq.
  exists r, db'. split; [assumption|]. apply (Hgone).
  unfold one_draft_per_doc. cbn. constructor; [intros []|constructor].
Defined.

(** The certificate alice earns with her last step can be fetched. *)
Lemma issued_certificate_is_served_sample :
  exists r db',
    postTrainingValidateStep sample_schema (step_request "alice" 2) (db_training 2 "effective")
    = Returned r db'
    /\ member (json r) "certificate_id" = Some (JNum 1000)
    /\ status (getTrainingCertificate (certificate_request 1000) db') = None
    /\ member (json (getTrainingCertificate (certificate_request 1000) db')) "user_id"
       = Some (JStr "alice").
Proof.
  destruct (issued_certificate_is_served sample_schema (step_request "alice" 2)
              (db_training 2 "effective") 5 2 (training_session 2) training_module []
              {| TrainingModules.step := 2; TrainingModules.key := "effective";
                 TrainingModules.validation := "document_effective" |}
              1 "SOP-DC-001" [] document_effective
              (JObj [ ("status", JStr "effective"); ("version", JStr "1.0");
                      ("effective_date", JNull) ]))
    as (r & db' & cid & Hrun & Hcid & Hget).
  - reflexivity.
  - discriminate.
  - reflexivity.
  - reflexivity.
  - reflexivity.
  - reflexivity.
  - reflexivity.
  - reflexivity.
  - reflexivity.
  - reflexivity.
  - reflexivity.
  - reflexivity.
  - reflexivity.
  - assert (cid = 1000%Z) as ->.
    { pose proof Hrun as Hc. vm_compute in Hc. injection Hc as Hr _. rewrite <- Hr in Hcid.
      vm_compute in Hcid. injection Hcid as <-. reflexivity. }
    destruct (Hget (certificate_request 1000) eq_refl) as (G1 & _ & _ & G4 & _).
    + pose proof Hrun as Hc. vm_compute in Hc. injection Hc as _ Hdb. rewrite <- Hdb.
      cbn. constructor; [intros []|constructor].
    + exists r, db'. auto.
Defined.

(** A minor save followed by two patch saves of 1.0.0 ends at 1.1.2. *)
Lemma successive_bumps_count_up_sample :
  bump_all ["minor"; "patch"; "patch"] "1.0.0" = Done "1.1.2".
Proof.
  change "1.0.0" with (version_string (1, 0, 0)%Z).
  rewrite (successive_bumps_count_up ["minor"; "patch"; "patch"] 1 0 0);
    [reflexivity|lia|lia|lia|vm_compute; discriminate|vm_compute; discriminate
    |vm_compute; discriminate|].
  repeat constructor; cbn; tauto.
Defined.
